(** * Conclave_Base: the client/agent data-access layer (app/crud.py)

    A shallow embedding of [app/models.py], [app/crud.py] and the
    sequence bootstrap of the alembic revision [ff8fddb0819d], followed by
    the properties of the dossier assembly and of the mutation layer.
    On top of these: the constrained types and PATCH models of
    [app/schemas.py], the route functions of [app/api], and the seed
    revision [e68e87708dcb], with the properties of paging, of the
    routes' answers and of the migrations.

    Conventions of the embedding.
    - A table is the list of its rows in the order a [SELECT] without
      [ORDER BY] returns them; an [INSERT] puts the new row last.
    - A PostgreSQL sequence is the next value [nextval] will return;
      [nextval] is not undone by a rollback.
    - A SQLAlchemy [Session] is the database it talks to, the tables as
      the open transaction sees them, and the unit of work not yet flushed.
    - [uuid.uuid4()] and [now()] are inputs of a request ([Env]).
    - Strings are [string] (characters are [ascii]); [String(n)] columns
      reject longer values with a [DataError]. *)

From Stdlib Require Import ZArith List String Ascii Bool Lia.
From Stdlib Require Import Sorting.Sorted Sorting.Permutation.
From Stdlib Require OrderedTypeEx.
Import ListNotations.

Local Open Scope string_scope.
Local Open Scope list_scope.
Local Open Scope Z_scope.

(** ** Scalars *)

Definition UUID := Z.
Definition datetime := Z.
Definition date := Z.

#[local] Set Warnings "-register-all".

(** Python values that travel in a [Dict[str, Any]]. *)
Inductive value : Type :=
| VNone
| VInt (z : Z)
| VStr (s : string)
| VUuid (u : UUID)
| VDate (d : date)
| VTime (t : datetime)
| VList (l : list value)
| VDict (d : list (string * value)).

Definition dict := list (string * value).

Fixpoint dict_get (k : string) (d : dict) : option value :=
  match d with
  | [] => None
  | (k', v) :: d' => if String.eqb k k' then Some v else dict_get k d'
  end.

Definition keys (d : dict) : list string := map fst d.

Definition opt_value {A} (f : A -> value) (o : option A) : value :=
  match o with
  | Some a => f a
  | None => VNone
  end.

(** Truth value of a [str]. *)
Definition truthy (s : string) : bool := negb (String.eqb s EmptyString).

(** [x or ''] on an [Optional[str]]. *)
Definition or_empty (o : option string) : string :=
  match o with
  | Some s => if truthy s then s else EmptyString
  | None => EmptyString
  end.

(** [x or y] on an [Optional[str]] and a [str]. *)
Definition or_else (o : option string) (y : string) : string :=
  match o with
  | Some s => if truthy s then s else y
  | None => y
  end.

(** ** app/models.py *)

Module Agent.
Record t := mk {
  agent_id : UUID;
  external_id : Z;
  last_name : string;
  first_name : string;
  middle_name : option string;
  legal_address : string;
  actual_address : string;
  inn : string;
  ogrnip : string;
  account_number : string;
  correspondent_account : string;
  bic : string }.

Definition set_agent_id (r : t) v : t :=
  mk v (external_id r) (last_name r) (first_name r) (middle_name r)
     (legal_address r) (actual_address r) (inn r) (ogrnip r)
     (account_number r) (correspondent_account r) (bic r).
Definition set_external_id (r : t) v : t :=
  mk (agent_id r) v (last_name r) (first_name r) (middle_name r)
     (legal_address r) (actual_address r) (inn r) (ogrnip r)
     (account_number r) (correspondent_account r) (bic r).
Definition set_last_name (r : t) v : t :=
  mk (agent_id r) (external_id r) v (first_name r) (middle_name r)
     (legal_address r) (actual_address r) (inn r) (ogrnip r)
     (account_number r) (correspondent_account r) (bic r).
Definition set_first_name (r : t) v : t :=
  mk (agent_id r) (external_id r) (last_name r) v (middle_name r)
     (legal_address r) (actual_address r) (inn r) (ogrnip r)
     (account_number r) (correspondent_account r) (bic r).
Definition set_middle_name (r : t) v : t :=
  mk (agent_id r) (external_id r) (last_name r) (first_name r) v
     (legal_address r) (actual_address r) (inn r) (ogrnip r)
     (account_number r) (correspondent_account r) (bic r).
Definition set_legal_address (r : t) v : t :=
  mk (agent_id r) (external_id r) (last_name r) (first_name r)
     (middle_name r) v (actual_address r) (inn r) (ogrnip r)
     (account_number r) (correspondent_account r) (bic r).
Definition set_actual_address (r : t) v : t :=
  mk (agent_id r) (external_id r) (last_name r) (first_name r)
     (middle_name r) (legal_address r) v (inn r) (ogrnip r)
     (account_number r) (correspondent_account r) (bic r).
Definition set_inn (r : t) v : t :=
  mk (agent_id r) (external_id r) (last_name r) (first_name r)
     (middle_name r) (legal_address r) (actual_address r) v (ogrnip r)
     (account_number r) (correspondent_account r) (bic r).
Definition set_ogrnip (r : t) v : t :=
  mk (agent_id r) (external_id r) (last_name r) (first_name r)
     (middle_name r) (legal_address r) (actual_address r) (inn r) v
     (account_number r) (correspondent_account r) (bic r).
Definition set_account_number (r : t) v : t :=
  mk (agent_id r) (external_id r) (last_name r) (first_name r)
     (middle_name r) (legal_address r) (actual_address r) (inn r)
     (ogrnip r) v (correspondent_account r) (bic r).
Definition set_correspondent_account (r : t) v : t :=
  mk (agent_id r) (external_id r) (last_name r) (first_name r)
     (middle_name r) (legal_address r) (actual_address r) (inn r)
     (ogrnip r) (account_number r) v (bic r).
Definition set_bic (r : t) v : t :=
  mk (agent_id r) (external_id r) (last_name r) (first_name r)
     (middle_name r) (legal_address r) (actual_address r) (inn r)
     (ogrnip r) (account_number r) (correspondent_account r) v.

(** The mapped column attributes, by name. *)
Inductive column : Type :=
| c_agent_id | c_external_id | c_last_name | c_first_name | c_middle_name
| c_legal_address | c_actual_address | c_inn | c_ogrnip | c_account_number
| c_correspondent_account | c_bic.

Definition column_name (c : column) : string :=
  match c with
  | c_agent_id => "agent_id"
  | c_external_id => "external_id"
  | c_last_name => "last_name"
  | c_first_name => "first_name"
  | c_middle_name => "middle_name"
  | c_legal_address => "legal_address"
  | c_actual_address => "actual_address"
  | c_inn => "inn"
  | c_ogrnip => "ogrnip"
  | c_account_number => "account_number"
  | c_correspondent_account => "correspondent_account"
  | c_bic => "bic"
  end.

Definition columns : list column :=
  [c_agent_id; c_external_id; c_last_name; c_first_name; c_middle_name;
   c_legal_address; c_actual_address; c_inn; c_ogrnip; c_account_number;
   c_correspondent_account; c_bic].

(** The only relationship attribute is [clients]. *)
Definition relationship_name : string := "clients".

(** [getattr(agent, k)] on a column. *)
Definition get (c : column) (r : t) : value :=
  match c with
  | c_agent_id => VUuid (agent_id r)
  | c_external_id => VInt (external_id r)
  | c_last_name => VStr (last_name r)
  | c_first_name => VStr (first_name r)
  | c_middle_name => opt_value VStr (middle_name r)
  | c_legal_address => VStr (legal_address r)
  | c_actual_address => VStr (actual_address r)
  | c_inn => VStr (inn r)
  | c_ogrnip => VStr (ogrnip r)
  | c_account_number => VStr (account_number r)
  | c_correspondent_account => VStr (correspondent_account r)
  | c_bic => VStr (bic r)
  end.
End Agent.

Module Status.
Record t := mk { status_code : string; description : string }.
End Status.

Module Stage.
Record t := mk { stage_code : string; description : string }.
End Stage.

Module Client.
Record t := mk {
  client_id : UUID;
  external_id : Z;
  last_name : string;
  first_name : string;
  middle_name : option string;
  status_code : string;
  current_stage : string;
  agent_id : UUID;
  deadline : option datetime;
  created_at : datetime;
  updated_at : datetime;
  notes : option string }.

Definition set_client_id (r : t) v : t :=
  mk v (external_id r) (last_name r) (first_name r) (middle_name r)
     (status_code r) (current_stage r) (agent_id r) (deadline r)
     (created_at r) (updated_at r) (notes r).
Definition set_external_id (r : t) v : t :=
  mk (client_id r) v (last_name r) (first_name r) (middle_name r)
     (status_code r) (current_stage r) (agent_id r) (deadline r)
     (created_at r) (updated_at r) (notes r).
Definition set_last_name (r : t) v : t :=
  mk (client_id r) (external_id r) v (first_name r) (middle_name r)
     (status_code r) (current_stage r) (agent_id r) (deadline r)
     (created_at r) (updated_at r) (notes r).
Definition set_first_name (r : t) v : t :=
  mk (client_id r) (external_id r) (last_name r) v (middle_name r)
     (status_code r) (current_stage r) (agent_id r) (deadline r)
     (created_at r) (updated_at r) (notes r).
Definition set_middle_name (r : t) v : t :=
  mk (client_id r) (external_id r) (last_name r) (first_name r) v
     (status_code r) (current_stage r) (agent_id r) (deadline r)
     (created_at r) (updated_at r) (notes r).
Definition set_status_code (r : t) v : t :=
  mk (client_id r) (external_id r) (last_name r) (first_name r)
     (middle_name r) v (current_stage r) (agent_id r) (deadline r)
     (created_at r) (updated_at r) (notes r).
Definition set_current_stage (r : t) v : t :=
  mk (client_id r) (external_id r) (last_name r) (first_name r)
     (middle_name r) (status_code r) v (agent_id r) (deadline r)
     (created_at r) (updated_at r) (notes r).
Definition set_agent_id (r : t) v : t :=
  mk (client_id r) (external_id r) (last_name r) (first_name r)
     (middle_name r) (status_code r) (current_stage r) v (deadline r)
     (created_at r) (updated_at r) (notes r).
Definition set_deadline (r : t) v : t :=
  mk (client_id r) (external_id r) (last_name r) (first_name r)
     (middle_name r) (status_code r) (current_stage r) (agent_id r) v
     (created_at r) (updated_at r) (notes r).
Definition set_created_at (r : t) v : t :=
  mk (client_id r) (external_id r) (last_name r) (first_name r)
     (middle_name r) (status_code r) (current_stage r) (agent_id r)
     (deadline r) v (updated_at r) (notes r).
Definition set_updated_at (r : t) v : t :=
  mk (client_id r) (external_id r) (last_name r) (first_name r)
     (middle_name r) (status_code r) (current_stage r) (agent_id r)
     (deadline r) (created_at r) v (notes r).
Definition set_notes (r : t) v : t :=
  mk (client_id r) (external_id r) (last_name r) (first_name r)
     (middle_name r) (status_code r) (current_stage r) (agent_id r)
     (deadline r) (created_at r) (updated_at r) v.

(** The mapped column attributes, by name. *)
Inductive column : Type :=
| c_client_id | c_external_id | c_last_name | c_first_name | c_middle_name
| c_status_code | c_current_stage | c_agent_id | c_deadline | c_created_at
| c_updated_at | c_notes.

Definition column_name (c : column) : string :=
  match c with
  | c_client_id => "client_id"
  | c_external_id => "external_id"
  | c_last_name => "last_name"
  | c_first_name => "first_name"
  | c_middle_name => "middle_name"
  | c_status_code => "status_code"
  | c_current_stage => "current_stage"
  | c_agent_id => "agent_id"
  | c_deadline => "deadline"
  | c_created_at => "created_at"
  | c_updated_at => "updated_at"
  | c_notes => "notes"
  end.

Definition columns : list column :=
  [c_client_id; c_external_id; c_last_name; c_first_name; c_middle_name;
   c_status_code; c_current_stage; c_agent_id; c_deadline; c_created_at;
   c_updated_at; c_notes].

(** The relationship attributes. *)
Inductive relationship : Type :=
| r_agent | r_phones | r_passports | r_snils | r_documents | r_reminders.

Definition relationship_name (r : relationship) : string :=
  match r with
  | r_agent => "agent"
  | r_phones => "phones"
  | r_passports => "passports"
  | r_snils => "snils"
  | r_documents => "documents"
  | r_reminders => "reminders"
  end.

Definition relationships : list relationship :=
  [r_agent; r_phones; r_passports; r_snils; r_documents; r_reminders].

(** [getattr(client, k)] on a column. *)
Definition get (c : column) (r : t) : value :=
  match c with
  | c_client_id => VUuid (client_id r)
  | c_external_id => VInt (external_id r)
  | c_last_name => VStr (last_name r)
  | c_first_name => VStr (first_name r)
  | c_middle_name => opt_value VStr (middle_name r)
  | c_status_code => VStr (status_code r)
  | c_current_stage => VStr (current_stage r)
  | c_agent_id => VUuid (agent_id r)
  | c_deadline => opt_value VTime (deadline r)
  | c_created_at => VTime (created_at r)
  | c_updated_at => VTime (updated_at r)
  | c_notes => opt_value VStr (notes r)
  end.
End Client.

Module Document.
Record t := mk {
  document_id : UUID;
  client_id : UUID;
  type_code : string;
  filename : string;
  object_key : string;
  version : Z;
  uploaded_at : datetime }.
End Document.

Module Phone.
Record t := mk {
  phone_id : Z;
  client_id : UUID;
  number : string;
  created_at : datetime }.
End Phone.

Module Passport.
Record t := mk {
  passport_id : UUID;
  client_id : UUID;
  full_name : string;
  birth_date : option date;
  birth_place : string;
  series_number : string;
  issued_by : string;
  issue_date : date;
  department_code : option string;
  expiry_date : option date;
  registration_address : string;
  version : Z;
  created_at : datetime }.
End Passport.

Module Snils.
Record t := mk {
  snils_id : UUID;
  client_id : UUID;
  number : string;
  issued_date : option date;
  version : Z;
  created_at : datetime }.
End Snils.

Module Reminder.
Record t := mk {
  reminder_id : UUID;
  client_id : UUID;
  service_stage : string;
  remind_at : datetime;
  created_at : datetime }.
End Reminder.

(** The tables, named by their [__tablename__]. *)
Record Tables := mkTables {
  AGENT : list Agent.t;
  STATUS : list Status.t;
  STAGE : list Stage.t;
  CLIENT : list Client.t;
  DOCUMENT : list Document.t;
  PHONE : list Phone.t;
  PASSPORT : list Passport.t;
  SNILS : list Snils.t;
  REMINDER : list Reminder.t }.

(** The sequences behind [external_id] (both entity types) and the
    autoincrement [PHONE.phone_id]. *)
Record Sequences := mkSequences {
  agent_external_id_seq : Z;
  client_external_id_seq : Z;
  phone_phone_id_seq : Z }.

Record Database := mkDatabase {
  tables : Tables;
  seqs : Sequences }.

Definition empty_tables : Tables :=
  mkTables [] [] [] [] [] [] [] [] [].

(** A database right after [CREATE SEQUENCE ... START 1] on empty tables. *)
Definition empty_database : Database :=
  mkDatabase empty_tables (mkSequences 1 1 1).

(** ** Exceptions *)

Inductive exn : Type :=
| ValueError (msg : string)
| TypeError
| AttributeError
| IntegrityError
| DataError
| StaleDataError
| InvalidRequestError.

Definition is_IntegrityError (e : exn) : bool :=
  match e with
  | IntegrityError => true
  | _ => false
  end.

(** The spec's error taxonomy over what crud.py raises.  The message of
    the missing agent is kept without the interpolated id. *)
Definition agent_not_found : exn := ValueError "Agent not found".
Definition client_not_found : exn := ValueError "Client not found".
Definition agent_has_linked_clients : exn :=
  ValueError "Agent has linked clients and cannot be deleted. Reassign or delete clients first.".

Definition ReferenceNotFound (e : exn) : Prop :=
  e = agent_not_found \/ e = client_not_found.
Definition ConflictError (e : exn) : Prop :=
  e = agent_has_linked_clients.

(** ** The database server: statements and the constraints of models.py *)

Inductive result (A : Type) : Type :=
| Ok (a : A)
| Err (e : exn).
Arguments Ok {A} a.
Arguments Err {A} e.

Definition with_AGENT (t : Tables) (l : list Agent.t) : Tables :=
  mkTables l (STATUS t) (STAGE t) (CLIENT t) (DOCUMENT t) (PHONE t)
           (PASSPORT t) (SNILS t) (REMINDER t).
Definition with_STATUS (t : Tables) (l : list Status.t) : Tables :=
  mkTables (AGENT t) l (STAGE t) (CLIENT t) (DOCUMENT t) (PHONE t)
           (PASSPORT t) (SNILS t) (REMINDER t).
Definition with_STAGE (t : Tables) (l : list Stage.t) : Tables :=
  mkTables (AGENT t) (STATUS t) l (CLIENT t) (DOCUMENT t) (PHONE t)
           (PASSPORT t) (SNILS t) (REMINDER t).
Definition with_CLIENT (t : Tables) (l : list Client.t) : Tables :=
  mkTables (AGENT t) (STATUS t) (STAGE t) l (DOCUMENT t) (PHONE t)
           (PASSPORT t) (SNILS t) (REMINDER t).
Definition with_DOCUMENT (t : Tables) (l : list Document.t) : Tables :=
  mkTables (AGENT t) (STATUS t) (STAGE t) (CLIENT t) l (PHONE t)
           (PASSPORT t) (SNILS t) (REMINDER t).
Definition with_PHONE (t : Tables) (l : list Phone.t) : Tables :=
  mkTables (AGENT t) (STATUS t) (STAGE t) (CLIENT t) (DOCUMENT t) l
           (PASSPORT t) (SNILS t) (REMINDER t).
Definition with_PASSPORT (t : Tables) (l : list Passport.t) : Tables :=
  mkTables (AGENT t) (STATUS t) (STAGE t) (CLIENT t) (DOCUMENT t) (PHONE t)
           l (SNILS t) (REMINDER t).
Definition with_SNILS (t : Tables) (l : list Snils.t) : Tables :=
  mkTables (AGENT t) (STATUS t) (STAGE t) (CLIENT t) (DOCUMENT t) (PHONE t)
           (PASSPORT t) l (REMINDER t).
Definition with_REMINDER (t : Tables) (l : list Reminder.t) : Tables :=
  mkTables (AGENT t) (STATUS t) (STAGE t) (CLIENT t) (DOCUMENT t) (PHONE t)
           (PASSPORT t) (SNILS t) l.

(** [String(n)]: at most [n] characters. *)
Definition fits (n : nat) (s : string) : bool :=
  (String.length s <=? n)%nat.

Definition fits_opt (n : nat) (o : option string) : bool :=
  match o with
  | Some s => fits n s
  | None => true
  end.

(** Primary-key lookups ([SELECT ... WHERE pk = :id], [db.get]). *)
Definition agent_by_pk (t : Tables) (id : UUID) : option Agent.t :=
  find (fun a => Agent.agent_id a =? id) (AGENT t).
Definition client_by_pk (t : Tables) (id : UUID) : option Client.t :=
  find (fun c => Client.client_id c =? id) (CLIENT t).
Definition status_by_pk (t : Tables) (code : string) : option Status.t :=
  find (fun s => String.eqb (Status.status_code s) code) (STATUS t).
Definition stage_by_pk (t : Tables) (code : string) : option Stage.t :=
  find (fun s => String.eqb (Stage.stage_code s) code) (STAGE t).
Definition phone_by_pk (t : Tables) (id : Z) : option Phone.t :=
  find (fun p => Phone.phone_id p =? id) (PHONE t).
Definition passport_by_pk (t : Tables) (id : UUID) : option Passport.t :=
  find (fun p => Passport.passport_id p =? id) (PASSPORT t).
Definition snils_by_pk (t : Tables) (id : UUID) : option Snils.t :=
  find (fun s => Snils.snils_id s =? id) (SNILS t).

Definition is_some {A} (o : option A) : bool :=
  match o with
  | Some _ => true
  | None => false
  end.

(** Rows of the child tables that reference a client. *)
Definition phones_of (t : Tables) (id : UUID) : list Phone.t :=
  filter (fun p => Phone.client_id p =? id) (PHONE t).
Definition passports_of (t : Tables) (id : UUID) : list Passport.t :=
  filter (fun p => Passport.client_id p =? id) (PASSPORT t).
Definition snils_of (t : Tables) (id : UUID) : list Snils.t :=
  filter (fun s => Snils.client_id s =? id) (SNILS t).
Definition documents_of (t : Tables) (id : UUID) : list Document.t :=
  filter (fun d => Document.client_id d =? id) (DOCUMENT t).
Definition reminders_of (t : Tables) (id : UUID) : list Reminder.t :=
  filter (fun r => Reminder.client_id r =? id) (REMINDER t).
Definition clients_of_agent (t : Tables) (id : UUID) : list Client.t :=
  filter (fun c => Client.agent_id c =? id) (CLIENT t).

Definition is_nil {A} (l : list A) : bool :=
  match l with
  | [] => true
  | _ :: _ => false
  end.

Definition client_has_children (t : Tables) (id : UUID) : bool :=
  negb (is_nil (phones_of t id) && is_nil (passports_of t id)
        && is_nil (snils_of t id) && is_nil (documents_of t id)
        && is_nil (reminders_of t id)).

(** *** INSERT *)

Definition agent_fits (a : Agent.t) : bool :=
  fits 128 (Agent.last_name a) && fits 128 (Agent.first_name a)
  && fits_opt 128 (Agent.middle_name a)
  && fits 12 (Agent.inn a) && fits 15 (Agent.ogrnip a)
  && fits 34 (Agent.account_number a)
  && fits 34 (Agent.correspondent_account a)
  && fits 9 (Agent.bic a).

Definition insert_agent (t : Tables) (a : Agent.t) : result Tables :=
  if negb (agent_fits a) then Err DataError
  else if is_some (agent_by_pk t (Agent.agent_id a))
          || existsb (fun b => Agent.external_id b =? Agent.external_id a)
                     (AGENT t)
  then Err IntegrityError
  else Ok (with_AGENT t (AGENT t ++ [a])).

Definition client_fits (c : Client.t) : bool :=
  fits 128 (Client.last_name c) && fits 128 (Client.first_name c)
  && fits_opt 128 (Client.middle_name c)
  && fits 32 (Client.status_code c) && fits 32 (Client.current_stage c).

(** The foreign keys of CLIENT: STATUS, STAGE and AGENT. *)
Definition client_refs_ok (t : Tables) (c : Client.t) : bool :=
  is_some (status_by_pk t (Client.status_code c))
  && is_some (stage_by_pk t (Client.current_stage c))
  && is_some (agent_by_pk t (Client.agent_id c)).

Definition insert_client (t : Tables) (c : Client.t) : result Tables :=
  if negb (client_fits c) then Err DataError
  else if is_some (client_by_pk t (Client.client_id c))
          || existsb (fun b => Client.external_id b =? Client.external_id c)
                     (CLIENT t)
          || negb (client_refs_ok t c)
  then Err IntegrityError
  else Ok (with_CLIENT t (CLIENT t ++ [c])).

Definition insert_phone (t : Tables) (p : Phone.t) : result Tables :=
  if negb (fits 32 (Phone.number p)) then Err DataError
  else if is_some (phone_by_pk t (Phone.phone_id p))
          || negb (is_some (client_by_pk t (Phone.client_id p)))
  then Err IntegrityError
  else Ok (with_PHONE t (PHONE t ++ [p])).

Definition insert_passport (t : Tables) (p : Passport.t) : result Tables :=
  if negb (fits 20 (Passport.series_number p)
           && fits_opt 7 (Passport.department_code p))
  then Err DataError
  else if is_some (passport_by_pk t (Passport.passport_id p))
          || negb (is_some (client_by_pk t (Passport.client_id p)))
  then Err IntegrityError
  else Ok (with_PASSPORT t (PASSPORT t ++ [p])).

Definition insert_snils (t : Tables) (s : Snils.t) : result Tables :=
  if negb (fits 14 (Snils.number s)) then Err DataError
  else if is_some (snils_by_pk t (Snils.snils_id s))
          || negb (is_some (client_by_pk t (Snils.client_id s)))
  then Err IntegrityError
  else Ok (with_SNILS t (SNILS t ++ [s])).

Definition insert_status (t : Tables) (s : Status.t) : result Tables :=
  if negb (fits 32 (Status.status_code s)) then Err DataError
  else if is_some (status_by_pk t (Status.status_code s))
  then Err IntegrityError
  else Ok (with_STATUS t (STATUS t ++ [s])).

Definition insert_stage (t : Tables) (s : Stage.t) : result Tables :=
  if negb (fits 32 (Stage.stage_code s)) then Err DataError
  else if is_some (stage_by_pk t (Stage.stage_code s))
  then Err IntegrityError
  else Ok (with_STAGE t (STAGE t ++ [s])).

(** *** DELETE *)

(** Every child table references CLIENT with [ondelete="CASCADE"]. *)
Definition delete_client_row (t : Tables) (id : UUID) : Tables :=
  mkTables (AGENT t) (STATUS t) (STAGE t)
    (filter (fun c => negb (Client.client_id c =? id)) (CLIENT t))
    (filter (fun d => negb (Document.client_id d =? id)) (DOCUMENT t))
    (filter (fun p => negb (Phone.client_id p =? id)) (PHONE t))
    (filter (fun p => negb (Passport.client_id p =? id)) (PASSPORT t))
    (filter (fun s => negb (Snils.client_id s =? id)) (SNILS t))
    (filter (fun r => negb (Reminder.client_id r =? id)) (REMINDER t)).

(** CLIENT references AGENT with [ondelete="RESTRICT"]. *)
Definition delete_agent_row (t : Tables) (id : UUID) : result Tables :=
  if negb (is_nil (clients_of_agent t id)) then Err IntegrityError
  else Ok (with_AGENT t
             (filter (fun a => negb (Agent.agent_id a =? id)) (AGENT t))).

Definition delete_phone_row (t : Tables) (id : Z) : Tables :=
  with_PHONE t (filter (fun p => negb (Phone.phone_id p =? id)) (PHONE t)).

(** *** UPDATE *)

(** Binding a Python value to a column.  [None] on a [nullable=False]
    column violates NOT NULL; a value that is not of the column's Python
    type is refused by the statement ([DataError]). *)
Definition set_client_column (c : Client.column) (v : value) (r : Client.t)
  : result Client.t :=
  match c, v with
  | Client.c_client_id, VUuid u => Ok (Client.set_client_id r u)
  | Client.c_external_id, VInt z => Ok (Client.set_external_id r z)
  | Client.c_last_name, VStr s => Ok (Client.set_last_name r s)
  | Client.c_first_name, VStr s => Ok (Client.set_first_name r s)
  | Client.c_middle_name, VStr s => Ok (Client.set_middle_name r (Some s))
  | Client.c_middle_name, VNone => Ok (Client.set_middle_name r None)
  | Client.c_status_code, VStr s => Ok (Client.set_status_code r s)
  | Client.c_current_stage, VStr s => Ok (Client.set_current_stage r s)
  | Client.c_agent_id, VUuid u => Ok (Client.set_agent_id r u)
  | Client.c_deadline, VTime d => Ok (Client.set_deadline r (Some d))
  | Client.c_deadline, VNone => Ok (Client.set_deadline r None)
  | Client.c_created_at, VTime d => Ok (Client.set_created_at r d)
  | Client.c_updated_at, VTime d => Ok (Client.set_updated_at r d)
  | Client.c_notes, VStr s => Ok (Client.set_notes r (Some s))
  | Client.c_notes, VNone => Ok (Client.set_notes r None)
  | _, VNone => Err IntegrityError
  | _, _ => Err DataError
  end.

Definition set_agent_column (c : Agent.column) (v : value) (r : Agent.t)
  : result Agent.t :=
  match c, v with
  | Agent.c_agent_id, VUuid u => Ok (Agent.set_agent_id r u)
  | Agent.c_external_id, VInt z => Ok (Agent.set_external_id r z)
  | Agent.c_last_name, VStr s => Ok (Agent.set_last_name r s)
  | Agent.c_first_name, VStr s => Ok (Agent.set_first_name r s)
  | Agent.c_middle_name, VStr s => Ok (Agent.set_middle_name r (Some s))
  | Agent.c_middle_name, VNone => Ok (Agent.set_middle_name r None)
  | Agent.c_legal_address, VStr s => Ok (Agent.set_legal_address r s)
  | Agent.c_actual_address, VStr s => Ok (Agent.set_actual_address r s)
  | Agent.c_inn, VStr s => Ok (Agent.set_inn r s)
  | Agent.c_ogrnip, VStr s => Ok (Agent.set_ogrnip r s)
  | Agent.c_account_number, VStr s => Ok (Agent.set_account_number r s)
  | Agent.c_correspondent_account, VStr s =>
      Ok (Agent.set_correspondent_account r s)
  | Agent.c_bic, VStr s => Ok (Agent.set_bic r s)
  | _, VNone => Err IntegrityError
  | _, _ => Err DataError
  end.

Definition opt_eqb {A} (eqb : A -> A -> bool) (x y : option A) : bool :=
  match x, y with
  | Some a, Some b => eqb a b
  | None, None => true
  | _, _ => false
  end.

Definition client_eqb (a b : Client.t) : bool :=
  (Client.client_id a =? Client.client_id b)
  && (Client.external_id a =? Client.external_id b)
  && String.eqb (Client.last_name a) (Client.last_name b)
  && String.eqb (Client.first_name a) (Client.first_name b)
  && opt_eqb String.eqb (Client.middle_name a) (Client.middle_name b)
  && String.eqb (Client.status_code a) (Client.status_code b)
  && String.eqb (Client.current_stage a) (Client.current_stage b)
  && (Client.agent_id a =? Client.agent_id b)
  && opt_eqb Z.eqb (Client.deadline a) (Client.deadline b)
  && (Client.created_at a =? Client.created_at b)
  && (Client.updated_at a =? Client.updated_at b)
  && opt_eqb String.eqb (Client.notes a) (Client.notes b).

Definition agent_eqb (a b : Agent.t) : bool :=
  (Agent.agent_id a =? Agent.agent_id b)
  && (Agent.external_id a =? Agent.external_id b)
  && String.eqb (Agent.last_name a) (Agent.last_name b)
  && String.eqb (Agent.first_name a) (Agent.first_name b)
  && opt_eqb String.eqb (Agent.middle_name a) (Agent.middle_name b)
  && String.eqb (Agent.legal_address a) (Agent.legal_address b)
  && String.eqb (Agent.actual_address a) (Agent.actual_address b)
  && String.eqb (Agent.inn a) (Agent.inn b)
  && String.eqb (Agent.ogrnip a) (Agent.ogrnip b)
  && String.eqb (Agent.account_number a) (Agent.account_number b)
  && String.eqb (Agent.correspondent_account a)
                (Agent.correspondent_account b)
  && String.eqb (Agent.bic a) (Agent.bic b).

(** [UPDATE "CLIENT" SET ... WHERE client_id = :id].  The child tables
    declare no [ON UPDATE] action, so a client whose key is referenced
    cannot change it. *)
Definition update_client_row (t : Tables) (id : UUID) (new : Client.t)
  : result Tables :=
  if negb (client_fits new) then Err DataError
  else if (negb (Client.client_id new =? id)
           && (is_some (client_by_pk t (Client.client_id new))
               || client_has_children t id))
          || existsb (fun b => negb (Client.client_id b =? id)
                               && (Client.external_id b
                                   =? Client.external_id new))
                     (CLIENT t)
          || negb (client_refs_ok t new)
  then Err IntegrityError
  else Ok (with_CLIENT t
             (map (fun c => if Client.client_id c =? id then new else c)
                  (CLIENT t))).

Definition update_agent_row (t : Tables) (id : UUID) (new : Agent.t)
  : result Tables :=
  if negb (agent_fits new) then Err DataError
  else if (negb (Agent.agent_id new =? id)
           && (is_some (agent_by_pk t (Agent.agent_id new))
               || negb (is_nil (clients_of_agent t id))))
          || existsb (fun b => negb (Agent.agent_id b =? id)
                               && (Agent.external_id b
                                   =? Agent.external_id new))
                     (AGENT t)
  then Err IntegrityError
  else Ok (with_AGENT t
             (map (fun a => if Agent.agent_id a =? id then new else a)
                  (AGENT t))).

(** ** The ORM objects and the unit of work *)

(** What [setattr] changed on a persistent object. *)
Inductive change (column relationship : Type) : Type :=
| SetColumn (c : column) (v : value)
| EmptyCollection (r : relationship)
| ClearReference (r : relationship).
Arguments SetColumn {column relationship} c v.
Arguments EmptyCollection {column relationship} r.
Arguments ClearReference {column relationship} r.

Definition client_change := change Client.column Client.relationship.
Definition agent_change := change Agent.column unit.

(** Objects registered with the session and not yet flushed.  An object
    built by a model constructor carries 0 in the columns the constructor
    left unset; the flush fills them from the column defaults. *)
Inductive pending : Type :=
| InsertAgent (a : Agent.t)
| InsertClient (c : Client.t)
| InsertPhone (p : Phone.t)
| InsertPassport (p : Passport.t)
| InsertSnils (s : Snils.t)
| InsertStatus (s : Status.t)
| InsertStage (s : Stage.t)
| UpdateAgent (id : UUID) (chs : list agent_change)
| UpdateClient (id : UUID) (chs : list client_change)
| DeleteAgent (id : UUID)
| DeleteClient (id : UUID)
| DeletePhone (id : Z).

Record Env := mkEnv {
  fresh_uuid : UUID;   (* the value [gen_uuid()] returns in this request *)
  now : datetime }.    (* the value of [now()] in this request *)

Record Session := mkSession {
  env : Env;
  db : Database;
  view : Tables;
  unit_of_work : list pending }.

Definition nextval_agent (s : Sequences) : Z * Sequences :=
  (agent_external_id_seq s,
   mkSequences (agent_external_id_seq s + 1) (client_external_id_seq s)
               (phone_phone_id_seq s)).

Definition nextval_client (s : Sequences) : Z * Sequences :=
  (client_external_id_seq s,
   mkSequences (agent_external_id_seq s) (client_external_id_seq s + 1)
               (phone_phone_id_seq s)).

Definition nextval_phone (s : Sequences) : Z * Sequences :=
  (phone_phone_id_seq s,
   mkSequences (agent_external_id_seq s) (client_external_id_seq s)
               (phone_phone_id_seq s + 1)).

(** The attribute changes of a dirty Client, folded over the loaded row.
    Clearing the [agent] reference nulls [agent_id], which is NOT NULL. *)
Fixpoint apply_client_changes (chs : list client_change) (r : Client.t)
  : result Client.t :=
  match chs with
  | [] => Ok r
  | SetColumn c v :: chs' =>
      match set_client_column c v r with
      | Ok r' => apply_client_changes chs' r'
      | Err e => Err e
      end
  | EmptyCollection _ :: chs' => apply_client_changes chs' r
  | ClearReference _ :: _ => Err IntegrityError
  end.

Fixpoint apply_agent_changes (chs : list agent_change) (r : Agent.t)
  : result Agent.t :=
  match chs with
  | [] => Ok r
  | SetColumn c v :: chs' =>
      match set_agent_column c v r with
      | Ok r' => apply_agent_changes chs' r'
      | Err e => Err e
      end
  | _ :: chs' => apply_agent_changes chs' r
  end.

Definition is_updated_at (c : Client.column) : bool :=
  match c with
  | Client.c_updated_at => true
  | _ => false
  end.

Definition sets_updated_at (chs : list client_change) : bool :=
  existsb (fun ch => match ch with
                     | SetColumn c _ => is_updated_at c
                     | _ => false
                     end) chs.

(** [cascade="all, delete-orphan"]: rows removed from an owned collection
    are deleted. *)
Definition delete_orphans (id : UUID) (t : Tables) (ch : client_change)
  : Tables :=
  match ch with
  | EmptyCollection Client.r_phones =>
      with_PHONE t (filter (fun p => negb (Phone.client_id p =? id)) (PHONE t))
  | EmptyCollection Client.r_passports =>
      with_PASSPORT t
        (filter (fun p => negb (Passport.client_id p =? id)) (PASSPORT t))
  | EmptyCollection Client.r_snils =>
      with_SNILS t (filter (fun s => negb (Snils.client_id s =? id)) (SNILS t))
  | EmptyCollection Client.r_documents =>
      with_DOCUMENT t
        (filter (fun d => negb (Document.client_id d =? id)) (DOCUMENT t))
  | EmptyCollection Client.r_reminders =>
      with_REMINDER t
        (filter (fun r => negb (Reminder.client_id r =? id)) (REMINDER t))
  | _ => t
  end.

(** Flushing a dirty Client: an UPDATE when a column differs from the
    loaded row ([onupdate=func.now()] refreshes [updated_at] unless the
    statement sets it), then the deletion of orphaned rows. *)
Definition flush_update_client (e : Env) (t : Tables) (id : UUID)
  (chs : list client_change) : result Tables :=
  match client_by_pk t id with
  | None => Err StaleDataError
  | Some old =>
      match apply_client_changes chs old with
      | Err x => Err x
      | Ok new =>
          let updated :=
            if client_eqb old new then Ok t
            else update_client_row t id
                   (if sets_updated_at chs then new
                    else Client.set_updated_at new (now e)) in
          match updated with
          | Err x => Err x
          | Ok t' => Ok (fold_left (delete_orphans id) chs t')
          end
      end
  end.

(** Flushing a dirty Agent.  Emptying [clients] (no delete cascade on
    that side) nulls the [agent_id] of every client removed from it. *)
Definition flush_update_agent (t : Tables) (id : UUID)
  (chs : list agent_change) : result Tables :=
  match agent_by_pk t id with
  | None => Err StaleDataError
  | Some old =>
      match apply_agent_changes chs old with
      | Err x => Err x
      | Ok new =>
          let updated :=
            if agent_eqb old new then Ok t else update_agent_row t id new in
          match updated with
          | Err x => Err x
          | Ok t' =>
              if existsb (fun ch => match ch with
                                    | EmptyCollection _ => true
                                    | _ => false
                                    end) chs
                 && negb (is_nil (clients_of_agent t id))
              then Err IntegrityError
              else Ok t'
          end
      end
  end.

(** One statement of a flush, with the column defaults of models.py. *)
Definition flush_one (e : Env) (p : pending) (t : Tables) (s : Sequences)
  : result Tables * Sequences :=
  match p with
  | InsertAgent a =>
      let (x, s') := nextval_agent s in
      (insert_agent t
         (Agent.set_external_id (Agent.set_agent_id a (fresh_uuid e)) x), s')
  | InsertClient c =>
      let (x, s') := nextval_client s in
      (insert_client t
         (Client.set_updated_at
            (Client.set_created_at
               (Client.set_external_id
                  (Client.set_client_id c (fresh_uuid e)) x)
               (now e))
            (now e)), s')
  | InsertPhone p =>
      let (x, s') := nextval_phone s in
      (insert_phone t
         (Phone.mk x (Phone.client_id p) (Phone.number p) (now e)), s')
  | InsertPassport p =>
      (insert_passport t
         (Passport.mk (fresh_uuid e) (Passport.client_id p)
            (Passport.full_name p) (Passport.birth_date p)
            (Passport.birth_place p) (Passport.series_number p)
            (Passport.issued_by p) (Passport.issue_date p)
            (Passport.department_code p) (Passport.expiry_date p)
            (Passport.registration_address p) 1 (now e)), s)
  | InsertSnils n =>
      (insert_snils t
         (Snils.mk (fresh_uuid e) (Snils.client_id n) (Snils.number n)
            (Snils.issued_date n) 1 (now e)), s)
  | InsertStatus x => (insert_status t x, s)
  | InsertStage x => (insert_stage t x, s)
  | UpdateAgent id chs => (flush_update_agent t id chs, s)
  | UpdateClient id chs => (flush_update_client e t id chs, s)
  | DeleteAgent id => (delete_agent_row t id, s)
  | DeleteClient id => (Ok (delete_client_row t id), s)
  | DeletePhone id => (Ok (delete_phone_row t id), s)
  end.

Fixpoint flush_all (e : Env) (ps : list pending) (t : Tables) (s : Sequences)
  : result Tables * Sequences :=
  match ps with
  | [] => (Ok t, s)
  | p :: ps' =>
      match flush_one e p t s with
      | (Ok t', s') => flush_all e ps' t' s'
      | (Err x, s') => (Err x, s')
      end
  end.

(** ** The session monad: state and exceptions *)

Definition M (A : Type) : Type := Session -> result A * Session.

Definition ret {A} (a : A) : M A := fun s => (Ok a, s).

Definition raise {A} (e : exn) : M A := fun s => (Err e, s).

Definition bind {A B} (m : M A) (k : A -> M B) : M B :=
  fun s =>
    match m s with
    | (Ok a, s') => k a s'
    | (Err e, s') => (Err e, s')
    end.

Notation "x <- m ;; k" := (bind m (fun x => k))
  (at level 61, m at next level, right associativity).
Notation "m ;; k" := (bind m (fun _ => k))
  (at level 61, right associativity).

(** [try: body except <catches> as e: handler e]. *)
Definition try_except {A} (body : M A) (catches : exn -> bool)
  (handler : exn -> M A) : M A :=
  fun s =>
    match body s with
    | (Ok a, s') => (Ok a, s')
    | (Err e, s') => if catches e then handler e s' else (Err e, s')
    end.

Definition any_exception (e : exn) : bool := true.

Fixpoint for_each {A} (l : list A) (body : A -> M unit) : M unit :=
  match l with
  | [] => ret tt
  | a :: l' => body a ;; for_each l' body
  end.

Definition lift {A} (r : result A) : M A := fun s => (r, s).

(** [db.get], [db.execute(select ...)]: reads go to the open transaction. *)
Definition query {A} (f : Tables -> A) : M A := fun s => (Ok (f (view s)), s).

(** [db.add(obj)], [db.delete(obj)]. *)
Definition db_add (p : pending) : M unit :=
  fun s => (Ok tt, mkSession (env s) (db s) (view s) (unit_of_work s ++ [p])).

Definition db_delete (p : pending) : M unit := db_add p.

(** [db.flush()].  A failed flush rolls the transaction back. *)
Definition db_flush : M unit :=
  fun s =>
    match flush_all (env s) (unit_of_work s) (view s) (seqs (db s)) with
    | (Ok t', q') =>
        (Ok tt, mkSession (env s) (mkDatabase (tables (db s)) q') t' [])
    | (Err x, q') =>
        (Err x, mkSession (env s) (mkDatabase (tables (db s)) q')
                          (tables (db s)) [])
    end.

(** [db.commit()]: flush, then make the transaction's tables durable. *)
Definition db_commit : M unit :=
  db_flush ;;
  fun s => (Ok tt, mkSession (env s) (mkDatabase (view s) (seqs (db s)))
                             (view s) (unit_of_work s)).

(** [db.rollback()]. *)
Definition db_rollback : M unit :=
  fun s => (Ok tt, mkSession (env s) (db s) (tables (db s)) []).

(** [db.refresh(obj)] on the object with primary key [id]. *)
Definition db_refresh {A} (get : Tables -> option A) : M A :=
  o <- query get ;;
  match o with
  | Some a => ret a
  | None => raise InvalidRequestError
  end.

(** The primary key a flushed new object received from [default=gen_uuid]. *)
Definition new_identity : M UUID := fun s => (Ok (fresh_uuid (env s)), s).

(** The [phone_id] the autoincrement gives the next flushed Phone. *)
Definition next_phone_id : M Z :=
  fun s => (Ok (phone_phone_id_seq (seqs (db s))), s).

(** app/db.py [get_db]: a request runs on a session of its own, and
    [db.close()] abandons whatever was not committed. *)
Definition run_request {A} (e : Env) (m : M A) (d : Database)
  : result A * Database :=
  let (r, s) := m (mkSession e d (tables d) []) in (r, db s).

(** ** app/schemas.py: the inputs of the create operations *)

Module PhoneCreate.
Record t := mk { number : string }.
End PhoneCreate.

Module ClientCreate.
Record t := mk {
  last_name : string;
  first_name : string;
  middle_name : option string;
  status_code : string;
  current_stage : string;
  agent_id : UUID;
  deadline : option datetime;
  notes : option string;
  phones : option (list PhoneCreate.t) }.
End ClientCreate.

Module AgentCreate.
Record t := mk {
  last_name : string;
  first_name : option string;
  middle_name : option string;
  legal_address : string;
  actual_address : string;
  inn : string;
  ogrnip : string;
  account_number : string;
  correspondent_account : option string;
  bic : string }.
End AgentCreate.

Module PassportCreate.
Record t := mk {
  full_name : string;
  birth_date : option date;
  birth_place : string;
  series_number : string;
  issued_by : string;
  issue_date : date;
  department_code : option string;
  expiry_date : option date;
  registration_address : string }.
End PassportCreate.

Module SnilsCreate.
Record t := mk {
  number : string;
  issued_date : option date }.
End SnilsCreate.

Module StatusCreate.
Record t := mk { status_code : string; description : string }.
End StatusCreate.

Module StageCreate.
Record t := mk { stage_code : string; description : string }.
End StageCreate.

(** ** app/crud.py *)

(** A Client instance as [_client_to_dict] receives it: the row and, per
    relationship, what [getattr(client, name, None)] yields, [None] when
    the relationship is not materialised on the instance. *)
Record ClientObj := mkClientObj {
  row : Client.t;
  agent : option Agent.t;
  phones : option (list Phone.t);
  passports : option (list Passport.t);
  snils : option (list Snils.t) }.

(** Which relationships a query materialises ([selectinload]). *)
Record LoadOptions := mkLoadOptions {
  load_phones : bool;
  load_agent : bool;
  load_passports : bool;
  load_snils : bool }.

Definition load (o : LoadOptions) (t : Tables) (c : Client.t) : ClientObj :=
  mkClientObj c
    (if load_agent o then agent_by_pk t (Client.agent_id c) else None)
    (if load_phones o then Some (phones_of t (Client.client_id c)) else None)
    (if load_passports o
     then Some (passports_of t (Client.client_id c)) else None)
    (if load_snils o then Some (snils_of t (Client.client_id c)) else None).

(** The four [selectinload] options of [client_by_pk] and [list_clients];
    also what attribute access loads on an instance returned by [db.get]
    or [db.refresh]. *)
Definition selectinload_all : LoadOptions := mkLoadOptions true true true true.


(** [ORDER BY key]: a stable insertion sort. *)
Fixpoint insert_by {A} (key : A -> Z) (x : A) (l : list A) : list A :=
  match l with
  | [] => [x]
  | y :: l' => if key x <=? key y then x :: l else y :: insert_by key x l'
  end.

Definition order_by {A} (key : A -> Z) (l : list A) : list A :=
  fold_right (insert_by key) [] l.

Definition phone_dict (p : Phone.t) : dict :=
  [("phone_id", VInt (Phone.phone_id p));
   ("client_id", VUuid (Phone.client_id p));
   ("number", VStr (Phone.number p));
   ("created_at", VTime (Phone.created_at p))].

Definition passport_dict (ps : Passport.t) : dict :=
  [("passport_id", VUuid (Passport.passport_id ps));
   ("client_id", VUuid (Passport.client_id ps));
   ("full_name", VStr (Passport.full_name ps));
   ("birth_place", VStr (Passport.birth_place ps));
   ("series_number", VStr (Passport.series_number ps));
   ("issued_by", VStr (Passport.issued_by ps));
   ("issue_date", VDate (Passport.issue_date ps));
   ("expiry_date", opt_value VDate (Passport.expiry_date ps));
   ("registration_address", VStr (Passport.registration_address ps));
   ("version", VInt (Passport.version ps));
   ("created_at", VTime (Passport.created_at ps))].

Definition snils_dict (s : Snils.t) : dict :=
  [("snils_id", VUuid (Snils.snils_id s));
   ("client_id", VUuid (Snils.client_id s));
   ("number", VStr (Snils.number s));
   ("issued_date", opt_value VDate (Snils.issued_date s));
   ("version", VInt (Snils.version s));
   ("created_at", VTime (Snils.created_at s))].

Definition agent_summary (a : Agent.t) : dict :=
  [("agent_id", VUuid (Agent.agent_id a));
   ("external_id", VInt (Agent.external_id a));
   ("last_name", VStr (Agent.last_name a));
   ("first_name", VStr (Agent.first_name a));
   ("middle_name", opt_value VStr (Agent.middle_name a))].

Definition status_summary (st : Status.t) : dict :=
  [("status_code", VStr (Status.status_code st));
   ("description", VStr (Status.description st))].

Definition stage_summary (sg : Stage.t) : dict :=
  [("stage_code", VStr (Stage.stage_code sg));
   ("description", VStr (Stage.description sg))].

Definition dicts {A} (f : A -> dict) (l : list A) : value :=
  VList (map (fun a => VDict (f a)) l).

Definition _client_to_dict (t : Tables) (client : ClientObj) : dict :=
  let c := row client in
  (* phones: the relationship, else a query ordered by phone_id *)
  let phones_ :=
    match phones client with
    | Some ps => dicts phone_dict ps
    | None =>
        dicts phone_dict
          (order_by Phone.phone_id (phones_of t (Client.client_id c)))
    end in
  (* agent summary: the relationship, else db.get *)
  let agent_obj :=
    match agent client with
    | Some a => Some a
    | None => agent_by_pk t (Client.agent_id c)
    end in
  let agent_summary_ :=
    opt_value (fun a => VDict (agent_summary a)) agent_obj in
  (* status and stage lookups *)
  let status_summary_ :=
    if truthy (Client.status_code c)
    then opt_value (fun st => VDict (status_summary st))
                   (status_by_pk t (Client.status_code c))
    else VNone in
  let stage_summary_ :=
    if truthy (Client.current_stage c)
    then opt_value (fun sg => VDict (stage_summary sg))
                   (stage_by_pk t (Client.current_stage c))
    else VNone in
  let passports_list :=
    match passports client with
    | Some pss => dicts passport_dict pss
    | None => dicts passport_dict (passports_of t (Client.client_id c))
    end in
  let snils_list :=
    match snils client with
    | Some sns => dicts snils_dict sns
    | None => dicts snils_dict (snils_of t (Client.client_id c))
    end in
  [("client_id", VUuid (Client.client_id c));
   ("external_id", VInt (Client.external_id c));
   ("last_name", VStr (Client.last_name c));
   ("first_name", VStr (Client.first_name c));
   ("middle_name", opt_value VStr (Client.middle_name c));
   ("status_code", VStr (Client.status_code c));
   ("current_stage", VStr (Client.current_stage c));
   ("agent_id", VUuid (Client.agent_id c));
   ("deadline", opt_value VTime (Client.deadline c));
   ("created_at", VTime (Client.created_at c));
   ("updated_at", VTime (Client.updated_at c));
   ("notes", opt_value VStr (Client.notes c));
   ("agent", agent_summary_);
   ("status", status_summary_);
   ("stage", stage_summary_);
   ("phones", phones_);
   ("passports", passports_list);
   ("snils", snils_list)].

(** [_client_to_dict(db, client)] inside a session. *)
Definition client_dossier (o : LoadOptions) (c : Client.t) : M dict :=
  query (fun t => _client_to_dict t (load o t c)).

Definition or_nil {A} (o : option (list A)) : list A :=
  match o with
  | Some l => l
  | None => []
  end.

Definition create_client (client_in : ClientCreate.t) : M dict :=
  agent_exists <- query (fun t => agent_by_pk t
                                    (ClientCreate.agent_id client_in)) ;;
  if negb (is_some agent_exists) then raise agent_not_found
  else
    let client :=
      Client.mk 0 0
        (ClientCreate.last_name client_in)
        (ClientCreate.first_name client_in)
        (Some (or_empty (ClientCreate.middle_name client_in)))
        (ClientCreate.status_code client_in)
        (ClientCreate.current_stage client_in)
        (ClientCreate.agent_id client_in)
        (ClientCreate.deadline client_in)
        0 0
        (ClientCreate.notes client_in) in
    db_add (InsertClient client) ;;
    try_except
      (db_flush ;;
       client_id <- new_identity ;;
       for_each (or_nil (ClientCreate.phones client_in))
         (fun p => db_add (InsertPhone
                             (Phone.mk 0 client_id (PhoneCreate.number p) 0))) ;;
       db_commit ;;
       client <- db_refresh (fun t => client_by_pk t client_id) ;;
       client_dossier selectinload_all client)
      is_IntegrityError
      (fun e => db_rollback ;; raise e).

Definition get_client (client_id : UUID) : M (option dict) :=
  client <- query (fun t => client_by_pk t client_id) ;;
  match client with
  | None => ret None
  | Some client =>
      d <- client_dossier selectinload_all client ;;
      ret (Some d)
  end.

(** *** ILIKE *)

Definition lower (c : ascii) : ascii :=
  let n := nat_of_ascii c in
  if ((65 <=? n) && (n <=? 90))%nat then ascii_of_nat (n + 32) else c.

Definition chars (s : string) : list ascii := list_ascii_of_string s.

Definition percent : ascii := "%"%char.
Definition underscore : ascii := "_"%char.
Definition backslash : ascii := "092"%char.

(** SQL [LIKE]: [%] matches any run of characters, [_] any one character,
    a backslash takes the next character literally. *)
Fixpoint like (p : list ascii) : list ascii -> bool :=
  match p with
  | [] => fun s => is_nil s
  | c :: p' =>
      if Ascii.eqb c percent then
        fix star (s : list ascii) : bool :=
          like p' s || match s with
                       | [] => false
                       | _ :: s' => star s'
                       end
      else if Ascii.eqb c underscore then
        fun s => match s with
                 | [] => false
                 | _ :: s' => like p' s'
                 end
      else if Ascii.eqb c backslash then
        match p' with
        | [] => fun _ => false
        | d :: p'' =>
            fun s => match s with
                     | [] => false
                     | x :: s' => Ascii.eqb d x && like p'' s'
                     end
        end
      else
        fun s => match s with
                 | [] => false
                 | x :: s' => Ascii.eqb c x && like p' s'
                 end
  end.

(** [column.ilike(pattern)]; a NULL column matches nothing. *)
Definition ilike (pattern : string) (s : string) : bool :=
  like (map lower (chars pattern)) (map lower (chars s)).

Definition ilike_opt (pattern : string) (o : option string) : bool :=
  match o with
  | Some s => ilike pattern s
  | None => false
  end.

(** The [WHERE] conditions [list_clients] collects. *)
Definition conditions (q status : option string) (agent_id : option UUID)
  (current_stage : option string) : list (Client.t -> bool) :=
  (match q with
   | Some q =>
       if truthy q then
         let like_ := ("%" ++ q ++ "%")%string in
         [fun c => ilike like_ (Client.first_name c)
                   || ilike like_ (Client.last_name c)
                   || ilike_opt like_ (Client.middle_name c)]
       else []
   | None => []
   end)
  ++ (match status with
      | Some status =>
          if truthy status
          then [fun c => String.eqb (Client.status_code c) status]
          else []
      | None => []
      end)
  ++ (match agent_id with
      | Some agent_id => [fun c => Client.agent_id c =? agent_id]
      | None => []
      end)
  ++ (match current_stage with
      | Some current_stage =>
          if truthy current_stage
          then [fun c => String.eqb (Client.current_stage c) current_stage]
          else []
      | None => []
      end).

(** The rows the statement of [list_clients] selects. *)
Definition select_clients (t : Tables) (skip limit : nat)
  (q status : option string) (agent_id : option UUID)
  (current_stage : option string) : list Client.t :=
  firstn limit
    (skipn skip
       (order_by Client.external_id
          (filter (fun c => forallb (fun cond => cond c)
                              (conditions q status agent_id current_stage))
                  (CLIENT t)))).

Definition list_clients (skip limit : nat) (q status : option string)
  (agent_id : option UUID) (current_stage : option string) : M (list dict) :=
  clients <- query (fun t => select_clients t skip limit q status agent_id
                               current_stage) ;;
  query (fun t => map (fun c => _client_to_dict t (load selectinload_all t c))
                      clients).

(** *** update_client *)

(** [hasattr(client, k)] over the mapped attributes of [models.Client]:
    its columns and relationships.  The names every declarative class or
    Python object carries besides ([metadata], [registry], dunder names)
    are left out of the embedding. *)
Definition client_attribute (k : string)
  : option (Client.column + Client.relationship) :=
  match find (fun c => String.eqb (Client.column_name c) k) Client.columns with
  | Some c => Some (inl c)
  | None =>
      match find (fun r => String.eqb (Client.relationship_name r) k)
                 Client.relationships with
      | Some r => Some (inr r)
      | None => None
      end
  end.


(** [setattr(client, k, v)].  A relationship accepts mapped instances
    only: among plain values, [None] for the scalar [agent] and the
    empty list for a collection. *)
Definition setattr_client (a : Client.column + Client.relationship)
  (v : value) : result client_change :=
  match a with
  | inl c => Ok (SetColumn c v)
  | inr Client.r_agent =>
      match v with
      | VNone => Ok (ClearReference Client.r_agent)
      | _ => Err AttributeError
      end
  | inr r =>
      match v with
      | VList [] => Ok (EmptyCollection r)
      | VList (_ :: _) => Err AttributeError
      | _ => Err TypeError
      end
  end.

(** [for k, v in payload.items(): if hasattr(client, k): setattr(...)]. *)
Fixpoint patch_client (payload : dict) : result (list client_change) :=
  match payload with
  | [] => Ok []
  | (k, v) :: payload' =>
      match client_attribute k with
      | Some a =>
          match setattr_client a v with
          | Ok ch =>
              match patch_client payload' with
              | Ok chs => Ok (ch :: chs)
              | Err e => Err e
              end
          | Err e => Err e
          end
      | None => patch_client payload'
      end
  end.

(** The primary key of the instance once the changes are flushed. *)
Definition identity_after (id : UUID) (chs : list client_change) : UUID :=
  fold_left (fun acc ch => match ch with
                           | SetColumn Client.c_client_id (VUuid u) => u
                           | _ => acc
                           end) chs id.

Definition update_client (client_id : UUID) (payload : dict)
  : M (option dict) :=
  client <- query (fun t => client_by_pk t client_id) ;;
  match client with
  | None => ret None
  | Some _ =>
      chs <- lift (patch_client payload) ;;
      db_add (UpdateClient client_id chs) ;;
      try_except
        (db_commit ;;
         client <- db_refresh
                     (fun t => client_by_pk t (identity_after client_id chs)) ;;
         d <- client_dossier selectinload_all client ;;
         ret (Some d))
        any_exception
        (fun e => db_rollback ;; raise e)
  end.

Definition delete_client (client_id : UUID) : M bool :=
  client <- query (fun t => client_by_pk t client_id) ;;
  match client with
  | None => ret false
  | Some _ =>
      db_delete (DeleteClient client_id) ;;
      try_except (db_commit ;; ret true)
        any_exception
        (fun e => db_rollback ;; raise e)
  end.

(** *** Agent *)

Definition _agent_to_dict (a : Agent.t) : dict :=
  [("agent_id", VUuid (Agent.agent_id a));
   ("external_id", VInt (Agent.external_id a));
   ("last_name", VStr (Agent.last_name a));
   ("first_name", VStr (Agent.first_name a));
   ("middle_name", opt_value VStr (Agent.middle_name a));
   ("legal_address", VStr (Agent.legal_address a));
   ("actual_address", VStr (Agent.actual_address a));
   ("inn", VStr (Agent.inn a));
   ("ogrnip", VStr (Agent.ogrnip a));
   ("account_number", VStr (Agent.account_number a));
   ("correspondent_account", VStr (Agent.correspondent_account a));
   ("bic", VStr (Agent.bic a))].

Definition create_agent (agent_in : AgentCreate.t) : M dict :=
  let corr_account :=
    or_else (AgentCreate.correspondent_account agent_in)
            (AgentCreate.account_number agent_in) in
  let agent :=
    Agent.mk 0 0
      (AgentCreate.last_name agent_in)
      (or_empty (AgentCreate.first_name agent_in))
      (Some (or_empty (AgentCreate.middle_name agent_in)))
      (AgentCreate.legal_address agent_in)
      (AgentCreate.actual_address agent_in)
      (AgentCreate.inn agent_in)
      (AgentCreate.ogrnip agent_in)
      (AgentCreate.account_number agent_in)
      corr_account
      (AgentCreate.bic agent_in) in
  db_add (InsertAgent agent) ;;
  try_except
    (db_flush ;;
     db_commit ;;
     agent_id <- new_identity ;;
     agent <- db_refresh (fun t => agent_by_pk t agent_id) ;;
     ret (_agent_to_dict agent))
    is_IntegrityError
    (fun e => db_rollback ;; raise e).

Definition get_agent (agent_id : UUID) : M (option dict) :=
  agent <- query (fun t => agent_by_pk t agent_id) ;;
  match agent with
  | None => ret None
  | Some agent => ret (Some (_agent_to_dict agent))
  end.

(** [hasattr(agent, k)] over the mapped attributes of [models.Agent]. *)
Definition agent_attribute (k : string) : option (Agent.column + unit) :=
  match find (fun c => String.eqb (Agent.column_name c) k) Agent.columns with
  | Some c => Some (inl c)
  | None =>
      if String.eqb Agent.relationship_name k then Some (inr tt) else None
  end.


Definition setattr_agent (a : Agent.column + unit) (v : value)
  : result agent_change :=
  match a with
  | inl c => Ok (SetColumn c v)
  | inr r =>
      match v with
      | VList [] => Ok (EmptyCollection r)
      | VList (_ :: _) => Err AttributeError
      | _ => Err TypeError
      end
  end.

Fixpoint patch_agent (payload : dict) : result (list agent_change) :=
  match payload with
  | [] => Ok []
  | (k, v) :: payload' =>
      match agent_attribute k with
      | Some a =>
          match setattr_agent a v with
          | Ok ch =>
              match patch_agent payload' with
              | Ok chs => Ok (ch :: chs)
              | Err e => Err e
              end
          | Err e => Err e
          end
      | None => patch_agent payload'
      end
  end.

Definition agent_identity_after (id : UUID) (chs : list agent_change) : UUID :=
  fold_left (fun acc ch => match ch with
                           | SetColumn Agent.c_agent_id (VUuid u) => u
                           | _ => acc
                           end) chs id.

Definition update_agent (agent_id : UUID) (payload : dict) : M (option dict) :=
  agent <- query (fun t => agent_by_pk t agent_id) ;;
  match agent with
  | None => ret None
  | Some _ =>
      chs <- lift (patch_agent payload) ;;
      db_add (UpdateAgent agent_id chs) ;;
      try_except
        (db_commit ;;
         agent <- db_refresh
                    (fun t => agent_by_pk t (agent_identity_after agent_id chs)) ;;
         ret (Some (_agent_to_dict agent)))
        any_exception
        (fun e => db_rollback ;; raise e)
  end.

Definition delete_agent (agent_id : UUID) : M bool :=
  agent <- query (fun t => agent_by_pk t agent_id) ;;
  match agent with
  | None => ret false
  | Some _ =>
      cnt <- query (fun t => Z.of_nat
                               (List.length (clients_of_agent t agent_id))) ;;
      if 0 <? cnt then raise agent_has_linked_clients
      else
        db_delete (DeleteAgent agent_id) ;;
        try_except (db_commit ;; ret true)
          any_exception
          (fun e => db_rollback ;; raise e)
  end.

(** *** Phones, Passport, SNILS *)

Definition add_phone (client_id : UUID) (number : string) : M Phone.t :=
  client <- query (fun t => client_by_pk t client_id) ;;
  if negb (is_some client) then raise client_not_found
  else
    db_add (InsertPhone (Phone.mk 0 client_id number 0)) ;;
    try_except
      (phone_id <- next_phone_id ;;
       db_commit ;;
       db_refresh (fun t => phone_by_pk t phone_id))
      any_exception
      (fun e => db_rollback ;; raise e).

Definition delete_phone (phone_id : Z) : M bool :=
  phone <- query (fun t => phone_by_pk t phone_id) ;;
  match phone with
  | None => ret false
  | Some _ =>
      db_delete (DeletePhone phone_id) ;;
      try_except (db_commit ;; ret true)
        any_exception
        (fun e => db_rollback ;; raise e)
  end.

Definition create_passport (client_id : UUID) (passport_in : PassportCreate.t)
  : M Passport.t :=
  client <- query (fun t => client_by_pk t client_id) ;;
  if negb (is_some client) then raise client_not_found
  else
    let passport :=
      Passport.mk 0 client_id
        (PassportCreate.full_name passport_in)
        (PassportCreate.birth_date passport_in)
        (PassportCreate.birth_place passport_in)
        (PassportCreate.series_number passport_in)
        (PassportCreate.issued_by passport_in)
        (PassportCreate.issue_date passport_in)
        (PassportCreate.department_code passport_in)
        (PassportCreate.expiry_date passport_in)
        (PassportCreate.registration_address passport_in)
        0 0 in
    db_add (InsertPassport passport) ;;
    try_except
      (db_commit ;;
       passport_id <- new_identity ;;
       db_refresh (fun t => passport_by_pk t passport_id))
      any_exception
      (fun e => db_rollback ;; raise e).

Definition create_snils (client_id : UUID) (snils_in : SnilsCreate.t)
  : M Snils.t :=
  client <- query (fun t => client_by_pk t client_id) ;;
  if negb (is_some client) then raise client_not_found
  else
    let snils :=
      Snils.mk 0 client_id (SnilsCreate.number snils_in)
        (SnilsCreate.issued_date snils_in) 0 0 in
    db_add (InsertSnils snils) ;;
    try_except
      (db_commit ;;
       snils_id <- new_identity ;;
       db_refresh (fun t => snils_by_pk t snils_id))
      any_exception
      (fun e => db_rollback ;; raise e).

(** *** Stage / Status *)

Definition create_stage (stage_in : StageCreate.t) : M Stage.t :=
  let stage :=
    Stage.mk (StageCreate.stage_code stage_in)
             (StageCreate.description stage_in) in
  db_add (InsertStage stage) ;;
  try_except
    (db_commit ;;
     db_refresh (fun t => stage_by_pk t (Stage.stage_code stage)))
    any_exception
    (fun e => db_rollback ;; raise e).

Definition create_status (status_in : StatusCreate.t) : M Status.t :=
  let status :=
    Status.mk (StatusCreate.status_code status_in)
              (StatusCreate.description status_in) in
  db_add (InsertStatus status) ;;
  try_except
    (db_commit ;;
     db_refresh (fun t => status_by_pk t (Status.status_code status)))
    any_exception
    (fun e => db_rollback ;; raise e).

(** ** Requests and traces *)

(** A call of the data-access layer, as one request makes it. *)
Inductive call : Type :=
| Call_create_client (client_in : ClientCreate.t)
| Call_update_client (client_id : UUID) (payload : dict)
| Call_delete_client (client_id : UUID)
| Call_create_agent (agent_in : AgentCreate.t)
| Call_update_agent (agent_id : UUID) (payload : dict)
| Call_delete_agent (agent_id : UUID)
| Call_add_phone (client_id : UUID) (number : string)
| Call_delete_phone (phone_id : Z)
| Call_create_passport (client_id : UUID) (passport_in : PassportCreate.t)
| Call_create_snils (client_id : UUID) (snils_in : SnilsCreate.t)
| Call_create_stage (stage_in : StageCreate.t)
| Call_create_status (status_in : StatusCreate.t).

(** The database a request leaves behind. *)
Definition exec (e : Env) (c : call) (d : Database) : Database :=
  match c with
  | Call_create_client x => snd (run_request e (create_client x) d)
  | Call_update_client id p => snd (run_request e (update_client id p) d)
  | Call_delete_client id => snd (run_request e (delete_client id) d)
  | Call_create_agent x => snd (run_request e (create_agent x) d)
  | Call_update_agent id p => snd (run_request e (update_agent id p) d)
  | Call_delete_agent id => snd (run_request e (delete_agent id) d)
  | Call_add_phone id n => snd (run_request e (add_phone id n) d)
  | Call_delete_phone id => snd (run_request e (delete_phone id) d)
  | Call_create_passport id x => snd (run_request e (create_passport id x) d)
  | Call_create_snils id x => snd (run_request e (create_snils id x) d)
  | Call_create_stage x => snd (run_request e (create_stage x) d)
  | Call_create_status x => snd (run_request e (create_status x) d)
  end.

Definition external_id_of (r : result dict) : option Z :=
  match r with
  | Ok dossier =>
      match dict_get "external_id" dossier with
      | Some (VInt z) => Some z
      | _ => None
      end
  | Err _ => None
  end.

(** The external id a call hands out to a new Agent, if any. *)
Definition issued_agent (e : Env) (c : call) (d : Database) : option Z :=
  match c with
  | Call_create_agent x =>
      external_id_of (fst (run_request e (create_agent x) d))
  | _ => None
  end.

(** The external id a call hands out to a new Client, if any. *)
Definition issued_client (e : Env) (c : call) (d : Database) : option Z :=
  match c with
  | Call_create_client x =>
      external_id_of (fst (run_request e (create_client x) d))
  | _ => None
  end.

Definition cons_opt {A} (o : option A) (l : list A) : list A :=
  match o with
  | Some a => a :: l
  | None => l
  end.

Fixpoint run (tr : list (Env * call)) (d : Database) : Database :=
  match tr with
  | [] => d
  | (e, c) :: tr' => run tr' (exec e c d)
  end.

(** External ids handed out along a trace, oldest first. *)
Fixpoint agents_issued (tr : list (Env * call)) (d : Database) : list Z :=
  match tr with
  | [] => []
  | (e, c) :: tr' =>
      cons_opt (issued_agent e c d) (agents_issued tr' (exec e c d))
  end.

Fixpoint clients_issued (tr : list (Env * call)) (d : Database) : list Z :=
  match tr with
  | [] => []
  | (e, c) :: tr' =>
      cons_opt (issued_client e c d) (clients_issued tr' (exec e c d))
  end.

(** An update whose payload names [external_id]. *)
Definition names_external_id (c : call) : bool :=
  match c with
  | Call_update_client _ p | Call_update_agent _ p =>
      existsb (String.eqb "external_id") (keys p)
  | _ => false
  end.

(** ** alembic revision ff8fddb0819d: [upgrade] *)

(** [add_column] with the [nextval] server default numbers the rows that
    exist, in table order. *)
Fixpoint number_agents (rows : list Agent.t) (next : Z)
  : list Agent.t * Z :=
  match rows with
  | [] => ([], next)
  | r :: rows' =>
      let (l, n) := number_agents rows' (next + 1) in
      (Agent.set_external_id r next :: l, n)
  end.

Fixpoint number_clients (rows : list Client.t) (next : Z)
  : list Client.t * Z :=
  match rows with
  | [] => ([], next)
  | r :: rows' =>
      let (l, n) := number_clients rows' (next + 1) in
      (Client.set_external_id r next :: l, n)
  end.

(** [MAX(external_id)]: NULL on an empty table. *)
Fixpoint sql_max (l : list Z) : option Z :=
  match l with
  | [] => None
  | x :: l' =>
      match sql_max l' with
      | Some m => Some (Z.max x m)
      | None => Some x
      end
  end.

Definition coalesce (o : option Z) (z : Z) : Z :=
  match o with
  | Some x => x
  | None => z
  end.

(** [upgrade()] on tables that have no [external_id] column yet (the
    field of the incoming rows is not read).  [agent_seq] and
    [client_seq] hold the state of a sequence that already exists;
    [CREATE SEQUENCE IF NOT EXISTS ... START 1] creates the missing one.
    [setval(seq, COALESCE(MAX(external_id), 0) + 1, false)] makes that
    value the next one issued. *)
Definition upgrade (t : Tables) (agent_seq client_seq : option Z)
  (phone_seq : Z) : Database :=
  let agents := fst (number_agents (AGENT t) (coalesce agent_seq 1)) in
  let clients := fst (number_clients (CLIENT t) (coalesce client_seq 1)) in
  mkDatabase
    (with_CLIENT (with_AGENT t agents) clients)
    (mkSequences
       (coalesce (sql_max (map Agent.external_id agents)) 0 + 1)
       (coalesce (sql_max (map Client.external_id clients)) 0 + 1)
       phone_seq).

(** ** Predicates of the statements *)

(** The Phone rows [create_client] inserts: numbered from the sequence. *)
Fixpoint numbered_phones (e : Env) (client_id : UUID) (next : Z)
  (l : list PhoneCreate.t) : list Phone.t :=
  match l with
  | [] => []
  | p :: l' =>
      Phone.mk next client_id (PhoneCreate.number p) (now e)
      :: numbered_phones e client_id (next + 1) l'
  end.

(** The rows the INSERT statements of the create operations carry. *)
Definition new_agent_row (e : Env) (agent_in : AgentCreate.t) (x : Z)
  : Agent.t :=
  Agent.mk (fresh_uuid e) x
    (AgentCreate.last_name agent_in)
    (or_empty (AgentCreate.first_name agent_in))
    (Some (or_empty (AgentCreate.middle_name agent_in)))
    (AgentCreate.legal_address agent_in)
    (AgentCreate.actual_address agent_in)
    (AgentCreate.inn agent_in)
    (AgentCreate.ogrnip agent_in)
    (AgentCreate.account_number agent_in)
    (or_else (AgentCreate.correspondent_account agent_in)
             (AgentCreate.account_number agent_in))
    (AgentCreate.bic agent_in).

Definition new_client_row (e : Env) (client_in : ClientCreate.t) (x : Z)
  : Client.t :=
  Client.mk (fresh_uuid e) x
    (ClientCreate.last_name client_in)
    (ClientCreate.first_name client_in)
    (Some (or_empty (ClientCreate.middle_name client_in)))
    (ClientCreate.status_code client_in)
    (ClientCreate.current_stage client_in)
    (ClientCreate.agent_id client_in)
    (ClientCreate.deadline client_in)
    (now e) (now e)
    (ClientCreate.notes client_in).

Definition new_passport_row (e : Env) (client_id : UUID)
  (passport_in : PassportCreate.t) : Passport.t :=
  Passport.mk (fresh_uuid e) client_id
    (PassportCreate.full_name passport_in)
    (PassportCreate.birth_date passport_in)
    (PassportCreate.birth_place passport_in)
    (PassportCreate.series_number passport_in)
    (PassportCreate.issued_by passport_in)
    (PassportCreate.issue_date passport_in)
    (PassportCreate.department_code passport_in)
    (PassportCreate.expiry_date passport_in)
    (PassportCreate.registration_address passport_in)
    1 (now e).

Definition pending_phones (client_id : UUID) (l : list PhoneCreate.t)
  : list pending :=
  map (fun p => InsertPhone (Phone.mk 0 client_id (PhoneCreate.number p) 0)) l.

(** No sequence of [s'] is behind the same sequence of [s]. *)
Definition seqs_le (s s' : Sequences) : Prop :=
  agent_external_id_seq s <= agent_external_id_seq s'
  /\ client_external_id_seq s <= client_external_id_seq s'
  /\ phone_phone_id_seq s <= phone_phone_id_seq s'.

(** A property of the tables and sequences that holds of what is durable
    and of what the open transaction sees, with only statements of the
    kinds [allowed] waiting to be flushed. *)
Definition session_inv (inv : Tables -> Sequences -> Prop)
  (allowed : pending -> Prop) (s : Session) : Prop :=
  inv (tables (db s)) (seqs (db s))
  /\ inv (view s) (seqs (db s))
  /\ Forall allowed (unit_of_work s).

Definition preserves {A} (I : Session -> Prop) (m : M A) : Prop :=
  forall s, I s -> I (snd (m s)).

(** Statements on AGENT, and the calls that issue them. *)
Definition on_agent (p : pending) : bool :=
  match p with
  | InsertAgent _ | UpdateAgent _ _ | DeleteAgent _ => true
  | _ => false
  end.

Definition agent_call (c : call) : bool :=
  match c with
  | Call_create_agent _ | Call_update_agent _ _ | Call_delete_agent _ => true
  | _ => false
  end.

(** Statements on CLIENT, and the calls that issue them. *)
Definition on_client (p : pending) : bool :=
  match p with
  | InsertClient _ | UpdateClient _ _ | DeleteClient _ => true
  | _ => false
  end.

Definition client_call (c : call) : bool :=
  match c with
  | Call_create_client _ | Call_update_client _ _ | Call_delete_client _ =>
      true
  | _ => false
  end.

(** Every Agent and every Client found under the same primary key in [d]
    and in [d'] has the same external id in both. *)
Definition external_ids_kept (d d' : Database) : Prop :=
  (forall id a a',
      agent_by_pk (tables d) id = Some a ->
      agent_by_pk (tables d') id = Some a' ->
      Agent.external_id a' = Agent.external_id a)
  /\ (forall id c c',
         client_by_pk (tables d) id = Some c ->
         client_by_pk (tables d') id = Some c' ->
         Client.external_id c' = Client.external_id c).

(** PHONE holds its rows in [phone_id] order. *)
Definition phones_in_id_order (t : Tables) : Prop :=
  StronglySorted (fun a b => Phone.phone_id a <= Phone.phone_id b) (PHONE t).

(** Every [phone_id] was issued by the sequence, in table order. *)
Definition phone_ids_issued (d : Database) : Prop :=
  StronglySorted (fun a b => Phone.phone_id a < Phone.phone_id b)
                 (PHONE (tables d))
  /\ Forall (fun p => Phone.phone_id p < phone_phone_id_seq (seqs d))
            (PHONE (tables d)).

(** The UNIQUE constraints on [external_id]. *)
Definition unique_external_ids (t : Tables) : Prop :=
  NoDup (map Agent.external_id (AGENT t))
  /\ NoDup (map Client.external_id (CLIENT t)).

(** The primary keys and the UNIQUE constraints of AGENT and CLIENT. *)
Definition keys_unique (t : Tables) : Prop :=
  NoDup (map Agent.agent_id (AGENT t))
  /\ NoDup (map Client.client_id (CLIENT t))
  /\ unique_external_ids t.

(** *** The filter of the listing, in the words of the specification *)










(** ** app/crud.py: the remaining queries *)

Definition get_agent_by_external (external_id : Z) : M (option dict) :=
  agent <- query (fun t => find (fun a => Agent.external_id a =? external_id)
                                (AGENT t)) ;;
  match agent with
  | None => ret None
  | Some agent => ret (Some (_agent_to_dict agent))
  end.

Definition list_phones (client_id : UUID) : M (list dict) :=
  phones <- query (fun t => phones_of t client_id) ;;
  ret (map phone_dict phones).

Definition get_stage (stage_code : string) : M (option Stage.t) :=
  query (fun t => stage_by_pk t stage_code).

Definition get_status (status_code : string) : M (option Status.t) :=
  query (fun t => status_by_pk t status_code).

(** [ORDER BY] under a comparison of rows: a stable insertion sort. *)
Fixpoint insert_sorted {A} (leb : A -> A -> bool) (x : A) (l : list A)
  : list A :=
  match l with
  | [] => [x]
  | y :: l' => if leb x y then x :: l else y :: insert_sorted leb x l'
  end.

Definition sort_by {A} (leb : A -> A -> bool) (l : list A) : list A :=
  fold_right (insert_sorted leb) [] l.

(** How [ORDER BY] compares text is the collation of the database, a
    parameter of the queries that sort by a text column. *)
Section Collation.
Variable collate : string -> string -> comparison.

Definition text_leb (a b : string) : bool :=
  match collate a b with
  | Gt => false
  | _ => true
  end.





Definition list_stages : M (list Stage.t) :=
  query (fun t => sort_by (fun a b => text_leb (Stage.stage_code a)
                                               (Stage.stage_code b))
                          (STAGE t)).

Definition list_statuses : M (list Status.t) :=
  query (fun t => sort_by (fun a b => text_leb (Status.status_code a)
                                               (Status.status_code b))
                          (STATUS t)).

End Collation.


(** What [ORDER BY] needs of a collation: a total preorder, given as a
    three-way comparison. *)
Definition collation_order (collate : string -> string -> comparison)
  : Prop :=
  (forall a b, collate b a = CompOpp (collate a b))
  /\ (forall a b c, collate a b = Lt -> collate b c = Lt -> collate a c = Lt)
  /\ (forall a b c, collate a b = Eq -> collate b c = Eq -> collate a c = Eq)
  /\ (forall a b c, collate a b = Eq -> collate b c = Lt -> collate a c = Lt)
  /\ (forall a b c, collate a b = Lt -> collate b c = Eq -> collate a c = Lt).

(** ** app/schemas.py: the constrained types *)

(** [\d] on the single-byte characters of the embedding: [0] to [9]. *)
Definition is_digit (c : ascii) : bool :=
  let n := nat_of_ascii c in
  ((48 <=? n) && (n <=? 57))%nat.

Definition all_digits (s : string) : bool := forallb is_digit (chars s).

(** [constr(pattern=r'^\d{10}(\d{2})?$')]. *)
Definition InnType (s : string) : bool :=
  all_digits s
  && ((String.length s =? 10) || (String.length s =? 12))%nat.

(** [constr(pattern=r'^\d{15}$')]. *)
Definition OgrnipType (s : string) : bool :=
  all_digits s && (String.length s =? 15)%nat.

(** [constr(pattern=r'^\d{9}$')]. *)
Definition BicType (s : string) : bool :=
  all_digits s && (String.length s =? 9)%nat.

(** [constr(min_length=20, max_length=34, pattern=r'^\d+$')]. *)
Definition AccountType (s : string) : bool :=
  ((20 <=? String.length s) && (String.length s <=? 34))%nat
  && all_digits s && (1 <=? String.length s)%nat.

Definition optional {A} (valid : A -> bool) (o : option A) : bool :=
  match o with
  | Some a => valid a
  | None => true
  end.


(** [number: str = Field(..., min_length=3, max_length=32)]. *)
Definition PhoneCreate_validates (p : PhoneCreate.t) : bool :=
  ((3 <=? String.length (PhoneCreate.number p))
   && (String.length (PhoneCreate.number p) <=? 32))%nat.

Definition ClientCreate_validates (c : ClientCreate.t) : bool :=
  forallb PhoneCreate_validates (or_nil (ClientCreate.phones c)).

(** *** The PATCH models *)

(** A field of a model whose fields are all optional: left out of the
    request body, or given, possibly as [null]. *)
Inductive field (T : Type) : Type :=
| Unset
| Given (v : option T).
Arguments Unset {T}.
Arguments Given {T} v.

(** The entry of a field in [model_dump(exclude_unset=True)]. *)
Definition dump_field {T} (name : string) (f : T -> value) (x : field T)
  : dict :=
  match x with
  | Unset => []
  | Given v => [(name, opt_value f v)]
  end.

Definition field_validates {T} (valid : T -> bool) (x : field T) : bool :=
  match x with
  | Unset => true
  | Given v => optional valid v
  end.

Module ClientUpdate.
Record t := mk {
  last_name : field string;
  first_name : field string;
  middle_name : field string;
  status_code : field string;
  current_stage : field string;
  agent_id : field UUID;
  deadline : field datetime;
  notes : field string;
  phones : field (list PhoneCreate.t) }.

Definition dump_phones (l : list PhoneCreate.t) : value :=
  VList (map (fun p => VDict [("number", VStr (PhoneCreate.number p))]) l).

(** [payload.model_dump(exclude_unset=True)]. *)
Definition model_dump (payload : t) : dict :=
  dump_field "last_name" VStr (last_name payload)
  ++ dump_field "first_name" VStr (first_name payload)
  ++ dump_field "middle_name" VStr (middle_name payload)
  ++ dump_field "status_code" VStr (status_code payload)
  ++ dump_field "current_stage" VStr (current_stage payload)
  ++ dump_field "agent_id" VUuid (agent_id payload)
  ++ dump_field "deadline" VTime (deadline payload)
  ++ dump_field "notes" VStr (notes payload)
  ++ dump_field "phones" dump_phones (phones payload).
End ClientUpdate.

Module AgentUpdate.
Record t := mk {
  last_name : field string;
  first_name : field string;
  middle_name : field string;
  legal_address : field string;
  actual_address : field string;
  inn : field string;
  ogrnip : field string;
  account_number : field string;
  correspondent_account : field string;
  bic : field string }.

Definition model_dump (payload : t) : dict :=
  dump_field "last_name" VStr (last_name payload)
  ++ dump_field "first_name" VStr (first_name payload)
  ++ dump_field "middle_name" VStr (middle_name payload)
  ++ dump_field "legal_address" VStr (legal_address payload)
  ++ dump_field "actual_address" VStr (actual_address payload)
  ++ dump_field "inn" VStr (inn payload)
  ++ dump_field "ogrnip" VStr (ogrnip payload)
  ++ dump_field "account_number" VStr (account_number payload)
  ++ dump_field "correspondent_account" VStr (correspondent_account payload)
  ++ dump_field "bic" VStr (bic payload).

Definition validates (payload : t) : bool :=
  field_validates InnType (inn payload)
  && field_validates OgrnipType (ogrnip payload)
  && field_validates AccountType (account_number payload)
  && field_validates AccountType (correspondent_account payload)
  && field_validates BicType (bic payload).
End AgentUpdate.

(** ** app/api: the route functions *)

(** What a route function does with a request: it returns a value, which
    FastAPI serialises under the [response_model] of the route, or it
    raises [HTTPException].  An exception of the data-access layer that
    the route does not catch stays an exception of the request.  The
    [detail] text of an [HTTPException] is left out. *)
Inductive http (A : Type) : Type :=
| Returns (a : A)
| HTTPException (status_code : Z).
Arguments Returns {A} a.
Arguments HTTPException {A} status_code.

Definition is_ValueError (e : exn) : bool :=
  match e with
  | ValueError _ => true
  | _ => false
  end.

(** app/api/clients.py.  Inside the module the names of crud.py stand
    for the functions of crud.py until a route of the same name is
    defined. *)
Module api_clients.

Definition create_client (client_in : ClientCreate.t) : M (http dict) :=
  try_except
    (client_dict <- create_client client_in ;;
     ret (Returns client_dict))
    any_exception
    (fun e => if is_ValueError e then ret (HTTPException 400)
              else ret (HTTPException 500)).

(** [skip: int = Query(0, ge=0)], [limit: int = Query(50, ge=1, le=200)]:
    a request outside the bounds is answered 422 before the function
    runs. *)
Definition read_clients (skip limit : Z) (q status : option string)
  (agent_id : option UUID) (current_stage : option string)
  : M (http (list dict)) :=
  if (skip <? 0) || (limit <? 1) || (200 <? limit)
  then ret (HTTPException 422)
  else
    clients <- list_clients (Z.to_nat skip) (Z.to_nat limit) q status
                 agent_id current_stage ;;
    ret (Returns clients).

Definition read_client (client_id : UUID) : M (http dict) :=
  client <- get_client client_id ;;
  match client with
  | None => ret (HTTPException 404)
  | Some client => ret (Returns client)
  end.

Definition patch_client (client_id : UUID) (payload : ClientUpdate.t)
  : M (http dict) :=
  let data := ClientUpdate.model_dump payload in
  updated <- update_client client_id data ;;
  match updated with
  | None => ret (HTTPException 404)
  | Some updated => ret (Returns updated)
  end.

Definition delete_client (client_id : UUID) : M (http unit) :=
  ok <- delete_client client_id ;;
  if negb ok then ret (HTTPException 404) else ret (Returns tt).

Definition create_phone_for_client (client_id : UUID)
  (payload : PhoneCreate.t) : M (http Phone.t) :=
  try_except
    (phone <- add_phone client_id (PhoneCreate.number payload) ;;
     ret (Returns phone))
    any_exception
    (fun e => if is_ValueError e then ret (HTTPException 404)
              else ret (HTTPException 500)).

Definition get_phones_for_client (client_id : UUID) : M (http (list dict)) :=
  phones <- list_phones client_id ;;
  ret (Returns phones).

Definition create_passport_for_client (client_id : UUID)
  (payload : PassportCreate.t) : M (http Passport.t) :=
  try_except
    (passport <- create_passport client_id payload ;;
     ret (Returns passport))
    any_exception
    (fun e => if is_ValueError e then ret (HTTPException 404)
              else ret (HTTPException 500)).

Definition create_snils_for_client (client_id : UUID)
  (payload : SnilsCreate.t) : M (http Snils.t) :=
  try_except
    (snils <- create_snils client_id payload ;;
     ret (Returns snils))
    any_exception
    (fun e => if is_ValueError e then ret (HTTPException 404)
              else ret (HTTPException 500)).

End api_clients.

(** app/api/agents.py. *)
Module api_agents.


Definition api_get_agent_by_external (external_id : Z) : M (http dict) :=
  ag <- get_agent_by_external external_id ;;
  match ag with
  | None => ret (HTTPException 404)
  | Some ag => ret (Returns ag)
  end.

Definition api_get_agent (agent_id : UUID) : M (http dict) :=
  ag <- get_agent agent_id ;;
  match ag with
  | None => ret (HTTPException 404)
  | Some ag => ret (Returns ag)
  end.

Definition api_update_agent (agent_id : UUID) (payload : AgentUpdate.t)
  : M (http dict) :=
  res <- update_agent agent_id (AgentUpdate.model_dump payload) ;;
  match res with
  | None => ret (HTTPException 404)
  | Some res => ret (Returns res)
  end.

(** The test of [ok] raises nothing, so it reads the same inside the
    [try]. *)
Definition api_delete_agent (agent_id : UUID) : M (http unit) :=
  try_except
    (ok <- delete_agent agent_id ;;
     if negb ok then ret (HTTPException 404) else ret (Returns tt))
    is_ValueError
    (fun e => ret (HTTPException 400)).

End api_agents.

(** app/api/phones.py. *)
Module api_phones.

Definition api_delete_phone (phone_id : Z) : M (http unit) :=
  ok <- delete_phone phone_id ;;
  if negb ok then ret (HTTPException 404) else ret (Returns tt).

End api_phones.

(** app/api/status.py and app/api/stages.py. *)
Module api_status.

Definition api_get_status (status_code : string) : M (http Status.t) :=
  s <- get_status status_code ;;
  match s with
  | None => ret (HTTPException 404)
  | Some s => ret (Returns s)
  end.

Definition api_create_status (payload : StatusCreate.t) : M (http Status.t) :=
  try_except
    (st <- create_status payload ;;
     ret (Returns st))
    any_exception
    (fun e => ret (HTTPException 500)).

End api_status.

Module api_stages.

Definition api_get_stage (stage_code : string) : M (http Stage.t) :=
  s <- get_stage stage_code ;;
  match s with
  | None => ret (HTTPException 404)
  | Some s => ret (Returns s)
  end.

Definition api_create_stage (payload : StageCreate.t) : M (http Stage.t) :=
  try_except
    (stage <- create_stage payload ;;
     ret (Returns stage))
    any_exception
    (fun e => ret (HTTPException 500)).

End api_stages.

(** ** alembic revision e68e87708dcb: seed status and stage *)

Module seed_status_and_stage.

Definition statuses : list Status.t :=
  [Status.mk "WORKING" "Работа с документами";
   Status.mk "IN_PROGRESS" "Выполняется";
   Status.mk "CANCELLED" "Отменен";
   Status.mk "DONE" "Выполнено"].

Definition stages : list Stage.t :=
  [Stage.mk "S_INVAL" "Справка об инвалидности";
   Stage.mk "MTZ" "МТЗ";
   Stage.mk "IPRA" "ИПРА";
   Stage.mk "WAIT_CERT" "Ожидание сертификата";
   Stage.mk "PROB_CERT" "Пробитие сертификата";
   Stage.mk "WAIT_PARTS" "Ожидание комплектующих";
   Stage.mk "CONTRACT_SENT" "Договор отправлен на подпись";
   Stage.mk "PROSTHESIS" "Протезирование";
   Stage.mk "DONE" "Выполнен"].

(** [INSERT ... ON CONFLICT (status_code) DO NOTHING], row by row: a row
    whose key is taken is skipped, any other error ends the statement. *)
Fixpoint insert_statuses (rows : list Status.t) (t : Tables)
  : result Tables :=
  match rows with
  | [] => Ok t
  | r :: rows' =>
      match insert_status t r with
      | Ok t' => insert_statuses rows' t'
      | Err IntegrityError => insert_statuses rows' t
      | Err e => Err e
      end
  end.

Fixpoint insert_stages (rows : list Stage.t) (t : Tables) : result Tables :=
  match rows with
  | [] => Ok t
  | r :: rows' =>
      match insert_stage t r with
      | Ok t' => insert_stages rows' t'
      | Err IntegrityError => insert_stages rows' t
      | Err e => Err e
      end
  end.

Definition upgrade (t : Tables) : result Tables :=
  match insert_statuses statuses t with
  | Ok t' => insert_stages stages t'
  | Err e => Err e
  end.

Definition code_in (codes : list string) (code : string) : bool :=
  existsb (String.eqb code) codes.

(** [DELETE FROM "STATUS" WHERE status_code IN (...)].  CLIENT references
    STATUS without an [ON DELETE] action, so a status a client carries
    cannot go. *)
Definition delete_statuses (codes : list string) (t : Tables)
  : result Tables :=
  if existsb (fun s => code_in codes (Status.status_code s)
                       && existsb (fun c => String.eqb (Client.status_code c)
                                                       (Status.status_code s))
                                  (CLIENT t))
             (STATUS t)
  then Err IntegrityError
  else Ok (with_STATUS t
             (filter (fun s => negb (code_in codes (Status.status_code s)))
                     (STATUS t))).

(** [DELETE FROM "STAGE" WHERE stage_code IN (...)]: CLIENT and REMINDER
    reference STAGE. *)
Definition delete_stages (codes : list string) (t : Tables) : result Tables :=
  if existsb (fun s => code_in codes (Stage.stage_code s)
                       && (existsb (fun c => String.eqb
                                               (Client.current_stage c)
                                               (Stage.stage_code s))
                                   (CLIENT t)
                           || existsb (fun r => String.eqb
                                                  (Reminder.service_stage r)
                                                  (Stage.stage_code s))
                                      (REMINDER t)))
             (STAGE t)
  then Err IntegrityError
  else Ok (with_STAGE t
             (filter (fun s => negb (code_in codes (Stage.stage_code s)))
                     (STAGE t))).

(** The migration runs in one transaction: a failed statement leaves
    the tables as they were. *)
Definition downgrade (t : Tables) : result Tables :=
  match delete_statuses (map Status.status_code statuses) t with
  | Ok t' => delete_stages (map Stage.stage_code stages) t'
  | Err e => Err e
  end.

End seed_status_and_stage.

(** ** Referential integrity *)

(** Every foreign key of the tables resolves. *)
Definition references_resolve (t : Tables) : Prop :=
  Forall (fun c => client_refs_ok t c = true) (CLIENT t)
  /\ Forall (fun p => is_some (client_by_pk t (Phone.client_id p)) = true)
            (PHONE t)
  /\ Forall (fun p => is_some (client_by_pk t (Passport.client_id p)) = true)
            (PASSPORT t)
  /\ Forall (fun s => is_some (client_by_pk t (Snils.client_id s)) = true)
            (SNILS t)
  /\ Forall (fun x => is_some (client_by_pk t (Document.client_id x)) = true)
            (DOCUMENT t)
  /\ Forall (fun r => is_some (client_by_pk t (Reminder.client_id r)) = true
                      /\ is_some (stage_by_pk t (Reminder.service_stage r))
                         = true)
            (REMINDER t).

(** ** External ids and their sequences *)

(** Every stored external id is below the next value of its sequence. *)
Definition external_ids_below (t : Tables) (s : Sequences) : Prop :=
  Forall (fun a => Agent.external_id a < agent_external_id_seq s) (AGENT t)
  /\ Forall (fun c => Client.external_id c < client_external_id_seq s)
            (CLIENT t).

(** A statement that does not assign [external_id]. *)
Definition keeps_external_id (p : pending) : Prop :=
  match p with
  | UpdateAgent _ chs => forall v, ~ In (SetColumn Agent.c_external_id v) chs
  | UpdateClient _ chs =>
      forall v, ~ In (SetColumn Client.c_external_id v) chs
  | _ => True
  end.

(** ** app/crud.py: update_passport and update_snils *)

(** The columns of [models.Passport], as for Agent and Client. *)
Module PassportColumn.
Inductive column : Type :=
| c_passport_id | c_client_id | c_full_name | c_birth_date | c_birth_place
| c_series_number | c_issued_by | c_issue_date | c_department_code
| c_expiry_date | c_registration_address | c_version | c_created_at.

Definition column_name (c : column) : string :=
  match c with
  | c_passport_id => "passport_id"
  | c_client_id => "client_id"
  | c_full_name => "full_name"
  | c_birth_date => "birth_date"
  | c_birth_place => "birth_place"
  | c_series_number => "series_number"
  | c_issued_by => "issued_by"
  | c_issue_date => "issue_date"
  | c_department_code => "department_code"
  | c_expiry_date => "expiry_date"
  | c_registration_address => "registration_address"
  | c_version => "version"
  | c_created_at => "created_at"
  end.

Definition columns : list column :=
  [c_passport_id; c_client_id; c_full_name; c_birth_date; c_birth_place;
   c_series_number; c_issued_by; c_issue_date; c_department_code;
   c_expiry_date; c_registration_address; c_version; c_created_at].

Definition relationship_name : string := "client".

(** [getattr(passport, k)] on a column. *)
Definition get (c : column) (r : Passport.t) : value :=
  match c with
  | c_passport_id => VUuid (Passport.passport_id r)
  | c_client_id => VUuid (Passport.client_id r)
  | c_full_name => VStr (Passport.full_name r)
  | c_birth_date => opt_value VDate (Passport.birth_date r)
  | c_birth_place => VStr (Passport.birth_place r)
  | c_series_number => VStr (Passport.series_number r)
  | c_issued_by => VStr (Passport.issued_by r)
  | c_issue_date => VDate (Passport.issue_date r)
  | c_department_code => opt_value VStr (Passport.department_code r)
  | c_expiry_date => opt_value VDate (Passport.expiry_date r)
  | c_registration_address => VStr (Passport.registration_address r)
  | c_version => VInt (Passport.version r)
  | c_created_at => VTime (Passport.created_at r)
  end.

Definition set_passport_id (r : Passport.t) (x : UUID) : Passport.t :=
  Passport.mk
    x (Passport.client_id r) (Passport.full_name r) (Passport.birth_date r)
    (Passport.birth_place r) (Passport.series_number r)
    (Passport.issued_by r) (Passport.issue_date r)
    (Passport.department_code r) (Passport.expiry_date r)
    (Passport.registration_address r) (Passport.version r)
    (Passport.created_at r).
Definition set_client_id (r : Passport.t) (x : UUID) : Passport.t :=
  Passport.mk
    (Passport.passport_id r) x (Passport.full_name r) (Passport.birth_date r)
    (Passport.birth_place r) (Passport.series_number r)
    (Passport.issued_by r) (Passport.issue_date r)
    (Passport.department_code r) (Passport.expiry_date r)
    (Passport.registration_address r) (Passport.version r)
    (Passport.created_at r).
Definition set_full_name (r : Passport.t) (x : string) : Passport.t :=
  Passport.mk
    (Passport.passport_id r) (Passport.client_id r) x (Passport.birth_date r)
    (Passport.birth_place r) (Passport.series_number r)
    (Passport.issued_by r) (Passport.issue_date r)
    (Passport.department_code r) (Passport.expiry_date r)
    (Passport.registration_address r) (Passport.version r)
    (Passport.created_at r).
Definition set_birth_date (r : Passport.t) (x : option date) : Passport.t :=
  Passport.mk
    (Passport.passport_id r) (Passport.client_id r) (Passport.full_name r) x
    (Passport.birth_place r) (Passport.series_number r)
    (Passport.issued_by r) (Passport.issue_date r)
    (Passport.department_code r) (Passport.expiry_date r)
    (Passport.registration_address r) (Passport.version r)
    (Passport.created_at r).
Definition set_birth_place (r : Passport.t) (x : string) : Passport.t :=
  Passport.mk
    (Passport.passport_id r) (Passport.client_id r) (Passport.full_name r)
    (Passport.birth_date r) x (Passport.series_number r)
    (Passport.issued_by r) (Passport.issue_date r)
    (Passport.department_code r) (Passport.expiry_date r)
    (Passport.registration_address r) (Passport.version r)
    (Passport.created_at r).
Definition set_series_number (r : Passport.t) (x : string) : Passport.t :=
  Passport.mk
    (Passport.passport_id r) (Passport.client_id r) (Passport.full_name r)
    (Passport.birth_date r) (Passport.birth_place r) x (Passport.issued_by r)
    (Passport.issue_date r) (Passport.department_code r)
    (Passport.expiry_date r) (Passport.registration_address r)
    (Passport.version r) (Passport.created_at r).
Definition set_issued_by (r : Passport.t) (x : string) : Passport.t :=
  Passport.mk
    (Passport.passport_id r) (Passport.client_id r) (Passport.full_name r)
    (Passport.birth_date r) (Passport.birth_place r)
    (Passport.series_number r) x (Passport.issue_date r)
    (Passport.department_code r) (Passport.expiry_date r)
    (Passport.registration_address r) (Passport.version r)
    (Passport.created_at r).
Definition set_issue_date (r : Passport.t) (x : date) : Passport.t :=
  Passport.mk
    (Passport.passport_id r) (Passport.client_id r) (Passport.full_name r)
    (Passport.birth_date r) (Passport.birth_place r)
    (Passport.series_number r) (Passport.issued_by r) x
    (Passport.department_code r) (Passport.expiry_date r)
    (Passport.registration_address r) (Passport.version r)
    (Passport.created_at r).
Definition set_department_code (r : Passport.t) (x : option string) : Passport.t :=
  Passport.mk
    (Passport.passport_id r) (Passport.client_id r) (Passport.full_name r)
    (Passport.birth_date r) (Passport.birth_place r)
    (Passport.series_number r) (Passport.issued_by r) (Passport.issue_date r)
    x (Passport.expiry_date r) (Passport.registration_address r)
    (Passport.version r) (Passport.created_at r).
Definition set_expiry_date (r : Passport.t) (x : option date) : Passport.t :=
  Passport.mk
    (Passport.passport_id r) (Passport.client_id r) (Passport.full_name r)
    (Passport.birth_date r) (Passport.birth_place r)
    (Passport.series_number r) (Passport.issued_by r) (Passport.issue_date r)
    (Passport.department_code r) x (Passport.registration_address r)
    (Passport.version r) (Passport.created_at r).
Definition set_registration_address (r : Passport.t) (x : string) : Passport.t :=
  Passport.mk
    (Passport.passport_id r) (Passport.client_id r) (Passport.full_name r)
    (Passport.birth_date r) (Passport.birth_place r)
    (Passport.series_number r) (Passport.issued_by r) (Passport.issue_date r)
    (Passport.department_code r) (Passport.expiry_date r) x
    (Passport.version r) (Passport.created_at r).
Definition set_version (r : Passport.t) (x : Z) : Passport.t :=
  Passport.mk
    (Passport.passport_id r) (Passport.client_id r) (Passport.full_name r)
    (Passport.birth_date r) (Passport.birth_place r)
    (Passport.series_number r) (Passport.issued_by r) (Passport.issue_date r)
    (Passport.department_code r) (Passport.expiry_date r)
    (Passport.registration_address r) x (Passport.created_at r).
Definition set_created_at (r : Passport.t) (x : datetime) : Passport.t :=
  Passport.mk
    (Passport.passport_id r) (Passport.client_id r) (Passport.full_name r)
    (Passport.birth_date r) (Passport.birth_place r)
    (Passport.series_number r) (Passport.issued_by r) (Passport.issue_date r)
    (Passport.department_code r) (Passport.expiry_date r)
    (Passport.registration_address r) (Passport.version r) x.
End PassportColumn.

(** The columns of [models.Snils], as for Agent and Client. *)
Module SnilsColumn.
Inductive column : Type :=
| c_snils_id | c_client_id | c_number | c_issued_date | c_version
| c_created_at.

Definition column_name (c : column) : string :=
  match c with
  | c_snils_id => "snils_id"
  | c_client_id => "client_id"
  | c_number => "number"
  | c_issued_date => "issued_date"
  | c_version => "version"
  | c_created_at => "created_at"
  end.

Definition columns : list column :=
  [c_snils_id; c_client_id; c_number; c_issued_date; c_version;
   c_created_at].

Definition relationship_name : string := "client".

(** [getattr(snils, k)] on a column. *)
Definition get (c : column) (r : Snils.t) : value :=
  match c with
  | c_snils_id => VUuid (Snils.snils_id r)
  | c_client_id => VUuid (Snils.client_id r)
  | c_number => VStr (Snils.number r)
  | c_issued_date => opt_value VDate (Snils.issued_date r)
  | c_version => VInt (Snils.version r)
  | c_created_at => VTime (Snils.created_at r)
  end.

Definition set_snils_id (r : Snils.t) (x : UUID) : Snils.t :=
  Snils.mk
    x (Snils.client_id r) (Snils.number r) (Snils.issued_date r)
    (Snils.version r) (Snils.created_at r).
Definition set_client_id (r : Snils.t) (x : UUID) : Snils.t :=
  Snils.mk
    (Snils.snils_id r) x (Snils.number r) (Snils.issued_date r)
    (Snils.version r) (Snils.created_at r).
Definition set_number (r : Snils.t) (x : string) : Snils.t :=
  Snils.mk
    (Snils.snils_id r) (Snils.client_id r) x (Snils.issued_date r)
    (Snils.version r) (Snils.created_at r).
Definition set_issued_date (r : Snils.t) (x : option date) : Snils.t :=
  Snils.mk
    (Snils.snils_id r) (Snils.client_id r) (Snils.number r) x
    (Snils.version r) (Snils.created_at r).
Definition set_version (r : Snils.t) (x : Z) : Snils.t :=
  Snils.mk
    (Snils.snils_id r) (Snils.client_id r) (Snils.number r)
    (Snils.issued_date r) x (Snils.created_at r).
Definition set_created_at (r : Snils.t) (x : datetime) : Snils.t :=
  Snils.mk
    (Snils.snils_id r) (Snils.client_id r) (Snils.number r)
    (Snils.issued_date r) (Snils.version r) x.
End SnilsColumn.
(** Binding a Python value to a column, as for CLIENT: [None] on a
    [nullable=False] column violates NOT NULL, a value that is not of
    the column's Python type is refused by the statement. *)
Definition set_passport_column (c : PassportColumn.column) (v : value)
  (r : Passport.t) : result Passport.t :=
  match c, v with
  | PassportColumn.c_passport_id, VUuid x =>
      Ok (PassportColumn.set_passport_id r x)
  | PassportColumn.c_client_id, VUuid x =>
      Ok (PassportColumn.set_client_id r x)
  | PassportColumn.c_full_name, VStr x =>
      Ok (PassportColumn.set_full_name r x)
  | PassportColumn.c_birth_date, VDate x =>
      Ok (PassportColumn.set_birth_date r (Some x))
  | PassportColumn.c_birth_date, VNone =>
      Ok (PassportColumn.set_birth_date r None)
  | PassportColumn.c_birth_place, VStr x =>
      Ok (PassportColumn.set_birth_place r x)
  | PassportColumn.c_series_number, VStr x =>
      Ok (PassportColumn.set_series_number r x)
  | PassportColumn.c_issued_by, VStr x =>
      Ok (PassportColumn.set_issued_by r x)
  | PassportColumn.c_issue_date, VDate x =>
      Ok (PassportColumn.set_issue_date r x)
  | PassportColumn.c_department_code, VStr x =>
      Ok (PassportColumn.set_department_code r (Some x))
  | PassportColumn.c_department_code, VNone =>
      Ok (PassportColumn.set_department_code r None)
  | PassportColumn.c_expiry_date, VDate x =>
      Ok (PassportColumn.set_expiry_date r (Some x))
  | PassportColumn.c_expiry_date, VNone =>
      Ok (PassportColumn.set_expiry_date r None)
  | PassportColumn.c_registration_address, VStr x =>
      Ok (PassportColumn.set_registration_address r x)
  | PassportColumn.c_version, VInt x =>
      Ok (PassportColumn.set_version r x)
  | PassportColumn.c_created_at, VTime x =>
      Ok (PassportColumn.set_created_at r x)
  | _, VNone => Err IntegrityError
  | _, _ => Err DataError
  end.

Definition passport_eqb (a b : Passport.t) : bool :=
  Z.eqb (Passport.passport_id a) (Passport.passport_id b)
  && Z.eqb (Passport.client_id a) (Passport.client_id b)
  && String.eqb (Passport.full_name a) (Passport.full_name b)
  && opt_eqb Z.eqb (Passport.birth_date a) (Passport.birth_date b)
  && String.eqb (Passport.birth_place a) (Passport.birth_place b)
  && String.eqb (Passport.series_number a) (Passport.series_number b)
  && String.eqb (Passport.issued_by a) (Passport.issued_by b)
  && Z.eqb (Passport.issue_date a) (Passport.issue_date b)
  && opt_eqb String.eqb (Passport.department_code a)
       (Passport.department_code b)
  && opt_eqb Z.eqb (Passport.expiry_date a) (Passport.expiry_date b)
  && String.eqb (Passport.registration_address a)
       (Passport.registration_address b)
  && Z.eqb (Passport.version a) (Passport.version b)
  && Z.eqb (Passport.created_at a) (Passport.created_at b).
Definition set_snils_column (c : SnilsColumn.column) (v : value)
  (r : Snils.t) : result Snils.t :=
  match c, v with
  | SnilsColumn.c_snils_id, VUuid x =>
      Ok (SnilsColumn.set_snils_id r x)
  | SnilsColumn.c_client_id, VUuid x =>
      Ok (SnilsColumn.set_client_id r x)
  | SnilsColumn.c_number, VStr x =>
      Ok (SnilsColumn.set_number r x)
  | SnilsColumn.c_issued_date, VDate x =>
      Ok (SnilsColumn.set_issued_date r (Some x))
  | SnilsColumn.c_issued_date, VNone =>
      Ok (SnilsColumn.set_issued_date r None)
  | SnilsColumn.c_version, VInt x =>
      Ok (SnilsColumn.set_version r x)
  | SnilsColumn.c_created_at, VTime x =>
      Ok (SnilsColumn.set_created_at r x)
  | _, VNone => Err IntegrityError
  | _, _ => Err DataError
  end.

Definition snils_eqb (a b : Snils.t) : bool :=
  Z.eqb (Snils.snils_id a) (Snils.snils_id b)
  && Z.eqb (Snils.client_id a) (Snils.client_id b)
  && String.eqb (Snils.number a) (Snils.number b)
  && opt_eqb Z.eqb (Snils.issued_date a) (Snils.issued_date b)
  && Z.eqb (Snils.version a) (Snils.version b)
  && Z.eqb (Snils.created_at a) (Snils.created_at b).

Definition passport_change := change PassportColumn.column unit.
Definition snils_change := change SnilsColumn.column unit.

(** The mapped attributes of [models.Passport] and [models.Snils]:
    the columns and the relationship [client]. *)
Definition passport_attribute (k : string)
  : option (PassportColumn.column + unit) :=
  match find (fun c => String.eqb (PassportColumn.column_name c) k)
             PassportColumn.columns with
  | Some c => Some (inl c)
  | None =>
      if String.eqb PassportColumn.relationship_name k
      then Some (inr tt) else None
  end.

Definition snils_attribute (k : string) : option (SnilsColumn.column + unit) :=
  match find (fun c => String.eqb (SnilsColumn.column_name c) k)
             SnilsColumn.columns with
  | Some c => Some (inl c)
  | None =>
      if String.eqb SnilsColumn.relationship_name k
      then Some (inr tt) else None
  end.

(** [setattr(obj, k, v)] on a mapped attribute.  The scalar relationship
    [client] takes a mapped instance or [None]. *)
Definition setattr_document {column : Type} (a : column + unit) (v : value)
  : result (change column unit) :=
  match a with
  | inl c => Ok (SetColumn c v)
  | inr r =>
      match v with
      | VNone => Ok (ClearReference r)
      | _ => Err AttributeError
      end
  end.

(** [for key, value in payload.items(): setattr(passport, key, value)].
    There is no [hasattr] test here: a key that is no mapped attribute
    becomes a plain attribute of the instance, which no flush sees. *)
Fixpoint patch_passport (payload : dict) : result (list passport_change) :=
  match payload with
  | [] => Ok []
  | (k, v) :: payload' =>
      match passport_attribute k with
      | Some a =>
          match setattr_document a v with
          | Ok ch =>
              match patch_passport payload' with
              | Ok chs => Ok (ch :: chs)
              | Err e => Err e
              end
          | Err e => Err e
          end
      | None => patch_passport payload'
      end
  end.

Fixpoint patch_snils (payload : dict) : result (list snils_change) :=
  match payload with
  | [] => Ok []
  | (k, v) :: payload' =>
      match snils_attribute k with
      | Some a =>
          match setattr_document a v with
          | Ok ch =>
              match patch_snils payload' with
              | Ok chs => Ok (ch :: chs)
              | Err e => Err e
              end
          | Err e => Err e
          end
      | None => patch_snils payload'
      end
  end.

(** The changes of a dirty instance, folded over the loaded row.
    Clearing [client] nulls [client_id], which is NOT NULL. *)
Fixpoint apply_passport_changes (chs : list passport_change) (r : Passport.t)
  : result Passport.t :=
  match chs with
  | [] => Ok r
  | SetColumn c v :: chs' =>
      match set_passport_column c v r with
      | Ok r' => apply_passport_changes chs' r'
      | Err e => Err e
      end
  | EmptyCollection _ :: chs' => apply_passport_changes chs' r
  | ClearReference _ :: _ => Err IntegrityError
  end.

Fixpoint apply_snils_changes (chs : list snils_change) (r : Snils.t)
  : result Snils.t :=
  match chs with
  | [] => Ok r
  | SetColumn c v :: chs' =>
      match set_snils_column c v r with
      | Ok r' => apply_snils_changes chs' r'
      | Err e => Err e
      end
  | EmptyCollection _ :: chs' => apply_snils_changes chs' r
  | ClearReference _ :: _ => Err IntegrityError
  end.

(** [UPDATE "PASSPORT" SET ... WHERE passport_id = :id]. *)
Definition update_passport_row (t : Tables) (id : UUID) (new : Passport.t)
  : result Tables :=
  if negb (fits 20 (Passport.series_number new)
           && fits_opt 7 (Passport.department_code new))
  then Err DataError
  else if (negb (Passport.passport_id new =? id)
           && is_some (passport_by_pk t (Passport.passport_id new)))
          || negb (is_some (client_by_pk t (Passport.client_id new)))
  then Err IntegrityError
  else Ok (with_PASSPORT t
             (map (fun p => if Passport.passport_id p =? id then new else p)
                  (PASSPORT t))).

(** [UPDATE "SNILS" SET ... WHERE snils_id = :id]. *)
Definition update_snils_row (t : Tables) (id : UUID) (new : Snils.t)
  : result Tables :=
  if negb (fits 14 (Snils.number new)) then Err DataError
  else if (negb (Snils.snils_id new =? id)
           && is_some (snils_by_pk t (Snils.snils_id new)))
          || negb (is_some (client_by_pk t (Snils.client_id new)))
  then Err IntegrityError
  else Ok (with_SNILS t
             (map (fun s => if Snils.snils_id s =? id then new else s)
                  (SNILS t))).

(** Flushing a dirty Passport or Snils: an UPDATE when a column differs
    from the loaded row.  Neither model has an [onupdate] column. *)
Definition flush_update_passport (t : Tables) (id : UUID)
  (chs : list passport_change) : result Tables :=
  match passport_by_pk t id with
  | None => Err StaleDataError
  | Some old =>
      match apply_passport_changes chs old with
      | Err x => Err x
      | Ok new =>
          if passport_eqb old new then Ok t else update_passport_row t id new
      end
  end.

Definition flush_update_snils (t : Tables) (id : UUID)
  (chs : list snils_change) : result Tables :=
  match snils_by_pk t id with
  | None => Err StaleDataError
  | Some old =>
      match apply_snils_changes chs old with
      | Err x => Err x
      | Ok new =>
          if snils_eqb old new then Ok t else update_snils_row t id new
      end
  end.

(** [db.commit()] with one dirty instance in the session: the flush
    issues [stmt], the UPDATE of that instance, and a failed flush rolls
    the transaction back. *)
Definition db_commit_dirty (stmt : Tables -> result Tables) : M unit :=
  fun s =>
    match stmt (view s) with
    | Ok t' => db_commit (mkSession (env s) (db s) t' (unit_of_work s))
    | Err x => (Err x, mkSession (env s) (db s) (tables (db s)) [])
    end.

(** The primary key of the instance once the changes are flushed. *)
Definition passport_identity_after (id : UUID) (chs : list passport_change)
  : UUID :=
  fold_left (fun acc ch =>
               match ch with
               | SetColumn PassportColumn.c_passport_id (VUuid u) => u
               | _ => acc
               end) chs id.

Definition snils_identity_after (id : UUID) (chs : list snils_change) : UUID :=
  fold_left (fun acc ch =>
               match ch with
               | SetColumn SnilsColumn.c_snils_id (VUuid u) => u
               | _ => acc
               end) chs id.

(** [db.add(passport)] on an instance the session loaded does nothing. *)
Definition update_passport (passport_id : UUID) (payload : dict)
  : M (option Passport.t) :=
  passport <- query (fun t => passport_by_pk t passport_id) ;;
  match passport with
  | None => ret None
  | Some _ =>
      chs <- lift (patch_passport payload) ;;
      try_except
        (db_commit_dirty (fun t => flush_update_passport t passport_id chs) ;;
         passport <- db_refresh
                       (fun t => passport_by_pk t
                                   (passport_identity_after passport_id chs)) ;;
         ret (Some passport))
        any_exception
        (fun e => db_rollback ;; raise e)
  end.

Definition update_snils (snils_id : UUID) (payload : dict)
  : M (option Snils.t) :=
  snils <- query (fun t => snils_by_pk t snils_id) ;;
  match snils with
  | None => ret None
  | Some _ =>
      chs <- lift (patch_snils payload) ;;
      try_except
        (db_commit_dirty (fun t => flush_update_snils t snils_id chs) ;;
         snils <- db_refresh
                    (fun t => snils_by_pk t
                                (snils_identity_after snils_id chs)) ;;
         ret (Some snils))
        any_exception
        (fun e => db_rollback ;; raise e)
  end.

(** app/schemas.py: [PassportUpdate] and [SnilsUpdate]. *)
Module PassportUpdate.
Record t := mk {
  full_name : field string;
  birth_date : field date;
  birth_place : field string;
  series_number : field string;
  issued_by : field string;
  issue_date : field date;
  department_code : field string;
  expiry_date : field date;
  registration_address : field string }.

Definition model_dump (payload : t) : dict :=
  dump_field "full_name" VStr (full_name payload)
  ++ dump_field "birth_date" VDate (birth_date payload)
  ++ dump_field "birth_place" VStr (birth_place payload)
  ++ dump_field "series_number" VStr (series_number payload)
  ++ dump_field "issued_by" VStr (issued_by payload)
  ++ dump_field "issue_date" VDate (issue_date payload)
  ++ dump_field "department_code" VStr (department_code payload)
  ++ dump_field "expiry_date" VDate (expiry_date payload)
  ++ dump_field "registration_address" VStr (registration_address payload).
End PassportUpdate.

Module SnilsUpdate.
Record t := mk {
  number : field string;
  issued_date : field date }.

Definition model_dump (payload : t) : dict :=
  dump_field "number" VStr (number payload)
  ++ dump_field "issued_date" VDate (issued_date payload).
End SnilsUpdate.

(** app/api/passports.py and app/api/snils.py. *)
Module api_passports.

Definition api_update_passport (passport_id : UUID)
  (payload : PassportUpdate.t) : M (http Passport.t) :=
  let update_data := PassportUpdate.model_dump payload in
  updated_passport <- update_passport passport_id update_data ;;
  match updated_passport with
  | None => ret (HTTPException 404)
  | Some updated_passport => ret (Returns updated_passport)
  end.

End api_passports.

Module api_snils.

Definition api_update_snils (snils_id : UUID) (payload : SnilsUpdate.t)
  : M (http Snils.t) :=
  let update_data := SnilsUpdate.model_dump payload in
  updated_snils <- update_snils snils_id update_data ;;
  match updated_snils with
  | None => ret (HTTPException 404)
  | Some updated_snils => ret (Returns updated_snils)
  end.

End api_snils.

(** ** A small database for concrete runs *)

Definition smith : AgentCreate.t :=
  AgentCreate.mk "Smith" (Some "Jane") None "A" "A" "1234567890"
    "123456789012345" "12345678901234567890" None "123456789".

Definition ivanov : ClientCreate.t :=
  ClientCreate.mk "Ivanov" "Ivan" None "new" "intake" 100 None None
    (Some [PhoneCreate.mk "+1000"; PhoneCreate.mk "+1001"]).

Definition ivanov_passport : PassportCreate.t :=
  PassportCreate.mk "Ivanov Ivan" (Some 19900101) "Moscow" "4510 123456"
    "OVD" 20100101 (Some "770-001") None "Moscow, Tverskaya 1".

(** Agent 100, the lookup codes, and client 200 with two phones. *)
Definition sample_trace : list (Env * call) :=
  [(mkEnv 100 5000, Call_create_agent smith);
   (mkEnv 101 5001, Call_create_status (StatusCreate.mk "new" "New"));
   (mkEnv 102 5002, Call_create_stage (StageCreate.mk "intake" "Intake"));
   (mkEnv 200 6000, Call_create_client ivanov)].

Definition sample_db : Database :=
  Eval vm_compute in run sample_trace empty_database.

Definition sample_agent : Agent.t :=
  Agent.mk 100 1 "Smith" "Jane" (Some EmptyString) "A" "A" "1234567890"
    "123456789012345" "12345678901234567890" "12345678901234567890"
    "123456789".

Definition sample_client : Client.t :=
  Client.mk 200 1 "Ivanov" "Ivan" (Some EmptyString) "new" "intake" 100
    None 6000 6000 None.

(** The same database with a passport (key 400) and a SNILS (key 401)
    of client 200. *)
Definition documents_db : Database :=
  Eval vm_compute in
    snd (run_request (mkEnv 401 9501)
           (create_snils 200 (SnilsCreate.mk "123-456-789 00" (Some 20010203)))
           (snd (run_request (mkEnv 400 9500)
                   (create_passport 200 ivanov_passport) sample_db))).

Definition sample_passport : Passport.t :=
  Passport.mk 400 200 "Ivanov Ivan" (Some 19900101) "Moscow" "4510 123456"
    "OVD" 20100101 (Some "770-001") None "Moscow, Tverskaya 1" 1 9500.

Definition sample_snils : Snils.t :=
  Snils.mk 401 200 "123-456-789 00" (Some 20010203) 1 9501.

(** * Properties *)

(** ** Lookups and lists *)

Lemma is_nil_false_of_In {A} (x : A) (l : list A) :
  In x l -> is_nil l = false.
Proof. destruct l; [contradiction | reflexivity]. Qed.

Lemma find_app_some {A} (f : A -> bool) (l l' : list A) (a : A) :
  find f l = Some a -> find f (l ++ l') = Some a.
Proof.
  induction l as [|x l IH]; simpl; [discriminate|].
  destruct (f x); auto.
Qed.

Lemma find_app_none {A} (f : A -> bool) (l l' : list A) :
  find f l = None -> find f (l ++ l') = find f l'.
Proof.
  induction l as [|x l IH]; simpl; [reflexivity|].
  destruct (f x); [discriminate | auto].
Qed.

Lemma find_filter_neg {A} (f g : A -> bool) (l : list A) :
  (forall a, f a = true -> g a = false) ->
  find f (filter g l) = None.
Proof.
  intros H. induction l as [|x l IH]; simpl; [reflexivity|].
  destruct (g x) eqn:G; [|assumption].
  simpl. destruct (f x) eqn:F; [|assumption].
  rewrite (H x F) in G. discriminate.
Qed.

Lemma filter_filter_neg {A} (f : A -> bool) (l : list A) :
  filter f (filter (fun a => negb (f a)) l) = [].
Proof.
  induction l as [|x l IH]; simpl; [reflexivity|].
  destruct (f x) eqn:F; simpl; [assumption|].
  rewrite F. assumption.
Qed.

Lemma is_some_true {A} (o : option A) :
  is_some o = true -> exists a, o = Some a.
Proof. destruct o; [eauto | discriminate]. Qed.

Lemma is_some_false {A} (o : option A) : is_some o = false -> o = None.
Proof. destruct o; [discriminate | reflexivity]. Qed.

(** ** Running a session *)

Lemma flush_all_one (e : Env) (p : pending) (t : Tables) (s : Sequences) :
  flush_all e [p] t s = flush_one e p t s.
Proof. simpl. destruct (flush_one e p t s) as [[t'|x] s']; reflexivity. Qed.

(** Queuing the phones of a new client. *)
Lemma for_each_db_add {A} (f : A -> pending) (l : list A) (s : Session) :
  for_each l (fun a => db_add (f a)) s
  = (Ok tt, mkSession (env s) (db s) (view s) (unit_of_work s ++ map f l)).
Proof.
  revert s. induction l as [|a l IH]; intros s; simpl.
  - unfold ret. rewrite app_nil_r. destruct s; reflexivity.
  - unfold bind, db_add at 1. rewrite IH. simpl.
    rewrite <- app_assoc. reflexivity.
Qed.

(** ** delete_agent *)

Lemma delete_agent_run (e : Env) (d : Database) (agent_id : UUID) :
  run_request e (delete_agent agent_id) d =
  match agent_by_pk (tables d) agent_id with
  | None => (Ok false, d)
  | Some _ =>
      if is_nil (clients_of_agent (tables d) agent_id)
      then (Ok true,
            mkDatabase
              (with_AGENT (tables d)
                 (filter (fun a => negb (Agent.agent_id a =? agent_id))
                         (AGENT (tables d))))
              (seqs d))
      else (Err agent_has_linked_clients, d)
  end.
Proof.
  unfold run_request, delete_agent, bind, query. simpl.
  destruct (agent_by_pk (tables d) agent_id) as [a|]; simpl.
  2:{ destruct d; reflexivity. }
  destruct (clients_of_agent (tables d) agent_id) as [|c l] eqn:E; simpl.
  - unfold try_except, bind, db_delete, db_add, db_commit, bind, db_flush.
    simpl. unfold delete_agent_row. rewrite E. simpl. reflexivity.
  - unfold raise. destruct d; reflexivity.
Qed.

(** C4: deleting an agent that a Client references fails with the
    ConflictError of crud.py and leaves the database (the Agent row, every
    Client row, every other table and the sequences) exactly as it was. *)
Theorem delete_agent_with_clients_refused
  (e : Env) (d : Database) (agent_id : UUID) (a : Agent.t) (c : Client.t) :
  agent_by_pk (tables d) agent_id = Some a ->
  In c (CLIENT (tables d)) ->
  Client.agent_id c = agent_id ->
  run_request e (delete_agent agent_id) d = (Err agent_has_linked_clients, d)
  /\ ConflictError agent_has_linked_clients.
Proof.
  intros Ha Hc Hid. split; [|reflexivity].
  rewrite delete_agent_run, Ha.
  assert (In c (clients_of_agent (tables d) agent_id)) as Hin.
  { apply filter_In. split; [assumption|]. apply Z.eqb_eq. assumption. }
  rewrite (is_nil_false_of_In _ _ Hin). reflexivity.
Qed.

Lemma delete_agent_with_clients_refused_witness :
  run_request (mkEnv 300 9000) (delete_agent 100) sample_db
  = (Err agent_has_linked_clients, sample_db)
  /\ ConflictError agent_has_linked_clients.
Proof.
  apply (delete_agent_with_clients_refused
           (mkEnv 300 9000) sample_db 100 sample_agent sample_client).
  - reflexivity.
  - left. reflexivity.
  - reflexivity.
Defined.

(** ** delete_client *)

Lemma delete_client_run (e : Env) (d : Database) (client_id : UUID) :
  run_request e (delete_client client_id) d =
  match client_by_pk (tables d) client_id with
  | None => (Ok false, d)
  | Some _ =>
      (Ok true, mkDatabase (delete_client_row (tables d) client_id) (seqs d))
  end.
Proof.
  unfold run_request, delete_client, bind, query. simpl.
  destruct (client_by_pk (tables d) client_id) as [c|]; simpl.
  - reflexivity.
  - destruct d; reflexivity.
Qed.

Section Cascade.

Variables (t : Tables) (id : UUID).

Lemma delete_client_row_client :
  client_by_pk (delete_client_row t id) id = None.
Proof.
  apply find_filter_neg. intros a H. rewrite H. reflexivity.
Qed.

Lemma delete_client_row_phones : phones_of (delete_client_row t id) id = [].
Proof. apply (filter_filter_neg (fun p => Phone.client_id p =? id)). Qed.

Lemma delete_client_row_passports :
  passports_of (delete_client_row t id) id = [].
Proof. apply (filter_filter_neg (fun p => Passport.client_id p =? id)). Qed.

Lemma delete_client_row_snils : snils_of (delete_client_row t id) id = [].
Proof. apply (filter_filter_neg (fun p => Snils.client_id p =? id)). Qed.

Lemma delete_client_row_documents :
  documents_of (delete_client_row t id) id = [].
Proof. apply (filter_filter_neg (fun p => Document.client_id p =? id)). Qed.

Lemma delete_client_row_reminders :
  reminders_of (delete_client_row t id) id = [].
Proof. apply (filter_filter_neg (fun p => Reminder.client_id p =? id)). Qed.

End Cascade.

(** Rows of other clients survive the cascade. *)
Lemma delete_client_row_keeps_phone (t : Tables) (id : UUID) (p : Phone.t) :
  In p (PHONE (delete_client_row t id))
  <-> In p (PHONE t) /\ Phone.client_id p <> id.
Proof.
  simpl. rewrite filter_In, negb_true_iff, Z.eqb_neq. reflexivity.
Qed.

(** C5: [delete_client] on an existing Client returns [True] and removes
    the Client with every Phone, Passport, Snils, Document and Reminder
    that references it, leaving no row of these tables with the deleted
    client id and keeping the Phone rows of the other clients; on an id
    that does not exist it returns [False] (the route's NotFound) and the
    database is unchanged. *)
Theorem delete_client_cascades (e : Env) (d : Database) (client_id : UUID) :
  (forall c, client_by_pk (tables d) client_id = Some c ->
     exists d',
       run_request e (delete_client client_id) d = (Ok true, d')
       /\ client_by_pk (tables d') client_id = None
       /\ (forall c', In c' (CLIENT (tables d')) ->
                      Client.client_id c' <> client_id)
       /\ phones_of (tables d') client_id = []
       /\ passports_of (tables d') client_id = []
       /\ snils_of (tables d') client_id = []
       /\ documents_of (tables d') client_id = []
       /\ reminders_of (tables d') client_id = []
       /\ (forall p, In p (PHONE (tables d'))
                     <-> In p (PHONE (tables d))
                         /\ Phone.client_id p <> client_id)
       /\ AGENT (tables d') = AGENT (tables d))
  /\ (client_by_pk (tables d) client_id = None ->
      run_request e (delete_client client_id) d = (Ok false, d)).
Proof.
  split.
  - intros c Hc.
    exists (mkDatabase (delete_client_row (tables d) client_id) (seqs d)).
    rewrite delete_client_run, Hc. simpl tables.
    split; [reflexivity|].
    split; [apply delete_client_row_client|].
    split.
    { intros c' Hin. simpl in Hin. apply filter_In in Hin.
      destruct Hin as [_ Hne]. apply negb_true_iff, Z.eqb_neq in Hne.
      exact Hne. }
    split; [apply delete_client_row_phones|].
    split; [apply delete_client_row_passports|].
    split; [apply delete_client_row_snils|].
    split; [apply delete_client_row_documents|].
    split; [apply delete_client_row_reminders|].
    split; [intros p; apply delete_client_row_keeps_phone | reflexivity].
  - intros Hc. rewrite delete_client_run, Hc. reflexivity.
Qed.

Lemma delete_client_cascades_witness :
  (exists d',
     run_request (mkEnv 300 9000) (delete_client 200) sample_db = (Ok true, d')
     /\ phones_of (tables d') 200 = [])
  /\ run_request (mkEnv 300 9000) (delete_client 201) sample_db
     = (Ok false, sample_db).
Proof.
  destruct (delete_client_cascades (mkEnv 300 9000) sample_db 200)
    as [Hfound _].
  destruct (delete_client_cascades (mkEnv 300 9000) sample_db 201)
    as [_ Habsent].
  split.
  - destruct (Hfound sample_client eq_refl) as [d' [Hrun [_ [_ [Hp _]]]]].
    exists d'. split; assumption.
  - apply Habsent. reflexivity.
Defined.

(** ** Status and stage summaries *)

Lemma dossier_status (t : Tables) (client : ClientObj) :
  dict_get "status" (_client_to_dict t client)
  = Some (if truthy (Client.status_code (row client))
          then opt_value (fun st => VDict (status_summary st))
                 (status_by_pk t (Client.status_code (row client)))
          else VNone).
Proof. reflexivity. Qed.

Lemma dossier_stage (t : Tables) (client : ClientObj) :
  dict_get "stage" (_client_to_dict t client)
  = Some (if truthy (Client.current_stage (row client))
          then opt_value (fun sg => VDict (stage_summary sg))
                 (stage_by_pk t (Client.current_stage (row client)))
          else VNone).
Proof. reflexivity. Qed.

Lemma truthy_nonempty (s : string) : s <> EmptyString -> truthy s = true.
Proof.
  intros H. unfold truthy. apply negb_true_iff.
  apply String.eqb_neq. assumption.
Qed.

Lemma status_by_pk_code (t : Tables) (code : string) (st : Status.t) :
  status_by_pk t code = Some st -> Status.status_code st = code.
Proof.
  intros H. apply find_some in H. destruct H as [_ H].
  apply String.eqb_eq. assumption.
Qed.

Lemma stage_by_pk_code (t : Tables) (code : string) (sg : Stage.t) :
  stage_by_pk t code = Some sg -> Stage.stage_code sg = code.
Proof.
  intros H. apply find_some in H. destruct H as [_ H].
  apply String.eqb_eq. assumption.
Qed.

(** C9, as stated, fails on the empty code: a STATUS row keyed by the
    empty string matches a Client whose status code is empty, yet the
    dossier carries no status summary. *)
Lemma status_summary_counterexample :
  ~ (forall (t : Tables) (client : ClientObj) (st : Status.t),
        status_by_pk t (Client.status_code (row client)) = Some st ->
        dict_get "status" (_client_to_dict t client)
        = Some (VDict [("status_code", VStr (Status.status_code st));
                       ("description", VStr (Status.description st))])).
Proof.
  intros H.
  specialize (H (with_STATUS empty_tables [Status.mk EmptyString "blank"])
                (mkClientObj
                   (Client.mk 1 1 "Ivanov" "Ivan" None EmptyString "intake" 100
                              None 0 0 None)
                   None None None None)
                (Status.mk EmptyString "blank") eq_refl).
  discriminate H.
Qed.

(** C9 (amended): dossier assembly is a total function, so it always
    succeeds.  A status (stage) code without a row in STATUS (STAGE) gives
    a null summary; a non-empty code with a row gives a summary carrying
    that row's code, which is the Client's code, and its description; an
    empty code gives a null summary without any lookup. *)
Theorem lookup_summaries (t : Tables) (client : ClientObj) :
  let c := row client in
  let dossier := _client_to_dict t client in
  (status_by_pk t (Client.status_code c) = None ->
   dict_get "status" dossier = Some VNone)
  /\ (forall st, status_by_pk t (Client.status_code c) = Some st ->
                 Client.status_code c <> EmptyString ->
                 dict_get "status" dossier
                 = Some (VDict [("status_code", VStr (Status.status_code st));
                                ("description", VStr (Status.description st))])
                 /\ Status.status_code st = Client.status_code c)
  /\ (Client.status_code c = EmptyString ->
      dict_get "status" dossier = Some VNone)
  /\ (stage_by_pk t (Client.current_stage c) = None ->
      dict_get "stage" dossier = Some VNone)
  /\ (forall sg, stage_by_pk t (Client.current_stage c) = Some sg ->
                 Client.current_stage c <> EmptyString ->
                 dict_get "stage" dossier
                 = Some (VDict [("stage_code", VStr (Stage.stage_code sg));
                                ("description", VStr (Stage.description sg))])
                 /\ Stage.stage_code sg = Client.current_stage c)
  /\ (Client.current_stage c = EmptyString ->
      dict_get "stage" dossier = Some VNone).
Proof.
  intros c dossier. subst c dossier.
  rewrite dossier_status, dossier_stage.
  repeat split.
  - intros H. rewrite H. destruct (truthy _); reflexivity.
  - rewrite H, (truthy_nonempty _ H0). reflexivity.
  - eapply status_by_pk_code; eassumption.
  - intros H. rewrite H. reflexivity.
  - intros H. rewrite H. destruct (truthy _); reflexivity.
  - rewrite H, (truthy_nonempty _ H0). reflexivity.
  - eapply stage_by_pk_code; eassumption.
  - intros H. rewrite H. reflexivity.
Qed.

Lemma lookup_summaries_witness :
  dict_get "status"
    (_client_to_dict (tables sample_db)
       (load selectinload_all (tables sample_db) sample_client))
  = Some (VDict [("status_code", VStr "new"); ("description", VStr "New")])
  /\ dict_get "stage"
       (_client_to_dict (tables sample_db)
          (load selectinload_all (tables sample_db)
             (Client.set_current_stage sample_client "gone")))
     = Some VNone.
Proof.
  split.
  - destruct (lookup_summaries (tables sample_db)
                (load selectinload_all (tables sample_db) sample_client))
      as [_ [H _]].
    apply (H (Status.mk "new" "New")).
    + reflexivity.
    + discriminate.
  - destruct (lookup_summaries (tables sample_db)
                (load selectinload_all (tables sample_db)
                   (Client.set_current_stage sample_client "gone")))
      as [_ [_ [_ [H _]]]].
    apply H. reflexivity.
Defined.

(** ** INSERT statements *)

Lemma insert_agent_ok (t t' : Tables) (r : Agent.t) :
  insert_agent t r = Ok t' ->
  t' = with_AGENT t (AGENT t ++ [r])
  /\ agent_by_pk t (Agent.agent_id r) = None
  /\ ~ In (Agent.external_id r) (map Agent.external_id (AGENT t)).
Proof.
  unfold insert_agent. destruct (negb (agent_fits r)); [discriminate|].
  destruct (is_some (agent_by_pk t (Agent.agent_id r))) eqn:Hpk;
    [discriminate|].
  destruct (existsb _ (AGENT t)) eqn:Hext; [discriminate|].
  simpl. intros H. injection H as <-.
  split; [reflexivity|]. split; [apply is_some_false; assumption|].
  intros Hin. apply in_map_iff in Hin. destruct Hin as [b [Hb Hin]].
  assert (existsb (fun b => Agent.external_id b =? Agent.external_id r)
                  (AGENT t) = true) as Hex.
  { apply existsb_exists. exists b. split; [assumption|].
    apply Z.eqb_eq. assumption. }
  rewrite Hex in Hext. discriminate.
Qed.

Lemma insert_client_ok (t t' : Tables) (r : Client.t) :
  insert_client t r = Ok t' ->
  t' = with_CLIENT t (CLIENT t ++ [r])
  /\ client_by_pk t (Client.client_id r) = None
  /\ ~ In (Client.external_id r) (map Client.external_id (CLIENT t))
  /\ client_refs_ok t r = true.
Proof.
  unfold insert_client. destruct (negb (client_fits r)); [discriminate|].
  destruct (is_some (client_by_pk t (Client.client_id r))) eqn:Hpk;
    [discriminate|].
  destruct (existsb _ (CLIENT t)) eqn:Hext; [discriminate|].
  destruct (client_refs_ok t r) eqn:Hrefs; [|discriminate].
  simpl. intros H. injection H as <-.
  split; [reflexivity|]. split; [apply is_some_false; assumption|].
  split; [|reflexivity].
  intros Hin. apply in_map_iff in Hin. destruct Hin as [b [Hb Hin]].
  assert (existsb (fun b => Client.external_id b =? Client.external_id r)
                  (CLIENT t) = true) as Hex.
  { apply existsb_exists. exists b. split; [assumption|].
    apply Z.eqb_eq. assumption. }
  rewrite Hex in Hext. discriminate.
Qed.

Lemma insert_phone_ok (t t' : Tables) (p : Phone.t) :
  insert_phone t p = Ok t' ->
  t' = with_PHONE t (PHONE t ++ [p])
  /\ phone_by_pk t (Phone.phone_id p) = None.
Proof.
  unfold insert_phone. destruct (negb (fits 32 (Phone.number p)));
    [discriminate|].
  destruct (is_some (phone_by_pk t (Phone.phone_id p))) eqn:Hpk;
    [discriminate|].
  destruct (negb _); [discriminate|].
  simpl. intros H. injection H as <-.
  split; [reflexivity | apply is_some_false; assumption].
Qed.

Lemma agent_by_pk_appended (t : Tables) (r : Agent.t) :
  agent_by_pk t (Agent.agent_id r) = None ->
  agent_by_pk (with_AGENT t (AGENT t ++ [r])) (Agent.agent_id r) = Some r.
Proof.
  intros H. unfold agent_by_pk in *. simpl.
  rewrite find_app_none by assumption. simpl.
  rewrite Z.eqb_refl. reflexivity.
Qed.

Lemma client_by_pk_appended (t : Tables) (r : Client.t) :
  client_by_pk t (Client.client_id r) = None ->
  client_by_pk (with_CLIENT t (CLIENT t ++ [r])) (Client.client_id r) = Some r.
Proof.
  intros H. unfold client_by_pk in *. simpl.
  rewrite find_app_none by assumption. simpl.
  rewrite Z.eqb_refl. reflexivity.
Qed.

(** Flushing the queued phones of a new client: all of them are inserted,
    numbered from the sequence, or the flush fails. *)
Lemma flush_phones (e : Env) (client_id : UUID) (l : list PhoneCreate.t) :
  forall (t t' : Tables) (s s' : Sequences),
    flush_all e (pending_phones client_id l) t s = (Ok t', s') ->
    t' = with_PHONE t
           (PHONE t ++ numbered_phones e client_id (phone_phone_id_seq s) l)
    /\ s' = mkSequences (agent_external_id_seq s) (client_external_id_seq s)
              (phone_phone_id_seq s + Z.of_nat (List.length l)).
Proof.
  induction l as [|p l IH]; intros t t' s s' H.
  - simpl in H. injection H as <- <-. simpl.
    rewrite app_nil_r, Z.add_0_r. destruct t, s; split; reflexivity.
  - cbn [pending_phones map flush_all flush_one nextval_phone] in H.
    cbn [Phone.client_id Phone.number] in H.
    destruct (insert_phone t _) as [t1|x] eqn:Hins; [|discriminate].
    apply insert_phone_ok in Hins. destruct Hins as [-> _].
    apply IH in H. destruct H as [-> ->]. simpl.
    rewrite <- app_assoc. split; [reflexivity|].
    f_equal. lia.
Qed.

Lemma numbered_phones_length (e : Env) (client_id : UUID)
  (l : list PhoneCreate.t) :
  forall next,
    List.length (numbered_phones e client_id next l) = List.length l.
Proof.
  induction l as [|p l IH]; intros next; simpl;
    [reflexivity | rewrite IH; reflexivity].
Qed.

(** A flush never takes a sequence back. *)
Lemma seqs_le_refl (s : Sequences) : seqs_le s s.
Proof. unfold seqs_le. lia. Qed.

Lemma seqs_le_trans (a b c : Sequences) :
  seqs_le a b -> seqs_le b c -> seqs_le a c.
Proof. unfold seqs_le. lia. Qed.

Lemma flush_one_seqs (e : Env) (p : pending) (t : Tables) (s : Sequences) :
  seqs_le s (snd (flush_one e p t s)).
Proof. destruct p; simpl; unfold seqs_le; simpl; lia. Qed.

Lemma flush_all_seqs (e : Env) (ps : list pending) :
  forall t s, seqs_le s (snd (flush_all e ps t s)).
Proof.
  induction ps as [|p ps IH]; intros t s; simpl; [apply seqs_le_refl|].
  pose proof (flush_one_seqs e p t s) as H1.
  destruct (flush_one e p t s) as [[t'|x] s1]; simpl in *.
  - eapply seqs_le_trans; [exact H1 | apply IH].
  - exact H1.
Qed.

(** ** create_agent and create_client, request by request *)

Lemma create_agent_run (e : Env) (d : Database) (agent_in : AgentCreate.t) :
  run_request e (create_agent agent_in) d =
  match insert_agent (tables d)
          (new_agent_row e agent_in (agent_external_id_seq (seqs d))) with
  | Ok t' =>
      (match agent_by_pk t' (fresh_uuid e) with
       | Some r => Ok (_agent_to_dict r)
       | None => Err InvalidRequestError
       end,
       mkDatabase t' (snd (nextval_agent (seqs d))))
  | Err x => (Err x, mkDatabase (tables d) (snd (nextval_agent (seqs d))))
  end.
Proof.
  unfold run_request, create_agent, bind, try_except, db_add, db_commit,
    db_flush, db_refresh, new_identity, query, bind. simpl.
  change (Agent.set_external_id _ _)
    with (new_agent_row e agent_in (agent_external_id_seq (seqs d))).
  destruct (insert_agent (tables d) _) as [t'|x]; simpl.
  - destruct (agent_by_pk t' (fresh_uuid e)); reflexivity.
  - destruct x; reflexivity.
Qed.

Lemma create_client_run (e : Env) (d : Database) (client_in : ClientCreate.t) :
  run_request e (create_client client_in) d =
  match agent_by_pk (tables d) (ClientCreate.agent_id client_in) with
  | None => (Err agent_not_found, d)
  | Some _ =>
      let s1 := snd (nextval_client (seqs d)) in
      match insert_client (tables d)
              (new_client_row e client_in (client_external_id_seq (seqs d)))
      with
      | Err x => (Err x, mkDatabase (tables d) s1)
      | Ok t1 =>
          match flush_all e
                  (pending_phones (fresh_uuid e)
                     (or_nil (ClientCreate.phones client_in))) t1 s1 with
          | (Err x, s2) => (Err x, mkDatabase (tables d) s2)
          | (Ok t2, s2) =>
              (match client_by_pk t2 (fresh_uuid e) with
               | Some c => Ok (_client_to_dict t2 (load selectinload_all t2 c))
               | None => Err InvalidRequestError
               end,
               mkDatabase t2 s2)
          end
      end
  end.
Proof.
  unfold run_request, create_client, bind at 1, query. simpl.
  destruct (agent_by_pk (tables d) (ClientCreate.agent_id client_in)) as [a|];
    simpl.
  2:{ unfold raise. destruct d; reflexivity. }
  unfold bind at 1, db_add at 1, try_except, bind at 1, db_flush. simpl.
  change (Client.set_updated_at _ _)
    with (new_client_row e client_in (client_external_id_seq (seqs d))).
  destruct (insert_client (tables d) _) as [t1|x]; simpl.
  2:{ destruct x; reflexivity. }
  unfold bind at 1, new_identity. simpl.
  unfold bind at 1.
  rewrite (for_each_db_add
             (fun p => InsertPhone
                         (Phone.mk 0 (fresh_uuid e) (PhoneCreate.number p) 0))).
  simpl.
  unfold bind at 1, db_commit, bind at 1, db_flush. simpl.
  change (map _ (or_nil (ClientCreate.phones client_in)))
    with (pending_phones (fresh_uuid e)
            (or_nil (ClientCreate.phones client_in))).
  destruct (flush_all e _ t1 _) as [[t2|x] s2]; simpl.
  - unfold bind, db_refresh, bind, query, client_dossier, query. simpl.
    destruct (client_by_pk t2 (fresh_uuid e)); reflexivity.
  - destruct x; reflexivity.
Qed.

(** [create_client] either raises and leaves the tables alone, or makes
    the Client and all its Phones durable. *)
Lemma create_client_cases (e : Env) (d d' : Database)
  (client_in : ClientCreate.t) (r : result dict) :
  run_request e (create_client client_in) d = (r, d') ->
  let c := new_client_row e client_in (client_external_id_seq (seqs d)) in
  (exists x, r = Err x /\ tables d' = tables d /\ seqs_le (seqs d) (seqs d'))
  \/
  (tables d'
  = with_PHONE (with_CLIENT (tables d) (CLIENT (tables d) ++ [c]))
      (PHONE (tables d)
       ++ numbered_phones e (fresh_uuid e) (phone_phone_id_seq (seqs d))
            (or_nil (ClientCreate.phones client_in)))
  /\ seqs d'
     = mkSequences (agent_external_id_seq (seqs d))
         (client_external_id_seq (seqs d) + 1)
         (phone_phone_id_seq (seqs d)
          + Z.of_nat (List.length (or_nil (ClientCreate.phones client_in))))
  /\ r = Ok (_client_to_dict (tables d') (load selectinload_all (tables d') c))
  /\ client_by_pk (tables d) (fresh_uuid e) = None
  /\ client_by_pk (tables d') (fresh_uuid e) = Some c
  /\ ~ In (client_external_id_seq (seqs d))
          (map Client.external_id (CLIENT (tables d)))
  /\ client_refs_ok (tables d) c = true).
Proof.
  rewrite create_client_run. intros Hrun c.
  destruct (agent_by_pk (tables d) (ClientCreate.agent_id client_in)).
  2:{ injection Hrun as <- <-. left. eexists. split; [reflexivity|].
      split; [reflexivity | apply seqs_le_refl]. }
  cbv zeta in Hrun.
  destruct (insert_client (tables d) _) as [t1|x] eqn:Hins.
  2:{ injection Hrun as <- <-. left. eexists. split; [reflexivity|].
      split; [reflexivity|]. unfold seqs_le. simpl. lia. }
  destruct (flush_all e _ t1 _) as [[t2|x] s2] eqn:Hfl.
  2:{ injection Hrun as <- <-. left. eexists. split; [reflexivity|].
      split; [reflexivity|].
      pose proof (flush_all_seqs e
                    (pending_phones (fresh_uuid e)
                       (or_nil (ClientCreate.phones client_in)))
                    t1 (snd (nextval_client (seqs d)))) as Hle.
      rewrite Hfl in Hle. unfold seqs_le in *. simpl in *. lia. }
  right.
  apply insert_client_ok in Hins. fold c in Hins.
  destruct Hins as [-> [Hnone [Hext Hrefs]]].
  apply flush_phones in Hfl. destruct Hfl as [-> ->].
  change (Client.client_id c) with (fresh_uuid e) in Hnone.
  pose proof (client_by_pk_appended (tables d) c Hnone) as Hsome.
  change (Client.client_id c) with (fresh_uuid e) in Hsome.
  change (client_by_pk (with_PHONE ?t ?l) ?i) with (client_by_pk t i) in Hrun.
  rewrite Hsome in Hrun. injection Hrun as <- <-.
  simpl. repeat split; try assumption.
Qed.

(** C1: [create_client] raises the ValueError of a missing agent
    (ReferenceNotFound) when the agent id does not exist, and whenever it
    raises, for that or any other reason, every table is as it was: no
    Client row and no Phone row is persisted.  When it returns, the Client
    row and one Phone row per supplied number are all persisted. *)
Theorem create_client_all_or_nothing
  (e : Env) (d : Database) (client_in : ClientCreate.t) :
  (agent_by_pk (tables d) (ClientCreate.agent_id client_in) = None ->
   run_request e (create_client client_in) d = (Err agent_not_found, d)
   /\ ReferenceNotFound agent_not_found)
  /\ (forall x d',
        run_request e (create_client client_in) d = (Err x, d') ->
        tables d' = tables d)
  /\ (forall dossier d',
        run_request e (create_client client_in) d = (Ok dossier, d') ->
        CLIENT (tables d')
        = CLIENT (tables d)
          ++ [new_client_row e client_in (client_external_id_seq (seqs d))]
        /\ PHONE (tables d')
           = PHONE (tables d)
             ++ numbered_phones e (fresh_uuid e) (phone_phone_id_seq (seqs d))
                  (or_nil (ClientCreate.phones client_in))
        /\ List.length
             (numbered_phones e (fresh_uuid e) (phone_phone_id_seq (seqs d))
                (or_nil (ClientCreate.phones client_in)))
           = List.length (or_nil (ClientCreate.phones client_in))).
Proof.
  split; [|split].
  - intros Hnone. rewrite create_client_run, Hnone.
    split; [reflexivity | left; reflexivity].
  - intros x d' Hrun.
    destruct (create_client_cases e d d' client_in (Err x) Hrun)
      as [[y [_ [H _]]]|[_ [_ [H _]]]]; [assumption | discriminate H].
  - intros dossier d' Hrun.
    destruct (create_client_cases e d d' client_in (Ok dossier) Hrun)
      as [[y [H _]]|[Ht _]]; [discriminate H|].
    rewrite Ht. simpl. split; [reflexivity|]. split; [reflexivity|].
    apply numbered_phones_length.
Qed.

Lemma create_client_all_or_nothing_witness :
  run_request (mkEnv 300 9000)
    (create_client
       (ClientCreate.mk "Petrov" "Petr" None "new" "intake" 999 None None
          (Some [PhoneCreate.mk "+2000"])))
    sample_db
  = (Err agent_not_found, sample_db)
  /\ tables (snd (run_request (mkEnv 300 9000)
                    (create_client
                       (ClientCreate.mk "Petrov" "Petr" None "new" "intake"
                          100 None None
                          (Some [PhoneCreate.mk "+2000";
                                 PhoneCreate.mk
                                   "+2001-this-number-has-more-than-32-characters"])))
                    sample_db))
     = tables sample_db
  /\ (exists dossier d',
        run_request (mkEnv 300 9000)
          (create_client
             (ClientCreate.mk "Petrov" "Petr" None "new" "intake" 100 None
                None (Some [PhoneCreate.mk "+2000"])))
          sample_db
        = (Ok dossier, d')
        /\ List.length (PHONE (tables d')) = 3%nat).
Proof.
  split; [|split].
  - apply (create_client_all_or_nothing (mkEnv 300 9000) sample_db
             (ClientCreate.mk "Petrov" "Petr" None "new" "intake" 999 None
                None (Some [PhoneCreate.mk "+2000"]))).
    reflexivity.
  - destruct (create_client_all_or_nothing (mkEnv 300 9000) sample_db
                (ClientCreate.mk "Petrov" "Petr" None "new" "intake" 100 None
                   None
                   (Some [PhoneCreate.mk "+2000";
                          PhoneCreate.mk
                            "+2001-this-number-has-more-than-32-characters"])))
      as [_ [Herr _]].
    apply (Herr DataError). reflexivity.
  - destruct (create_client_all_or_nothing (mkEnv 300 9000) sample_db
                (ClientCreate.mk "Petrov" "Petr" None "new" "intake" 100 None
                   None (Some [PhoneCreate.mk "+2000"])))
      as [_ [_ Hok]].
    assert (exists dossier d',
              run_request (mkEnv 300 9000)
                (create_client
                   (ClientCreate.mk "Petrov" "Petr" None "new" "intake" 100
                      None None (Some [PhoneCreate.mk "+2000"])))
                sample_db
              = (Ok dossier, d')) as [dossier [d' Hrun]]
      by (eexists; eexists; vm_compute; reflexivity).
    exists dossier, d'. split; [exact Hrun|].
    destruct (Hok dossier d' Hrun) as [_ [Hp _]].
    rewrite Hp. reflexivity.
Defined.

Lemma get_client_run (e : Env) (d : Database) (client_id : UUID) :
  run_request e (get_client client_id) d =
  (match client_by_pk (tables d) client_id with
   | Some c =>
       Ok (Some (_client_to_dict (tables d)
                   (load selectinload_all (tables d) c)))
   | None => Ok None
   end, d).
Proof.
  unfold run_request, get_client, bind, query, client_dossier, query. simpl.
  destruct (client_by_pk (tables d) client_id); destruct d; reflexivity.
Qed.

(** [create_agent] either raises and leaves the tables alone, or makes the
    Agent durable under the external id the sequence held. *)
Lemma create_agent_cases (e : Env) (d d' : Database)
  (agent_in : AgentCreate.t) (r : result dict) :
  run_request e (create_agent agent_in) d = (r, d') ->
  let a := new_agent_row e agent_in (agent_external_id_seq (seqs d)) in
  seqs d' = snd (nextval_agent (seqs d))
  /\ ((exists x, r = Err x /\ tables d' = tables d)
      \/
      (tables d' = with_AGENT (tables d) (AGENT (tables d) ++ [a])
       /\ r = Ok (_agent_to_dict a)
       /\ agent_by_pk (tables d) (fresh_uuid e) = None
       /\ agent_by_pk (tables d') (fresh_uuid e) = Some a
       /\ ~ In (agent_external_id_seq (seqs d))
               (map Agent.external_id (AGENT (tables d))))).
Proof.
  rewrite create_agent_run. intros Hrun a. fold a in Hrun.
  destruct (insert_agent (tables d) a) as [t'|x] eqn:Hins.
  2:{ injection Hrun as <- <-. split; [reflexivity|]. left.
      eexists. split; reflexivity. }
  apply insert_agent_ok in Hins. destruct Hins as [-> [Hnone Hext]].
  change (Agent.agent_id a) with (fresh_uuid e) in Hnone.
  pose proof (agent_by_pk_appended (tables d) a Hnone) as Hsome.
  change (Agent.agent_id a) with (fresh_uuid e) in Hsome.
  rewrite Hsome in Hrun. injection Hrun as <- <-.
  split; [reflexivity|]. right. simpl. repeat split; assumption.
Qed.

(** ** Name normalisation *)




(** ** Passports in the dossier *)

Lemma create_passport_run (e : Env) (d : Database) (client_id : UUID)
  (passport_in : PassportCreate.t) :
  run_request e (create_passport client_id passport_in) d =
  match client_by_pk (tables d) client_id with
  | None => (Err client_not_found, d)
  | Some _ =>
      match insert_passport (tables d)
              (new_passport_row e client_id passport_in) with
      | Err x => (Err x, d)
      | Ok t' =>
          (match passport_by_pk t' (fresh_uuid e) with
           | Some p => Ok p
           | None => Err InvalidRequestError
           end, mkDatabase t' (seqs d))
      end
  end.
Proof.
  unfold run_request, create_passport, bind at 1, query. simpl.
  destruct (client_by_pk (tables d) client_id) as [c|]; simpl.
  2:{ unfold raise. destruct d; reflexivity. }
  unfold bind, db_add, try_except, bind, db_commit, bind, db_flush,
    db_refresh, bind, query, new_identity, db_rollback. simpl.
  change (Passport.mk (fresh_uuid e) _ _ _ _ _ _ _ _ _ _ _ _)
    with (new_passport_row e client_id passport_in).
  destruct (insert_passport (tables d) _) as [t'|x]; simpl.
  - destruct (passport_by_pk t' (fresh_uuid e)); reflexivity.
  - destruct d; reflexivity.
Qed.

(** The passport entry of a dossier has neither a [birth_date] nor a
    [department_code] key, whatever the row holds. *)
Lemma passport_dict_omits (ps : Passport.t) :
  dict_get "birth_date" (passport_dict ps) = None
  /\ dict_get "department_code" (passport_dict ps) = None.
Proof. split; reflexivity. Qed.

(** The other supplied fields do come back as stored. *)
Lemma passport_dict_fields (e : Env) (client_id : UUID)
  (passport_in : PassportCreate.t) :
  let entry := passport_dict (new_passport_row e client_id passport_in) in
  dict_get "full_name" entry
  = Some (VStr (PassportCreate.full_name passport_in))
  /\ dict_get "birth_place" entry
     = Some (VStr (PassportCreate.birth_place passport_in))
  /\ dict_get "series_number" entry
     = Some (VStr (PassportCreate.series_number passport_in))
  /\ dict_get "issued_by" entry
     = Some (VStr (PassportCreate.issued_by passport_in))
  /\ dict_get "issue_date" entry
     = Some (VDate (PassportCreate.issue_date passport_in))
  /\ dict_get "expiry_date" entry
     = Some (opt_value VDate (PassportCreate.expiry_date passport_in))
  /\ dict_get "registration_address" entry
     = Some (VStr (PassportCreate.registration_address passport_in)).
Proof. repeat split; reflexivity. Qed.

(** C7, on the code: a Passport created with a birth date and a
    department code is stored with both, and the dossier fetched right
    after lists that Passport without either field. *)
Theorem passport_round_trip_drops_fields :
  exists (p : Passport.t) (d1 : Database) (dossier entry : dict),
    run_request (mkEnv 400 9500) (create_passport 200 ivanov_passport)
      sample_db
    = (Ok p, d1)
    /\ Passport.birth_date p = Some 19900101
    /\ Passport.department_code p = Some "770-001"
    /\ run_request (mkEnv 401 9600) (get_client 200) d1
       = (Ok (Some dossier), d1)
    /\ dict_get "passports" dossier = Some (VList [VDict entry])
    /\ dict_get "passport_id" entry = Some (VUuid 400)
    /\ dict_get "full_name" entry = Some (VStr "Ivanov Ivan")
    /\ dict_get "birth_date" entry = None
    /\ dict_get "department_code" entry = None.
Proof.
  do 4 eexists.
  split; [vm_compute; reflexivity|].
  repeat split; vm_compute; reflexivity.
Qed.

(** ** The two loading paths of the dossier *)



Lemma StronglySorted_filter {A} (R : A -> A -> Prop) (f : A -> bool)
  (l : list A) :
  StronglySorted R l -> StronglySorted R (filter f l).
Proof.
  induction 1 as [|x l Hs IH Hx]; simpl; [constructor|].
  destruct (f x); [|assumption].
  constructor; [assumption|].
  apply Forall_forall. intros y Hy. apply filter_In in Hy.
  destruct Hy as [Hy _]. rewrite Forall_forall in Hx. auto.
Qed.







(** ** Invariants of a session *)

Section SessionInvariant.

Variable inv : Tables -> Sequences -> Prop.
Variable allowed : pending -> Prop.

Hypothesis inv_mono :
  forall t s s', seqs_le s s' -> inv t s -> inv t s'.

Hypothesis inv_flush :
  forall e p t s t' s',
    allowed p -> inv t s -> flush_one e p t s = (Ok t', s') -> inv t' s'.

Abbreviation I := (session_inv inv allowed).

Lemma flush_all_inv (e : Env) (ps : list pending) :
  forall t s t' s',
    Forall allowed ps -> inv t s ->
    flush_all e ps t s = (Ok t', s') -> inv t' s'.
Proof.
  induction ps as [|p ps IH]; intros t s t' s' Hall Hinv Hfl; simpl in Hfl.
  - injection Hfl as <- <-. assumption.
  - inversion Hall as [|? ? Hp Hps]; subst.
    destruct (flush_one e p t s) as [[t1|x] s1] eqn:H1; [|discriminate].
    eapply IH; [exact Hps | | exact Hfl].
    eapply inv_flush; eassumption.
Qed.

Lemma preserves_ret {A} (a : A) : preserves I (ret a).
Proof. intros s H. exact H. Qed.

Lemma preserves_raise {A} (x : exn) : preserves I (@raise A x).
Proof. intros s H. exact H. Qed.

Lemma preserves_lift {A} (r : result A) : preserves I (lift r).
Proof. intros s H. exact H. Qed.

Lemma preserves_query {A} (f : Tables -> A) : preserves I (query f).
Proof. intros s H. exact H. Qed.

Lemma preserves_new_identity : preserves I new_identity.
Proof. intros s H. exact H. Qed.

Lemma preserves_next_phone_id : preserves I next_phone_id.
Proof. intros s H. exact H. Qed.

Lemma preserves_bind {A B} (m : M A) (k : A -> M B) :
  preserves I m -> (forall a, preserves I (k a)) -> preserves I (bind m k).
Proof.
  intros Hm Hk s Hs. unfold bind. specialize (Hm s Hs).
  destruct (m s) as [[a|x] s1]; simpl in *.
  - apply Hk. assumption.
  - assumption.
Qed.

Lemma preserves_try_except {A} (body : M A) (catches : exn -> bool)
  (handler : exn -> M A) :
  preserves I body -> (forall x, preserves I (handler x)) ->
  preserves I (try_except body catches handler).
Proof.
  intros Hb Hh s Hs. unfold try_except. specialize (Hb s Hs).
  destruct (body s) as [[a|x] s1]; simpl in *; [assumption|].
  destruct (catches x); [apply Hh|]; assumption.
Qed.

Lemma preserves_for_each {A} (l : list A) (body : A -> M unit) :
  (forall a, preserves I (body a)) -> preserves I (for_each l body).
Proof.
  intros Hb. induction l as [|a l IH]; simpl.
  - apply preserves_ret.
  - apply preserves_bind; [apply Hb | intros _; exact IH].
Qed.

Lemma preserves_db_add (p : pending) : allowed p -> preserves I (db_add p).
Proof.
  intros Hp s [H1 [H2 H3]]. unfold db_add, session_inv. simpl.
  repeat split; try assumption.
  apply Forall_app. split; [assumption | constructor; [assumption|constructor]].
Qed.

Lemma preserves_db_flush : preserves I db_flush.
Proof.
  intros s [H1 [H2 H3]]. unfold db_flush.
  pose proof (flush_all_seqs (env s) (unit_of_work s) (view s) (seqs (db s)))
    as Hle.
  destruct (flush_all (env s) (unit_of_work s) (view s) (seqs (db s)))
    as [[t'|x] q'] eqn:Hfl; simpl in *; unfold session_inv; simpl.
  - repeat split.
    + eapply inv_mono; eassumption.
    + eapply flush_all_inv; eassumption.
    + constructor.
  - repeat split; try (eapply inv_mono; eassumption). constructor.
Qed.

Lemma preserves_db_commit : preserves I db_commit.
Proof.
  unfold db_commit. apply preserves_bind; [apply preserves_db_flush|].
  intros _ s [H1 [H2 H3]]. unfold session_inv. simpl.
  repeat split; assumption.
Qed.

Lemma preserves_db_rollback : preserves I db_rollback.
Proof.
  intros s [H1 [H2 H3]]. unfold db_rollback, session_inv. simpl.
  repeat split; try assumption. constructor.
Qed.

Lemma preserves_db_refresh {A} (get : Tables -> option A) :
  preserves I (db_refresh get).
Proof.
  unfold db_refresh. apply preserves_bind; [apply preserves_query|].
  intros [a|]; [apply preserves_ret | apply preserves_raise].
Qed.

Lemma preserves_rollback_raise {A} (x : exn) :
  preserves I (db_rollback ;; @raise A x).
Proof.
  apply preserves_bind; [apply preserves_db_rollback|].
  intros _. apply preserves_raise.
Qed.

Lemma preserves_client_dossier (o : LoadOptions) (c : Client.t) :
  preserves I (client_dossier o c).
Proof. apply preserves_query. Qed.

(** A request that keeps the session invariant keeps the property of the
    database. *)
Lemma run_request_inv {A} (e : Env) (m : M A) (d : Database) :
  preserves I m ->
  inv (tables d) (seqs d) ->
  inv (tables (snd (run_request e m d))) (seqs (snd (run_request e m d))).
Proof.
  intros Hm Hd. unfold run_request.
  specialize (Hm (mkSession e d (tables d) [])).
  destruct (m (mkSession e d (tables d) [])) as [r s]. simpl in *.
  apply Hm. unfold session_inv. simpl.
  repeat split; try assumption. constructor.
Qed.

Ltac preserves_step :=
  first
    [ apply preserves_ret
    | apply preserves_raise
    | apply preserves_lift
    | apply preserves_query
    | apply preserves_new_identity
    | apply preserves_next_phone_id
    | apply preserves_db_flush
    | apply preserves_db_commit
    | apply preserves_db_rollback
    | apply preserves_db_refresh
    | apply preserves_rollback_raise
    | apply preserves_client_dossier
    | apply preserves_bind; [|intros ?]
    | apply preserves_try_except; [|intros ?]
    | apply preserves_for_each; intros ?
    | apply preserves_db_add
    | match goal with
      | |- preserves _ (match ?x with _ => _ end) => destruct x
      end ].

Lemma create_client_preserves (x : ClientCreate.t) :
  (forall c, allowed (InsertClient c)) ->
  (forall p, allowed (InsertPhone p)) ->
  preserves I (create_client x).
Proof.
  intros Hc Hp. unfold create_client, db_delete. repeat preserves_step; auto.
Qed.

Lemma update_client_preserves (id : UUID) (p : dict) :
  (forall chs, allowed (UpdateClient id chs)) ->
  preserves I (update_client id p).
Proof.
  intros Hc. unfold update_client, db_delete. repeat preserves_step; auto.
Qed.

Lemma delete_client_preserves (id : UUID) :
  allowed (DeleteClient id) -> preserves I (delete_client id).
Proof.
  intros Hc. unfold delete_client, db_delete. repeat preserves_step; auto.
Qed.

Lemma create_agent_preserves (x : AgentCreate.t) :
  (forall a, allowed (InsertAgent a)) -> preserves I (create_agent x).
Proof.
  intros Hc. unfold create_agent, db_delete. repeat preserves_step; auto.
Qed.

Lemma update_agent_preserves (id : UUID) (p : dict) :
  (forall chs, allowed (UpdateAgent id chs)) ->
  preserves I (update_agent id p).
Proof.
  intros Hc. unfold update_agent, db_delete. repeat preserves_step; auto.
Qed.

Lemma delete_agent_preserves (id : UUID) :
  allowed (DeleteAgent id) -> preserves I (delete_agent id).
Proof.
  intros Hc. unfold delete_agent, db_delete. repeat preserves_step; auto.
Qed.

Lemma add_phone_preserves (id : UUID) (n : string) :
  (forall p, allowed (InsertPhone p)) -> preserves I (add_phone id n).
Proof.
  intros Hc. unfold add_phone, db_delete. repeat preserves_step; auto.
Qed.

Lemma delete_phone_preserves (id : Z) :
  allowed (DeletePhone id) -> preserves I (delete_phone id).
Proof.
  intros Hc. unfold delete_phone, db_delete. repeat preserves_step; auto.
Qed.

Lemma create_passport_preserves (id : UUID) (x : PassportCreate.t) :
  (forall p, allowed (InsertPassport p)) ->
  preserves I (create_passport id x).
Proof.
  intros Hc. unfold create_passport, db_delete. repeat preserves_step; auto.
Qed.

Lemma create_snils_preserves (id : UUID) (x : SnilsCreate.t) :
  (forall p, allowed (InsertSnils p)) -> preserves I (create_snils id x).
Proof.
  intros Hc. unfold create_snils, db_delete. repeat preserves_step; auto.
Qed.

Lemma create_stage_preserves (x : StageCreate.t) :
  (forall p, allowed (InsertStage p)) -> preserves I (create_stage x).
Proof.
  intros Hc. unfold create_stage, db_delete. repeat preserves_step; auto.
Qed.

Lemma create_status_preserves (x : StatusCreate.t) :
  (forall p, allowed (InsertStatus p)) -> preserves I (create_status x).
Proof.
  intros Hc. unfold create_status, db_delete. repeat preserves_step; auto.
Qed.

End SessionInvariant.

(** ** What one statement leaves alone *)

Lemma delete_orphans_fold_frame (id : UUID) (chs : list client_change) :
  forall t,
    AGENT (fold_left (delete_orphans id) chs t) = AGENT t
    /\ CLIENT (fold_left (delete_orphans id) chs t) = CLIENT t
    /\ exists f, PHONE (fold_left (delete_orphans id) chs t)
                 = filter f (PHONE t).
Proof.
  induction chs as [|ch chs IH]; intros t; simpl.
  - repeat split. exists (fun _ => true).
    symmetry. apply forallb_filter_id. apply forallb_forall. reflexivity.
  - destruct (IH (delete_orphans id t ch)) as [Ha [Hc [f Hp]]].
    rewrite Ha, Hc, Hp.
    destruct ch as [c v|r|r]; try destruct r; simpl;
      repeat split;
      try (exists f; reflexivity).
    exists (fun p => negb (Phone.client_id p =? id) && f p).
    clear. induction (PHONE t) as [|p l IHl]; simpl; [reflexivity|].
    destruct (negb (Phone.client_id p =? id)); simpl;
      [destruct (f p); rewrite IHl; reflexivity | assumption].
Qed.

Lemma update_client_row_ok (t t' : Tables) (id : UUID) (new : Client.t) :
  update_client_row t id new = Ok t' ->
  t' = with_CLIENT t
         (map (fun c => if Client.client_id c =? id then new else c)
              (CLIENT t))
  /\ (Client.client_id new <> id ->
      client_by_pk t (Client.client_id new) = None).
Proof.
  unfold update_client_row.
  destruct (negb (client_fits new)); [discriminate|].
  destruct (Client.client_id new =? id) eqn:Hid; simpl.
  - destruct (existsb _ _ || _); [discriminate|].
    intros H. injection H as <-. split; [reflexivity|].
    apply Z.eqb_eq in Hid. congruence.
  - destruct (is_some (client_by_pk t (Client.client_id new))) eqn:Hpk;
      [discriminate|].
    simpl. destruct (client_has_children t id); [discriminate|]. simpl.
    destruct (existsb _ _ || _); [discriminate|].
    intros H. injection H as <-. split; [reflexivity|].
    intros _. apply is_some_false. assumption.
Qed.

Lemma update_agent_row_ok (t t' : Tables) (id : UUID) (new : Agent.t) :
  update_agent_row t id new = Ok t' ->
  t' = with_AGENT t
         (map (fun a => if Agent.agent_id a =? id then new else a)
              (AGENT t))
  /\ (Agent.agent_id new <> id ->
      agent_by_pk t (Agent.agent_id new) = None).
Proof.
  unfold update_agent_row.
  destruct (negb (agent_fits new)); [discriminate|].
  destruct (Agent.agent_id new =? id) eqn:Hid; simpl.
  - destruct (existsb _ _); [discriminate|].
    intros H. injection H as <-. split; [reflexivity|].
    apply Z.eqb_eq in Hid. congruence.
  - destruct (is_some (agent_by_pk t (Agent.agent_id new))) eqn:Hpk;
      [discriminate|].
    simpl. destruct (negb (is_nil (clients_of_agent t id))); [discriminate|].
    simpl. destruct (existsb _ _); [discriminate|].
    intros H. injection H as <-. split; [reflexivity|].
    intros _. apply is_some_false. assumption.
Qed.

(** The durable effect of flushing a dirty Client. *)
Lemma flush_update_client_ok (e : Env) (t t' : Tables) (id : UUID)
  (chs : list client_change) :
  flush_update_client e t id chs = Ok t' ->
  exists old new,
    client_by_pk t id = Some old
    /\ apply_client_changes chs old = Ok new
    /\ exists t1,
        t' = fold_left (delete_orphans id) chs t1
        /\ ((client_eqb old new = true /\ t1 = t)
            \/ (client_eqb old new = false
                /\ update_client_row t id
                     (if sets_updated_at chs then new
                      else Client.set_updated_at new (now e)) = Ok t1)).
Proof.
  unfold flush_update_client.
  destruct (client_by_pk t id) as [old|]; [|discriminate].
  destruct (apply_client_changes chs old) as [new|x] eqn:Happ; [|discriminate].
  intros H. exists old, new. split; [reflexivity|]. split; [exact Happ|].
  destruct (client_eqb old new) eqn:Heq.
  - injection H as <-. exists t. split; [reflexivity|]. left. auto.
  - destruct (update_client_row t id _) as [t1|x] eqn:Hup; [|discriminate].
    injection H as <-. exists t1. split; [reflexivity|]. right. auto.
Qed.

Lemma flush_update_agent_ok (t t' : Tables) (id : UUID)
  (chs : list agent_change) :
  flush_update_agent t id chs = Ok t' ->
  exists old new,
    agent_by_pk t id = Some old
    /\ apply_agent_changes chs old = Ok new
    /\ ((agent_eqb old new = true /\ t' = t)
        \/ (agent_eqb old new = false /\ update_agent_row t id new = Ok t')).
Proof.
  unfold flush_update_agent.
  destruct (agent_by_pk t id) as [old|]; [|discriminate].
  destruct (apply_agent_changes chs old) as [new|x] eqn:Happ; [|discriminate].
  intros H. exists old, new. split; [reflexivity|]. split; [exact Happ|].
  destruct (agent_eqb old new) eqn:Heq.
  - destruct (_ && _); [discriminate|].
    injection H as <-. left. auto.
  - destruct (update_agent_row t id new) as [t1|x] eqn:Hup; [|discriminate].
    destruct (_ && _); [discriminate|].
    injection H as <-. right. auto.
Qed.

Lemma filter_all {A} (l : list A) : l = filter (fun _ => true) l.
Proof.
  symmetry. apply forallb_filter_id. apply forallb_forall. reflexivity.
Qed.

(** A statement that is not on AGENT leaves AGENT alone, one that is not
    on CLIENT leaves CLIENT alone, and only an INSERT into PHONE adds a
    Phone row, keyed by the sequence. *)
Lemma flush_one_frame (e : Env) (p : pending) (t t' : Tables)
  (s s' : Sequences) :
  flush_one e p t s = (Ok t', s') ->
  (on_agent p = false -> AGENT t' = AGENT t)
  /\ (on_client p = false -> CLIENT t' = CLIENT t)
  /\ ((exists f, PHONE t' = filter f (PHONE t))
      /\ phone_phone_id_seq s' = phone_phone_id_seq s
      \/ (exists q, PHONE t' = PHONE t ++ [q]
                    /\ Phone.phone_id q = phone_phone_id_seq s
                    /\ phone_phone_id_seq s' = phone_phone_id_seq s + 1)).
Proof.
  destruct p; cbn [flush_one nextval_agent nextval_client nextval_phone];
    intros H.
  - (* InsertAgent *)
    injection H as H <-. apply insert_agent_ok in H. destruct H as [-> _].
    simpl. repeat split; try discriminate. left. split; [|reflexivity].
    exists (fun _ => true). apply filter_all.
  - (* InsertClient *)
    injection H as H <-. apply insert_client_ok in H. destruct H as [-> _].
    simpl. repeat split; try discriminate. left. split; [|reflexivity].
    exists (fun _ => true). apply filter_all.
  - (* InsertPhone *)
    injection H as H <-. apply insert_phone_ok in H. destruct H as [-> _].
    simpl. repeat split. right. eexists. repeat split.
  - (* InsertPassport *)
    injection H as H <-. unfold insert_passport in H.
    destruct (negb _); [discriminate|]. destruct (_ || _); [discriminate|].
    injection H as <-. simpl. repeat split. left. split; [|reflexivity].
    exists (fun _ => true). apply filter_all.
  - (* InsertSnils *)
    injection H as H <-. unfold insert_snils in H.
    destruct (negb _); [discriminate|]. destruct (_ || _); [discriminate|].
    injection H as <-. simpl. repeat split. left. split; [|reflexivity].
    exists (fun _ => true). apply filter_all.
  - (* InsertStatus *)
    injection H as H <-. unfold insert_status in H.
    destruct (negb _); [discriminate|]. destruct (is_some _); [discriminate|].
    injection H as <-. simpl. repeat split. left. split; [|reflexivity].
    exists (fun _ => true). apply filter_all.
  - (* InsertStage *)
    injection H as H <-. unfold insert_stage in H.
    destruct (negb _); [discriminate|]. destruct (is_some _); [discriminate|].
    injection H as <-. simpl. repeat split. left. split; [|reflexivity].
    exists (fun _ => true). apply filter_all.
  - (* UpdateAgent *)
    injection H as H <-. apply flush_update_agent_ok in H.
    destruct H as [old [new [_ [_ [[_ ->]|[_ H]]]]]].
    + repeat split. left. split; [|reflexivity].
      exists (fun _ => true). apply filter_all.
    + apply update_agent_row_ok in H. destruct H as [-> _]. simpl.
      repeat split; try discriminate. left. split; [|reflexivity].
      exists (fun _ => true). apply filter_all.
  - (* UpdateClient *)
    injection H as H <-. apply flush_update_client_ok in H.
    destruct H as [old [new [_ [_ [t1 [-> H]]]]]].
    destruct (delete_orphans_fold_frame id chs t1) as [Ha [Hc [f Hp]]].
    rewrite Ha, Hp.
    destruct H as [[_ ->]|[_ H]].
    + repeat split; try discriminate. left. split; [|reflexivity].
      exists f. reflexivity.
    + apply update_client_row_ok in H. destruct H as [-> _]. simpl.
      repeat split; try discriminate. left. split; [|reflexivity].
      exists f. reflexivity.
  - (* DeleteAgent *)
    injection H as H <-. unfold delete_agent_row in H.
    destruct (negb _); [discriminate|]. injection H as <-. simpl.
    repeat split; try discriminate. left. split; [|reflexivity].
    exists (fun _ => true). apply filter_all.
  - (* DeleteClient *)
    injection H as <- <-. simpl.
    repeat split; try discriminate. left. split; [|reflexivity].
    eexists. reflexivity.
  - (* DeletePhone *)
    injection H as <- <-. simpl.
    repeat split. left. split; [|reflexivity].
    eexists. reflexivity.
Qed.

(** ** Invariants of the calls *)

(** A property every statement keeps is kept by every call. *)
Lemma exec_inv (inv : Tables -> Sequences -> Prop) :
  (forall t s s', seqs_le s s' -> inv t s -> inv t s') ->
  (forall e p t s t' s',
      inv t s -> flush_one e p t s = (Ok t', s') -> inv t' s') ->
  forall e c d,
    inv (tables d) (seqs d) ->
    inv (tables (exec e c d)) (seqs (exec e c d)).
Proof.
  intros Hmono Hflush e c d Hd.
  assert (forall e p t s t' s',
             True -> inv t s -> flush_one e p t s = (Ok t', s') -> inv t' s')
    as Hflush' by (intros; eauto).
  destruct c; simpl;
    apply (run_request_inv inv (fun _ => True)); try assumption.
  - apply create_client_preserves; auto.
  - apply update_client_preserves; auto.
  - apply delete_client_preserves; auto.
  - apply create_agent_preserves; auto.
  - apply update_agent_preserves; auto.
  - apply delete_agent_preserves; auto.
  - apply add_phone_preserves; auto.
  - apply delete_phone_preserves; auto.
  - apply create_passport_preserves; auto.
  - apply create_snils_preserves; auto.
  - apply create_stage_preserves; auto.
  - apply create_status_preserves; auto.
Qed.

(** No call takes a sequence back. *)
Lemma exec_seqs_le (e : Env) (c : call) (d : Database) :
  seqs_le (seqs d) (seqs (exec e c d)).
Proof.
  apply (exec_inv (fun _ s => seqs_le (seqs d) s)).
  - intros t s s' Hle H. eapply seqs_le_trans; eassumption.
  - intros e0 p t s t' s' H Hfl.
    pose proof (flush_one_seqs e0 p t s) as Hle. rewrite Hfl in Hle.
    eapply seqs_le_trans; eassumption.
  - apply seqs_le_refl.
Qed.

Lemma run_seqs_le (tr : list (Env * call)) :
  forall d, seqs_le (seqs d) (seqs (run tr d)).
Proof.
  induction tr as [|[e c] tr IH]; intros d; simpl; [apply seqs_le_refl|].
  eapply seqs_le_trans; [apply exec_seqs_le | apply IH].
Qed.

Lemma Forall_filter {A} (P : A -> Prop) (f : A -> bool) (l : list A) :
  Forall P l -> Forall P (filter f l).
Proof.
  intros H. apply Forall_forall. intros x Hx. apply filter_In in Hx.
  rewrite Forall_forall in H. apply H. tauto.
Qed.

Lemma StronglySorted_snoc {A} (R : A -> A -> Prop) (l : list A) (x : A) :
  StronglySorted R l -> Forall (fun y => R y x) l ->
  StronglySorted R (l ++ [x]).
Proof.
  induction 1 as [|y l Hs IH Hy]; intros Hx; simpl.
  - constructor; constructor.
  - inversion Hx as [|? ? Hyx Hl]; subst.
    constructor; [apply IH; assumption|].
    apply Forall_app. split; [assumption | constructor; [assumption|constructor]].
Qed.

(** Every call keeps PHONE numbered by its sequence, in table order. *)
Lemma exec_phone_ids_issued (e : Env) (c : call) (d : Database) :
  phone_ids_issued d -> phone_ids_issued (exec e c d).
Proof.
  apply (exec_inv
           (fun t s =>
              StronglySorted (fun a b => Phone.phone_id a < Phone.phone_id b)
                             (PHONE t)
              /\ Forall (fun p => Phone.phone_id p < phone_phone_id_seq s)
                        (PHONE t))).
  - intros t s s' [_ [_ Hle]] [Hs Hf]. split; [assumption|].
    eapply Forall_impl; [|exact Hf]. simpl. intros p Hp. lia.
  - intros e0 p t s t' s' [Hs Hf] Hfl.
    apply flush_one_frame in Hfl.
    destruct Hfl as [_ [_ [[[f ->] ->]|[q [-> [Hq ->]]]]]].
    + split; [apply StronglySorted_filter | apply Forall_filter]; assumption.
    + split.
      * apply StronglySorted_snoc; [assumption|].
        eapply Forall_impl; [|exact Hf]. simpl. intros p0 Hp0. lia.
      * apply Forall_app. split.
        -- eapply Forall_impl; [|exact Hf]. simpl. intros p0 Hp0. lia.
        -- constructor; [lia | constructor].
Qed.

Lemma run_phone_ids_issued (tr : list (Env * call)) :
  forall d, phone_ids_issued d -> phone_ids_issued (run tr d).
Proof.
  induction tr as [|[e c] tr IH]; intros d H; simpl; [assumption|].
  apply IH. apply exec_phone_ids_issued. assumption.
Qed.

Lemma phone_ids_issued_in_order (d : Database) :
  phone_ids_issued d -> phones_in_id_order (tables d).
Proof.
  intros [Hs _]. unfold phones_in_id_order.
  induction Hs as [|p l Hs IH Hp]; constructor; [assumption|].
  eapply Forall_impl; [|exact Hp]. simpl. intros q Hq. lia.
Qed.

(** Every database the calls build from the empty one holds PHONE in
    [phone_id] order. *)
Lemma reachable_phones_in_id_order (tr : list (Env * call)) :
  phones_in_id_order (tables (run tr empty_database)).
Proof.
  apply phone_ids_issued_in_order, run_phone_ids_issued.
  split; constructor.
Qed.

(** Calls that are not on AGENT leave AGENT alone. *)
Lemma exec_agent_frame (e : Env) (c : call) (d : Database) :
  agent_call c = false -> AGENT (tables (exec e c d)) = AGENT (tables d).
Proof.
  intros Hc.
  assert (forall t s s', seqs_le s s' ->
                         AGENT t = AGENT (tables d) ->
                         AGENT t = AGENT (tables d)) as Hmono by auto.
  assert (forall e p t s t' s',
             on_agent p = false -> AGENT t = AGENT (tables d) ->
             flush_one e p t s = (Ok t', s') ->
             AGENT t' = AGENT (tables d)) as Hflush.
  { intros e0 p t s t' s' Hp Ht Hfl. apply flush_one_frame in Hfl.
    destruct Hfl as [Ha _]. rewrite (Ha Hp). assumption. }
  destruct c; try discriminate Hc; simpl;
    apply (run_request_inv (fun t _ => AGENT t = AGENT (tables d))
             (fun p => on_agent p = false));
    try reflexivity.
  - apply create_client_preserves; solve [assumption | reflexivity].
  - apply update_client_preserves; solve [assumption | reflexivity].
  - apply delete_client_preserves; solve [assumption | reflexivity].
  - apply add_phone_preserves; solve [assumption | reflexivity].
  - apply delete_phone_preserves; solve [assumption | reflexivity].
  - apply create_passport_preserves; solve [assumption | reflexivity].
  - apply create_snils_preserves; solve [assumption | reflexivity].
  - apply create_stage_preserves; solve [assumption | reflexivity].
  - apply create_status_preserves; solve [assumption | reflexivity].
Qed.

(** Calls that are not on CLIENT leave CLIENT alone. *)
Lemma exec_client_frame (e : Env) (c : call) (d : Database) :
  client_call c = false -> CLIENT (tables (exec e c d)) = CLIENT (tables d).
Proof.
  intros Hc.
  assert (forall t s s', seqs_le s s' ->
                         CLIENT t = CLIENT (tables d) ->
                         CLIENT t = CLIENT (tables d)) as Hmono by auto.
  assert (forall e p t s t' s',
             on_client p = false -> CLIENT t = CLIENT (tables d) ->
             flush_one e p t s = (Ok t', s') ->
             CLIENT t' = CLIENT (tables d)) as Hflush.
  { intros e0 p t s t' s' Hp Ht Hfl. apply flush_one_frame in Hfl.
    destruct Hfl as [_ [Ha _]]. rewrite (Ha Hp). assumption. }
  destruct c; try discriminate Hc; simpl;
    apply (run_request_inv (fun t _ => CLIENT t = CLIENT (tables d))
             (fun p => on_client p = false));
    try reflexivity.
  - apply create_agent_preserves; solve [assumption | reflexivity].
  - apply update_agent_preserves; solve [assumption | reflexivity].
  - apply delete_agent_preserves; solve [assumption | reflexivity].
  - apply add_phone_preserves; solve [assumption | reflexivity].
  - apply delete_phone_preserves; solve [assumption | reflexivity].
  - apply create_passport_preserves; solve [assumption | reflexivity].
  - apply create_snils_preserves; solve [assumption | reflexivity].
  - apply create_stage_preserves; solve [assumption | reflexivity].
  - apply create_status_preserves; solve [assumption | reflexivity].
Qed.




(** ** update_client *)

Lemma update_client_run (e : Env) (d : Database) (client_id : UUID)
  (payload : dict) :
  run_request e (update_client client_id payload) d =
  match client_by_pk (tables d) client_id with
  | None => (Ok None, d)
  | Some _ =>
      match patch_client payload with
      | Err x => (Err x, d)
      | Ok chs =>
          match flush_update_client e (tables d) client_id chs with
          | Err x => (Err x, d)
          | Ok t' =>
              (match client_by_pk t' (identity_after client_id chs) with
               | Some c =>
                   Ok (Some (_client_to_dict t' (load selectinload_all t' c)))
               | None => Err InvalidRequestError
               end, mkDatabase t' (seqs d))
          end
      end
  end.
Proof.
  unfold run_request, update_client, bind at 1, query. simpl.
  destruct (client_by_pk (tables d) client_id) as [c|]; simpl.
  2:{ destruct d; reflexivity. }
  unfold bind at 1, lift.
  destruct (patch_client payload) as [chs|x]; simpl.
  2:{ destruct d; reflexivity. }
  unfold bind, db_add, try_except, bind, db_commit, bind, db_flush,
    db_refresh, bind, query, client_dossier, query, db_rollback. simpl.
  destruct (flush_update_client e (tables d) client_id chs) as [t'|x]; simpl.
  - destruct (client_by_pk t' (identity_after client_id chs)); reflexivity.
  - destruct d; reflexivity.
Qed.

(** *** Attribute names *)

Lemma client_attribute_column (c : Client.column) :
  client_attribute (Client.column_name c) = Some (inl c).
Proof. destruct c; reflexivity. Qed.

Lemma client_attribute_inl (k : string) (c : Client.column) :
  client_attribute k = Some (inl c) -> k = Client.column_name c.
Proof.
  unfold client_attribute.
  destruct (find _ Client.columns) as [c'|] eqn:Hf.
  - intros H. injection H as <-. apply find_some in Hf.
    destruct Hf as [_ Hf]. apply String.eqb_eq in Hf. congruence.
  - destruct (find _ Client.relationships); discriminate.
Qed.


(** Only columns the payload names are set. *)
Lemma patch_client_sets (payload : dict) :
  forall chs c v,
    patch_client payload = Ok chs ->
    In (SetColumn c v) chs ->
    In (Client.column_name c) (keys payload).
Proof.
  induction payload as [|[k w] payload IH]; intros chs c v H Hin; simpl in H.
  - injection H as <-. contradiction.
  - destruct (client_attribute k) as [a|] eqn:Ha.
    + destruct (setattr_client a w) as [ch|x] eqn:Hs; [|discriminate].
      destruct (patch_client payload) as [chs'|x]; [|discriminate].
      injection H as <-. destruct Hin as [Hin|Hin].
      * subst ch. left. simpl.
        destruct a as [c'|r]; simpl in Hs.
        -- injection Hs as <- <-.
           apply client_attribute_inl. assumption.
        -- destruct r; destruct w as [| | | | | |[|]|]; discriminate.
      * right. eapply IH; [reflexivity | exact Hin].
    + right. eapply IH; eassumption.
Qed.




(** *** Columns an UPDATE leaves alone *)

Lemma set_client_column_frame (c col : Client.column) (v : value)
  (r r' : Client.t) :
  set_client_column c v r = Ok r' ->
  col <> c ->
  Client.get col r' = Client.get col r.
Proof.
  intros H Hne.
  destruct c; destruct v; simpl in H; try discriminate;
    injection H as <-; destruct col; try reflexivity; congruence.
Qed.

Lemma set_client_column_id (c : Client.column) (v : value) (r r' : Client.t) :
  set_client_column c v r = Ok r' ->
  Client.client_id r'
  = match SetColumn (relationship := Client.relationship) c v with
    | SetColumn Client.c_client_id (VUuid u) => u
    | _ => Client.client_id r
    end.
Proof.
  intros H.
  destruct c; destruct v; simpl in H; try discriminate;
    injection H as <-; reflexivity.
Qed.

Lemma apply_client_changes_frame (chs : list client_change) :
  forall (r r' : Client.t) (col : Client.column),
    apply_client_changes chs r = Ok r' ->
    (forall v, ~ In (SetColumn col v) chs) ->
    Client.get col r' = Client.get col r.
Proof.
  induction chs as [|ch chs IH]; intros r r' col H Hnot; simpl in H.
  - injection H as <-. reflexivity.
  - destruct ch as [c v|rel|rel]; [| |discriminate].
    + destruct (set_client_column c v r) as [r1|x] eqn:Hs; [|discriminate].
      rewrite (IH r1 r' col H).
      * eapply set_client_column_frame; [exact Hs|].
        intros ->. apply (Hnot v). left. reflexivity.
      * intros w Hin. apply (Hnot w). right. assumption.
    + apply (IH r r' col H).
      intros w Hin. apply (Hnot w). right. assumption.
Qed.

Lemma apply_client_changes_identity (chs : list client_change) :
  forall (r r' : Client.t),
    apply_client_changes chs r = Ok r' ->
    identity_after (Client.client_id r) chs = Client.client_id r'.
Proof.
  unfold identity_after.
  induction chs as [|ch chs IH]; intros r r' H; simpl in H.
  - injection H as <-. reflexivity.
  - destruct ch as [c v|rel|rel]; [| |discriminate].
    + destruct (set_client_column c v r) as [r1|x] eqn:Hs; [|discriminate].
      simpl. rewrite <- (IH r1 r' H).
      rewrite (set_client_column_id c v r r1 Hs). reflexivity.
    + simpl. apply IH. assumption.
Qed.

Lemma client_eqb_id (a b : Client.t) :
  client_eqb a b = true -> Client.client_id a = Client.client_id b.
Proof.
  unfold client_eqb. intros H.
  repeat (apply andb_true_iff in H; destruct H as [H _]).
  apply Z.eqb_eq. assumption.
Qed.

Lemma client_by_pk_id (t : Tables) (id : UUID) (c : Client.t) :
  client_by_pk t id = Some c -> Client.client_id c = id.
Proof.
  intros H. apply find_some in H. destruct H as [_ H].
  apply Z.eqb_eq. assumption.
Qed.

Lemma set_updated_at_frame (col : Client.column) (r : Client.t) (x : datetime) :
  col <> Client.c_updated_at ->
  Client.get col (Client.set_updated_at r x) = Client.get col r.
Proof. destruct col; try reflexivity. congruence. Qed.

(** The row written by an UPDATE is the one its new key selects. *)
Lemma find_replaced (l : list Client.t) (id : UUID) (old new : Client.t) :
  find (fun c => Client.client_id c =? id) l = Some old ->
  (Client.client_id new <> id ->
   find (fun c => Client.client_id c =? Client.client_id new) l = None) ->
  find (fun c => Client.client_id c =? Client.client_id new)
       (map (fun c => if Client.client_id c =? id then new else c) l)
  = Some new.
Proof.
  induction l as [|x l IH]; simpl; [discriminate|].
  intros Hold Hnew.
  destruct (Client.client_id x =? id) eqn:Hx.
  - simpl. rewrite Z.eqb_refl. reflexivity.
  - simpl. destruct (Client.client_id x =? Client.client_id new) eqn:Hxn.
    + exfalso. apply Z.eqb_eq in Hxn. apply Z.eqb_neq in Hx.
      assert (Client.client_id new <> id) as Hne by congruence.
      specialize (Hnew Hne). discriminate Hnew.
    + apply IH; [assumption|].
      intros Hne. specialize (Hnew Hne). assumption.
Qed.


(** The outcome of [update_client] on a Client that exists: it raises and
    leaves the tables alone, or the stored row becomes [c'], built from
    the loaded row by the changes of the payload. *)
Lemma update_client_cases (e : Env) (d d' : Database) (client_id : UUID)
  (payload : dict) (c : Client.t) (r : result (option dict)) :
  client_by_pk (tables d) client_id = Some c ->
  run_request e (update_client client_id payload) d = (r, d') ->
  seqs d' = seqs d
  /\ ((exists x, r = Err x /\ tables d' = tables d)
      \/
      (exists chs new,
          patch_client payload = Ok chs
          /\ apply_client_changes chs c = Ok new
          /\ let c' := if client_eqb c new then c
                       else if sets_updated_at chs then new
                            else Client.set_updated_at new (now e) in
             CLIENT (tables d')
             = (if client_eqb c new then CLIENT (tables d)
                else map (fun x => if Client.client_id x =? client_id
                                   then c' else x)
                         (CLIENT (tables d)))
             /\ AGENT (tables d') = AGENT (tables d)
             /\ (Client.client_id c' <> client_id ->
                 client_by_pk (tables d) (Client.client_id c') = None)
             /\ client_by_pk (tables d') (Client.client_id c') = Some c'
             /\ r = Ok (Some (_client_to_dict (tables d')
                                (load selectinload_all (tables d') c')))
             /\ tables d'
                = fold_left (delete_orphans client_id) chs
                    (if client_eqb c new then tables d
                     else with_CLIENT (tables d)
                            (map (fun x => if Client.client_id x =? client_id
                                           then c' else x)
                                 (CLIENT (tables d)))))).
Proof.
  intros Hc Hrun. rewrite update_client_run, Hc in Hrun.
  destruct (patch_client payload) as [chs|x] eqn:Hpatch.
  2:{ injection Hrun as <- <-. split; [reflexivity|]. left. eauto. }
  destruct (flush_update_client e (tables d) client_id chs) as [t'|x] eqn:Hfl.
  2:{ injection Hrun as <- <-. split; [reflexivity|]. left. eauto. }
  apply flush_update_client_ok in Hfl.
  destruct Hfl as [old [new [Hold [Happ [t1 [Ht' Hcase]]]]]].
  rewrite Hc in Hold. injection Hold as <-.
  destruct (delete_orphans_fold_frame client_id chs t1) as [Ha [Hcl _]].
  pose proof (apply_client_changes_identity chs c new Happ) as Hid.
  rewrite (client_by_pk_id _ _ _ Hc) in Hid.
  assert (client_by_pk t' (identity_after client_id chs)
          = find (fun x => Client.client_id x =? Client.client_id new)
                 (CLIENT t1)) as Hlook.
  { unfold client_by_pk. rewrite Ht', Hcl, Hid. reflexivity. }
  rewrite Hlook in Hrun. clear Hlook.
  destruct Hcase as [[Heq ->]|[Heq Hup]].
  - (* nothing to UPDATE *)
    assert (Client.client_id new = client_id) as Hnew.
    { rewrite <- (client_eqb_id _ _ Heq). eapply client_by_pk_id. eassumption. }
    rewrite Hnew in Hrun. fold (client_by_pk (tables d) client_id) in Hrun.
    rewrite Hc in Hrun. injection Hrun as <- <-.
    split; [reflexivity|]. right. exists chs, new.
    split; [reflexivity|]. split; [assumption|].
    rewrite Heq. cbv zeta. simpl tables.
    rewrite Ht', Hcl, Ha.
    assert (client_by_pk (fold_left (delete_orphans client_id) chs (tables d))
                         (Client.client_id c) = Some c) as Hc'.
    { unfold client_by_pk. rewrite Hcl.
      rewrite (client_by_pk_id _ _ _ Hc). exact Hc. }
    repeat split; try assumption.
    intros Hne. exfalso. apply Hne. eapply client_by_pk_id. eassumption.
  - (* an UPDATE was issued *)
    apply update_client_row_ok in Hup. destruct Hup as [-> Hpk].
    set (c' := if sets_updated_at chs then new
               else Client.set_updated_at new (now e)) in *.
    assert (Client.client_id c' = Client.client_id new) as Hidc.
    { subst c'. destruct (sets_updated_at chs); reflexivity. }
    simpl CLIENT in Hrun. rewrite <- Hidc in Hrun.
    rewrite (find_replaced (CLIENT (tables d)) client_id c c' Hc Hpk) in Hrun.
    injection Hrun as <- <-.
    split; [reflexivity|]. right. exists chs, new.
    split; [reflexivity|]. split; [assumption|].
    rewrite Heq. cbv zeta. fold c'. simpl tables.
    rewrite Ht', Hcl, Ha. simpl.
    repeat split; try assumption.
    unfold client_by_pk. rewrite Hcl. simpl.
    exact (find_replaced (CLIENT (tables d)) client_id c c' Hc Hpk).
Qed.



(** ** update_agent *)

Lemma update_agent_run (e : Env) (d : Database) (agent_id : UUID)
  (payload : dict) :
  run_request e (update_agent agent_id payload) d =
  match agent_by_pk (tables d) agent_id with
  | None => (Ok None, d)
  | Some _ =>
      match patch_agent payload with
      | Err x => (Err x, d)
      | Ok chs =>
          match flush_update_agent (tables d) agent_id chs with
          | Err x => (Err x, d)
          | Ok t' =>
              (match agent_by_pk t' (agent_identity_after agent_id chs) with
               | Some a => Ok (Some (_agent_to_dict a))
               | None => Err InvalidRequestError
               end, mkDatabase t' (seqs d))
          end
      end
  end.
Proof.
  unfold run_request, update_agent, bind at 1, query. simpl.
  destruct (agent_by_pk (tables d) agent_id) as [c|]; simpl.
  2:{ destruct d; reflexivity. }
  unfold bind at 1, lift.
  destruct (patch_agent payload) as [chs|x]; simpl.
  2:{ destruct d; reflexivity. }
  unfold bind, db_add, try_except, bind, db_commit, bind, db_flush,
    db_refresh, bind, query, db_rollback. simpl.
  destruct (flush_update_agent (tables d) agent_id chs) as [t'|x]; simpl.
  - destruct (agent_by_pk t' (agent_identity_after agent_id chs)); reflexivity.
  - destruct d; reflexivity.
Qed.

Lemma agent_attribute_inl (k : string) (c : Agent.column) :
  agent_attribute k = Some (inl c) -> k = Agent.column_name c.
Proof.
  unfold agent_attribute.
  destruct (find _ Agent.columns) as [c'|] eqn:Hf.
  - intros H. injection H as <-. apply find_some in Hf.
    destruct Hf as [_ Hf]. apply String.eqb_eq in Hf. congruence.
  - destruct (String.eqb _ _); discriminate.
Qed.

Lemma patch_agent_sets (payload : dict) :
  forall chs c v,
    patch_agent payload = Ok chs ->
    In (SetColumn c v) chs ->
    In (Agent.column_name c) (keys payload).
Proof.
  induction payload as [|[k w] payload IH]; intros chs c v H Hin; simpl in H.
  - injection H as <-. contradiction.
  - destruct (agent_attribute k) as [a|] eqn:Ha.
    + destruct (setattr_agent a w) as [ch|x] eqn:Hs; [|discriminate].
      destruct (patch_agent payload) as [chs'|x]; [|discriminate].
      injection H as <-. destruct Hin as [Hin|Hin].
      * subst ch. left. simpl.
        destruct a as [c'|r]; simpl in Hs.
        -- injection Hs as <- <-.
           apply agent_attribute_inl. assumption.
        -- destruct w as [| | | | | |[|]|]; discriminate.
      * right. eapply IH; [reflexivity | exact Hin].
    + right. eapply IH; eassumption.
Qed.

Lemma set_agent_column_external_id (c : Agent.column) (v : value)
  (r r' : Agent.t) :
  set_agent_column c v r = Ok r' ->
  c <> Agent.c_external_id ->
  Agent.external_id r' = Agent.external_id r.
Proof.
  intros H Hne.
  destruct c; destruct v; simpl in H; try discriminate;
    injection H as <-; try reflexivity; congruence.
Qed.

Lemma apply_agent_changes_external_id (chs : list agent_change) :
  forall (r r' : Agent.t),
    apply_agent_changes chs r = Ok r' ->
    (forall v, ~ In (SetColumn Agent.c_external_id v) chs) ->
    Agent.external_id r' = Agent.external_id r.
Proof.
  induction chs as [|ch chs IH]; intros r r' H Hnot; simpl in H.
  - injection H as <-. reflexivity.
  - destruct ch as [c v|rel|rel].
    + destruct (set_agent_column c v r) as [r1|x] eqn:Hs; [|discriminate].
      rewrite (IH r1 r' H).
      * eapply set_agent_column_external_id; [exact Hs|].
        intros ->. apply (Hnot v). left. reflexivity.
      * intros w Hin. apply (Hnot w). right. assumption.
    + apply (IH r r' H). intros w Hin. apply (Hnot w). right. assumption.
    + apply (IH r r' H). intros w Hin. apply (Hnot w). right. assumption.
Qed.

(** What [update_agent] does to the tables: nothing, or it rewrites the
    rows of the key with the changed row. *)
Lemma update_agent_cases (e : Env) (d : Database) (agent_id : UUID)
  (payload : dict) :
  let d' := snd (run_request e (update_agent agent_id payload) d) in
  seqs d' = seqs d
  /\ CLIENT (tables d') = CLIENT (tables d)
  /\ (AGENT (tables d') = AGENT (tables d)
      \/ exists chs old new,
          patch_agent payload = Ok chs
          /\ agent_by_pk (tables d) agent_id = Some old
          /\ apply_agent_changes chs old = Ok new
          /\ (Agent.agent_id new <> agent_id ->
              agent_by_pk (tables d) (Agent.agent_id new) = None)
          /\ AGENT (tables d')
             = map (fun a => if Agent.agent_id a =? agent_id then new else a)
                   (AGENT (tables d))).
Proof.
  rewrite update_agent_run.
  destruct (agent_by_pk (tables d) agent_id) as [a|] eqn:Ha;
    [|simpl; auto].
  destruct (patch_agent payload) as [chs|x] eqn:Hp; [|simpl; auto].
  destruct (flush_update_agent (tables d) agent_id chs) as [t'|x] eqn:Hfl;
    [|simpl; auto].
  apply flush_update_agent_ok in Hfl.
  destruct Hfl as [old [new [Hold [Happ [[_ ->]|[_ Hup]]]]]]; [simpl; auto|].
  apply update_agent_row_ok in Hup. destruct Hup as [-> Hpk]. simpl.
  split; [reflexivity|]. split; [reflexivity|]. right.
  exists chs, old, new. rewrite Ha in Hold. injection Hold as <-.
  repeat split; assumption.
Qed.

(** ** External ids of the rows a call keeps *)

Section Replace.

Context {A : Type} (key : A -> Z) (id : Z) (new : A).

Lemma find_replace_none (l : list A) :
  key new <> id ->
  find (fun x => key x =? id)
       (map (fun x => if key x =? id then new else x) l) = None.
Proof.
  intros Hne. apply Z.eqb_neq in Hne.
  induction l as [|x l IH]; simpl; [reflexivity|].
  destruct (key x =? id) eqn:Hx.
  - rewrite Hne. assumption.
  - rewrite Hx. assumption.
Qed.

(** A row found under a key before and after an UPDATE is the same row,
    or it is the updated row found under its own, unchanged key. *)
Lemma find_replace_kept (l : list A) (id2 : Z) (a a' : A) :
  find (fun x => key x =? id2) l = Some a ->
  find (fun x => key x =? id2)
       (map (fun x => if key x =? id then new else x) l) = Some a' ->
  (key new <> id -> find (fun x => key x =? key new) l = None) ->
  a' = a \/ (a' = new /\ id2 = id).
Proof.
  induction l as [|x l IH]; simpl; [discriminate|].
  intros Ha Ha' Hpk.
  destruct (key x =? id) eqn:Hx; destruct (key x =? id2) eqn:Hx2.
  - apply Z.eqb_eq in Hx, Hx2.
    destruct (key new =? id2) eqn:Hn.
    + injection Ha' as <-. right. split; congruence.
    + apply Z.eqb_neq in Hn.
      rewrite <- Hx2, Hx, find_replace_none in Ha' by congruence.
      discriminate.
  - apply Z.eqb_eq in Hx. apply Z.eqb_neq in Hx2.
    assert (key new <> id -> find (fun y => key y =? key new) l = None) as Hpk'.
    { intros Hne. specialize (Hpk Hne).
      destruct (key x =? key new); [discriminate | assumption]. }
    destruct (key new =? id2) eqn:Hn.
    + apply Z.eqb_eq in Hn.
      assert (key new <> id) as Hne by congruence.
      specialize (Hpk' Hne). rewrite Hn, Ha in Hpk'. discriminate.
    + apply IH; assumption.
  - injection Ha as <-. injection Ha' as <-.
    left. reflexivity.
  - apply IH; try assumption.
    intros Hne. specialize (Hpk Hne).
    destruct (key x =? key new); [discriminate | assumption].
Qed.

End Replace.

Lemma find_filter_keep {A} (f g : A -> bool) (l : list A) :
  (forall x, f x = true -> g x = true) ->
  find f (filter g l) = find f l.
Proof.
  intros H. induction l as [|x l IH]; simpl; [reflexivity|].
  destruct (g x) eqn:G; simpl.
  - destruct (f x); [reflexivity | assumption].
  - destruct (f x) eqn:F; [|assumption].
    rewrite (H x F) in G. discriminate.
Qed.

Lemma find_deleted_kept {A} (key : A -> Z) (l : list A) (id id2 : Z)
  (a' : A) :
  find (fun x => key x =? id2)
       (filter (fun x => negb (key x =? id)) l) = Some a' ->
  find (fun x => key x =? id2) l = Some a'.
Proof.
  intros H. destruct (Z.eq_dec id2 id) as [->|Hne].
  - rewrite find_filter_neg in H; [discriminate|].
    intros x Hx. rewrite Hx. reflexivity.
  - rewrite find_filter_keep in H; [assumption|].
    intros x Hx. apply Z.eqb_eq in Hx. apply negb_true_iff, Z.eqb_neq.
    congruence.
Qed.

Lemma no_external_id_key (p : dict) :
  existsb (String.eqb "external_id") (keys p) = false ->
  ~ In "external_id" (keys p).
Proof.
  intros H Hin.
  assert (existsb (String.eqb "external_id") (keys p) = true) as Ht.
  { apply existsb_exists. exists "external_id". split; [assumption|].
    apply String.eqb_refl. }
  rewrite Ht in H. discriminate.
Qed.

Lemma exec_keeps_agent_ids (e : Env) (c : call) (d : Database) :
  names_external_id c = false ->
  forall id a a',
    agent_by_pk (tables d) id = Some a ->
    agent_by_pk (tables (exec e c d)) id = Some a' ->
    Agent.external_id a' = Agent.external_id a.
Proof.
  intros Hc id a a' Ha Ha'.
  destruct (agent_call c) eqn:Hcall.
  2:{ unfold agent_by_pk in Ha'. rewrite exec_agent_frame in Ha' by assumption.
      unfold agent_by_pk in Ha. congruence. }
  destruct c; try discriminate Hcall; simpl in Ha'.
  - (* create_agent *)
    destruct (run_request e (create_agent agent_in) d) as [r d'] eqn:Hrun.
    destruct (create_agent_cases e d d' agent_in r Hrun)
      as [_ [[x [_ Ht]]|[Ht _]]]; simpl in Ha'; rewrite Ht in Ha'.
    + congruence.
    + unfold agent_by_pk in Ha'. simpl in Ha'.
      unfold agent_by_pk in Ha.
      rewrite (find_app_some _ _ _ _ Ha) in Ha'. congruence.
  - (* update_agent *)
    destruct (update_agent_cases e d agent_id payload)
      as [_ [_ [Hsame|[chs [old [new [Hp [Hold [Happ [Hpk Hmap]]]]]]]]]];
      unfold agent_by_pk in Ha, Ha'.
    + rewrite Hsame in Ha'. congruence.
    + rewrite Hmap in Ha'.
      destruct (find_replace_kept Agent.agent_id agent_id new
                  (AGENT (tables d)) id a a' Ha Ha' Hpk) as [->|[-> ->]];
        [reflexivity|].
      unfold agent_by_pk in Hold. rewrite Hold in Ha. injection Ha as <-.
      apply (apply_agent_changes_external_id chs old new Happ).
      intros v Hin. apply (no_external_id_key payload Hc).
      apply (patch_agent_sets payload chs _ v Hp Hin).
  - (* delete_agent *)
    rewrite delete_agent_run in Ha'.
    destruct (agent_by_pk (tables d) agent_id); [|simpl in Ha'; congruence].
    destruct (is_nil _); [|simpl in Ha'; congruence].
    unfold agent_by_pk in Ha, Ha'. simpl in Ha'.
    apply (find_deleted_kept Agent.agent_id) in Ha'. congruence.
Qed.

Lemma exec_keeps_client_ids (e : Env) (c : call) (d : Database) :
  names_external_id c = false ->
  forall id a a',
    client_by_pk (tables d) id = Some a ->
    client_by_pk (tables (exec e c d)) id = Some a' ->
    Client.external_id a' = Client.external_id a.
Proof.
  intros Hc id a a' Ha Ha'.
  destruct (client_call c) eqn:Hcall.
  2:{ unfold client_by_pk in Ha'.
      rewrite exec_client_frame in Ha' by assumption.
      unfold client_by_pk in Ha. congruence. }
  destruct c; try discriminate Hcall; simpl in Ha'.
  - (* create_client *)
    destruct (run_request e (create_client client_in) d) as [r d'] eqn:Hrun.
    destruct (create_client_cases e d d' client_in r Hrun)
      as [[x [_ [Ht _]]]|[Ht _]]; simpl in Ha'; rewrite Ht in Ha'.
    + congruence.
    + unfold client_by_pk in Ha'. simpl in Ha'.
      unfold client_by_pk in Ha.
      rewrite (find_app_some _ _ _ _ Ha) in Ha'. congruence.
  - (* update_client *)
    destruct (client_by_pk (tables d) client_id) as [old|] eqn:Hold.
    2:{ rewrite update_client_run, Hold in Ha'. simpl in Ha'. congruence. }
    destruct (run_request e (update_client client_id payload) d)
      as [r d'] eqn:Hrun.
    destruct (update_client_cases e d d' client_id payload old r Hold Hrun)
      as [_ [[x [_ Ht]]|[chs [new [Hp [Happ H]]]]]]; simpl in Ha'.
    { rewrite Ht in Ha'. congruence. }
    cbv zeta in H. destruct H as [Hcl [_ [Hpk _]]].
    unfold client_by_pk in Ha, Ha'. rewrite Hcl in Ha'.
    assert (Client.get Client.c_external_id new
            = Client.get Client.c_external_id old) as Hext.
    { apply (apply_client_changes_frame chs old new _ Happ).
      intros v Hin. apply (no_external_id_key payload Hc).
      apply (patch_client_sets payload chs _ v Hp Hin). }
    simpl in Hext. injection Hext as Hext.
    destruct (client_eqb old new); [congruence|].
    destruct (find_replace_kept Client.client_id client_id _
                (CLIENT (tables d)) id a a' Ha Ha' Hpk) as [->|[-> ->]];
      [reflexivity|].
    unfold client_by_pk in Hold. rewrite Hold in Ha. injection Ha as <-.
    destruct (sets_updated_at chs); simpl; assumption.
  - (* delete_client *)
    rewrite delete_client_run in Ha'.
    destruct (client_by_pk (tables d) client_id); [|simpl in Ha'; congruence].
    unfold client_by_pk in Ha, Ha'. simpl in Ha'.
    apply (find_deleted_kept Client.client_id) in Ha'. congruence.
Qed.

(** A call keeps the external id of every row it keeps, unless it is an
    update whose payload names [external_id]. *)
Lemma exec_external_ids_kept (e : Env) (c : call) (d : Database) :
  names_external_id c = false -> external_ids_kept d (exec e c d).
Proof.
  intros Hc. split.
  - apply exec_keeps_agent_ids. assumption.
  - apply exec_keeps_client_ids. assumption.
Qed.

(** ** Issuance of external ids *)

Lemma issued_agent_spec (e : Env) (c : call) (d : Database) (z : Z) :
  issued_agent e c d = Some z ->
  z = agent_external_id_seq (seqs d)
  /\ agent_external_id_seq (seqs (exec e c d)) = z + 1
  /\ client_external_id_seq (seqs (exec e c d))
     = client_external_id_seq (seqs d)
  /\ ~ In z (map Agent.external_id (AGENT (tables d))).
Proof.
  destruct c; simpl; try discriminate.
  destruct (run_request e (create_agent agent_in) d) as [r d'] eqn:Hrun.
  destruct (create_agent_cases e d d' agent_in r Hrun)
    as [Hs [[x [-> _]]|[_ [-> [_ [_ Hfresh]]]]]]; simpl; [discriminate|].
  intros H. injection H as <-. rewrite Hs. simpl.
  repeat split; try reflexivity. assumption.
Qed.

Lemma issued_client_spec (e : Env) (c : call) (d : Database) (z : Z) :
  issued_client e c d = Some z ->
  z = client_external_id_seq (seqs d)
  /\ client_external_id_seq (seqs (exec e c d)) = z + 1
  /\ agent_external_id_seq (seqs (exec e c d))
     = agent_external_id_seq (seqs d)
  /\ ~ In z (map Client.external_id (CLIENT (tables d))).
Proof.
  destruct c; simpl; try discriminate.
  destruct (run_request e (create_client client_in) d) as [r d'] eqn:Hrun.
  destruct (create_client_cases e d d' client_in r Hrun)
    as [[x [-> _]]|[_ [Hs [-> [_ [_ [Hfresh _]]]]]]]; simpl; [discriminate|].
  intros H. injection H as <-. rewrite Hs. simpl.
  repeat split; try reflexivity. assumption.
Qed.

(** Along any trace the external ids handed out to Agents are strictly
    increasing, and none is below the sequence the trace started from. *)
Lemma agents_issued_increasing (tr : list (Env * call)) :
  forall d,
    Forall (fun z => agent_external_id_seq (seqs d) <= z) (agents_issued tr d)
    /\ StronglySorted Z.lt (agents_issued tr d).
Proof.
  induction tr as [|[e c] tr IH]; intros d; simpl.
  - split; constructor.
  - destruct (IH (exec e c d)) as [Hge Hs].
    destruct (issued_agent e c d) as [z|] eqn:Hz; simpl.
    + apply issued_agent_spec in Hz. destruct Hz as [-> [Hnext _]].
      split.
      * constructor; [lia|].
        eapply Forall_impl; [|exact Hge]. simpl. intros y Hy. lia.
      * constructor; [assumption|].
        eapply Forall_impl; [|exact Hge]. simpl. intros y Hy. lia.
    + split; [|assumption].
      destruct (exec_seqs_le e c d) as [Hle _].
      eapply Forall_impl; [|exact Hge]. simpl. intros y Hy. lia.
Qed.

Lemma clients_issued_increasing (tr : list (Env * call)) :
  forall d,
    Forall (fun z => client_external_id_seq (seqs d) <= z)
           (clients_issued tr d)
    /\ StronglySorted Z.lt (clients_issued tr d).
Proof.
  induction tr as [|[e c] tr IH]; intros d; simpl.
  - split; constructor.
  - destruct (IH (exec e c d)) as [Hge Hs].
    destruct (issued_client e c d) as [z|] eqn:Hz; simpl.
    + apply issued_client_spec in Hz. destruct Hz as [-> [Hnext _]].
      split.
      * constructor; [lia|].
        eapply Forall_impl; [|exact Hge]. simpl. intros y Hy. lia.
      * constructor; [assumption|].
        eapply Forall_impl; [|exact Hge]. simpl. intros y Hy. lia.
    + split; [|assumption].
      destruct (exec_seqs_le e c d) as [_ [Hle _]].
      eapply Forall_impl; [|exact Hge]. simpl. intros y Hy. lia.
Qed.

(** *** The bootstrap of the sequences *)

Lemma sql_max_bound (l : list Z) (x : Z) :
  In x l -> exists m, sql_max l = Some m /\ x <= m.
Proof.
  induction l as [|y l IH]; simpl; [contradiction|].
  intros [->|Hin].
  - destruct (sql_max l) as [m|]; eexists; split; try reflexivity; lia.
  - destruct (IH Hin) as [m [-> Hm]]. eexists. split; [reflexivity|]. lia.
Qed.

Lemma below_next_of_max (l : list Z) :
  Forall (fun x => x < coalesce (sql_max l) 0 + 1) l.
Proof.
  apply Forall_forall. intros x Hx.
  destruct (sql_max_bound l x Hx) as [m [-> Hm]]. simpl. lia.
Qed.

Lemma number_agents_ids (rows : list Agent.t) :
  forall next,
    Forall (fun x => next <= x)
           (map Agent.external_id (fst (number_agents rows next)))
    /\ NoDup (map Agent.external_id (fst (number_agents rows next))).
Proof.
  induction rows as [|r rows IH]; intros next; simpl.
  - split; constructor.
  - destruct (IH (next + 1)) as [Hge Hnd].
    destruct (number_agents rows (next + 1)) as [l n]. simpl in *.
    split.
    + constructor; [lia|].
      eapply Forall_impl; [|exact Hge]. simpl. intros y Hy. lia.
    + constructor; [|assumption].
      intros Hin. rewrite Forall_forall in Hge. specialize (Hge _ Hin). lia.
Qed.

Lemma number_clients_ids (rows : list Client.t) :
  forall next,
    Forall (fun x => next <= x)
           (map Client.external_id (fst (number_clients rows next)))
    /\ NoDup (map Client.external_id (fst (number_clients rows next))).
Proof.
  induction rows as [|r rows IH]; intros next; simpl.
  - split; constructor.
  - destruct (IH (next + 1)) as [Hge Hnd].
    destruct (number_clients rows (next + 1)) as [l n]. simpl in *.
    split.
    + constructor; [lia|].
      eapply Forall_impl; [|exact Hge]. simpl. intros y Hy. lia.
    + constructor; [|assumption].
      intros Hin. rewrite Forall_forall in Hge. specialize (Hge _ Hin). lia.
Qed.

(** After [upgrade] the rows that existed carry distinct external ids and
    each sequence stands at the largest of them plus one (at 1 on an empty
    table). *)
Lemma upgrade_bootstrap (t : Tables) (agent_seq client_seq : option Z)
  (phone_seq : Z) :
  let d0 := upgrade t agent_seq client_seq phone_seq in
  agent_external_id_seq (seqs d0)
  = coalesce (sql_max (map Agent.external_id (AGENT (tables d0)))) 0 + 1
  /\ client_external_id_seq (seqs d0)
     = coalesce (sql_max (map Client.external_id (CLIENT (tables d0)))) 0 + 1
  /\ unique_external_ids (tables d0)
  /\ Forall (fun a => Agent.external_id a < agent_external_id_seq (seqs d0))
            (AGENT (tables d0))
  /\ Forall (fun c => Client.external_id c < client_external_id_seq (seqs d0))
            (CLIENT (tables d0)).
Proof.
  intros d0. subst d0. unfold upgrade, unique_external_ids. simpl.
  split; [reflexivity|]. split; [reflexivity|].
  split; [split|split].
  - apply number_agents_ids.
  - apply number_clients_ids.
  - pose proof (below_next_of_max
                  (map Agent.external_id
                     (fst (number_agents (AGENT t) (coalesce agent_seq 1)))))
      as H.
    rewrite Forall_map in H. exact H.
  - pose proof (below_next_of_max
                  (map Client.external_id
                     (fst (number_clients (CLIENT t)
                             (coalesce client_seq 1)))))
      as H.
    rewrite Forall_map in H. exact H.
Qed.

(** ** Uniqueness of the stored external ids *)

Lemma NoDup_map_snoc {A} (f : A -> Z) (l : list A) (a : A) :
  NoDup (map f l) -> ~ In (f a) (map f l) -> NoDup (map f (l ++ [a])).
Proof.
  intros Hnd Hin. rewrite map_app. simpl.
  apply NoDup_app; [assumption | constructor; [intros []|constructor] |].
  intros x Hx [<-|[]]. contradiction.
Qed.

Lemma NoDup_map_filter {A} (f : A -> Z) (g : A -> bool) (l : list A) :
  NoDup (map f l) -> NoDup (map f (filter g l)).
Proof.
  induction l as [|x l IH]; simpl; intros H; [constructor|].
  inversion H as [|? ? Hx Hl]; subst.
  destruct (g x); simpl; [|auto].
  constructor; [|auto].
  intros Hin. apply Hx. apply in_map_iff in Hin.
  destruct Hin as [y [Hy Hin]]. apply filter_In in Hin.
  apply in_map_iff. exists y. tauto.
Qed.

Lemma find_none_not_in {A} (pk : A -> Z) (l : list A) (id : Z) :
  find (fun x => pk x =? id) l = None -> ~ In id (map pk l).
Proof.
  intros H Hin. apply in_map_iff in Hin. destruct Hin as [x [Hx Hin]].
  apply (find_none _ _ H) in Hin. simpl in Hin.
  apply Z.eqb_neq in Hin. contradiction.
Qed.

Lemma replace_absent {A} (pk : A -> Z) (l : list A) (id : Z) (new : A) :
  ~ In id (map pk l) ->
  map (fun x => if pk x =? id then new else x) l = l.
Proof.
  induction l as [|x l IH]; simpl; intros H; [reflexivity|].
  destruct (pk x =? id) eqn:Hx.
  - exfalso. apply H. left. apply Z.eqb_eq. assumption.
  - rewrite IH; [reflexivity|]. intros Hin. apply H. right. assumption.
Qed.

(** Rewriting the row of one primary key keeps a unique column unique
    when no other row holds the new value. *)
Lemma NoDup_replace {A} (pk f : A -> Z) (l : list A) (id : Z) (new : A) :
  NoDup (map pk l) ->
  NoDup (map f l) ->
  (forall b, In b l -> pk b <> id -> f b <> f new) ->
  NoDup (map f (map (fun x => if pk x =? id then new else x) l)).
Proof.
  induction l as [|x l IH]; simpl; intros Hpk Hf Hnew; [constructor|].
  inversion Hpk as [|? ? Hx Hl]; subst.
  inversion Hf as [|? ? Hfx Hfl]; subst.
  destruct (pk x =? id) eqn:Hid.
  - apply Z.eqb_eq in Hid. subst id.
    rewrite replace_absent by assumption.
    constructor; [|assumption].
    intros Hin. apply in_map_iff in Hin. destruct Hin as [b [Hb Hin]].
    apply (Hnew b); [right; assumption | | assumption].
    intros Heq. apply Hx. rewrite <- Heq. apply in_map. assumption.
  - apply Z.eqb_neq in Hid.
    constructor.
    + intros Hin. apply in_map_iff in Hin. destruct Hin as [b [Hb Hin]].
      apply in_map_iff in Hin. destruct Hin as [y [Hy Hin]].
      destruct (pk y =? id).
      * subst b. apply (Hnew x); [left; reflexivity | assumption | congruence].
      * subst b. apply Hfx. rewrite <- Hb. apply in_map. assumption.
    + apply IH; try assumption.
      intros b Hb. apply Hnew. right. assumption.
Qed.

Lemma update_agent_row_unique (t t' : Tables) (id : UUID) (new : Agent.t) :
  update_agent_row t id new = Ok t' ->
  forall b, In b (AGENT t) -> Agent.agent_id b <> id ->
            Agent.external_id b <> Agent.external_id new.
Proof.
  unfold update_agent_row.
  destruct (negb (agent_fits new)); [discriminate|].
  destruct (negb _ && _); [discriminate|]. simpl.
  destruct (existsb _ (AGENT t)) eqn:Hex; [discriminate|].
  intros _ b Hb Hid Hext.
  assert (existsb (fun b => negb (Agent.agent_id b =? id)
                            && (Agent.external_id b =? Agent.external_id new))
                  (AGENT t) = true) as Ht.
  { apply existsb_exists. exists b. split; [assumption|].
    apply andb_true_iff. split.
    - apply negb_true_iff, Z.eqb_neq. assumption.
    - apply Z.eqb_eq. assumption. }
  rewrite Ht in Hex. discriminate.
Qed.

Lemma update_client_row_unique (t t' : Tables) (id : UUID) (new : Client.t) :
  update_client_row t id new = Ok t' ->
  forall b, In b (CLIENT t) -> Client.client_id b <> id ->
            Client.external_id b <> Client.external_id new.
Proof.
  unfold update_client_row.
  destruct (negb (client_fits new)); [discriminate|].
  destruct (negb _ && _); [discriminate|]. simpl.
  destruct (existsb _ (CLIENT t)) eqn:Hex; [discriminate|].
  intros _ b Hb Hid Hext.
  assert (existsb (fun b => negb (Client.client_id b =? id)
                            && (Client.external_id b
                                =? Client.external_id new))
                  (CLIENT t) = true) as Ht.
  { apply existsb_exists. exists b. split; [assumption|].
    apply andb_true_iff. split.
    - apply negb_true_iff, Z.eqb_neq. assumption.
    - apply Z.eqb_eq. assumption. }
  rewrite Ht in Hex. discriminate.
Qed.

Lemma pk_of_other_rows {A} (pk : A -> Z) (l : list A) (id : Z) (new : A) :
  (pk new <> id -> find (fun x => pk x =? pk new) l = None) ->
  forall b, In b l -> pk b <> id -> pk b <> pk new.
Proof.
  intros Hpk b Hb Hid Heq.
  assert (pk new <> id) as Hne by congruence.
  specialize (Hpk Hne). apply (find_none _ _ Hpk) in Hb. simpl in Hb.
  apply Z.eqb_neq in Hb. contradiction.
Qed.

(** Every statement keeps the primary keys and the external ids of AGENT
    and CLIENT free of duplicates: the constraints refuse the others. *)
Lemma flush_one_keys_unique (e : Env) (p : pending) (t t' : Tables)
  (s s' : Sequences) :
  keys_unique t -> flush_one e p t s = (Ok t', s') -> keys_unique t'.
Proof.
  intros [Hapk [Hcpk [Haext Hcext]]] Hfl.
  pose proof (flush_one_frame e p t t' s s' Hfl) as [Hfa [Hfc _]].
  unfold keys_unique, unique_external_ids.
  destruct p; cbn [flush_one nextval_agent nextval_client nextval_phone]
                in Hfl;
    try (rewrite (Hfa eq_refl), (Hfc eq_refl); tauto).
  - (* InsertAgent *)
    rewrite (Hfc eq_refl). injection Hfl as Hfl _.
    apply insert_agent_ok in Hfl. destruct Hfl as [-> [Hnone Hext]]. simpl.
    repeat split; try assumption.
    + apply NoDup_map_snoc; [assumption|].
      apply find_none_not_in. exact Hnone.
    + apply NoDup_map_snoc; assumption.
  - (* InsertClient *)
    rewrite (Hfa eq_refl). injection Hfl as Hfl _.
    apply insert_client_ok in Hfl. destruct Hfl as [-> [Hnone [Hext _]]].
    simpl. repeat split; try assumption.
    + apply NoDup_map_snoc; [assumption|].
      apply find_none_not_in. exact Hnone.
    + apply NoDup_map_snoc; assumption.
  - (* UpdateAgent *)
    rewrite (Hfc eq_refl). injection Hfl as Hfl _.
    apply flush_update_agent_ok in Hfl.
    destruct Hfl as [old [new [_ [_ [[_ ->]|[_ Hup]]]]]]; [tauto|].
    pose proof (update_agent_row_unique _ _ _ _ Hup) as Huniq.
    apply update_agent_row_ok in Hup. destruct Hup as [-> Hpk]. simpl.
    repeat split; try assumption.
    + apply NoDup_replace; try assumption.
      apply pk_of_other_rows. exact Hpk.
    + apply NoDup_replace; assumption.
  - (* UpdateClient *)
    rewrite (Hfa eq_refl). injection Hfl as Hfl _.
    apply flush_update_client_ok in Hfl.
    destruct Hfl as [old [new [_ [_ [t1 [-> H]]]]]].
    destruct (delete_orphans_fold_frame id chs t1) as [_ [Hcl _]].
    rewrite Hcl.
    destruct H as [[_ ->]|[_ Hup]]; [tauto|].
    pose proof (update_client_row_unique _ _ _ _ Hup) as Huniq.
    apply update_client_row_ok in Hup. destruct Hup as [-> Hpk]. simpl.
    repeat split; try assumption.
    + apply NoDup_replace; try assumption.
      apply pk_of_other_rows. exact Hpk.
    + apply NoDup_replace; assumption.
  - (* DeleteAgent *)
    rewrite (Hfc eq_refl). injection Hfl as Hfl _.
    unfold delete_agent_row in Hfl.
    destruct (negb _); [discriminate|]. injection Hfl as <-. simpl.
    repeat split; try assumption; apply NoDup_map_filter; assumption.
  - (* DeleteClient *)
    rewrite (Hfa eq_refl). injection Hfl as <- _. simpl.
    repeat split; try assumption; apply NoDup_map_filter; assumption.
Qed.

(** Every call keeps the stored external ids unique within AGENT and
    within CLIENT. *)
Lemma exec_keys_unique (e : Env) (c : call) (d : Database) :
  keys_unique (tables d) -> keys_unique (tables (exec e c d)).
Proof.
  apply (exec_inv (fun t _ => keys_unique t)).
  - auto.
  - intros e0 p t s t' s' H Hfl. eapply flush_one_keys_unique; eassumption.
Qed.

Lemma run_keys_unique (tr : list (Env * call)) :
  forall d, keys_unique (tables d) -> keys_unique (tables (run tr d)).
Proof.
  induction tr as [|[e c] tr IH]; intros d H; simpl; [assumption|].
  apply IH. apply exec_keys_unique. assumption.
Qed.

(** C3, as stated, fails on stability: [update_agent] with a payload that
    names [external_id] rewrites the external id of a stored Agent. *)
Lemma external_id_changed_by_update :
  ~ (forall e c d, external_ids_kept d (exec e c d)).
Proof.
  intros H.
  destruct (H (mkEnv 300 9000)
              (Call_update_agent 100 [("external_id", VInt 7)])
              sample_db) as [Hagents _].
  specialize (Hagents 100 sample_agent (Agent.set_external_id sample_agent 7)
                      eq_refl eq_refl).
  discriminate Hagents.
Qed.

(** C3 (amended): Agents and Clients draw their external ids from two
    independent sequences; along any sequence of calls the ids handed out
    to new Agents are strictly increasing, hence pairwise distinct, and so
    are those handed out to new Clients; an id handed out is held by no
    stored row of its type, and the stored ids of a type stay pairwise
    distinct; a call keeps the external id of every row it keeps unless it
    is an [update_agent] or [update_client] whose payload names
    [external_id]; and [upgrade] leaves each sequence at the largest
    existing external id plus one, so every id handed out afterwards is
    above the ids of all rows that existed. *)
Theorem external_ids_issued_in_sequence :
  (forall tr d,
      StronglySorted Z.lt (agents_issued tr d)
      /\ StronglySorted Z.lt (clients_issued tr d)
      /\ Forall (fun z => agent_external_id_seq (seqs d) <= z)
                (agents_issued tr d)
      /\ Forall (fun z => client_external_id_seq (seqs d) <= z)
                (clients_issued tr d))
  /\ (forall e c d z,
         issued_agent e c d = Some z ->
         z = agent_external_id_seq (seqs d)
         /\ agent_external_id_seq (seqs (exec e c d)) = z + 1
         /\ client_external_id_seq (seqs (exec e c d))
            = client_external_id_seq (seqs d)
         /\ ~ In z (map Agent.external_id (AGENT (tables d))))
  /\ (forall e c d z,
         issued_client e c d = Some z ->
         z = client_external_id_seq (seqs d)
         /\ client_external_id_seq (seqs (exec e c d)) = z + 1
         /\ agent_external_id_seq (seqs (exec e c d))
            = agent_external_id_seq (seqs d)
         /\ ~ In z (map Client.external_id (CLIENT (tables d))))
  /\ (forall e c d,
         keys_unique (tables d) -> keys_unique (tables (exec e c d)))
  /\ (forall e c d,
         names_external_id c = false -> external_ids_kept d (exec e c d))
  /\ (forall t agent_seq client_seq phone_seq,
         let d0 := upgrade t agent_seq client_seq phone_seq in
         agent_external_id_seq (seqs d0)
         = coalesce (sql_max (map Agent.external_id (AGENT (tables d0)))) 0 + 1
         /\ client_external_id_seq (seqs d0)
            = coalesce (sql_max (map Client.external_id (CLIENT (tables d0))))
                       0 + 1
         /\ unique_external_ids (tables d0)
         /\ (forall tr z a,
                In z (agents_issued tr d0) -> In a (AGENT (tables d0)) ->
                Agent.external_id a < z)
         /\ (forall tr z c,
                In z (clients_issued tr d0) -> In c (CLIENT (tables d0)) ->
                Client.external_id c < z)).
Proof.
  split; [|split; [|split; [|split; [|split]]]].
  - intros tr d.
    destruct (agents_issued_increasing tr d) as [Ha1 Ha2].
    destruct (clients_issued_increasing tr d) as [Hc1 Hc2].
    repeat split; assumption.
  - apply issued_agent_spec.
  - apply issued_client_spec.
  - apply exec_keys_unique.
  - apply exec_external_ids_kept.
  - intros t agent_seq client_seq phone_seq d0.
    destruct (upgrade_bootstrap t agent_seq client_seq phone_seq)
      as [Ha [Hc [Hu [Hbelow_a Hbelow_c]]]].
    fold d0 in Ha, Hc, Hu, Hbelow_a, Hbelow_c.
    split; [exact Ha|]. split; [exact Hc|]. split; [exact Hu|]. split.
    + intros tr z a Hz Hin.
      destruct (agents_issued_increasing tr d0) as [Hge _].
      rewrite Forall_forall in Hge, Hbelow_a.
      specialize (Hge z Hz). specialize (Hbelow_a a Hin). lia.
    + intros tr z c Hz Hin.
      destruct (clients_issued_increasing tr d0) as [Hge _].
      rewrite Forall_forall in Hge, Hbelow_c.
      specialize (Hge z Hz). specialize (Hbelow_c c Hin). lia.
Qed.

Lemma external_ids_issued_in_sequence_witness :
  issued_agent (mkEnv 300 9000) (Call_create_agent smith) sample_db = Some 2
  /\ agent_external_id_seq
       (seqs (exec (mkEnv 300 9000) (Call_create_agent smith) sample_db))
     = 3
  /\ external_ids_kept sample_db
       (exec (mkEnv 301 9001)
          (Call_update_agent 100 [("last_name", VStr "Smythe")]) sample_db)
  /\ Agent.external_id sample_agent
     < agent_external_id_seq
         (seqs (upgrade (tables sample_db) None None 3)).
Proof.
  destruct external_ids_issued_in_sequence
    as [_ [Hissue [_ [_ [Hkept Hboot]]]]].
  split; [reflexivity|]. split; [|split].
  - destruct (Hissue (mkEnv 300 9000) (Call_create_agent smith) sample_db 2
                eq_refl) as [_ [H _]].
    exact H.
  - apply Hkept. reflexivity.
  - vm_compute. reflexivity.
Defined.

(** ** ILIKE against substring containment *)











(** ** list_clients *)



Lemma In_insert_by {A} (key : A -> Z) (x a : A) (l : list A) :
  In a (insert_by key x l) <-> a = x \/ In a l.
Proof.
  induction l as [|y l IH]; simpl.
  - intuition congruence.
  - destruct (key x <=? key y); simpl; [intuition congruence|].
    rewrite IH. intuition congruence.
Qed.

Lemma In_order_by {A} (key : A -> Z) (a : A) (l : list A) :
  In a (order_by key l) <-> In a l.
Proof.
  unfold order_by. induction l as [|x l IH]; simpl; [reflexivity|].
  rewrite In_insert_by, IH. intuition congruence.
Qed.

Lemma length_insert_by {A} (key : A -> Z) (x : A) (l : list A) :
  List.length (insert_by key x l) = S (List.length l).
Proof.
  induction l as [|y l IH]; simpl; [reflexivity|].
  destruct (key x <=? key y); simpl; [reflexivity | rewrite IH; reflexivity].
Qed.

Lemma length_order_by {A} (key : A -> Z) (l : list A) :
  List.length (order_by key l) = List.length l.
Proof.
  unfold order_by. induction l as [|x l IH]; simpl; [reflexivity|].
  rewrite length_insert_by, IH. reflexivity.
Qed.

Lemma In_firstn_list {A} (n : nat) (a : A) (l : list A) :
  In a (firstn n l) -> In a l.
Proof.
  revert l. induction n as [|n IH]; intros [|x l]; simpl; try tauto.
  intros [H|H]; [left; assumption | right; apply IH; assumption].
Qed.

Lemma In_skipn_list {A} (n : nat) (a : A) (l : list A) :
  In a (skipn n l) -> In a l.
Proof.
  revert l. induction n as [|n IH]; intros [|x l]; simpl; try tauto.
  intros H. right. apply IH. assumption.
Qed.

Lemma list_clients_run (e : Env) (d : Database) (skip limit : nat)
  (q status : option string) (agent_id : option UUID)
  (current_stage : option string) :
  run_request e (list_clients skip limit q status agent_id current_stage) d
  = (Ok (map (fun c => _client_to_dict (tables d)
                         (load selectinload_all (tables d) c))
             (select_clients (tables d) skip limit q status agent_id
                current_stage)), d).
Proof. unfold run_request, list_clients, bind, query. simpl.
       destruct d; reflexivity. Qed.





(** ** Phones: add_phone, list_phones, delete_phone *)

Lemma add_phone_run (e : Env) (d : Database) (client_id : UUID)
  (number : string) :
  run_request e (add_phone client_id number) d =
  match client_by_pk (tables d) client_id with
  | None => (Err client_not_found, d)
  | Some _ =>
      let s' := snd (nextval_phone (seqs d)) in
      match insert_phone (tables d)
              (Phone.mk (phone_phone_id_seq (seqs d)) client_id number
                        (now e)) with
      | Err x => (Err x, mkDatabase (tables d) s')
      | Ok t' =>
          (match phone_by_pk t' (phone_phone_id_seq (seqs d)) with
           | Some p => Ok p
           | None => Err InvalidRequestError
           end, mkDatabase t' s')
      end
  end.
Proof.
  unfold run_request, add_phone, bind at 1, query. simpl.
  destruct (client_by_pk (tables d) client_id) as [c|]; simpl.
  2:{ unfold raise. destruct d; reflexivity. }
  unfold bind, db_add, try_except, bind, next_phone_id, db_commit, bind,
    db_flush, db_refresh, bind, query, db_rollback. simpl.
  destruct (insert_phone (tables d) _) as [t'|x]; simpl.
  - destruct (phone_by_pk t' (phone_phone_id_seq (seqs d))); reflexivity.
  - reflexivity.
Qed.

Lemma delete_phone_run (e : Env) (d : Database) (phone_id : Z) :
  run_request e (delete_phone phone_id) d =
  match phone_by_pk (tables d) phone_id with
  | None => (Ok false, d)
  | Some _ =>
      (Ok true, mkDatabase (delete_phone_row (tables d) phone_id) (seqs d))
  end.
Proof.
  unfold run_request, delete_phone, bind, query. simpl.
  destruct (phone_by_pk (tables d) phone_id) as [p|]; simpl.
  - reflexivity.
  - destruct d; reflexivity.
Qed.

Lemma list_phones_run (e : Env) (d : Database) (client_id : UUID) :
  run_request e (list_phones client_id) d
  = (Ok (map phone_dict (phones_of (tables d) client_id)), d).
Proof.
  unfold run_request, list_phones, bind, query, ret. simpl.
  destruct d; reflexivity.
Qed.

Lemma phone_by_pk_appended (t : Tables) (p : Phone.t) :
  phone_by_pk t (Phone.phone_id p) = None ->
  phone_by_pk (with_PHONE t (PHONE t ++ [p])) (Phone.phone_id p) = Some p.
Proof.
  unfold phone_by_pk. intros H. simpl.
  rewrite (find_app_none _ _ _ H). simpl. rewrite Z.eqb_refl. reflexivity.
Qed.

(** What a successful [add_phone] leaves behind. *)
Lemma add_phone_cases (e : Env) (d d' : Database) (client_id : UUID)
  (number : string) (r : result Phone.t) :
  run_request e (add_phone client_id number) d = (r, d') ->
  let p := Phone.mk (phone_phone_id_seq (seqs d)) client_id number (now e) in
  (exists x, r = Err x /\ tables d' = tables d /\ seqs_le (seqs d) (seqs d'))
  \/ (r = Ok p
      /\ tables d' = with_PHONE (tables d) (PHONE (tables d) ++ [p])
      /\ seqs d' = snd (nextval_phone (seqs d))
      /\ phone_by_pk (tables d) (Phone.phone_id p) = None
      /\ is_some (client_by_pk (tables d) client_id) = true
      /\ fits 32 number = true).
Proof.
  rewrite add_phone_run. intros H p.
  destruct (client_by_pk (tables d) client_id) as [c|] eqn:Hc.
  2:{ inversion H; subst. left. exists client_not_found.
      split; [reflexivity|]. split; [reflexivity | apply seqs_le_refl]. }
  cbv zeta in H.
  destruct (insert_phone (tables d) _) as [t'|x] eqn:Hins.
  - pose proof (insert_phone_ok _ _ _ Hins) as [Ht' Hnone].
    simpl in Hnone. subst t'.
    pose proof (phone_by_pk_appended (tables d) p Hnone) as Hfound.
    simpl in Hfound. fold p in H. rewrite Hfound in H.
    inversion H; subst. right. repeat split; try reflexivity; try assumption.
    unfold insert_phone in Hins. simpl in Hins.
    destruct (fits 32 number); [reflexivity | simpl in Hins; discriminate].
  - inversion H; subst. left. exists x.
    split; [reflexivity|]. split; [reflexivity|].
    unfold seqs_le. simpl. lia.
Qed.



Lemma dicts_map {A} (f : A -> dict) (l : list A) :
  dicts f l = VList (map VDict (map f l)).
Proof. unfold dicts. rewrite map_map. reflexivity. Qed.

Lemma dossier_phones (t : Tables) (client : ClientObj) :
  dict_get "phones" (_client_to_dict t client)
  = Some (match phones client with
          | Some ps => dicts phone_dict ps
          | None =>
              dicts phone_dict
                (order_by Phone.phone_id
                   (phones_of t (Client.client_id (row client))))
          end).
Proof. reflexivity. Qed.

(** X2: the phones entry of the dossier [get_client] returns is the listing
    [list_phones] returns for the same client: same rows, same order, same four
    keys per phone. *)
Theorem dossier_lists_the_phones (e : Env) (d : Database) (client_id : UUID)
  (dossier : dict) :
  run_request e (get_client client_id) d = (Ok (Some dossier), d) ->
  exists l,
    run_request e (list_phones client_id) d = (Ok l, d)
    /\ dict_get "phones" dossier = Some (VList (map VDict l))
    /\ Forall (fun entry => keys entry
                            = ["phone_id"; "client_id"; "number";
                               "created_at"]) l.
Proof.
  rewrite get_client_run, list_phones_run. intros H.
  destruct (client_by_pk (tables d) client_id) as [c|] eqn:Hc;
    [|discriminate].
  inversion H as [Hd]. clear H.
  exists (map phone_dict (phones_of (tables d) client_id)).
  split; [reflexivity|]. split.
  - rewrite dossier_phones. simpl.
    rewrite (client_by_pk_id _ _ _ Hc). rewrite dicts_map. reflexivity.
  - apply Forall_forall. intros entry Hin.
    apply in_map_iff in Hin. destruct Hin as (p & <- & _). reflexivity.
Qed.

Lemma dossier_lists_the_phones_witness :
  exists dossier l,
    run_request (mkEnv 300 9000) (get_client 200) sample_db
    = (Ok (Some dossier), sample_db)
    /\ run_request (mkEnv 300 9000) (list_phones 200) sample_db
       = (Ok l, sample_db)
    /\ dict_get "phones" dossier = Some (VList (map VDict l))
    /\ List.length l = 2%nat.
Proof.
  assert (exists dossier,
             run_request (mkEnv 300 9000) (get_client 200) sample_db
             = (Ok (Some dossier), sample_db)) as (dossier & Hrun)
    by (eexists; vm_compute; reflexivity).
  destruct (dossier_lists_the_phones (mkEnv 300 9000) sample_db 200 dossier
              Hrun) as (l & Hl & Hphones & _).
  exists dossier, l. split; [exact Hrun|]. split; [exact Hl|].
  split; [exact Hphones|].
  rewrite list_phones_run in Hl. inversion Hl. reflexivity.
Defined.

Lemma phones_of_appended (t : Tables) (p : Phone.t) (id : UUID) :
  phones_of (with_PHONE t (PHONE t ++ [p])) id
  = phones_of t id ++ (if Phone.client_id p =? id then [p] else []).
Proof. unfold phones_of. simpl. rewrite filter_app. reflexivity. Qed.

(** X3: after [add_phone] succeeded, [list_phones] of that client is the
    listing from before followed by the new phone, which carries the number as
    given; the listing of every other client is as before. *)
Theorem list_phones_follows_add_phone (e e' : Env) (d d' : Database)
  (client_id : UUID) (number : string) (p : Phone.t) :
  run_request e (add_phone client_id number) d = (Ok p, d') ->
  (exists l,
      run_request e' (list_phones client_id) d = (Ok l, d)
      /\ run_request e' (list_phones client_id) d'
         = (Ok (l ++ [phone_dict p]), d'))
  /\ dict_get "number" (phone_dict p) = Some (VStr number)
  /\ dict_get "client_id" (phone_dict p) = Some (VUuid client_id)
  /\ (forall other,
         other <> client_id ->
         fst (run_request e' (list_phones other) d')
         = fst (run_request e' (list_phones other) d)).
Proof.
  intros H. apply add_phone_cases in H. cbv zeta in H.
  destruct H as [(y & Hr & _) | (Hr & Ht & _)]; [discriminate|].
  inversion Hr; subst p. clear Hr.
  split; [|split; [reflexivity | split; [reflexivity|]]].
  - exists (map phone_dict (phones_of (tables d) client_id)).
    rewrite !list_phones_run. split; [reflexivity|].
    rewrite Ht, phones_of_appended. simpl. rewrite Z.eqb_refl.
    rewrite map_app. reflexivity.
  - intros other Hother. rewrite !list_phones_run. simpl.
    rewrite Ht, phones_of_appended. simpl.
    destruct (client_id =? other) eqn:E.
    + apply Z.eqb_eq in E. congruence.
    + rewrite app_nil_r. reflexivity.
Qed.

Lemma list_phones_follows_add_phone_witness :
  exists p d' l,
    run_request (mkEnv 300 9000) (add_phone 200 "+3000") sample_db
    = (Ok p, d')
    /\ run_request (mkEnv 301 9001) (list_phones 200) d'
       = (Ok (l ++ [phone_dict p]), d')
    /\ List.length l = 2%nat.
Proof.
  assert (exists p d',
             run_request (mkEnv 300 9000) (add_phone 200 "+3000") sample_db
             = (Ok p, d')) as (p & d' & Hrun)
    by (eexists; eexists; vm_compute; reflexivity).
  destruct (list_phones_follows_add_phone (mkEnv 300 9000) (mkEnv 301 9001)
              sample_db d' 200 "+3000" p Hrun)
    as ((l & Hl & Hl') & _).
  exists p, d', l. split; [exact Hrun|]. split; [exact Hl'|].
  rewrite list_phones_run in Hl. inversion Hl. reflexivity.
Defined.

Lemma filter_not_found {A} (f : A -> bool) (l : list A) :
  find f l = None -> filter (fun x => negb (f x)) l = l.
Proof.
  induction l as [|a l IH]; simpl; [reflexivity|].
  destruct (f a); [discriminate|]. simpl. intros H. rewrite IH; auto.
Qed.

Lemma with_PHONE_same (t : Tables) (l : list Phone.t) :
  with_PHONE (with_PHONE t l) (PHONE t) = t.
Proof. destruct t; reflexivity. Qed.



(** X5: deleting the phone [add_phone] just returned gives back the tables from
    before the addition; only the sequence has moved on. *)
Theorem add_then_delete_phone (e e' : Env) (d d1 : Database)
  (client_id : UUID) (number : string) (p : Phone.t) :
  run_request e (add_phone client_id number) d = (Ok p, d1) ->
  exists d2,
    run_request e' (delete_phone (Phone.phone_id p)) d1 = (Ok true, d2)
    /\ tables d2 = tables d
    /\ phone_phone_id_seq (seqs d2) = phone_phone_id_seq (seqs d) + 1.
Proof.
  intros H. apply add_phone_cases in H. cbv zeta in H.
  destruct H as [(y & Hr & _) | (Hr & Ht & Hs & Hnone & _)]; [discriminate|].
  inversion Hr; subst p. clear Hr.
  rewrite delete_phone_run. rewrite Ht.
  rewrite (phone_by_pk_appended (tables d) _ Hnone).
  eexists. split; [reflexivity|]. simpl. split.
  - unfold delete_phone_row. simpl. rewrite filter_app. simpl.
    rewrite Z.eqb_refl. simpl. rewrite app_nil_r.
    unfold phone_by_pk in Hnone. simpl in Hnone.
    rewrite (filter_not_found _ _ Hnone). apply with_PHONE_same.
  - rewrite Hs. reflexivity.
Qed.

Lemma add_then_delete_phone_witness :
  exists p d1 d2,
    run_request (mkEnv 300 9000) (add_phone 200 "+3000") sample_db
    = (Ok p, d1)
    /\ run_request (mkEnv 301 9001) (delete_phone (Phone.phone_id p)) d1
       = (Ok true, d2)
    /\ tables d2 = tables sample_db.
Proof.
  assert (exists p d1,
             run_request (mkEnv 300 9000) (add_phone 200 "+3000") sample_db
             = (Ok p, d1)) as (p & d1 & Hrun)
    by (eexists; eexists; vm_compute; reflexivity).
  destruct (add_then_delete_phone (mkEnv 300 9000) (mkEnv 301 9001)
              sample_db d1 200 "+3000" p Hrun) as (d2 & Hdel & Ht & _).
  exists p, d1, d2. split; [exact Hrun|]. split; [exact Hdel | exact Ht].
Defined.

(** ** Passports and SNILS: create_passport, create_snils *)

Lemma insert_passport_ok (t t' : Tables) (p : Passport.t) :
  insert_passport t p = Ok t' ->
  t' = with_PASSPORT t (PASSPORT t ++ [p])
  /\ passport_by_pk t (Passport.passport_id p) = None
  /\ is_some (client_by_pk t (Passport.client_id p)) = true
  /\ fits 20 (Passport.series_number p) = true
  /\ fits_opt 7 (Passport.department_code p) = true.
Proof.
  unfold insert_passport.
  destruct (fits 20 (Passport.series_number p)); [|discriminate].
  destruct (fits_opt 7 (Passport.department_code p)); [|discriminate].
  simpl.
  destruct (is_some (passport_by_pk t (Passport.passport_id p))) eqn:Hpk;
    [discriminate|].
  destruct (is_some (client_by_pk t (Passport.client_id p))); [|discriminate].
  simpl. intros H. injection H as <-.
  repeat split. apply is_some_false. assumption.
Qed.

Lemma insert_snils_ok (t t' : Tables) (s : Snils.t) :
  insert_snils t s = Ok t' ->
  t' = with_SNILS t (SNILS t ++ [s])
  /\ snils_by_pk t (Snils.snils_id s) = None
  /\ is_some (client_by_pk t (Snils.client_id s)) = true
  /\ fits 14 (Snils.number s) = true.
Proof.
  unfold insert_snils.
  destruct (fits 14 (Snils.number s)); [|discriminate]. simpl.
  destruct (is_some (snils_by_pk t (Snils.snils_id s))) eqn:Hpk;
    [discriminate|].
  destruct (is_some (client_by_pk t (Snils.client_id s))); [|discriminate].
  simpl. intros H. injection H as <-.
  repeat split. apply is_some_false. assumption.
Qed.

Lemma passport_by_pk_appended (t : Tables) (p : Passport.t) :
  passport_by_pk t (Passport.passport_id p) = None ->
  passport_by_pk (with_PASSPORT t (PASSPORT t ++ [p])) (Passport.passport_id p)
  = Some p.
Proof.
  unfold passport_by_pk. intros H. simpl.
  rewrite (find_app_none _ _ _ H). simpl. rewrite Z.eqb_refl. reflexivity.
Qed.

Lemma snils_by_pk_appended (t : Tables) (s : Snils.t) :
  snils_by_pk t (Snils.snils_id s) = None ->
  snils_by_pk (with_SNILS t (SNILS t ++ [s])) (Snils.snils_id s) = Some s.
Proof.
  unfold snils_by_pk. intros H. simpl.
  rewrite (find_app_none _ _ _ H). simpl. rewrite Z.eqb_refl. reflexivity.
Qed.

Lemma create_snils_run (e : Env) (d : Database) (client_id : UUID)
  (snils_in : SnilsCreate.t) :
  run_request e (create_snils client_id snils_in) d =
  match client_by_pk (tables d) client_id with
  | None => (Err client_not_found, d)
  | Some _ =>
      match insert_snils (tables d)
              (Snils.mk (fresh_uuid e) client_id
                 (SnilsCreate.number snils_in)
                 (SnilsCreate.issued_date snils_in) 1 (now e)) with
      | Err x => (Err x, d)
      | Ok t' =>
          (match snils_by_pk t' (fresh_uuid e) with
           | Some s => Ok s
           | None => Err InvalidRequestError
           end, mkDatabase t' (seqs d))
      end
  end.
Proof.
  unfold run_request, create_snils, bind at 1, query. simpl.
  destruct (client_by_pk (tables d) client_id) as [c|]; simpl.
  2:{ unfold raise. destruct d; reflexivity. }
  unfold bind, db_add, try_except, bind, db_commit, bind, db_flush,
    db_refresh, bind, query, new_identity, db_rollback. simpl.
  destruct (insert_snils (tables d) _) as [t'|x]; simpl.
  - destruct (snils_by_pk t' (fresh_uuid e)); reflexivity.
  - destruct d; reflexivity.
Qed.

Lemma create_passport_cases (e : Env) (d d' : Database) (client_id : UUID)
  (passport_in : PassportCreate.t) (r : result Passport.t) :
  run_request e (create_passport client_id passport_in) d = (r, d') ->
  let p := new_passport_row e client_id passport_in in
  (exists x, r = Err x /\ d' = d)
  \/ (r = Ok p
      /\ d' = mkDatabase (with_PASSPORT (tables d) (PASSPORT (tables d) ++ [p]))
                (seqs d)
      /\ passport_by_pk (tables d) (fresh_uuid e) = None
      /\ is_some (client_by_pk (tables d) client_id) = true
      /\ fits 20 (PassportCreate.series_number passport_in) = true
      /\ fits_opt 7 (PassportCreate.department_code passport_in) = true).
Proof.
  rewrite create_passport_run. intros H p.
  destruct (client_by_pk (tables d) client_id) as [c|] eqn:Hc.
  2:{ inversion H; subst. left. eexists. split; reflexivity. }
  destruct (insert_passport (tables d) _) as [t'|x] eqn:Hins.
  - pose proof (insert_passport_ok _ _ _ Hins)
      as (Ht' & Hnone & Hfk & Hf1 & Hf2).
    simpl in Hnone. subst t'.
    pose proof (passport_by_pk_appended (tables d) p Hnone) as Hfound.
    simpl in Hfound. fold p in H. rewrite Hfound in H.
    inversion H; subst. right. repeat split; assumption.
  - inversion H; subst. left. eexists. split; reflexivity.
Qed.

Lemma create_snils_cases (e : Env) (d d' : Database) (client_id : UUID)
  (snils_in : SnilsCreate.t) (r : result Snils.t) :
  run_request e (create_snils client_id snils_in) d = (r, d') ->
  let s := Snils.mk (fresh_uuid e) client_id (SnilsCreate.number snils_in)
             (SnilsCreate.issued_date snils_in) 1 (now e) in
  (exists x, r = Err x /\ d' = d)
  \/ (r = Ok s
      /\ d' = mkDatabase (with_SNILS (tables d) (SNILS (tables d) ++ [s]))
                (seqs d)
      /\ snils_by_pk (tables d) (fresh_uuid e) = None
      /\ is_some (client_by_pk (tables d) client_id) = true
      /\ fits 14 (SnilsCreate.number snils_in) = true).
Proof.
  rewrite create_snils_run. intros H s.
  destruct (client_by_pk (tables d) client_id) as [c|] eqn:Hc.
  2:{ inversion H; subst. left. eexists. split; reflexivity. }
  destruct (insert_snils (tables d) _) as [t'|x] eqn:Hins.
  - pose proof (insert_snils_ok _ _ _ Hins) as (Ht' & Hnone & Hfk & Hf).
    simpl in Hnone. subst t'.
    pose proof (snils_by_pk_appended (tables d) s Hnone) as Hfound.
    simpl in Hfound. fold s in H. rewrite Hfound in H.
    inversion H; subst. right. repeat split; assumption.
  - inversion H; subst. left. eexists. split; reflexivity.
Qed.

(** X6: [create_passport] refuses a client that does not exist with the
    ReferenceNotFound error and leaves the database alone whenever it fails;
    the passport it returns is the one new row of PASSPORT and carries every
    field of the input, [birth_date] and [department_code] included, with
    version 1 and the time of the request. *)
Theorem create_passport_stores_every_field (e : Env) (d : Database)
  (client_id : UUID) (passport_in : PassportCreate.t) :
  (client_by_pk (tables d) client_id = None ->
   run_request e (create_passport client_id passport_in) d
   = (Err client_not_found, d)
   /\ ReferenceNotFound client_not_found)
  /\ (forall x d',
         run_request e (create_passport client_id passport_in) d
         = (Err x, d') ->
         d' = d)
  /\ (forall p d',
         run_request e (create_passport client_id passport_in) d
         = (Ok p, d') ->
         PASSPORT (tables d') = PASSPORT (tables d) ++ [p]
         /\ passport_by_pk (tables d') (Passport.passport_id p) = Some p
         /\ Passport.passport_id p = fresh_uuid e
         /\ Passport.client_id p = client_id
         /\ Passport.full_name p = PassportCreate.full_name passport_in
         /\ Passport.birth_date p = PassportCreate.birth_date passport_in
         /\ Passport.birth_place p = PassportCreate.birth_place passport_in
         /\ Passport.series_number p
            = PassportCreate.series_number passport_in
         /\ Passport.issued_by p = PassportCreate.issued_by passport_in
         /\ Passport.issue_date p = PassportCreate.issue_date passport_in
         /\ Passport.department_code p
            = PassportCreate.department_code passport_in
         /\ Passport.expiry_date p = PassportCreate.expiry_date passport_in
         /\ Passport.registration_address p
            = PassportCreate.registration_address passport_in
         /\ Passport.version p = 1
         /\ Passport.created_at p = now e
         /\ CLIENT (tables d') = CLIENT (tables d)
         /\ seqs d' = seqs d).
Proof.
  split; [|split].
  - intros Hc. rewrite create_passport_run, Hc. split; [reflexivity|].
    right. reflexivity.
  - intros x d' H. apply create_passport_cases in H. cbv zeta in H.
    destruct H as [(y & _ & Hd) | (Hr & _)]; [exact Hd | discriminate].
  - intros p d' H. apply create_passport_cases in H. cbv zeta in H.
    destruct H as [(y & Hr & _) | (Hr & Hd & Hnone & _)]; [discriminate|].
    inversion Hr; subst p. subst d'. simpl.
    split; [reflexivity|]. split.
    + apply (passport_by_pk_appended (tables d)
               (new_passport_row e client_id passport_in)). exact Hnone.
    + repeat split.
Qed.

Lemma create_passport_stores_every_field_witness :
  (run_request (mkEnv 400 9500) (create_passport 201 ivanov_passport)
     sample_db
   = (Err client_not_found, sample_db)
   /\ ReferenceNotFound client_not_found)
  /\ (exists p d',
         run_request (mkEnv 400 9500) (create_passport 200 ivanov_passport)
           sample_db
         = (Ok p, d')
         /\ Passport.birth_date p = Some 19900101
         /\ Passport.department_code p = Some "770-001").
Proof.
  destruct (create_passport_stores_every_field (mkEnv 400 9500) sample_db 201
              ivanov_passport) as (Hmissing & _).
  destruct (create_passport_stores_every_field (mkEnv 400 9500) sample_db 200
              ivanov_passport) as (_ & _ & Hok).
  split; [apply Hmissing; reflexivity|].
  assert (exists p d',
             run_request (mkEnv 400 9500)
               (create_passport 200 ivanov_passport) sample_db
             = (Ok p, d')) as (p & d' & Hrun)
    by (eexists; eexists; vm_compute; reflexivity).
  exists p, d'.
  destruct (Hok p d' Hrun)
    as (_ & _ & _ & _ & _ & Hbirth & _ & _ & _ & _ & Hcode & _).
  split; [exact Hrun|]. split; [exact Hbirth | exact Hcode].
Defined.

Lemma dossier_snils (t : Tables) (client : ClientObj) :
  dict_get "snils" (_client_to_dict t client)
  = Some (match snils client with
          | Some sns => dicts snils_dict sns
          | None => dicts snils_dict (snils_of t (Client.client_id (row client)))
          end).
Proof. reflexivity. Qed.

(** X7: a SNILS record survives the round trip in full: what [create_snils]
    returns is the one new row of SNILS, and the dossier [get_client] gives
    afterwards ends its [snils] list with that record, number and issue date as
    supplied, version 1. A client that does not exist is refused with the
    ReferenceNotFound error, and a failed call leaves the database alone. *)
Theorem create_snils_round_trip (e e' : Env) (d : Database)
  (client_id : UUID) (snils_in : SnilsCreate.t) :
  (client_by_pk (tables d) client_id = None ->
   run_request e (create_snils client_id snils_in) d
   = (Err client_not_found, d)
   /\ ReferenceNotFound client_not_found)
  /\ (forall x d',
         run_request e (create_snils client_id snils_in) d = (Err x, d') ->
         d' = d)
  /\ (forall s d',
         run_request e (create_snils client_id snils_in) d = (Ok s, d') ->
         s = Snils.mk (fresh_uuid e) client_id (SnilsCreate.number snils_in)
               (SnilsCreate.issued_date snils_in) 1 (now e)
         /\ SNILS (tables d') = SNILS (tables d) ++ [s]
         /\ exists dossier older,
             run_request e' (get_client client_id) d'
             = (Ok (Some dossier), d')
             /\ dict_get "snils" dossier
                = Some (VList (older ++ [VDict (snils_dict s)]))
             /\ dict_get "number" (snils_dict s)
                = Some (VStr (SnilsCreate.number snils_in))
             /\ dict_get "issued_date" (snils_dict s)
                = Some (opt_value VDate (SnilsCreate.issued_date snils_in))
             /\ dict_get "version" (snils_dict s) = Some (VInt 1)).
Proof.
  split; [|split].
  - intros Hc. rewrite create_snils_run, Hc. split; [reflexivity|].
    right. reflexivity.
  - intros x d' H. apply create_snils_cases in H. cbv zeta in H.
    destruct H as [(y & _ & Hd) | (Hr & _)]; [exact Hd | discriminate].
  - intros s d' H. apply create_snils_cases in H. cbv zeta in H.
    destruct H as [(y & Hr & _) | (Hr & Hd & Hnone & Hfk & _)];
      [discriminate|].
    inversion Hr; subst s. clear Hr. subst d'.
    split; [reflexivity|]. split; [reflexivity|].
    apply is_some_true in Hfk. destruct Hfk as (c & Hc).
    rewrite get_client_run. simpl.
    change (client_by_pk (with_SNILS (tables d) _) client_id)
      with (client_by_pk (tables d) client_id).
    rewrite Hc. eexists. eexists. split; [reflexivity|].
    split; [|repeat split].
    rewrite dossier_snils. simpl.
    rewrite (client_by_pk_id _ _ _ Hc). unfold snils_of. simpl.
    rewrite filter_app. simpl. rewrite Z.eqb_refl.
    unfold dicts. rewrite map_app. simpl. reflexivity.
Qed.

Lemma create_snils_round_trip_witness :
  exists s d' dossier older,
    run_request (mkEnv 400 9500)
      (create_snils 200 (SnilsCreate.mk "123-456-789 00" (Some 20010203)))
      sample_db
    = (Ok s, d')
    /\ run_request (mkEnv 401 9501) (get_client 200) d'
       = (Ok (Some dossier), d')
    /\ dict_get "snils" dossier = Some (VList (older ++ [VDict (snils_dict s)]))
    /\ dict_get "number" (snils_dict s) = Some (VStr "123-456-789 00").
Proof.
  assert (exists s d',
             run_request (mkEnv 400 9500)
               (create_snils 200
                  (SnilsCreate.mk "123-456-789 00" (Some 20010203)))
               sample_db
             = (Ok s, d')) as (s & d' & Hrun)
    by (eexists; eexists; vm_compute; reflexivity).
  destruct (create_snils_round_trip (mkEnv 400 9500) (mkEnv 401 9501)
              sample_db 200
              (SnilsCreate.mk "123-456-789 00" (Some 20010203)))
    as (_ & _ & Hok).
  destruct (Hok s d' Hrun)
    as (_ & _ & dossier & older & Hget & Hsnils & Hnumber & _).
  exists s, d', dossier, older.
  split; [exact Hrun|]. split; [exact Hget|].
  split; [exact Hsnils | exact Hnumber].
Defined.

(** ** Agents: create, look up, update, delete *)

Lemma get_agent_run (e : Env) (d : Database) (agent_id : UUID) :
  run_request e (get_agent agent_id) d
  = (Ok (option_map _agent_to_dict (agent_by_pk (tables d) agent_id)), d).
Proof.
  unfold run_request, get_agent, bind, query, ret. simpl.
  destruct (agent_by_pk (tables d) agent_id); destruct d; reflexivity.
Qed.

Lemma get_agent_by_external_run (e : Env) (d : Database) (external_id : Z) :
  run_request e (get_agent_by_external external_id) d
  = (Ok (option_map _agent_to_dict
           (find (fun a => Agent.external_id a =? external_id)
                 (AGENT (tables d)))), d).
Proof.
  unfold run_request, get_agent_by_external, bind, query, ret. simpl.
  destruct (find _ (AGENT (tables d))); destruct d; reflexivity.
Qed.

Lemma find_absent_key {A} (key : A -> Z) (l : list A) (z : Z) :
  ~ In z (map key l) -> find (fun x => key x =? z) l = None.
Proof.
  induction l as [|a l IH]; simpl; [reflexivity|]. intros H.
  destruct (key a =? z) eqn:E.
  - apply Z.eqb_eq in E. exfalso. apply H. left. exact E.
  - apply IH. intros Hin. apply H. right. exact Hin.
Qed.

(** X8: [create_agent] stores one new Agent row and returns its dictionary. The
    row has the correspondent account of the input when one is given and not
    empty, and the settlement account otherwise; it has the key of the request
    and the external id the sequence held. A failed call leaves the tables as
    they were. *)
Theorem create_agent_defaults_correspondent_account (e : Env) (d : Database)
  (agent_in : AgentCreate.t) :
  (forall x d',
      run_request e (create_agent agent_in) d = (Err x, d') ->
      tables d' = tables d)
  /\ (forall dossier d',
         run_request e (create_agent agent_in) d = (Ok dossier, d') ->
         exists a,
           AGENT (tables d') = AGENT (tables d) ++ [a]
           /\ dossier = _agent_to_dict a
           /\ Agent.agent_id a = fresh_uuid e
           /\ Agent.external_id a = agent_external_id_seq (seqs d)
           /\ Agent.account_number a = AgentCreate.account_number agent_in
           /\ (forall s,
                  AgentCreate.correspondent_account agent_in = Some s ->
                  s <> EmptyString ->
                  Agent.correspondent_account a = s)
           /\ (AgentCreate.correspondent_account agent_in = None
               \/ AgentCreate.correspondent_account agent_in
                  = Some EmptyString ->
               Agent.correspondent_account a
               = AgentCreate.account_number agent_in)
           /\ dict_get "correspondent_account" dossier
              = Some (VStr (Agent.correspondent_account a))
           /\ CLIENT (tables d') = CLIENT (tables d)).
Proof.
  split.
  - intros x d' H. apply create_agent_cases in H. cbv zeta in H.
    destruct H as (_ & [(y & _ & Ht) | (_ & Hr & _)]);
      [exact Ht | discriminate].
  - intros dossier d' H. apply create_agent_cases in H. cbv zeta in H.
    destruct H as (_ & [(y & Hr & _) | (Ht & Hr & _)]); [discriminate|].
    injection Hr as ->.
    exists (new_agent_row e agent_in (agent_external_id_seq (seqs d))).
    rewrite Ht. simpl. repeat split.
    + intros s Hs Hne. rewrite Hs. simpl.
      rewrite (truthy_nonempty s Hne). reflexivity.
    + intros [Hs|Hs]; rewrite Hs; reflexivity.
Qed.

Lemma create_agent_defaults_correspondent_account_witness :
  exists dossier d',
    run_request (mkEnv 300 9000) (create_agent smith) sample_db
    = (Ok dossier, d')
    /\ dict_get "correspondent_account" dossier
       = Some (VStr "12345678901234567890")
    /\ dict_get "external_id" dossier = Some (VInt 2).
Proof.
  assert (exists dossier d',
             run_request (mkEnv 300 9000) (create_agent smith) sample_db
             = (Ok dossier, d')) as (dossier & d' & Hrun)
    by (eexists; eexists; vm_compute; reflexivity).
  destruct (create_agent_defaults_correspondent_account (mkEnv 300 9000)
              sample_db smith) as (_ & Hok).
  destruct (Hok dossier d' Hrun)
    as (a & _ & Hd & _ & Hext & _ & _ & Hdefault & Hcorr & _).
  exists dossier, d'. split; [exact Hrun|]. split.
  - rewrite Hcorr, Hdefault; [reflexivity | left; reflexivity].
  - rewrite Hd. simpl. rewrite Hext. reflexivity.
Defined.

(** X9: the agent [create_agent] returned is what both lookups return right
    after: [get_agent] under the new key and [get_agent_by_external] under the
    external id the sequence issued give the same dictionary. *)
Theorem created_agent_is_found (e e' : Env) (d d' : Database)
  (agent_in : AgentCreate.t) (dossier : dict) :
  run_request e (create_agent agent_in) d = (Ok dossier, d') ->
  run_request e' (get_agent (fresh_uuid e)) d' = (Ok (Some dossier), d')
  /\ run_request e'
       (get_agent_by_external (agent_external_id_seq (seqs d))) d'
     = (Ok (Some dossier), d')
  /\ dict_get "agent_id" dossier = Some (VUuid (fresh_uuid e))
  /\ dict_get "external_id" dossier
     = Some (VInt (agent_external_id_seq (seqs d))).
Proof.
  intros H. apply create_agent_cases in H. cbv zeta in H.
  destruct H as (_ & [(y & Hr & _) | (Ht & Hr & _ & Hfound & Hfresh)]);
    [discriminate|].
  injection Hr as ->.
  rewrite get_agent_run, get_agent_by_external_run, Hfound.
  split; [reflexivity|]. split; [|split; reflexivity].
  rewrite Ht. simpl.
  rewrite (find_app_none _ _ _ (find_absent_key _ _ _ Hfresh)).
  simpl. rewrite Z.eqb_refl. reflexivity.
Qed.

Lemma created_agent_is_found_witness :
  exists dossier d',
    run_request (mkEnv 300 9000) (create_agent smith) sample_db
    = (Ok dossier, d')
    /\ run_request (mkEnv 301 9001) (get_agent 300) d'
       = (Ok (Some dossier), d')
    /\ run_request (mkEnv 301 9001) (get_agent_by_external 2) d'
       = (Ok (Some dossier), d').
Proof.
  assert (exists dossier d',
             run_request (mkEnv 300 9000) (create_agent smith) sample_db
             = (Ok dossier, d')) as (dossier & d' & Hrun)
    by (eexists; eexists; vm_compute; reflexivity).
  destruct (created_agent_is_found (mkEnv 300 9000) (mkEnv 301 9001)
              sample_db d' smith dossier Hrun) as (Hget & Hext & _).
  exists dossier, d'. split; [exact Hrun|]. split; [exact Hget | exact Hext].
Defined.





Lemma opt_eqb_string_eq (x y : option string) :
  opt_eqb String.eqb x y = true -> x = y.
Proof.
  destruct x, y; simpl; try discriminate; try reflexivity.
  intros H. apply String.eqb_eq in H. congruence.
Qed.



Lemma find_replaced_key {A} (key : A -> Z) (l : list A) (id : Z)
  (old new : A) :
  find (fun x => key x =? id) l = Some old ->
  (key new <> id -> find (fun x => key x =? key new) l = None) ->
  find (fun x => key x =? key new)
       (map (fun x => if key x =? id then new else x) l)
  = Some new.
Proof.
  induction l as [|a l IH]; simpl; [discriminate|].
  intros Hold Hnone.
  destruct (key a =? id) eqn:E.
  - simpl. rewrite Z.eqb_refl. reflexivity.
  - destruct (Z.eq_dec (key new) id) as [Heq|Hne].
    + subst id. simpl. rewrite E. apply IH; [exact Hold|].
      intros Hne. contradiction.
    + specialize (Hnone Hne). simpl.
      destruct (key a =? key new) eqn:E2; [discriminate|].
      apply IH; [exact Hold | intros _; exact Hnone].
Qed.

Lemma In_replaced {A} (key : A -> Z) (l : list A) (id : Z) (new x : A) :
  In x (map (fun y => if key y =? id then new else y) l) ->
  x = new \/ In x l.
Proof.
  intros H. apply in_map_iff in H. destruct H as (y & Hy & Hin).
  destruct (key y =? id); [left; congruence | right; congruence].
Qed.







(** An agent without clients: the [DELETE] goes through. *)
Lemma delete_free_agent (e : Env) (d : Database) (agent_id : UUID)
  (a : Agent.t) :
  agent_by_pk (tables d) agent_id = Some a ->
  clients_of_agent (tables d) agent_id = [] ->
  exists d',
    run_request e (delete_agent agent_id) d = (Ok true, d')
    /\ agent_by_pk (tables d') agent_id = None
    /\ (forall b, In b (AGENT (tables d'))
                  <-> In b (AGENT (tables d))
                      /\ Agent.agent_id b <> agent_id)
    /\ CLIENT (tables d') = CLIENT (tables d)
    /\ seqs d' = seqs d.
Proof.
  intros Ha Hnone. rewrite delete_agent_run, Ha, Hnone. simpl.
  eexists. split; [reflexivity|]. simpl.
  split; [|split; [|split; reflexivity]].
  - unfold agent_by_pk. simpl. apply find_filter_neg.
    intros b Hb. rewrite Hb. reflexivity.
  - intros b. rewrite filter_In, negb_true_iff, Z.eqb_neq. reflexivity.
Qed.

(** X11: [delete_agent] answers [False] for an agent that does not exist and
    changes nothing; an agent no Client references is deleted: the call answers
    [True], the row is gone, every other Agent and every Client stays. *)
Theorem delete_agent_without_clients (e : Env) (d : Database)
  (agent_id : UUID) :
  (agent_by_pk (tables d) agent_id = None ->
   run_request e (delete_agent agent_id) d = (Ok false, d))
  /\ (forall a,
         agent_by_pk (tables d) agent_id = Some a ->
         clients_of_agent (tables d) agent_id = [] ->
         exists d',
           run_request e (delete_agent agent_id) d = (Ok true, d')
           /\ agent_by_pk (tables d') agent_id = None
           /\ (forall b, In b (AGENT (tables d'))
                         <-> In b (AGENT (tables d))
                             /\ Agent.agent_id b <> agent_id)
           /\ CLIENT (tables d') = CLIENT (tables d)
           /\ seqs d' = seqs d).
Proof.
  split.
  - intros H. rewrite delete_agent_run, H. reflexivity.
  - intros a. apply delete_free_agent.
Qed.

Lemma delete_agent_without_clients_witness :
  run_request (mkEnv 300 9000) (delete_agent 101) sample_db
  = (Ok false, sample_db)
  /\ (exists d',
         run_request (mkEnv 300 9000) (delete_agent 100)
           (mkDatabase (with_CLIENT (tables sample_db) []) (seqs sample_db))
         = (Ok true, d')
         /\ AGENT (tables d') = []).
Proof.
  destruct (delete_agent_without_clients (mkEnv 300 9000) sample_db 101)
    as (Hmissing & _).
  destruct (delete_agent_without_clients (mkEnv 300 9000)
              (mkDatabase (with_CLIENT (tables sample_db) [])
                          (seqs sample_db)) 100)
    as (_ & Hfree).
  split; [apply Hmissing; reflexivity|].
  destruct (Hfree sample_agent eq_refl eq_refl) as (d' & Hrun & _).
  exists d'. split; [exact Hrun|].
  rewrite delete_agent_run in Hrun. simpl in Hrun.
  injection Hrun as <-. reflexivity.
Defined.

Lemma client_absent (t : Tables) (id : UUID) :
  client_by_pk t id = None ->
  filter (fun c => negb (Client.client_id c =? id)) (CLIENT t) = CLIENT t.
Proof. unfold client_by_pk. apply filter_not_found. Qed.

(** The clients and agents a [delete_client] request leaves. *)
Lemma exec_delete_client (e : Env) (d : Database) (id : UUID) :
  CLIENT (tables (exec e (Call_delete_client id) d))
  = filter (fun c => negb (Client.client_id c =? id)) (CLIENT (tables d))
  /\ AGENT (tables (exec e (Call_delete_client id) d)) = AGENT (tables d).
Proof.
  simpl. rewrite delete_client_run.
  destruct (client_by_pk (tables d) id) eqn:Hc; simpl.
  - split; reflexivity.
  - rewrite (client_absent _ _ Hc). split; reflexivity.
Qed.

Lemma run_delete_clients (tr : list (Env * UUID)) :
  forall d,
    let d1 := run (map (fun x => (fst x, Call_delete_client (snd x))) tr) d in
    AGENT (tables d1) = AGENT (tables d)
    /\ forall c, In c (CLIENT (tables d1))
                 <-> In c (CLIENT (tables d))
                     /\ ~ In (Client.client_id c) (map snd tr).
Proof.
  induction tr as [|[e id] tr IH]; intros d; cbn [map fst snd run]; cbv zeta.
  - split; [reflexivity|]. intros c. simpl. tauto.
  - specialize (IH (exec e (Call_delete_client id) d)). cbv zeta in IH.
    destruct IH as [Ha Hc].
    destruct (exec_delete_client e d id) as [Hc1 Ha1].
    split; [rewrite Ha; exact Ha1|].
    intros c. rewrite Hc, Hc1, filter_In, negb_true_iff, Z.eqb_neq.
    simpl. intuition congruence.
Qed.

(** X12: deleting the clients of an agent first makes the agent deletable:
    after [delete_client] requests that cover every Client referencing the
    agent, [delete_agent] answers [True] and the agent is gone; the clients
    that remain are those of the other agents. *)
Theorem delete_agent_after_its_clients (tr : list (Env * UUID)) (e : Env)
  (d : Database) (agent_id : UUID) (a : Agent.t) :
  agent_by_pk (tables d) agent_id = Some a ->
  (forall c, In c (CLIENT (tables d)) ->
             Client.agent_id c = agent_id ->
             In (Client.client_id c) (map snd tr)) ->
  let d1 := run (map (fun x => (fst x, Call_delete_client (snd x))) tr) d in
  exists d2,
    run_request e (delete_agent agent_id) d1 = (Ok true, d2)
    /\ agent_by_pk (tables d2) agent_id = None
    /\ CLIENT (tables d2) = CLIENT (tables d1)
    /\ (forall c, In c (CLIENT (tables d2)) ->
                  In c (CLIENT (tables d)) /\ Client.agent_id c <> agent_id).
Proof.
  intros Ha Hcover d1.
  destruct (run_delete_clients tr d) as [Hagents Hclients].
  fold d1 in Hagents, Hclients.
  assert (agent_by_pk (tables d1) agent_id = Some a) as Ha1.
  { unfold agent_by_pk. rewrite Hagents. exact Ha. }
  assert (clients_of_agent (tables d1) agent_id = []) as Hnone.
  { unfold clients_of_agent.
    destruct (filter _ (CLIENT (tables d1))) as [|c l] eqn:E; [reflexivity|].
    assert (In c (filter (fun c => Client.agent_id c =? agent_id)
                         (CLIENT (tables d1)))) as Hin
      by (rewrite E; left; reflexivity).
    apply filter_In in Hin. destruct Hin as [Hin Hag].
    apply Z.eqb_eq in Hag. apply Hclients in Hin. destruct Hin as [Hin Hnot].
    exfalso. apply Hnot. apply Hcover; assumption. }
  destruct (delete_free_agent e d1 agent_id a Ha1 Hnone)
    as (d2 & Hrun & Hgone & _ & Hc2 & _).
  exists d2. split; [exact Hrun|]. split; [exact Hgone|].
  split; [exact Hc2|].
  intros c Hin. rewrite Hc2 in Hin. apply Hclients in Hin.
  destruct Hin as [Hin Hnot]. split; [exact Hin|].
  intros Hag. apply Hnot. apply Hcover; assumption.
Qed.

Lemma delete_agent_after_its_clients_witness :
  exists d2,
    run_request (mkEnv 302 9002) (delete_agent 100)
      (run [(mkEnv 301 9001, Call_delete_client 200)] sample_db)
    = (Ok true, d2)
    /\ agent_by_pk (tables d2) 100 = None.
Proof.
  destruct (delete_agent_after_its_clients [(mkEnv 301 9001, 200)]
              (mkEnv 302 9002) sample_db 100 sample_agent eq_refl)
    as (d2 & Hrun & Hgone & _).
  - intros c [<-|[]] _. left. reflexivity.
  - exists d2. split; [exact Hrun | exact Hgone].
Defined.

(** ** The lookup tables: create_status, get_status, create_stage, get_stage *)

Lemma create_status_run (e : Env) (d : Database) (status_in : StatusCreate.t) :
  run_request e (create_status status_in) d =
  match insert_status (tables d)
          (Status.mk (StatusCreate.status_code status_in)
                     (StatusCreate.description status_in)) with
  | Err x => (Err x, d)
  | Ok t' =>
      (match status_by_pk t' (StatusCreate.status_code status_in) with
       | Some st => Ok st
       | None => Err InvalidRequestError
       end, mkDatabase t' (seqs d))
  end.
Proof.
  unfold run_request, create_status, bind, db_add, try_except, bind,
    db_commit, bind, db_flush, db_refresh, bind, query, db_rollback. simpl.
  destruct (insert_status (tables d) _) as [t'|x]; simpl.
  - destruct (status_by_pk t' _); reflexivity.
  - destruct d; reflexivity.
Qed.

Lemma create_stage_run (e : Env) (d : Database) (stage_in : StageCreate.t) :
  run_request e (create_stage stage_in) d =
  match insert_stage (tables d)
          (Stage.mk (StageCreate.stage_code stage_in)
                    (StageCreate.description stage_in)) with
  | Err x => (Err x, d)
  | Ok t' =>
      (match stage_by_pk t' (StageCreate.stage_code stage_in) with
       | Some sg => Ok sg
       | None => Err InvalidRequestError
       end, mkDatabase t' (seqs d))
  end.
Proof.
  unfold run_request, create_stage, bind, db_add, try_except, bind,
    db_commit, bind, db_flush, db_refresh, bind, query, db_rollback. simpl.
  destruct (insert_stage (tables d) _) as [t'|x]; simpl.
  - destruct (stage_by_pk t' _); reflexivity.
  - destruct d; reflexivity.
Qed.



Lemma status_by_pk_appended (t : Tables) (st : Status.t) :
  status_by_pk t (Status.status_code st) = None ->
  status_by_pk (with_STATUS t (STATUS t ++ [st])) (Status.status_code st)
  = Some st.
Proof.
  unfold status_by_pk. intros H. simpl.
  rewrite (find_app_none _ _ _ H). simpl. rewrite String.eqb_refl.
  reflexivity.
Qed.

Lemma stage_by_pk_appended (t : Tables) (sg : Stage.t) :
  stage_by_pk t (Stage.stage_code sg) = None ->
  stage_by_pk (with_STAGE t (STAGE t ++ [sg])) (Stage.stage_code sg)
  = Some sg.
Proof.
  unfold stage_by_pk. intros H. simpl.
  rewrite (find_app_none _ _ _ H). simpl. rewrite String.eqb_refl.
  reflexivity.
Qed.





Lemma create_status_ok (e : Env) (d d' : Database)
  (status_in : StatusCreate.t) (st : Status.t) :
  run_request e (create_status status_in) d = (Ok st, d') ->
  st = Status.mk (StatusCreate.status_code status_in)
         (StatusCreate.description status_in)
  /\ tables d' = with_STATUS (tables d) (STATUS (tables d) ++ [st])
  /\ status_by_pk (tables d) (StatusCreate.status_code status_in) = None.
Proof.
  rewrite create_status_run. unfold insert_status. simpl.
  destruct (fits 32 _); simpl; [|discriminate].
  destruct (status_by_pk (tables d) _) eqn:Hnone; simpl; [discriminate|].
  pose proof (status_by_pk_appended (tables d)
                (Status.mk (StatusCreate.status_code status_in)
                           (StatusCreate.description status_in)) Hnone)
    as Hfound.
  simpl in Hfound. rewrite Hfound. intros H. inversion H.
  repeat split.
Qed.

Lemma create_stage_ok (e : Env) (d d' : Database)
  (stage_in : StageCreate.t) (sg : Stage.t) :
  run_request e (create_stage stage_in) d = (Ok sg, d') ->
  sg = Stage.mk (StageCreate.stage_code stage_in)
         (StageCreate.description stage_in)
  /\ tables d' = with_STAGE (tables d) (STAGE (tables d) ++ [sg])
  /\ stage_by_pk (tables d) (StageCreate.stage_code stage_in) = None.
Proof.
  rewrite create_stage_run. unfold insert_stage. simpl.
  destruct (fits 32 _); simpl; [|discriminate].
  destruct (stage_by_pk (tables d) _) eqn:Hnone; simpl; [discriminate|].
  pose proof (stage_by_pk_appended (tables d)
                (Stage.mk (StageCreate.stage_code stage_in)
                          (StageCreate.description stage_in)) Hnone)
    as Hfound.
  simpl in Hfound. rewrite Hfound. intros H. inversion H.
  repeat split.
Qed.

(** X14: a lookup row created through [create_status] or [create_stage] is what
    the dossier shows: a client created next under the new code, the code not
    being empty, comes back with the summary that carries the description just
    stored. *)
Theorem created_code_shows_in_dossier (e1 e2 : Env) (d d1 d2 : Database)
  (client_in : ClientCreate.t) (dossier : dict) :
  run_request e2 (create_client client_in) d1 = (Ok dossier, d2) ->
  (forall status_in st,
      run_request e1 (create_status status_in) d = (Ok st, d1) ->
      ClientCreate.status_code client_in
      = StatusCreate.status_code status_in ->
      StatusCreate.status_code status_in <> EmptyString ->
      dict_get "status" dossier
      = Some (VDict [("status_code",
                      VStr (StatusCreate.status_code status_in));
                     ("description",
                      VStr (StatusCreate.description status_in))]))
  /\ (forall stage_in sg,
         run_request e1 (create_stage stage_in) d = (Ok sg, d1) ->
         ClientCreate.current_stage client_in
         = StageCreate.stage_code stage_in ->
         StageCreate.stage_code stage_in <> EmptyString ->
         dict_get "stage" dossier
         = Some (VDict [("stage_code",
                         VStr (StageCreate.stage_code stage_in));
                        ("description",
                         VStr (StageCreate.description stage_in))])).
Proof.
  intros Hcreate. apply create_client_cases in Hcreate. cbv zeta in Hcreate.
  destruct Hcreate as [(x & Hr & _) | (Ht2 & _ & Hr & _)]; [discriminate|].
  injection Hr as ->. split.
  - intros status_in st Hst Hcode Hne.
    apply create_status_ok in Hst. destruct Hst as (-> & Ht1 & Hnone).
    rewrite dossier_status. simpl. rewrite Hcode.
    rewrite (truthy_nonempty _ Hne).
    rewrite Ht2. unfold status_by_pk. simpl. rewrite Ht1. simpl.
    unfold status_by_pk in Hnone.
    rewrite (find_app_none _ _ _ Hnone). simpl. rewrite String.eqb_refl.
    reflexivity.
  - intros stage_in sg Hsg Hcode Hne.
    apply create_stage_ok in Hsg. destruct Hsg as (-> & Ht1 & Hnone).
    rewrite dossier_stage. simpl. rewrite Hcode.
    rewrite (truthy_nonempty _ Hne).
    rewrite Ht2. unfold stage_by_pk. simpl. rewrite Ht1. simpl.
    unfold stage_by_pk in Hnone.
    rewrite (find_app_none _ _ _ Hnone). simpl. rewrite String.eqb_refl.
    reflexivity.
Qed.

Lemma created_code_shows_in_dossier_witness :
  exists d1 dossier d2,
    run_request (mkEnv 300 9000)
      (create_status (StatusCreate.mk "paused" "On hold")) sample_db
    = (Ok (Status.mk "paused" "On hold"), d1)
    /\ run_request (mkEnv 301 9001)
         (create_client
            (ClientCreate.mk "Petrov" "Petr" None "paused" "intake" 100 None
               None None)) d1
       = (Ok dossier, d2)
    /\ dict_get "status" dossier
       = Some (VDict [("status_code", VStr "paused");
                      ("description", VStr "On hold")]).
Proof.
  assert (exists d1,
             run_request (mkEnv 300 9000)
               (create_status (StatusCreate.mk "paused" "On hold")) sample_db
             = (Ok (Status.mk "paused" "On hold"), d1)) as (d1 & Hst)
    by (eexists; vm_compute; reflexivity).
  assert (exists dossier d2,
             run_request (mkEnv 301 9001)
               (create_client
                  (ClientCreate.mk "Petrov" "Petr" None "paused" "intake" 100
                     None None None))
               (snd (run_request (mkEnv 300 9000)
                       (create_status (StatusCreate.mk "paused" "On hold"))
                       sample_db))
             = (Ok dossier, d2)) as (dossier & d2 & Hcl)
    by (eexists; eexists; vm_compute; reflexivity).
  rewrite Hst in Hcl. simpl in Hcl.
  exists d1, dossier, d2. split; [exact Hst|]. split; [exact Hcl|].
  destruct (created_code_shows_in_dossier (mkEnv 300 9000) (mkEnv 301 9001)
              sample_db d1 d2 _ dossier Hcl) as (Hstatus & _).
  apply (Hstatus (StatusCreate.mk "paused" "On hold") _ Hst);
    [reflexivity | discriminate].
Defined.

(** ** Pagination and order of the listings *)








Lemma length_firstn_le {A} (n : nat) :
  forall l : list A, (List.length (firstn n l) <= n)%nat.
Proof.
  induction n as [|n IH]; intros l; [simpl; lia|].
  destruct l as [|x l]; simpl; [lia|]. specialize (IH l). lia.
Qed.

Lemma length_filter_le {A} (f : A -> bool) (l : list A) :
  (List.length (filter f l) <= List.length l)%nat.
Proof.
  induction l as [|x l IH]; simpl; [lia|]. destruct (f x); simpl; lia.
Qed.


(** The rows the statement selects, before OFFSET and LIMIT. *)
Lemma select_clients_window (t : Tables) (skip limit : nat)
  (q status : option string) (agent_id : option UUID)
  (current_stage : option string) :
  select_clients t skip limit q status agent_id current_stage
  = firstn limit (skipn skip (select_clients t 0 (List.length (CLIENT t)) q
                                status agent_id current_stage)).
Proof.
  unfold select_clients. simpl skipn.
  rewrite (firstn_all2 (n := List.length (CLIENT t))); [reflexivity|].
  rewrite length_order_by. apply length_filter_le.
Qed.






(** ** Listings ordered by text *)

Lemma In_insert_sorted {A} (leb : A -> A -> bool) (x a : A) (l : list A) :
  In a (insert_sorted leb x l) <-> a = x \/ In a l.
Proof.
  induction l as [|y l IH]; simpl.
  - intuition congruence.
  - destruct (leb x y); simpl; [intuition congruence|].
    rewrite IH. intuition congruence.
Qed.

Lemma insert_sorted_perm {A} (leb : A -> A -> bool) (x : A) (l : list A) :
  Permutation (insert_sorted leb x l) (x :: l).
Proof.
  induction l as [|y l IH]; simpl; [apply Permutation_refl|].
  destruct (leb x y); [apply Permutation_refl|].
  eapply Permutation_trans; [apply perm_skip; exact IH | apply perm_swap].
Qed.

Lemma sort_by_perm {A} (leb : A -> A -> bool) (l : list A) :
  Permutation (sort_by leb l) l.
Proof.
  unfold sort_by. induction l as [|x l IH]; simpl; [constructor|].
  eapply Permutation_trans; [apply insert_sorted_perm|].
  apply perm_skip. exact IH.
Qed.



Section Sorted.
Context {A : Type} (leb : A -> A -> bool).
Hypothesis leb_total : forall a b, leb a b = true \/ leb b a = true.
Hypothesis leb_trans :
  forall a b c, leb a b = true -> leb b c = true -> leb a c = true.

Lemma insert_sorted_sorted (x : A) (l : list A) :
  StronglySorted (fun a b => leb a b = true) l ->
  StronglySorted (fun a b => leb a b = true) (insert_sorted leb x l).
Proof.
  induction l as [|y l IH]; intros Hs; simpl.
  - constructor; constructor.
  - inversion Hs as [|? ? Hl Hy]; subst.
    destruct (leb x y) eqn:E.
    + constructor; [exact Hs|]. constructor; [exact E|].
      apply Forall_forall. intros z Hz. rewrite Forall_forall in Hy.
      apply (leb_trans x y z E). apply Hy. exact Hz.
    + constructor; [apply IH; exact Hl|].
      apply Forall_forall. intros z Hz. apply In_insert_sorted in Hz.
      destruct Hz as [->|Hz].
      * destruct (leb_total x y) as [H|H]; [congruence | exact H].
      * rewrite Forall_forall in Hy. apply Hy. exact Hz.
Qed.

Lemma sort_by_sorted (l : list A) :
  StronglySorted (fun a b => leb a b = true) (sort_by leb l).
Proof.
  unfold sort_by. induction l as [|x l IH]; simpl.
  - constructor.
  - apply insert_sorted_sorted. exact IH.
Qed.
End Sorted.

Section CollationOrder.
Variable collate : string -> string -> comparison.
Hypothesis order : collation_order collate.

Lemma text_leb_total (a b : string) :
  text_leb collate a b = true \/ text_leb collate b a = true.
Proof.
  destruct order as (Hanti & _). unfold text_leb. rewrite (Hanti a b).
  destruct (collate a b); simpl; auto.
Qed.

Lemma text_leb_trans (a b c : string) :
  text_leb collate a b = true -> text_leb collate b c = true ->
  text_leb collate a c = true.
Proof.
  destruct order as (Hanti & Hlt & Heq & Heqlt & Hlteq). unfold text_leb.
  destruct (collate a b) eqn:Hab; [| |discriminate];
    destruct (collate b c) eqn:Hbc; try discriminate; intros _ _.
  - rewrite (Heq a b c Hab Hbc). reflexivity.
  - rewrite (Heqlt a b c Hab Hbc). reflexivity.
  - rewrite (Hlteq a b c Hab Hbc). reflexivity.
  - rewrite (Hlt a b c Hab Hbc). reflexivity.
Qed.


End CollationOrder.

(** Byte order, the collation [C], is such an order. *)
Lemma byte_order : collation_order String.compare.
Proof.
  assert (forall a b, String.compare a b = Eq <-> a = b) as Heq
    by apply OrderedTypeEx.String_as_OT.cmp_eq.
  assert (forall a b c, String.compare a b = Lt -> String.compare b c = Lt ->
                        String.compare a c = Lt) as Hlt.
  { intros a b c Hab Hbc.
    apply OrderedTypeEx.String_as_OT.cmp_lt.
    apply (OrderedTypeEx.String_as_OT.lt_trans a b c);
      apply OrderedTypeEx.String_as_OT.cmp_lt; assumption. }
  repeat split.
  - intros a b. apply String.compare_antisym.
  - exact Hlt.
  - intros a b c Hab Hbc. apply Heq in Hab, Hbc. apply Heq. congruence.
  - intros a b c Hab Hbc. apply Heq in Hab. subst b. exact Hbc.
  - intros a b c Hab Hbc. apply Heq in Hbc. subst c. exact Hab.
Qed.





(** X17: [list_statuses] and [list_stages] return every row of their table
    exactly once and change nothing; under a collation that is a total preorder
    the rows come ordered by code. *)
Theorem lookup_listings (collate : string -> string -> comparison)
  (e : Env) (d : Database) :
  (exists l,
      run_request e (list_statuses collate) d = (Ok l, d)
      /\ Permutation l (STATUS (tables d))
      /\ (collation_order collate ->
          StronglySorted
            (fun a b => text_leb collate (Status.status_code a)
                                         (Status.status_code b) = true) l))
  /\ (exists l,
         run_request e (list_stages collate) d = (Ok l, d)
         /\ Permutation l (STAGE (tables d))
         /\ (collation_order collate ->
             StronglySorted
               (fun a b => text_leb collate (Stage.stage_code a)
                                            (Stage.stage_code b) = true) l)).
Proof.
  split.
  - eexists. split; [|split].
    + unfold run_request, list_statuses, query. simpl.
      destruct d; reflexivity.
    + apply sort_by_perm.
    + intros Horder. apply sort_by_sorted.
      * intros a b. apply text_leb_total. exact Horder.
      * intros a b c. apply text_leb_trans. exact Horder.
  - eexists. split; [|split].
    + unfold run_request, list_stages, query. simpl.
      destruct d; reflexivity.
    + apply sort_by_perm.
    + intros Horder. apply sort_by_sorted.
      * intros a b. apply text_leb_total. exact Horder.
      * intros a b c. apply text_leb_trans. exact Horder.
Qed.

Lemma lookup_listings_witness :
  exists l,
    run_request (mkEnv 300 9000) (list_statuses String.compare)
      (mkDatabase
         (with_STATUS (tables sample_db)
            [Status.mk "new" "New"; Status.mk "done" "Done"])
         (seqs sample_db))
    = (Ok l,
       mkDatabase
         (with_STATUS (tables sample_db)
            [Status.mk "new" "New"; Status.mk "done" "Done"])
         (seqs sample_db))
    /\ StronglySorted
         (fun a b => text_leb String.compare (Status.status_code a)
                                             (Status.status_code b) = true) l
    /\ map Status.status_code l = ["done"; "new"].
Proof.
  destruct (lookup_listings String.compare (mkEnv 300 9000)
              (mkDatabase
                 (with_STATUS (tables sample_db)
                    [Status.mk "new" "New"; Status.mk "done" "Done"])
                 (seqs sample_db)))
    as ((l & Hrun & _ & Hsorted) & _).
  exists l. split; [exact Hrun|]. split; [exact (Hsorted byte_order)|].
  vm_compute in Hrun. injection Hrun as <-. reflexivity.
Defined.

(** ** Referential integrity of the tables *)

Lemma is_nil_filter_false {A} (f : A -> bool) (l : list A) (x : A) :
  In x l -> f x = true -> is_nil (filter f l) = false.
Proof.
  intros Hin Hf. apply (is_nil_false_of_In x). apply filter_In. tauto.
Qed.

Lemma has_children_phone (t : Tables) (p : Phone.t) :
  In p (PHONE t) -> client_has_children t (Phone.client_id p) = true.
Proof.
  intros H. unfold client_has_children, phones_of.
  rewrite (is_nil_filter_false _ _ p H (Z.eqb_refl _)). reflexivity.
Qed.

Lemma has_children_passport (t : Tables) (p : Passport.t) :
  In p (PASSPORT t) -> client_has_children t (Passport.client_id p) = true.
Proof.
  intros H. unfold client_has_children, passports_of.
  rewrite (is_nil_filter_false _ _ p H (Z.eqb_refl _)).
  rewrite andb_false_r. reflexivity.
Qed.

Lemma has_children_snils (t : Tables) (s : Snils.t) :
  In s (SNILS t) -> client_has_children t (Snils.client_id s) = true.
Proof.
  intros H. unfold client_has_children, snils_of.
  rewrite (is_nil_filter_false _ _ s H (Z.eqb_refl _)).
  rewrite !andb_false_r. reflexivity.
Qed.

Lemma has_children_document (t : Tables) (x : Document.t) :
  In x (DOCUMENT t) -> client_has_children t (Document.client_id x) = true.
Proof.
  intros H. unfold client_has_children, documents_of.
  rewrite (is_nil_filter_false _ _ x H (Z.eqb_refl _)).
  rewrite !andb_false_r. reflexivity.
Qed.

Lemma has_children_reminder (t : Tables) (r : Reminder.t) :
  In r (REMINDER t) -> client_has_children t (Reminder.client_id r) = true.
Proof.
  intros H. unfold client_has_children, reminders_of.
  rewrite (is_nil_filter_false _ _ r H (Z.eqb_refl _)).
  rewrite !andb_false_r. reflexivity.
Qed.

Lemma is_nil_filter_incl {A} (f : A -> bool) (l l' : list A) :
  (forall x, In x l' -> In x l) ->
  is_nil (filter f l) = true -> is_nil (filter f l') = true.
Proof.
  intros Hincl H. destruct (filter f l') as [|x r] eqn:E; [reflexivity|].
  assert (In x (filter f l')) as Hin by (rewrite E; left; reflexivity).
  apply filter_In in Hin. destruct Hin as [Hin Hf].
  rewrite (is_nil_filter_false f l x (Hincl x Hin) Hf) in H. discriminate.
Qed.

(** Fewer child rows, fewer clients with children. *)
Lemma has_children_incl (t t' : Tables) (id : UUID) :
  (forall x, In x (PHONE t') -> In x (PHONE t)) ->
  (forall x, In x (PASSPORT t') -> In x (PASSPORT t)) ->
  (forall x, In x (SNILS t') -> In x (SNILS t)) ->
  (forall x, In x (DOCUMENT t') -> In x (DOCUMENT t)) ->
  (forall x, In x (REMINDER t') -> In x (REMINDER t)) ->
  client_has_children t' id = true -> client_has_children t id = true.
Proof.
  intros H1 H2 H3 H4 H5. unfold client_has_children.
  rewrite !negb_true_iff. intros H.
  destruct (is_nil (phones_of t id)) eqn:E1; [|reflexivity].
  destruct (is_nil (passports_of t id)) eqn:E2; [|reflexivity].
  destruct (is_nil (snils_of t id)) eqn:E3; [|reflexivity].
  destruct (is_nil (documents_of t id)) eqn:E4; [|reflexivity].
  destruct (is_nil (reminders_of t id)) eqn:E5; [|reflexivity].
  unfold phones_of, passports_of, snils_of, documents_of, reminders_of in *.
  rewrite (is_nil_filter_incl _ _ _ H1 E1), (is_nil_filter_incl _ _ _ H2 E2),
    (is_nil_filter_incl _ _ _ H3 E3), (is_nil_filter_incl _ _ _ H4 E4),
    (is_nil_filter_incl _ _ _ H5 E5) in H.
  discriminate.
Qed.

(** A statement that leaves CLIENT and its child tables alone keeps the
    references, if the parents the clients and reminders point to stay. *)
Lemma references_resolve_parents (t t' : Tables) :
  references_resolve t ->
  CLIENT t' = CLIENT t -> PHONE t' = PHONE t -> PASSPORT t' = PASSPORT t ->
  SNILS t' = SNILS t -> DOCUMENT t' = DOCUMENT t ->
  REMINDER t' = REMINDER t ->
  (forall c, In c (CLIENT t) -> client_refs_ok t c = true ->
             client_refs_ok t' c = true) ->
  (forall code, is_some (stage_by_pk t code) = true ->
                is_some (stage_by_pk t' code) = true) ->
  references_resolve t'.
Proof.
  intros (Hc & Hp & Hpa & Hs & Hd & Hr) Ec Ep Epa Es Ed Er Hrefs Hstage.
  unfold references_resolve, client_by_pk.
  rewrite Ec, Ep, Epa, Es, Ed, Er.
  repeat split; try assumption.
  - rewrite Forall_forall in *. intros c Hin. apply Hrefs; auto.
  - rewrite Forall_forall in *. intros r Hin.
    destruct (Hr r Hin) as [H1 H2]. split; [exact H1 | apply Hstage, H2].
Qed.

(** A statement that leaves AGENT, STATUS and STAGE alone keeps the
    references, if the clients it adds have their parents, the child
    rows it adds have their client, and a client that still has child
    rows is still there. *)
Lemma references_resolve_children (t t' : Tables) :
  references_resolve t ->
  AGENT t' = AGENT t -> STATUS t' = STATUS t -> STAGE t' = STAGE t ->
  (forall c, In c (CLIENT t') ->
             In c (CLIENT t) \/ client_refs_ok t c = true) ->
  (forall id, is_some (client_by_pk t id) = true ->
              client_has_children t' id = true ->
              is_some (client_by_pk t' id) = true) ->
  (forall x, In x (PHONE t') ->
             In x (PHONE t)
             \/ is_some (client_by_pk t' (Phone.client_id x)) = true) ->
  (forall x, In x (PASSPORT t') ->
             In x (PASSPORT t)
             \/ is_some (client_by_pk t' (Passport.client_id x)) = true) ->
  (forall x, In x (SNILS t') ->
             In x (SNILS t)
             \/ is_some (client_by_pk t' (Snils.client_id x)) = true) ->
  (forall x, In x (DOCUMENT t') -> In x (DOCUMENT t)) ->
  (forall x, In x (REMINDER t') -> In x (REMINDER t)) ->
  references_resolve t'.
Proof.
  intros (Hc & Hp & Hpa & Hs & Hd & Hr) Ea Est Esg Hcl Hkept
    Hph Hpas Hsn Hdoc Hrem.
  rewrite Forall_forall in *.
  assert (forall c, client_refs_ok t' c = client_refs_ok t c) as Hrefs.
  { intros c. unfold client_refs_ok, status_by_pk, stage_by_pk, agent_by_pk.
    rewrite Ea, Est, Esg. reflexivity. }
  unfold references_resolve. rewrite !Forall_forall.
  split; [|split; [|split; [|split; [|split]]]].
  - intros c Hin. rewrite Hrefs. destruct (Hcl c Hin) as [H|H]; auto.
  - intros x Hin. destruct (Hph x Hin) as [H|H]; [|exact H].
    apply Hkept; [apply Hp, H | apply has_children_phone, Hin].
  - intros x Hin. destruct (Hpas x Hin) as [H|H]; [|exact H].
    apply Hkept; [apply Hpa, H | apply has_children_passport, Hin].
  - intros x Hin. destruct (Hsn x Hin) as [H|H]; [|exact H].
    apply Hkept; [apply Hs, H | apply has_children_snils, Hin].
  - intros x Hin.
    apply Hkept; [apply Hd, Hdoc, Hin | apply has_children_document, Hin].
  - intros x Hin. destruct (Hr x (Hrem x Hin)) as [H1 H2]. split.
    + apply Hkept; [exact H1 | apply has_children_reminder, Hin].
    + unfold stage_by_pk. rewrite Esg. exact H2.
Qed.

Lemma is_some_find_app {A} (f : A -> bool) (l l' : list A) :
  is_some (find f l) = true -> is_some (find f (l ++ l')) = true.
Proof.
  intros H. apply is_some_true in H. destruct H as (a & Ha).
  rewrite (find_app_some _ _ l' _ Ha). reflexivity.
Qed.

Lemma is_some_find_replace_other {A} (key : A -> Z) (l : list A)
  (id id2 : Z) (new : A) :
  id2 <> id ->
  is_some (find (fun x => key x =? id2) l) = true ->
  is_some (find (fun x => key x =? id2)
             (map (fun x => if key x =? id then new else x) l)) = true.
Proof.
  intros Hne. induction l as [|a l IH]; simpl; [discriminate|].
  destruct (key a =? id2) eqn:E.
  - intros _. apply Z.eqb_eq in E.
    destruct (key a =? id) eqn:E2; [apply Z.eqb_eq in E2; congruence|].
    simpl. apply Z.eqb_eq in E. rewrite E. reflexivity.
  - intros H. destruct (key a =? id) eqn:E2; simpl.
    + destruct (key new =? id2); [reflexivity | apply IH; exact H].
    + rewrite E. apply IH. exact H.
Qed.

Lemma is_some_find_replace_same {A} (key : A -> Z) (l : list A) (id : Z)
  (new : A) :
  key new = id ->
  is_some (find (fun x => key x =? id) l) = true ->
  is_some (find (fun x => key x =? id)
             (map (fun x => if key x =? id then new else x) l)) = true.
Proof.
  intros Hkey. induction l as [|a l IH]; simpl; [discriminate|].
  destruct (key a =? id) eqn:E; simpl.
  - intros _. rewrite Hkey, Z.eqb_refl. reflexivity.
  - intros H. rewrite E. apply IH. exact H.
Qed.

Lemma insert_phone_fk (t t' : Tables) (p : Phone.t) :
  insert_phone t p = Ok t' ->
  is_some (client_by_pk t (Phone.client_id p)) = true.
Proof.
  unfold insert_phone. destruct (negb (fits 32 _)); [discriminate|].
  destruct (is_some (phone_by_pk t _)); [discriminate|].
  destruct (is_some (client_by_pk t _)); [reflexivity | discriminate].
Qed.

Lemma insert_status_ok (t t' : Tables) (s : Status.t) :
  insert_status t s = Ok t' -> t' = with_STATUS t (STATUS t ++ [s]).
Proof.
  unfold insert_status. destruct (negb _); [discriminate|].
  destruct (is_some _); [discriminate|]. intros H. injection H as <-.
  reflexivity.
Qed.

Lemma insert_stage_ok (t t' : Tables) (s : Stage.t) :
  insert_stage t s = Ok t' -> t' = with_STAGE t (STAGE t ++ [s]).
Proof.
  unfold insert_stage. destruct (negb _); [discriminate|].
  destruct (is_some _); [discriminate|]. intros H. injection H as <-.
  reflexivity.
Qed.

Lemma update_client_row_checks (t t' : Tables) (id : UUID) (new : Client.t) :
  update_client_row t id new = Ok t' ->
  client_refs_ok t new = true
  /\ (Client.client_id new <> id -> client_has_children t id = false).
Proof.
  unfold update_client_row. destruct (negb (client_fits new)); [discriminate|].
  destruct (Client.client_id new =? id) eqn:E; simpl.
  - destruct (existsb _ _); simpl; [discriminate|].
    destruct (client_refs_ok t new); [|discriminate]. intros _.
    split; [reflexivity|]. apply Z.eqb_eq in E. congruence.
  - destruct (is_some _); simpl; [discriminate|].
    destruct (client_has_children t id); simpl; [discriminate|].
    destruct (existsb _ _); simpl; [discriminate|].
    destruct (client_refs_ok t new); [|discriminate]. intros _.
    split; reflexivity.
Qed.

Lemma update_agent_row_checks (t t' : Tables) (id : UUID) (new : Agent.t) :
  update_agent_row t id new = Ok t' ->
  Agent.agent_id new <> id -> clients_of_agent t id = [].
Proof.
  unfold update_agent_row. destruct (negb (agent_fits new)); [discriminate|].
  destruct (Agent.agent_id new =? id) eqn:E; simpl.
  - apply Z.eqb_eq in E. congruence.
  - destruct (is_some _); simpl; [discriminate|].
    destruct (clients_of_agent t id); [reflexivity | discriminate].
Qed.

Lemma delete_orphans_sub (id : UUID) (ch : client_change) (t : Tables) :
  let t' := delete_orphans id t ch in
  AGENT t' = AGENT t /\ STATUS t' = STATUS t /\ STAGE t' = STAGE t
  /\ CLIENT t' = CLIENT t
  /\ (forall x, In x (PHONE t') -> In x (PHONE t))
  /\ (forall x, In x (PASSPORT t') -> In x (PASSPORT t))
  /\ (forall x, In x (SNILS t') -> In x (SNILS t))
  /\ (forall x, In x (DOCUMENT t') -> In x (DOCUMENT t))
  /\ (forall x, In x (REMINDER t') -> In x (REMINDER t)).
Proof.
  destruct ch as [c v|r|r]; simpl; try (repeat split; auto; fail).
  destruct r; simpl; repeat split; auto;
    intros x Hin; apply filter_In in Hin; tauto.
Qed.

Lemma delete_orphans_fold_sub (id : UUID) (chs : list client_change) :
  forall t,
    let t' := fold_left (delete_orphans id) chs t in
    AGENT t' = AGENT t /\ STATUS t' = STATUS t /\ STAGE t' = STAGE t
    /\ CLIENT t' = CLIENT t
    /\ (forall x, In x (PHONE t') -> In x (PHONE t))
    /\ (forall x, In x (PASSPORT t') -> In x (PASSPORT t))
    /\ (forall x, In x (SNILS t') -> In x (SNILS t))
    /\ (forall x, In x (DOCUMENT t') -> In x (DOCUMENT t))
    /\ (forall x, In x (REMINDER t') -> In x (REMINDER t)).
Proof.
  induction chs as [|ch chs IH]; intros t; simpl.
  - repeat split; auto.
  - specialize (IH (delete_orphans id t ch)). cbv zeta in IH.
    destruct IH as (A1 & A2 & A3 & A4 & A5 & A6 & A7 & A8 & A9).
    destruct (delete_orphans_sub id ch t)
      as (B1 & B2 & B3 & B4 & B5 & B6 & B7 & B8 & B9).
    cbv zeta in *.
    repeat split; try congruence; auto.
Qed.

Lemma client_refs_ok_monotone (t t' : Tables) (c : Client.t) :
  (forall id, is_some (agent_by_pk t id) = true ->
              is_some (agent_by_pk t' id) = true) ->
  (forall code, is_some (status_by_pk t code) = true ->
                is_some (status_by_pk t' code) = true) ->
  (forall code, is_some (stage_by_pk t code) = true ->
                is_some (stage_by_pk t' code) = true) ->
  client_refs_ok t c = true -> client_refs_ok t' c = true.
Proof.
  intros Ha Hs Hg. unfold client_refs_ok. rewrite !andb_true_iff.
  intros [[H1 H2] H3]. auto.
Qed.

(** Every statement of a flush keeps the foreign keys resolved. *)
Lemma flush_one_references (e : Env) (p : pending) (t t' : Tables)
  (s s' : Sequences) :
  references_resolve t ->
  flush_one e p t s = (Ok t', s') ->
  references_resolve t'.
Proof.
  intros Hinv H.
  destruct p as [a|c|ph|pa|sn|st|sg|id chs|id chs|id|id|id];
    cbn [flush_one] in H.
  - (* INSERT AGENT *)
    simpl in H.
    injection H as H _. apply insert_agent_ok in H. destruct H as (-> & _).
    apply (references_resolve_parents t); try reflexivity; [exact Hinv| |auto].
    intros c _. apply client_refs_ok_monotone; auto.
    intros id. unfold agent_by_pk. simpl. apply is_some_find_app.
  - (* INSERT CLIENT *)
    simpl in H.
    injection H as H _. apply insert_client_ok in H.
    destruct H as (-> & _ & _ & Hrefs).
    apply (references_resolve_children t); try reflexivity; auto.
    + simpl. intros c0 Hin. apply in_app_or in Hin.
      destruct Hin as [Hin|[<-|[]]]; [left; exact Hin | right; exact Hrefs].
    + intros id Hid _. unfold client_by_pk. simpl.
      apply is_some_find_app. exact Hid.
  - (* INSERT PHONE *)
    simpl in H.
    injection H as H _. pose proof (insert_phone_fk _ _ _ H) as Hfk.
    apply insert_phone_ok in H. destruct H as (-> & _).
    apply (references_resolve_children t); try reflexivity; auto.
    simpl. intros x Hin. apply in_app_or in Hin.
    destruct Hin as [Hin|[<-|[]]]; [left; exact Hin | right; exact Hfk].
  - (* INSERT PASSPORT *)
    simpl in H.
    injection H as H _. apply insert_passport_ok in H.
    destruct H as (-> & _ & Hfk & _).
    apply (references_resolve_children t); try reflexivity; auto.
    simpl. intros x Hin. apply in_app_or in Hin.
    destruct Hin as [Hin|[<-|[]]]; [left; exact Hin | right; exact Hfk].
  - (* INSERT SNILS *)
    simpl in H.
    injection H as H _. apply insert_snils_ok in H.
    destruct H as (-> & _ & Hfk & _).
    apply (references_resolve_children t); try reflexivity; auto.
    simpl. intros x Hin. apply in_app_or in Hin.
    destruct Hin as [Hin|[<-|[]]]; [left; exact Hin | right; exact Hfk].
  - (* INSERT STATUS *)
    simpl in H.
    injection H as H _. apply insert_status_ok in H. subst t'.
    apply (references_resolve_parents t); try reflexivity; [exact Hinv| |auto].
    intros c _. apply client_refs_ok_monotone; auto.
    intros code. unfold status_by_pk. simpl. apply is_some_find_app.
  - (* INSERT STAGE *)
    simpl in H.
    injection H as H _. apply insert_stage_ok in H. subst t'.
    assert (forall code, is_some (stage_by_pk t code) = true ->
                         is_some (stage_by_pk
                                    (with_STAGE t (STAGE t ++ [sg])) code)
                         = true) as Hstage.
    { intros code. unfold stage_by_pk. simpl. apply is_some_find_app. }
    apply (references_resolve_parents t); try reflexivity;
      [exact Hinv| |exact Hstage].
    intros c _. apply client_refs_ok_monotone; auto.
  - (* UPDATE AGENT *)
    simpl in H.
    injection H as H _. apply flush_update_agent_ok in H.
    destruct H as (old & new & Hold & _ & [[_ ->] | [_ Hup]]); [exact Hinv|].
    pose proof (update_agent_row_checks _ _ _ _ Hup) as Hfree.
    apply update_agent_row_ok in Hup. destruct Hup as [-> _].
    apply (references_resolve_parents t); try reflexivity; [exact Hinv| |auto].
    intros c Hin. unfold client_refs_ok. rewrite !andb_true_iff.
    intros [[H1 H2] H3]. repeat split; [exact H1 | exact H2 |].
    unfold agent_by_pk in *. simpl.
    destruct (Z.eq_dec (Client.agent_id c) id) as [Heq|Hne].
    + rewrite Heq in *.
      apply is_some_find_replace_same; [|exact H3].
      destruct (Z.eq_dec (Agent.agent_id new) id) as [Hk|Hk]; [exact Hk|].
      specialize (Hfree Hk). unfold clients_of_agent in Hfree.
      assert (In c (filter (fun c => Client.agent_id c =? id) (CLIENT t)))
        as Habs by (apply filter_In; split;
                    [exact Hin | apply Z.eqb_eq; exact Heq]).
      rewrite Hfree in Habs. contradiction.
    + apply is_some_find_replace_other; assumption.
  - (* UPDATE CLIENT *)
    simpl in H.
    injection H as H _. apply flush_update_client_ok in H.
    destruct H as (old & new & Hold & _ & t1 & -> & Hcase).
    destruct (delete_orphans_fold_sub id chs t1)
      as (A1 & A2 & A3 & A4 & A5 & A6 & A7 & A8 & A9).
    cbv zeta in *.
    destruct Hcase as [[_ ->] | [_ Hup]].
    + apply (references_resolve_children t); auto.
      * intros c Hin. left. rewrite A4 in Hin. exact Hin.
      * intros id2 Hid _. unfold client_by_pk. rewrite A4. exact Hid.
    + pose proof (update_client_row_checks _ _ _ _ Hup) as [Hrefs Hkey].
      apply update_client_row_ok in Hup. destruct Hup as [-> _].
      simpl in *.
      apply (references_resolve_children t); auto.
      * intros c Hin. rewrite A4 in Hin.
        apply In_replaced in Hin.
        destruct Hin as [->|Hin]; [right; exact Hrefs | left; exact Hin].
      * intros id2 Hid Hch. unfold client_by_pk in *. rewrite A4.
        assert (client_has_children t id2 = true) as Hch0.
        { revert Hch. apply has_children_incl; assumption. }
        destruct (Z.eq_dec id2 id) as [->|Hne].
        -- apply is_some_find_replace_same; [|exact Hid].
           match goal with
           | |- Client.client_id ?n = id =>
               destruct (Z.eq_dec (Client.client_id n) id) as [Hk|Hk];
               [exact Hk | rewrite (Hkey Hk) in Hch0; discriminate]
           end.
        -- apply is_some_find_replace_other; assumption.
  - (* DELETE AGENT *)
    simpl in H.
    injection H as H _. unfold delete_agent_row in H.
    destruct (is_nil (clients_of_agent t id)) eqn:Hnil; [|discriminate].
    simpl in H. injection H as <-.
    apply (references_resolve_parents t); try reflexivity; [exact Hinv| |auto].
    intros c Hin. unfold client_refs_ok. rewrite !andb_true_iff.
    intros [[H1 H2] H3]. repeat split; [exact H1 | exact H2 |].
    unfold agent_by_pk in *. simpl.
    rewrite find_filter_keep; [exact H3|].
    intros a Ha. apply Z.eqb_eq in Ha. apply negb_true_iff, Z.eqb_neq.
    intros Heq. unfold clients_of_agent in Hnil.
    rewrite (is_nil_filter_false _ _ c Hin) in Hnil; [discriminate|].
    apply Z.eqb_eq. congruence.
  - (* DELETE CLIENT *)
    injection H as <- _.
    apply (references_resolve_children t); try reflexivity; auto.
    + simpl. intros x Hin. apply filter_In in Hin. tauto.
    + intros id2 Hid Hch. unfold client_by_pk in *. simpl.
      rewrite find_filter_keep; [exact Hid|].
      intros c Hc. apply Z.eqb_eq in Hc. apply negb_true_iff, Z.eqb_neq.
      intros Heq. subst id2. rewrite Heq in Hch.
      unfold client_has_children in Hch.
      rewrite delete_client_row_phones, delete_client_row_passports,
        delete_client_row_snils, delete_client_row_documents,
        delete_client_row_reminders in Hch.
      discriminate.
    + simpl. intros x Hin. left. apply filter_In in Hin. tauto.
    + simpl. intros x Hin. left. apply filter_In in Hin. tauto.
    + simpl. intros x Hin. left. apply filter_In in Hin. tauto.
    + simpl. intros x Hin. apply filter_In in Hin. tauto.
    + simpl. intros x Hin. apply filter_In in Hin. tauto.
  - (* DELETE PHONE *)
    simpl in H.
    injection H as <- _.
    apply (references_resolve_children t); try reflexivity; auto.
    simpl. intros x Hin. left. apply filter_In in Hin. tauto.
Qed.

Lemma exec_references (e : Env) (c : call) (d : Database) :
  references_resolve (tables d) -> references_resolve (tables (exec e c d)).
Proof.
  apply (exec_inv (fun t _ => references_resolve t)).
  - intros t s s' _ H. exact H.
  - intros e0 p t s t' s' Hinv H.
    apply (flush_one_references e0 p t t' s s' Hinv H).
Qed.

Lemma run_references (tr : list (Env * call)) :
  forall d,
    references_resolve (tables d) -> references_resolve (tables (run tr d)).
Proof.
  induction tr as [|[e c] tr IH]; intros d H; simpl; [exact H|].
  apply IH. apply exec_references. exact H.
Qed.

Lemma dossier_agent (t : Tables) (client : ClientObj) :
  dict_get "agent" (_client_to_dict t client)
  = Some (opt_value (fun a => VDict (agent_summary a))
            (match agent client with
             | Some a => Some a
             | None => agent_by_pk t (Client.agent_id (row client))
             end)).
Proof. reflexivity. Qed.

(** X18: referential integrity is an invariant of the data-access layer: a
    request of any of the twelve mutating calls takes tables whose foreign keys
    all resolve to tables whose foreign keys all resolve, so they do in every
    database built from the empty one. There, each Client has its Agent, Status
    and Stage, each phone, passport, SNILS, document and reminder has its
    Client, and the dossier of a client always carries an agent summary. *)
Theorem references_always_resolve :
  (forall e c d,
      references_resolve (tables d) ->
      references_resolve (tables (exec e c d)))
  /\ (forall tr d,
         references_resolve (tables d) ->
         references_resolve (tables (run tr d)))
  /\ (forall tr, references_resolve (tables (run tr empty_database)))
  /\ (forall d e client_id dossier,
         references_resolve (tables d) ->
         run_request e (get_client client_id) d = (Ok (Some dossier), d) ->
         exists a,
           dict_get "agent" dossier = Some (VDict (agent_summary a))
           /\ In a (AGENT (tables d))).
Proof.
  split; [exact exec_references|]. split; [exact run_references|].
  split.
  - intros tr. apply run_references. simpl.
    unfold references_resolve. simpl. repeat split; constructor.
  - intros d e client_id dossier (Hc & _) H.
    rewrite get_client_run in H.
    destruct (client_by_pk (tables d) client_id) as [c|] eqn:Hfound;
      [|discriminate].
    injection H as <-.
    unfold client_by_pk in Hfound. apply find_some in Hfound.
    destruct Hfound as [Hin _].
    rewrite Forall_forall in Hc. specialize (Hc c Hin).
    unfold client_refs_ok in Hc. rewrite !andb_true_iff in Hc.
    destruct Hc as [_ Ha]. apply is_some_true in Ha.
    destruct Ha as (a & Ha). exists a.
    rewrite dossier_agent. simpl. rewrite Ha. split; [reflexivity|].
    unfold agent_by_pk in Ha. apply find_some in Ha. tauto.
Qed.

Lemma references_always_resolve_witness :
  references_resolve (tables sample_db)
  /\ references_resolve
       (tables (exec (mkEnv 300 9000) (Call_delete_client 200) sample_db))
  /\ (exists dossier,
         run_request (mkEnv 300 9000) (get_client 200) sample_db
         = (Ok (Some dossier), sample_db)
         /\ dict_get "agent" dossier
            = Some (VDict (agent_summary sample_agent))).
Proof.
  destruct references_always_resolve as (Hexec & _ & Hrun & Hagent).
  assert (references_resolve (tables sample_db)) as Hsample
    by exact (Hrun sample_trace).
  split; [exact Hsample|]. split; [apply Hexec; exact Hsample|].
  assert (exists dossier,
             run_request (mkEnv 300 9000) (get_client 200) sample_db
             = (Ok (Some dossier), sample_db)) as (dossier & Hget)
    by (eexists; vm_compute; reflexivity).
  exists dossier. split; [exact Hget|].
  destruct (Hagent sample_db (mkEnv 300 9000) 200 dossier Hsample Hget)
    as (a & Ha & Hin).
  rewrite Ha. destruct Hin as [<-|[]]. reflexivity.
Defined.

(** ** The routes of app/api *)

(** A route that returns what the data-access layer returned and turns
    every exception into an [HTTPException]. *)
Lemma run_route_try {A} (e : Env) (m : M A) (handler : exn -> M (http A))
  (k : exn -> http A) (d : Database) :
  (forall x s, handler x s = (Ok (k x), s)) ->
  run_request e
    (try_except (x <- m ;; ret (Returns x)) any_exception handler) d
  = (match fst (run_request e m d) with
     | Ok x => Ok (Returns x)
     | Err x => Ok (k x)
     end, snd (run_request e m d)).
Proof.
  intros Hh. unfold run_request, try_except, bind, ret, any_exception.
  destruct (m _) as [[x|x] s]; simpl; [reflexivity|].
  rewrite Hh. reflexivity.
Qed.

Lemma run_route_bind {A B} (e : Env) (m : M A) (k : A -> http B)
  (d : Database) :
  run_request e (x <- m ;; ret (k x)) d
  = (match fst (run_request e m d) with
     | Ok x => Ok (k x)
     | Err x => Err x
     end, snd (run_request e m d)).
Proof.
  unfold run_request, bind, ret. destruct (m _) as [[x|x] s]; reflexivity.
Qed.

Lemma api_create_client_run (e : Env) (d : Database)
  (client_in : ClientCreate.t) :
  run_request e (api_clients.create_client client_in) d
  = (match fst (run_request e (create_client client_in) d) with
     | Ok x => Ok (Returns x)
     | Err x => Ok (HTTPException (if is_ValueError x then 400 else 500))
     end, snd (run_request e (create_client client_in) d)).
Proof.
  unfold api_clients.create_client. apply run_route_try.
  intros x s. destruct (is_ValueError x); reflexivity.
Qed.

Lemma api_create_phone_run (e : Env) (d : Database) (client_id : UUID)
  (payload : PhoneCreate.t) :
  run_request e (api_clients.create_phone_for_client client_id payload) d
  = (match fst (run_request e
                  (add_phone client_id (PhoneCreate.number payload)) d) with
     | Ok x => Ok (Returns x)
     | Err x => Ok (HTTPException (if is_ValueError x then 404 else 500))
     end,
     snd (run_request e (add_phone client_id (PhoneCreate.number payload)) d)).
Proof.
  unfold api_clients.create_phone_for_client. apply run_route_try.
  intros x s. destruct (is_ValueError x); reflexivity.
Qed.

Lemma api_create_passport_run (e : Env) (d : Database) (client_id : UUID)
  (payload : PassportCreate.t) :
  run_request e (api_clients.create_passport_for_client client_id payload) d
  = (match fst (run_request e (create_passport client_id payload) d) with
     | Ok x => Ok (Returns x)
     | Err x => Ok (HTTPException (if is_ValueError x then 404 else 500))
     end, snd (run_request e (create_passport client_id payload) d)).
Proof.
  unfold api_clients.create_passport_for_client. apply run_route_try.
  intros x s. destruct (is_ValueError x); reflexivity.
Qed.

Lemma api_create_snils_run (e : Env) (d : Database) (client_id : UUID)
  (payload : SnilsCreate.t) :
  run_request e (api_clients.create_snils_for_client client_id payload) d
  = (match fst (run_request e (create_snils client_id payload) d) with
     | Ok x => Ok (Returns x)
     | Err x => Ok (HTTPException (if is_ValueError x then 404 else 500))
     end, snd (run_request e (create_snils client_id payload) d)).
Proof.
  unfold api_clients.create_snils_for_client. apply run_route_try.
  intros x s. destruct (is_ValueError x); reflexivity.
Qed.

Lemma api_patch_client_run (e : Env) (d : Database) (client_id : UUID)
  (payload : ClientUpdate.t) :
  run_request e (api_clients.patch_client client_id payload) d
  = (match fst (run_request e
                  (update_client client_id (ClientUpdate.model_dump payload))
                  d) with
     | Ok (Some x) => Ok (Returns x)
     | Ok None => Ok (HTTPException 404)
     | Err x => Err x
     end,
     snd (run_request e
            (update_client client_id (ClientUpdate.model_dump payload)) d)).
Proof.
  unfold api_clients.patch_client, run_request, bind, ret.
  destruct (update_client _ _ _) as [[[x|]|x] s]; reflexivity.
Qed.

Lemma api_delete_agent_run (e : Env) (d : Database) (agent_id : UUID) :
  run_request e (api_agents.api_delete_agent agent_id) d
  = (match fst (run_request e (delete_agent agent_id) d) with
     | Ok true => Ok (Returns tt)
     | Ok false => Ok (HTTPException 404)
     | Err x => if is_ValueError x then Ok (HTTPException 400) else Err x
     end, snd (run_request e (delete_agent agent_id) d)).
Proof.
  unfold api_agents.api_delete_agent, run_request, try_except, bind, ret.
  destruct (delete_agent _ _) as [[[|]|x] s]; simpl; try reflexivity.
  destruct (is_ValueError x); reflexivity.
Qed.

Lemma api_read_clients_run (e : Env) (d : Database) (skip limit : Z)
  (q status : option string) (agent_id : option UUID)
  (current_stage : option string) :
  run_request e
    (api_clients.read_clients skip limit q status agent_id current_stage) d
  = (if (skip <? 0) || (limit <? 1) || (200 <? limit)
     then Ok (HTTPException 422)
     else Ok (Returns
                (map (fun c => _client_to_dict (tables d)
                                 (load selectinload_all (tables d) c))
                     (select_clients (tables d) (Z.to_nat skip)
                        (Z.to_nat limit) q status agent_id current_stage))),
     d).
Proof.
  unfold api_clients.read_clients.
  destruct ((skip <? 0) || (limit <? 1) || (200 <? limit)).
  - unfold run_request, ret. destruct d; reflexivity.
  - rewrite run_route_bind, list_clients_run. reflexivity.
Qed.

(** X19: [GET /clients]: a [skip] below 0 or a [limit] outside 1..200 is
    answered 422; inside the bounds the route returns the page [list_clients]
    gives, never more than [limit] and so never more than 200 dossiers, and the
    database is not changed either way. *)
Theorem read_clients_bounds (e : Env) (d : Database) (skip limit : Z)
  (q status : option string) (agent_id : option UUID)
  (current_stage : option string) :
  let r := run_request e
             (api_clients.read_clients skip limit q status agent_id
                current_stage) d in
  (skip < 0 \/ limit < 1 \/ 200 < limit -> r = (Ok (HTTPException 422), d))
  /\ (0 <= skip -> 1 <= limit <= 200 ->
      exists dossiers,
        r = (Ok (Returns dossiers), d)
        /\ run_request e
             (list_clients (Z.to_nat skip) (Z.to_nat limit) q status agent_id
                current_stage) d
           = (Ok dossiers, d)
        /\ Z.of_nat (List.length dossiers) <= limit
        /\ (List.length dossiers <= 200)%nat).
Proof.
  intros r. unfold r. rewrite api_read_clients_run. split.
  - intros H.
    assert ((skip <? 0) || (limit <? 1) || (200 <? limit) = true) as ->.
    { rewrite !orb_true_iff, !Z.ltb_lt. tauto. }
    reflexivity.
  - intros Hs Hl.
    assert ((skip <? 0) || (limit <? 1) || (200 <? limit) = false) as ->.
    { rewrite !orb_false_iff, !Z.ltb_ge. lia. }
    eexists. split; [reflexivity|]. split; [apply list_clients_run|].
    rewrite length_map. unfold select_clients.
    pose proof (length_firstn_le (Z.to_nat limit)
                  (skipn (Z.to_nat skip)
                     (order_by Client.external_id
                        (filter (fun c => forallb (fun cond => cond c)
                                            (conditions q status agent_id
                                               current_stage))
                                (CLIENT (tables d)))))) as Hlen.
    lia.
Qed.

Lemma read_clients_bounds_witness :
  run_request (mkEnv 300 9000)
    (api_clients.read_clients 0 201 None None None None) sample_db
  = (Ok (HTTPException 422), sample_db)
  /\ (exists dossiers,
         run_request (mkEnv 300 9000)
           (api_clients.read_clients 0 50 None None None None) sample_db
         = (Ok (Returns dossiers), sample_db)
         /\ (List.length dossiers <= 200)%nat).
Proof.
  destruct (read_clients_bounds (mkEnv 300 9000) sample_db 0 201 None None
              None None) as (Hout & _).
  destruct (read_clients_bounds (mkEnv 300 9000) sample_db 0 50 None None
              None None) as (_ & Hin).
  split; [apply Hout; lia|].
  destruct Hin as (dossiers & Hrun & _ & _ & Hlen); [lia | lia |].
  exists dossiers. split; [exact Hrun | exact Hlen].
Defined.

(** X20: [DELETE /agents/{agent_id}]: 404 when there is no such agent, 400 when
    a Client still references it, and a plain return (204) otherwise, with the
    agent gone. The route raises no other exception, and whenever it answers
    with an error the database is exactly as it was. *)
Theorem api_delete_agent_outcomes (e : Env) (d : Database) (agent_id : UUID) :
  let r := run_request e (api_agents.api_delete_agent agent_id) d in
  (agent_by_pk (tables d) agent_id = None -> r = (Ok (HTTPException 404), d))
  /\ (forall a c,
         agent_by_pk (tables d) agent_id = Some a ->
         In c (CLIENT (tables d)) ->
         Client.agent_id c = agent_id ->
         r = (Ok (HTTPException 400), d))
  /\ (forall a,
         agent_by_pk (tables d) agent_id = Some a ->
         clients_of_agent (tables d) agent_id = [] ->
         exists d',
           r = (Ok (Returns tt), d')
           /\ agent_by_pk (tables d') agent_id = None
           /\ CLIENT (tables d') = CLIENT (tables d))
  /\ (exists answer, fst r = Ok answer)
  /\ (forall code, fst r = Ok (HTTPException code) ->
                   snd r = d /\ (code = 404 \/ code = 400)).
Proof.
  intros r. unfold r. rewrite api_delete_agent_run, delete_agent_run.
  destruct (agent_by_pk (tables d) agent_id) as [a|] eqn:Ha.
  - destruct (is_nil (clients_of_agent (tables d) agent_id)) eqn:Hnil.
    + simpl. split; [discriminate|]. split; [|split; [|split]].
      * intros a0 c _ Hin Hc. exfalso.
        unfold clients_of_agent in Hnil.
        rewrite (is_nil_filter_false _ _ c Hin) in Hnil; [discriminate|].
        apply Z.eqb_eq. exact Hc.
      * intros a0 _ _. eexists. split; [reflexivity|]. simpl.
        split; [|reflexivity].
        unfold agent_by_pk. simpl. apply find_filter_neg.
        intros b Hb. rewrite Hb. reflexivity.
      * eexists. reflexivity.
      * intros code H. discriminate.
    + simpl. split; [discriminate|]. split; [|split; [|split]].
      * intros. reflexivity.
      * intros a0 _ Hempty. rewrite Hempty in Hnil. discriminate.
      * eexists. reflexivity.
      * intros code H. injection H as <-. split; [reflexivity | right; reflexivity].
  - simpl. split; [reflexivity|]. split; [|split; [|split]].
    + intros a c H. discriminate.
    + intros a H. discriminate.
    + eexists. reflexivity.
    + intros code H. injection H as <-. split; [reflexivity | left; reflexivity].
Qed.

Lemma api_delete_agent_outcomes_witness :
  run_request (mkEnv 300 9000) (api_agents.api_delete_agent 101) sample_db
  = (Ok (HTTPException 404), sample_db)
  /\ run_request (mkEnv 300 9000) (api_agents.api_delete_agent 100) sample_db
     = (Ok (HTTPException 400), sample_db).
Proof.
  destruct (api_delete_agent_outcomes (mkEnv 300 9000) sample_db 101)
    as (Hmissing & _).
  destruct (api_delete_agent_outcomes (mkEnv 300 9000) sample_db 100)
    as (_ & Hlinked & _).
  split; [apply Hmissing; reflexivity|].
  apply (Hlinked sample_agent sample_client);
    [reflexivity | left; reflexivity | reflexivity].
Defined.

Lemma keys_app (a b : dict) : keys (a ++ b) = keys a ++ keys b.
Proof. unfold keys. apply map_app. Qed.

Lemma keys_dump_field {T} (name : string) (f : T -> value) (x : field T)
  (k : string) :
  In k (keys (dump_field name f x)) -> k = name.
Proof. destruct x; simpl; [contradiction|]. intros [H|[]]. congruence. Qed.

(** The keys [model_dump] can give are the nine fields of the schema. *)
Lemma keys_model_dump (payload : ClientUpdate.t) (k : string) :
  In k (keys (ClientUpdate.model_dump payload)) ->
  In k ["last_name"; "first_name"; "middle_name"; "status_code";
        "current_stage"; "agent_id"; "deadline"; "notes"; "phones"].
Proof.
  unfold ClientUpdate.model_dump. rewrite !keys_app, !in_app_iff.
  intros H.
  repeat (destruct H as [H|H];
          [apply keys_dump_field in H; subst k; simpl; tauto|]).
  apply keys_dump_field in H. subst k. simpl. tauto.
Qed.

Lemma column_not_dumped (payload : ClientUpdate.t) (col : Client.column) :
  col = Client.c_client_id \/ col = Client.c_external_id
  \/ col = Client.c_created_at \/ col = Client.c_updated_at ->
  ~ In (Client.column_name col) (keys (ClientUpdate.model_dump payload)).
Proof.
  intros Hcol Hin. apply keys_model_dump in Hin.
  destruct Hcol as [ -> | [ -> | [ -> | -> ] ] ]; simpl in Hin;
    repeat (destruct Hin as [Hin|Hin]; [discriminate|]); contradiction.
Qed.

Lemma get_client_id (a b : Client.t) :
  Client.get Client.c_client_id a = Client.get Client.c_client_id b ->
  Client.client_id a = Client.client_id b.
Proof. simpl. intros H. injection H as H. exact H. Qed.

Lemma get_external_id (a b : Client.t) :
  Client.get Client.c_external_id a = Client.get Client.c_external_id b ->
  Client.external_id a = Client.external_id b.
Proof. simpl. intros H. injection H as H. exact H. Qed.

Lemma get_created_at (a b : Client.t) :
  Client.get Client.c_created_at a = Client.get Client.c_created_at b ->
  Client.created_at a = Client.created_at b.
Proof. simpl. intros H. injection H as H. exact H. Qed.

(** X21: [PATCH /clients/{client_id}] cannot touch the identity of a client.
    Whatever body the schema accepted, the request leaves every Agent and
    Client with the external id it had, and the client addressed is still
    found under its key with the same [external_id] and [created_at]; no
    Agent row changes. A client that does not exist is answered 404 with
    nothing changed. *)
Theorem patch_route_keeps_identity (e : Env) (d : Database)
  (client_id : UUID) (payload : ClientUpdate.t) :
  let r := run_request e (api_clients.patch_client client_id payload) d in
  external_ids_kept d (snd r)
  /\ AGENT (tables (snd r)) = AGENT (tables d)
  /\ (client_by_pk (tables d) client_id = None ->
      r = (Ok (HTTPException 404), d))
  /\ (forall c,
         client_by_pk (tables d) client_id = Some c ->
         exists c',
           client_by_pk (tables (snd r)) client_id = Some c'
           /\ Client.external_id c' = Client.external_id c
           /\ Client.created_at c' = Client.created_at c).
Proof.
  intros r. unfold r. rewrite api_patch_client_run. simpl snd.
  set (data := ClientUpdate.model_dump payload).
  change (snd (run_request e (update_client client_id data) d))
    with (exec e (Call_update_client client_id data) d).
  split; [|split; [|split]].
  - apply exec_external_ids_kept.
    change (existsb (String.eqb "external_id") (keys data) = false).
    destruct (existsb (String.eqb "external_id") (keys data)) eqn:E;
      [|reflexivity].
    apply existsb_exists in E. destruct E as (k & Hin & Hk).
    apply String.eqb_eq in Hk. subst k. exfalso.
    apply (column_not_dumped payload Client.c_external_id); [tauto|].
    exact Hin.
  - apply exec_agent_frame. reflexivity.
  - intros Hnone. simpl. rewrite update_client_run, Hnone. reflexivity.
  - intros c Hc. simpl.
    destruct (run_request e (update_client client_id data) d) as [res d']
      eqn:Hrun.
    destruct (update_client_cases _ _ _ _ _ _ _ Hc Hrun)
      as (_ & [(x & _ & Ht) | (chs & new & Hp & Happ & Hrest)]).
    + simpl. rewrite Ht. exists c. repeat split; assumption.
    + cbv zeta in Hrest.
      destruct Hrest as (_ & _ & _ & Hfound & _).
      assert (forall col,
                 col = Client.c_client_id \/ col = Client.c_external_id
                 \/ col = Client.c_created_at ->
                 Client.get col new = Client.get col c) as Hframe.
      { intros col Hcol.
        apply (apply_client_changes_frame chs c new col Happ).
        intros v Hin.
        apply (column_not_dumped payload col); [tauto|].
        apply (patch_client_sets _ _ _ _ Hp Hin). }
      simpl.
      destruct (client_eqb c new) eqn:Heq.
      * rewrite (client_by_pk_id _ _ _ Hc) in Hfound.
        exists c. repeat split; assumption.
      * assert (forall col,
                   col = Client.c_client_id \/ col = Client.c_external_id
                   \/ col = Client.c_created_at ->
                   Client.get col
                     (if sets_updated_at chs then new
                      else Client.set_updated_at new (now e))
                   = Client.get col c) as Hframe'.
        { intros col Hcol. destruct (sets_updated_at chs);
            [apply Hframe; exact Hcol|].
          rewrite set_updated_at_frame; [apply Hframe; exact Hcol|].
          destruct Hcol as [ -> | [ -> | -> ] ]; discriminate. }
        pose proof (get_client_id _ _ (Hframe' _ (or_introl eq_refl))) as Hid.
        rewrite Hid, (client_by_pk_id _ _ _ Hc) in Hfound.
        eexists. split; [exact Hfound|]. split.
        -- apply get_external_id, Hframe'. tauto.
        -- apply get_created_at, Hframe'. tauto.
Qed.

Lemma patch_route_keeps_identity_witness :
  run_request (mkEnv 300 9000)
    (api_clients.patch_client 201
       (ClientUpdate.mk Unset Unset Unset Unset Unset Unset Unset
          (Given (Some "call back")) Unset))
    sample_db
  = (Ok (HTTPException 404), sample_db)
  /\ (exists c',
         client_by_pk
           (tables
              (snd (run_request (mkEnv 300 9000)
                      (api_clients.patch_client 200
                         (ClientUpdate.mk Unset Unset Unset Unset Unset Unset
                            Unset (Given (Some "call back")) Unset))
                      sample_db)))
           200
         = Some c'
         /\ Client.external_id c' = 1
         /\ Client.created_at c' = 6000).
Proof.
  destruct (patch_route_keeps_identity (mkEnv 300 9000) sample_db 201
              (ClientUpdate.mk Unset Unset Unset Unset Unset Unset Unset
                 (Given (Some "call back")) Unset))
    as (_ & _ & Hmissing & _).
  destruct (patch_route_keeps_identity (mkEnv 300 9000) sample_db 200
              (ClientUpdate.mk Unset Unset Unset Unset Unset Unset Unset
                 (Given (Some "call back")) Unset))
    as (_ & _ & _ & Hfound).
  split; [apply Hmissing; reflexivity|].
  destruct (Hfound sample_client eq_refl) as (c' & Hc' & Hext & Hcreated).
  exists c'. split; [exact Hc'|]. split; [exact Hext | exact Hcreated].
Defined.

(** X22: how the creating routes report a reference that does not resolve.
    [POST /clients] answers 400 for an agent that does not exist, but 500 for a
    status or stage code that does not exist (a foreign-key violation of the
    INSERT); the three routes that attach a phone, a passport or a SNILS to a
    client answer 404 for a client that does not exist. An error answer of
    [POST /clients] is always 400 or 500 and leaves the tables as they were. *)
Theorem create_routes_report_missing_references (e : Env) (d : Database) :
  (forall client_in,
      agent_by_pk (tables d) (ClientCreate.agent_id client_in) = None ->
      run_request e (api_clients.create_client client_in) d
      = (Ok (HTTPException 400), d))
  /\ (forall client_in a,
         agent_by_pk (tables d) (ClientCreate.agent_id client_in) = Some a ->
         status_by_pk (tables d) (ClientCreate.status_code client_in) = None
         \/ stage_by_pk (tables d) (ClientCreate.current_stage client_in)
            = None ->
         client_fits (new_client_row e client_in
                        (client_external_id_seq (seqs d))) = true ->
         exists d',
           run_request e (api_clients.create_client client_in) d
           = (Ok (HTTPException 500), d')
           /\ tables d' = tables d)
  /\ (forall client_id,
         client_by_pk (tables d) client_id = None ->
         (forall payload,
             run_request e
               (api_clients.create_phone_for_client client_id payload) d
             = (Ok (HTTPException 404), d))
         /\ (forall payload,
                run_request e
                  (api_clients.create_passport_for_client client_id payload) d
                = (Ok (HTTPException 404), d))
         /\ (forall payload,
                run_request e
                  (api_clients.create_snils_for_client client_id payload) d
                = (Ok (HTTPException 404), d)))
  /\ (forall client_in code d',
         run_request e (api_clients.create_client client_in) d
         = (Ok (HTTPException code), d') ->
         tables d' = tables d /\ (code = 400 \/ code = 500)).
Proof.
  split; [|split; [|split]].
  - intros client_in Ha. rewrite api_create_client_run, create_client_run, Ha.
    reflexivity.
  - intros client_in a Ha Hcode Hfits.
    rewrite api_create_client_run, create_client_run, Ha. cbv zeta.
    unfold insert_client. rewrite Hfits. simpl negb. cbv iota.
    assert (client_refs_ok (tables d)
              (new_client_row e client_in (client_external_id_seq (seqs d)))
            = false) as Hrefs.
    { unfold client_refs_ok. simpl.
      destruct Hcode as [H|H]; rewrite H; simpl; [reflexivity|].
      rewrite andb_false_r. reflexivity. }
    rewrite Hrefs. simpl negb. rewrite orb_true_r.
    eexists. split; reflexivity.
  - intros client_id Hc. split; [|split]; intros payload.
    + rewrite api_create_phone_run, add_phone_run, Hc. reflexivity.
    + rewrite api_create_passport_run, create_passport_run, Hc. reflexivity.
    + rewrite api_create_snils_run, create_snils_run, Hc. reflexivity.
  - intros client_in code d' H. rewrite api_create_client_run in H.
    destruct (run_request e (create_client client_in) d) as [r d1] eqn:Hrun.
    simpl in H. apply create_client_cases in Hrun. cbv zeta in Hrun.
    destruct Hrun as [(x & -> & Ht & _) | (_ & _ & -> & _)];
      [|discriminate].
    injection H as <- <-. split; [exact Ht|].
    destruct (is_ValueError x); [left | right]; reflexivity.
Qed.

Lemma create_routes_report_missing_references_witness :
  run_request (mkEnv 300 9000)
    (api_clients.create_client
       (ClientCreate.mk "Petrov" "Petr" None "new" "intake" 999 None None
          None))
    sample_db
  = (Ok (HTTPException 400), sample_db)
  /\ (exists d',
         run_request (mkEnv 300 9000)
           (api_clients.create_client
              (ClientCreate.mk "Petrov" "Petr" None "lost" "intake" 100 None
                 None None))
           sample_db
         = (Ok (HTTPException 500), d')
         /\ tables d' = tables sample_db)
  /\ run_request (mkEnv 300 9000)
       (api_clients.create_phone_for_client 201 (PhoneCreate.mk "+3000"))
       sample_db
     = (Ok (HTTPException 404), sample_db).
Proof.
  destruct (create_routes_report_missing_references (mkEnv 300 9000)
              sample_db) as (Hagent & Hcode & Hclient & _).
  split; [apply Hagent; reflexivity|]. split.
  - apply (Hcode _ sample_agent); [reflexivity | left; reflexivity |
                                   reflexivity].
  - destruct (Hclient 201 eq_refl) as (Hphone & _). apply Hphone.
Defined.

(** ** What the schemas guarantee to the tables *)












(** ** alembic revision e68e87708dcb *)

Lemma with_STATUS_app (t : Tables) (a b : list Status.t) :
  with_STATUS (with_STATUS t (STATUS t ++ a))
    (STATUS (with_STATUS t (STATUS t ++ a)) ++ b)
  = with_STATUS t (STATUS t ++ a ++ b).
Proof. unfold with_STATUS. simpl. rewrite app_assoc. reflexivity. Qed.

Lemma with_STAGE_app (t : Tables) (a b : list Stage.t) :
  with_STAGE (with_STAGE t (STAGE t ++ a))
    (STAGE (with_STAGE t (STAGE t ++ a)) ++ b)
  = with_STAGE t (STAGE t ++ a ++ b).
Proof. unfold with_STAGE. simpl. rewrite app_assoc. reflexivity. Qed.

Lemma with_STATUS_nil (t : Tables) : with_STATUS t (STATUS t ++ []) = t.
Proof. destruct t. unfold with_STATUS. simpl. rewrite app_nil_r. reflexivity. Qed.

Lemma with_STAGE_nil (t : Tables) : with_STAGE t (STAGE t ++ []) = t.
Proof. destruct t. unfold with_STAGE. simpl. rewrite app_nil_r. reflexivity. Qed.

Lemma find_app_absent {A} (f : A -> bool) (l l' : list A) :
  find f (l ++ l') = None -> find f l = None.
Proof.
  intros H. destruct (find f l) eqn:E; [|reflexivity].
  rewrite (find_app_some _ _ _ _ E) in H. discriminate.
Qed.

(** The multi-row INSERT appends, in order, the rows whose code is not
    there yet, and afterwards every code of the statement resolves. *)
Lemma insert_statuses_appends (rows : list Status.t) :
  Forall (fun r => fits 32 (Status.status_code r) = true) rows ->
  forall t,
  exists added,
    seed_status_and_stage.insert_statuses rows t
    = Ok (with_STATUS t (STATUS t ++ added))
    /\ (forall r, In r added ->
                  In r rows /\ status_by_pk t (Status.status_code r) = None)
    /\ (forall r, In r rows ->
                  is_some (status_by_pk (with_STATUS t (STATUS t ++ added))
                             (Status.status_code r)) = true)
    /\ ((forall r, In r rows -> status_by_pk t (Status.status_code r) = None) ->
        NoDup (map Status.status_code rows) -> added = rows).
Proof.
  induction rows as [|r rows IH]; intros Hfit t.
  - exists []. simpl. rewrite with_STATUS_nil.
    repeat split; try contradiction.
  - inversion Hfit as [|? ? Hr Hrows]; subst. simpl.
    unfold insert_status. rewrite Hr. simpl negb. cbv iota.
    destruct (status_by_pk t (Status.status_code r)) as [old|] eqn:Hold;
      simpl is_some; cbv iota.
    + destruct (IH Hrows t) as (added & Hrun & Hadded & Hall & Hfull).
      exists added. split; [exact Hrun|]. split; [|split].
      * intros x Hx. destruct (Hadded x Hx). split; [right|]; assumption.
      * intros x [<-|Hx]; [|apply Hall; exact Hx].
        unfold status_by_pk in Hold |- *. simpl. apply is_some_find_app.
        rewrite Hold. reflexivity.
      * intros Hnone _. rewrite (Hnone r (or_introl eq_refl)) in Hold.
        discriminate.
    + destruct (IH Hrows (with_STATUS t (STATUS t ++ [r])))
        as (added & Hrun & Hadded & Hall & Hfull).
      exists (r :: added). rewrite with_STATUS_app in Hrun, Hall.
      split; [exact Hrun|]. split; [|split].
      * intros x [<-|Hx]; [split; [left; reflexivity | exact Hold]|].
        destruct (Hadded x Hx) as [Hin Hnone]. split; [right; exact Hin|].
        unfold status_by_pk in Hnone |- *. simpl in Hnone.
        apply (find_app_absent _ _ _ Hnone).
      * intros x [<-|Hx]; [|apply Hall; exact Hx].
        unfold status_by_pk in Hold |- *. simpl.
        rewrite (find_app_none _ _ _ Hold). simpl.
        rewrite String.eqb_refl. reflexivity.
      * intros Hnone Hnodup. simpl in Hnodup.
        inversion Hnodup as [|? ? Hnotin Hnodup']; subst.
        f_equal. apply Hfull; [|exact Hnodup'].
        intros x Hx. unfold status_by_pk. simpl.
        rewrite (find_app_none _ _ _ (Hnone x (or_intror Hx))). simpl.
        destruct (String.eqb (Status.status_code r) (Status.status_code x))
          eqn:E; [|reflexivity].
        apply String.eqb_eq in E. exfalso. apply Hnotin. rewrite E.
        apply in_map. exact Hx.
Qed.

Lemma insert_stages_appends (rows : list Stage.t) :
  Forall (fun r => fits 32 (Stage.stage_code r) = true) rows ->
  forall t,
  exists added,
    seed_status_and_stage.insert_stages rows t
    = Ok (with_STAGE t (STAGE t ++ added))
    /\ (forall r, In r added ->
                  In r rows /\ stage_by_pk t (Stage.stage_code r) = None)
    /\ (forall r, In r rows ->
                  is_some (stage_by_pk (with_STAGE t (STAGE t ++ added))
                             (Stage.stage_code r)) = true)
    /\ ((forall r, In r rows -> stage_by_pk t (Stage.stage_code r) = None) ->
        NoDup (map Stage.stage_code rows) -> added = rows).
Proof.
  induction rows as [|r rows IH]; intros Hfit t.
  - exists []. simpl. rewrite with_STAGE_nil.
    repeat split; try contradiction.
  - inversion Hfit as [|? ? Hr Hrows]; subst. simpl.
    unfold insert_stage. rewrite Hr. simpl negb. cbv iota.
    destruct (stage_by_pk t (Stage.stage_code r)) as [old|] eqn:Hold;
      simpl is_some; cbv iota.
    + destruct (IH Hrows t) as (added & Hrun & Hadded & Hall & Hfull).
      exists added. split; [exact Hrun|]. split; [|split].
      * intros x Hx. destruct (Hadded x Hx). split; [right|]; assumption.
      * intros x [<-|Hx]; [|apply Hall; exact Hx].
        unfold stage_by_pk in Hold |- *. simpl. apply is_some_find_app.
        rewrite Hold. reflexivity.
      * intros Hnone _. rewrite (Hnone r (or_introl eq_refl)) in Hold.
        discriminate.
    + destruct (IH Hrows (with_STAGE t (STAGE t ++ [r])))
        as (added & Hrun & Hadded & Hall & Hfull).
      exists (r :: added). rewrite with_STAGE_app in Hrun, Hall.
      split; [exact Hrun|]. split; [|split].
      * intros x [<-|Hx]; [split; [left; reflexivity | exact Hold]|].
        destruct (Hadded x Hx) as [Hin Hnone]. split; [right; exact Hin|].
        unfold stage_by_pk in Hnone |- *. simpl in Hnone.
        apply (find_app_absent _ _ _ Hnone).
      * intros x [<-|Hx]; [|apply Hall; exact Hx].
        unfold stage_by_pk in Hold |- *. simpl.
        rewrite (find_app_none _ _ _ Hold). simpl.
        rewrite String.eqb_refl. reflexivity.
      * intros Hnone Hnodup. simpl in Hnodup.
        inversion Hnodup as [|? ? Hnotin Hnodup']; subst.
        f_equal. apply Hfull; [|exact Hnodup'].
        intros x Hx. unfold stage_by_pk. simpl.
        rewrite (find_app_none _ _ _ (Hnone x (or_intror Hx))). simpl.
        destruct (String.eqb (Stage.stage_code r) (Stage.stage_code x))
          eqn:E; [|reflexivity].
        apply String.eqb_eq in E. exfalso. apply Hnotin. rewrite E.
        apply in_map. exact Hx.
Qed.



Lemma seed_statuses_fit :
  Forall (fun r => fits 32 (Status.status_code r) = true)
         seed_status_and_stage.statuses.
Proof. repeat (constructor; [reflexivity|]). constructor. Qed.

Lemma seed_stages_fit :
  Forall (fun r => fits 32 (Stage.stage_code r) = true)
         seed_status_and_stage.stages.
Proof. repeat (constructor; [reflexivity|]). constructor. Qed.



Lemma is_some_find_in {A} (f : A -> bool) (l : list A) (x : A) :
  In x l -> f x = true -> is_some (find f l) = true.
Proof.
  induction l as [|a l IH]; simpl; [contradiction|].
  intros [->|Hin] Hf; [rewrite Hf; reflexivity|].
  destruct (f a); [reflexivity | apply IH; assumption].
Qed.

Lemma filter_all_kept {A} (f : A -> bool) (l : list A) :
  (forall x, In x l -> f x = true) -> filter f l = l.
Proof.
  induction l as [|a l IH]; simpl; intros H; [reflexivity|].
  rewrite (H a (or_introl eq_refl)), IH; [reflexivity|].
  intros x Hx. apply H. right. exact Hx.
Qed.

Lemma filter_none_kept {A} (f : A -> bool) (l : list A) :
  (forall x, In x l -> f x = false) -> filter f l = [].
Proof.
  induction l as [|a l IH]; simpl; intros H; [reflexivity|].
  rewrite (H a (or_introl eq_refl)). apply IH.
  intros x Hx. apply H. right. exact Hx.
Qed.

Lemma existsb_none {A} (f : A -> bool) (l : list A) :
  (forall x, In x l -> f x = false) -> existsb f l = false.
Proof.
  induction l as [|a l IH]; simpl; intros H; [reflexivity|].
  rewrite (H a (or_introl eq_refl)). apply IH.
  intros x Hx. apply H. right. exact Hx.
Qed.

Lemma code_in_map {A} (code : A -> string) (rows : list A) (r : A) :
  In r rows -> seed_status_and_stage.code_in (map code rows) (code r) = true.
Proof.
  intros H. unfold seed_status_and_stage.code_in. apply existsb_exists.
  exists (code r). split; [apply in_map; exact H | apply String.eqb_refl].
Qed.

Lemma code_in_elim {A} (code : A -> string) (rows : list A) (c : string) :
  seed_status_and_stage.code_in (map code rows) c = true ->
  exists r, In r rows /\ code r = c.
Proof.
  unfold seed_status_and_stage.code_in. intros H.
  apply existsb_exists in H. destruct H as (k & Hin & Hk).
  apply String.eqb_eq in Hk. subst k.
  apply in_map_iff in Hin. destruct Hin as (r & Hr & Hin).
  exists r. split; [exact Hin | exact Hr].
Qed.

Lemma with_seed_removed (t : Tables) :
  with_STAGE (with_STATUS (with_STAGE (with_STATUS t (STATUS t)) (STAGE t))
                (STATUS t)) (STAGE t) = t.
Proof. destruct t; reflexivity. Qed.

(** [DELETE ... WHERE status_code IN (codes)] on a table that got the
    rows [rows] appended, none of whose codes was there or is carried by
    a client, gives the table from before. *)
Lemma delete_statuses_appended (t : Tables) (rows : list Status.t) :
  (forall r, In r rows -> status_by_pk t (Status.status_code r) = None) ->
  Forall (fun c => is_some (status_by_pk t (Client.status_code c)) = true)
         (CLIENT t) ->
  seed_status_and_stage.delete_statuses (map Status.status_code rows)
    (with_STATUS t (STATUS t ++ rows))
  = Ok (with_STATUS t (STATUS t)).
Proof.
  intros Hnone Hrefs. unfold seed_status_and_stage.delete_statuses.
  assert (forall s, In s (STATUS t) ->
                    seed_status_and_stage.code_in
                      (map Status.status_code rows) (Status.status_code s)
                    = false) as Hold.
  { intros s Hin.
    destruct (seed_status_and_stage.code_in _ _) eqn:E; [|reflexivity].
    apply code_in_elim in E. destruct E as (r & Hr & Hcode).
    specialize (Hnone r Hr). unfold status_by_pk in Hnone.
    pose proof (is_some_find_in
                  (fun x => String.eqb (Status.status_code x)
                                       (Status.status_code r))
                  (STATUS t) s Hin) as Hfound.
    rewrite Hnone in Hfound. simpl in Hfound.
    rewrite Hcode, String.eqb_refl in Hfound.
    specialize (Hfound eq_refl). discriminate. }
  rewrite existsb_none.
  - simpl. rewrite filter_app.
    rewrite filter_all_kept, filter_none_kept.
    + rewrite app_nil_r. destruct t; reflexivity.
    + intros s Hs. rewrite (code_in_map Status.status_code rows s Hs).
      reflexivity.
    + intros s Hs. rewrite (Hold s Hs). reflexivity.
  - simpl. intros s Hs. apply in_app_or in Hs.
    destruct Hs as [Hs|Hs]; [rewrite (Hold s Hs); reflexivity|].
    rewrite (code_in_map Status.status_code rows s Hs). simpl.
    apply existsb_none. intros c Hc.
    destruct (String.eqb (Client.status_code c) (Status.status_code s))
      eqn:E; [|reflexivity].
    apply String.eqb_eq in E. rewrite Forall_forall in Hrefs.
    specialize (Hrefs c Hc). rewrite E, (Hnone s Hs) in Hrefs.
    discriminate.
Qed.

Lemma delete_stages_appended (t : Tables) (rows : list Stage.t) :
  (forall r, In r rows -> stage_by_pk t (Stage.stage_code r) = None) ->
  Forall (fun c => is_some (stage_by_pk t (Client.current_stage c)) = true)
         (CLIENT t) ->
  Forall (fun r => is_some (stage_by_pk t (Reminder.service_stage r)) = true)
         (REMINDER t) ->
  seed_status_and_stage.delete_stages (map Stage.stage_code rows)
    (with_STAGE t (STAGE t ++ rows))
  = Ok (with_STAGE t (STAGE t)).
Proof.
  intros Hnone Hrefs Hrem. unfold seed_status_and_stage.delete_stages.
  assert (forall s, In s (STAGE t) ->
                    seed_status_and_stage.code_in
                      (map Stage.stage_code rows) (Stage.stage_code s)
                    = false) as Hold.
  { intros s Hin.
    destruct (seed_status_and_stage.code_in _ _) eqn:E; [|reflexivity].
    apply code_in_elim in E. destruct E as (r & Hr & Hcode).
    specialize (Hnone r Hr). unfold stage_by_pk in Hnone.
    pose proof (is_some_find_in
                  (fun x => String.eqb (Stage.stage_code x)
                                       (Stage.stage_code r))
                  (STAGE t) s Hin) as Hfound.
    rewrite Hnone in Hfound. simpl in Hfound.
    rewrite Hcode, String.eqb_refl in Hfound.
    specialize (Hfound eq_refl). discriminate. }
  rewrite existsb_none.
  - simpl. rewrite filter_app.
    rewrite filter_all_kept, filter_none_kept.
    + rewrite app_nil_r. destruct t; reflexivity.
    + intros s Hs. rewrite (code_in_map Stage.stage_code rows s Hs).
      reflexivity.
    + intros s Hs. rewrite (Hold s Hs). reflexivity.
  - simpl. intros s Hs. apply in_app_or in Hs.
    destruct Hs as [Hs|Hs]; [rewrite (Hold s Hs); reflexivity|].
    rewrite (code_in_map Stage.stage_code rows s Hs). simpl.
    apply orb_false_iff. split.
    + apply existsb_none. intros c Hc.
      destruct (String.eqb (Client.current_stage c) (Stage.stage_code s))
        eqn:E; [|reflexivity].
      apply String.eqb_eq in E. rewrite Forall_forall in Hrefs.
      specialize (Hrefs c Hc). rewrite E, (Hnone s Hs) in Hrefs.
      discriminate.
    + apply existsb_none. intros r Hr.
      destruct (String.eqb (Reminder.service_stage r) (Stage.stage_code s))
        eqn:E; [|reflexivity].
      apply String.eqb_eq in E. rewrite Forall_forall in Hrem.
      specialize (Hrem r Hr). rewrite E, (Hnone s Hs) in Hrem.
      discriminate.
Qed.

Lemma seed_status_codes_differ :
  NoDup (map Status.status_code seed_status_and_stage.statuses).
Proof.
  simpl. repeat (constructor; [simpl; intuition discriminate|]). constructor.
Qed.

Lemma seed_stage_codes_differ :
  NoDup (map Stage.stage_code seed_status_and_stage.stages).
Proof.
  simpl. repeat (constructor; [simpl; intuition discriminate|]). constructor.
Qed.

(** X26: [downgrade] undoes [upgrade] on tables whose foreign keys resolve and
    that held none of the seeded codes: the tables come back as they were. It
    is refused with an integrity error, nothing deleted, while a Client carries
    one of the seeded status codes. *)
Theorem seed_downgrade_undoes_upgrade :
  (forall t,
      references_resolve t ->
      (forall r, In r seed_status_and_stage.statuses ->
                 status_by_pk t (Status.status_code r) = None) ->
      (forall r, In r seed_status_and_stage.stages ->
                 stage_by_pk t (Stage.stage_code r) = None) ->
      exists t',
        seed_status_and_stage.upgrade t = Ok t'
        /\ STATUS t' = STATUS t ++ seed_status_and_stage.statuses
        /\ STAGE t' = STAGE t ++ seed_status_and_stage.stages
        /\ seed_status_and_stage.downgrade t' = Ok t)
  /\ (forall t c s,
         In c (CLIENT t) ->
         In s (STATUS t) ->
         Status.status_code s = Client.status_code c ->
         In (Status.status_code s)
            (map Status.status_code seed_status_and_stage.statuses) ->
         seed_status_and_stage.downgrade t = Err IntegrityError).
Proof.
  split.
  - intros t (Hc & _ & _ & _ & _ & Hr) Hnone1 Hnone2.
    destruct (insert_statuses_appends _ seed_statuses_fit t)
      as (a1 & H1 & _ & _ & Hfull1).
    rewrite (Hfull1 Hnone1 seed_status_codes_differ) in H1.
    destruct (insert_stages_appends _ seed_stages_fit
                (with_STATUS t (STATUS t ++ seed_status_and_stage.statuses)))
      as (a2 & H2 & _ & _ & Hfull2).
    rewrite (Hfull2 Hnone2 seed_stage_codes_differ) in H2.
    eexists. split.
    { unfold seed_status_and_stage.upgrade. rewrite H1. exact H2. }
    split; [reflexivity|]. split; [reflexivity|].
    unfold seed_status_and_stage.downgrade.
    change (with_STAGE
              (with_STATUS t (STATUS t ++ seed_status_and_stage.statuses))
              (STAGE (with_STATUS t
                        (STATUS t ++ seed_status_and_stage.statuses))
               ++ seed_status_and_stage.stages))
      with (with_STATUS
              (with_STAGE t (STAGE t ++ seed_status_and_stage.stages))
              (STATUS (with_STAGE t (STAGE t ++ seed_status_and_stage.stages))
               ++ seed_status_and_stage.statuses)).
    rewrite delete_statuses_appended.
    + change (with_STATUS
                (with_STAGE t (STAGE t ++ seed_status_and_stage.stages))
                (STATUS (with_STAGE t
                           (STAGE t ++ seed_status_and_stage.stages))))
        with (with_STAGE (with_STATUS t (STATUS t))
                (STAGE (with_STATUS t (STATUS t))
                 ++ seed_status_and_stage.stages)).
      rewrite delete_stages_appended.
      * f_equal. destruct t; reflexivity.
      * exact Hnone2.
      * simpl. rewrite Forall_forall in *. intros c Hin.
        specialize (Hc c Hin). unfold client_refs_ok in Hc.
        rewrite !andb_true_iff in Hc. tauto.
      * simpl. rewrite Forall_forall in *. intros r Hin.
        apply (Hr r Hin).
    + exact Hnone1.
    + simpl. rewrite Forall_forall in *. intros c Hin.
      specialize (Hc c Hin). unfold client_refs_ok in Hc.
      rewrite !andb_true_iff in Hc. tauto.
  - intros t c s Hc Hs Hcode Hseed.
    unfold seed_status_and_stage.downgrade,
      seed_status_and_stage.delete_statuses.
    assert (existsb
              (fun s0 =>
                 seed_status_and_stage.code_in
                   (map Status.status_code seed_status_and_stage.statuses)
                   (Status.status_code s0)
                 && existsb (fun c0 => String.eqb (Client.status_code c0)
                                                  (Status.status_code s0))
                            (CLIENT t))
              (STATUS t) = true) as ->; [|reflexivity].
    apply existsb_exists. exists s. split; [exact Hs|].
    apply andb_true_iff. split.
    + unfold seed_status_and_stage.code_in. apply existsb_exists.
      exists (Status.status_code s). split; [exact Hseed|].
      apply String.eqb_refl.
    + apply existsb_exists. exists c. split; [exact Hc|].
      rewrite Hcode. apply String.eqb_refl.
Qed.

Lemma seed_downgrade_undoes_upgrade_witness :
  (exists t',
      seed_status_and_stage.upgrade (tables sample_db) = Ok t'
      /\ seed_status_and_stage.downgrade t' = Ok (tables sample_db))
  /\ seed_status_and_stage.downgrade
       (with_STATUS (tables sample_db) [Status.mk "new" "New"])
     = Ok (with_STATUS (tables sample_db) [Status.mk "new" "New"]).
Proof.
  destruct seed_downgrade_undoes_upgrade as (Hundo & _).
  split; [|reflexivity].
  destruct (Hundo (tables sample_db)) as (t' & Hup & _ & _ & Hdown).
  - apply (run_references sample_trace empty_database).
    unfold references_resolve. simpl. repeat split; constructor.
  - intros r Hr. simpl in Hr.
    repeat (destruct Hr as [<-|Hr]; [reflexivity|]). contradiction.
  - intros r Hr. simpl in Hr.
    repeat (destruct Hr as [<-|Hr]; [reflexivity|]). contradiction.
  - exists t'. split; [exact Hup | exact Hdown].
Defined.

(** ** Reading back what was written *)

(** X27: the dossier a write returns is the dossier the next read returns:
    [get_client] under the key of the request gives the dossier [create_client]
    returned, [get_client] under the key of the updated row gives the dossier
    [update_client] returned, which is the key addressed unless the payload
    names [client_id]; and after a [delete_client] that answered [True],
    [get_client] finds nothing and no page of [list_clients] holds a client of
    that key. *)
Theorem reads_follow_writes (e e' : Env) (d d' : Database) :
  (forall client_in dossier,
      run_request e (create_client client_in) d = (Ok dossier, d') ->
      run_request e' (get_client (fresh_uuid e)) d' = (Ok (Some dossier), d'))
  /\ (forall client_id payload dossier c,
         client_by_pk (tables d) client_id = Some c ->
         run_request e (update_client client_id payload) d
         = (Ok (Some dossier), d') ->
         exists key,
           run_request e' (get_client key) d' = (Ok (Some dossier), d')
           /\ dict_get "client_id" dossier = Some (VUuid key)
           /\ (~ In "client_id" (keys payload) -> key = client_id))
  /\ (forall client_id,
         run_request e (delete_client client_id) d = (Ok true, d') ->
         run_request e' (get_client client_id) d' = (Ok None, d')
         /\ forall skip limit q status agent_id current_stage c,
              In c (select_clients (tables d') skip limit q status agent_id
                      current_stage) ->
              Client.client_id c <> client_id).
Proof.
  split; [|split].
  - intros client_in dossier H. apply create_client_cases in H.
    cbv zeta in H.
    destruct H as [(x & Hr & _) | (_ & _ & Hr & _ & Hfound & _)];
      [discriminate|].
    injection Hr as ->. rewrite get_client_run, Hfound. reflexivity.
  - intros client_id payload dossier c Hc H.
    destruct (update_client_cases _ _ _ _ _ _ _ Hc H)
      as (_ & [(x & Hr & _) | (chs & new & Hp & Happ & Hrest)]);
      [discriminate|].
    cbv zeta in Hrest. destruct Hrest as (_ & _ & _ & Hfound & Hr & _).
    injection Hr as ->.
    eexists. split; [rewrite get_client_run, Hfound; reflexivity|].
    split; [reflexivity|].
    intros Hkey.
    assert (Client.get Client.c_client_id new
            = Client.get Client.c_client_id c) as Hframe.
    { apply (apply_client_changes_frame chs c new _ Happ).
      intros v Hin. apply Hkey.
      apply (patch_client_sets _ _ _ _ Hp Hin). }
    apply get_client_id in Hframe.
    rewrite <- (client_by_pk_id _ _ _ Hc).
    destruct (client_eqb c new); [reflexivity|].
    destruct (sets_updated_at chs); exact Hframe.
  - intros client_id H. rewrite delete_client_run in H.
    destruct (client_by_pk (tables d) client_id) eqn:Hc;
      [|discriminate].
    injection H as <-. split.
    + rewrite get_client_run. simpl.
      rewrite delete_client_row_client. reflexivity.
    + intros skip limit q status agent_id current_stage c Hin.
      unfold select_clients in Hin.
      apply In_firstn_list, In_skipn_list in Hin.
      apply In_order_by in Hin. apply filter_In in Hin.
      destruct Hin as [Hin _]. simpl in Hin. apply filter_In in Hin.
      destruct Hin as [_ Hne]. apply negb_true_iff, Z.eqb_neq in Hne.
      exact Hne.
Qed.

Lemma reads_follow_writes_witness :
  exists dossier d',
    run_request (mkEnv 300 9000)
      (update_client 200 [("notes", VStr "call back")]) sample_db
    = (Ok (Some dossier), d')
    /\ run_request (mkEnv 301 9001) (get_client 200) d'
       = (Ok (Some dossier), d').
Proof.
  assert (exists dossier d',
             run_request (mkEnv 300 9000)
               (update_client 200 [("notes", VStr "call back")]) sample_db
             = (Ok (Some dossier), d')) as (dossier & d' & Hrun)
    by (eexists; eexists; vm_compute; reflexivity).
  destruct (reads_follow_writes (mkEnv 300 9000) (mkEnv 301 9001) sample_db
              d') as (_ & Hupdate & _).
  destruct (Hupdate 200 [("notes", VStr "call back")] dossier sample_client
              eq_refl Hrun) as (key & Hget & _ & Hkey).
  exists dossier, d'. split; [exact Hrun|].
  rewrite <- (Hkey ltac:(simpl; intros [H|[]]; discriminate)).
  exact Hget.
Defined.

(** ** External ids stay below their sequences *)

Lemma below_mono (t : Tables) (s s' : Sequences) :
  seqs_le s s' -> external_ids_below t s -> external_ids_below t s'.
Proof.
  intros (H1 & H2 & _) [Ha Hc]. split.
  - eapply Forall_impl; [|exact Ha]. intros a H. simpl in H. lia.
  - eapply Forall_impl; [|exact Hc]. intros c H. simpl in H. lia.
Qed.

Lemma Forall_replaced {A} (P : A -> Prop) (key : A -> Z) (l : list A)
  (id : Z) (new : A) :
  Forall P l -> P new ->
  Forall P (map (fun x => if key x =? id then new else x) l).
Proof.
  intros Hl Hnew. rewrite Forall_forall in *. intros x Hx.
  apply In_replaced in Hx. destruct Hx as [->|Hx]; auto.
Qed.

Lemma apply_client_changes_external_id (chs : list client_change)
  (r r' : Client.t) :
  apply_client_changes chs r = Ok r' ->
  (forall v, ~ In (SetColumn Client.c_external_id v) chs) ->
  Client.external_id r' = Client.external_id r.
Proof.
  intros Happ Hnot. apply get_external_id.
  apply (apply_client_changes_frame chs r r' _ Happ Hnot).
Qed.

Lemma below_flush (e : Env) (p : pending) (t : Tables) (s : Sequences)
  (t' : Tables) (s' : Sequences) :
  keeps_external_id p ->
  external_ids_below t s ->
  flush_one e p t s = (Ok t', s') ->
  external_ids_below t' s'.
Proof.
  intros Hkeeps [Ha Hc] H.
  pose proof (flush_one_frame e p t t' s s' H) as (Hfa & Hfc & _).
  pose proof (flush_one_seqs e p t s) as Hle. rewrite H in Hle.
  simpl in Hle. destruct Hle as (Hle1 & Hle2 & _).
  assert (Forall (fun a => Agent.external_id a < agent_external_id_seq s')
                 (AGENT t)) as Ha'.
  { eapply Forall_impl; [|exact Ha]. intros a Hlt. simpl in Hlt. lia. }
  assert (Forall (fun c => Client.external_id c < client_external_id_seq s')
                 (CLIENT t)) as Hc'.
  { eapply Forall_impl; [|exact Hc]. intros c Hlt. simpl in Hlt. lia. }
  split.
  - destruct p as [a|c|ph|pa|sn|st|sg|id chs|id chs|id|id|id];
      try (rewrite (Hfa eq_refl); exact Ha'); cbn [flush_one] in H.
    + simpl in H. injection H as H Hs. apply insert_agent_ok in H.
      destruct H as (-> & _). simpl. apply Forall_app. split; [exact Ha'|].
      constructor; [|constructor]. subst s'. simpl. lia.
    + injection H as H <-. apply flush_update_agent_ok in H.
      destruct H as (old & new & Hold & Happ & [[_ ->] | [_ Hup]]);
        [exact Ha'|].
      apply update_agent_row_ok in Hup. destruct Hup as [-> _]. simpl.
      apply Forall_replaced; [exact Ha'|].
      rewrite (apply_agent_changes_external_id _ _ _ Happ Hkeeps).
      unfold agent_by_pk in Hold. apply find_some in Hold.
      rewrite Forall_forall in Ha'. apply Ha'. tauto.
    + injection H as H <-. unfold delete_agent_row in H.
      destruct (negb _); [discriminate|]. injection H as <-. simpl.
      apply Forall_filter. exact Ha'.
  - destruct p as [a|c|ph|pa|sn|st|sg|id chs|id chs|id|id|id];
      try (rewrite (Hfc eq_refl); exact Hc'); cbn [flush_one] in H.
    + simpl in H. injection H as H Hs. apply insert_client_ok in H.
      destruct H as (-> & _). simpl. apply Forall_app. split; [exact Hc'|].
      constructor; [|constructor]. subst s'. simpl. lia.
    + injection H as H <-. apply flush_update_client_ok in H.
      destruct H as (old & new & Hold & Happ & t1 & -> & Hcase).
      destruct (delete_orphans_fold_sub id chs t1) as (_ & _ & _ & -> & _).
      destruct Hcase as [[_ ->] | [_ Hup]]; [exact Hc'|].
      apply update_client_row_ok in Hup. destruct Hup as [-> _]. simpl.
      apply Forall_replaced; [exact Hc'|].
      assert (Client.external_id new = Client.external_id old) as Hext
        by apply (apply_client_changes_external_id _ _ _ Happ Hkeeps).
      unfold client_by_pk in Hold. apply find_some in Hold.
      rewrite Forall_forall in Hc'. specialize (Hc' old (proj1 Hold)).
      destruct (sets_updated_at chs); simpl; rewrite Hext; exact Hc'.
    + injection H as <- <-. simpl. apply Forall_filter. exact Hc'.
Qed.

Lemma preserves_lift_bind {A B} (I : Session -> Prop) (r : result A)
  (k : A -> M B) :
  (forall a, r = Ok a -> preserves I (k a)) ->
  preserves I (x <- lift r ;; k x).
Proof.
  intros H s Hs. unfold bind, lift. destruct r as [a|x]; simpl.
  - apply (H a eq_refl s Hs).
  - exact Hs.
Qed.

Ltac below_step :=
  first
    [ apply preserves_ret
    | apply preserves_query
    | apply preserves_db_commit
    | apply preserves_db_refresh
    | apply preserves_rollback_raise
    | apply preserves_client_dossier
    | apply preserves_bind; [|intros ?]
    | apply preserves_try_except; [|intros ?]
    | exact below_mono
    | exact below_flush ].

Lemma update_client_below (id : UUID) (p : dict) :
  ~ In "external_id" (keys p) ->
  preserves (session_inv external_ids_below keeps_external_id)
            (update_client id p).
Proof.
  intros Hkey. unfold update_client.
  apply preserves_bind; [apply preserves_query | intros client].
  destruct client as [c|]; [|apply preserves_ret].
  apply preserves_lift_bind. intros chs Hp.
  apply preserves_bind; [|intros _; repeat below_step].
  apply preserves_db_add. simpl. intros v Hin. apply Hkey.
  apply (patch_client_sets p chs Client.c_external_id v Hp Hin).
Qed.

Lemma update_agent_below (id : UUID) (p : dict) :
  ~ In "external_id" (keys p) ->
  preserves (session_inv external_ids_below keeps_external_id)
            (update_agent id p).
Proof.
  intros Hkey. unfold update_agent.
  apply preserves_bind; [apply preserves_query | intros agent].
  destruct agent as [a|]; [|apply preserves_ret].
  apply preserves_lift_bind. intros chs Hp.
  apply preserves_bind; [|intros _; repeat below_step].
  apply preserves_db_add. simpl. intros v Hin. apply Hkey.
  apply (patch_agent_sets p chs Agent.c_external_id v Hp Hin).
Qed.

Lemma exec_below (e : Env) (c : call) (d : Database) :
  names_external_id c = false ->
  external_ids_below (tables d) (seqs d) ->
  external_ids_below (tables (exec e c d)) (seqs (exec e c d)).
Proof.
  intros Hnames Hd.
  destruct c; cbn [exec];
    apply (run_request_inv external_ids_below keeps_external_id);
    try exact Hd.
  - apply create_client_preserves;
      [exact below_mono | exact below_flush | exact (fun _ => I)
      | exact (fun _ => I)].
  - apply update_client_below, no_external_id_key, Hnames.
  - apply delete_client_preserves;
      [exact below_mono | exact below_flush | exact I].
  - apply create_agent_preserves;
      [exact below_mono | exact below_flush | exact (fun _ => I)].
  - apply update_agent_below, no_external_id_key, Hnames.
  - apply delete_agent_preserves;
      [exact below_mono | exact below_flush | exact I].
  - apply add_phone_preserves;
      [exact below_mono | exact below_flush | exact (fun _ => I)].
  - apply delete_phone_preserves;
      [exact below_mono | exact below_flush | exact I].
  - apply create_passport_preserves;
      [exact below_mono | exact below_flush | exact (fun _ => I)].
  - apply create_snils_preserves;
      [exact below_mono | exact below_flush | exact (fun _ => I)].
  - apply create_stage_preserves;
      [exact below_mono | exact below_flush | exact (fun _ => I)].
  - apply create_status_preserves;
      [exact below_mono | exact below_flush | exact (fun _ => I)].
Qed.

Lemma run_below (tr : list (Env * call)) :
  forall d,
    Forall (fun x => names_external_id (snd x) = false) tr ->
    external_ids_below (tables d) (seqs d) ->
    external_ids_below (tables (run tr d)) (seqs (run tr d)).
Proof.
  induction tr as [|[e c] tr IH]; intros d Htr Hd; simpl; [exact Hd|].
  inversion Htr as [|? ? Hc Htr']; subst. apply IH; [exact Htr'|].
  apply exec_below; assumption.
Qed.

Lemma next_id_is_free {A} (key : A -> Z) (l : list A) (next : Z) :
  Forall (fun x => key x < next) l -> ~ In next (map key l).
Proof.
  intros H Hin. apply in_map_iff in Hin. destruct Hin as (x & Hx & Hin).
  rewrite Forall_forall in H. specialize (H x Hin). lia.
Qed.

Lemma create_agent_succeeds (e : Env) (d : Database)
  (agent_in : AgentCreate.t) :
  let a := new_agent_row e agent_in (agent_external_id_seq (seqs d)) in
  agent_fits a = true ->
  agent_by_pk (tables d) (fresh_uuid e) = None ->
  ~ In (agent_external_id_seq (seqs d))
       (map Agent.external_id (AGENT (tables d))) ->
  run_request e (create_agent agent_in) d
  = (Ok (_agent_to_dict a),
     mkDatabase (with_AGENT (tables d) (AGENT (tables d) ++ [a]))
                (snd (nextval_agent (seqs d)))).
Proof.
  intros a Hfits Hfresh Hfree. rewrite create_agent_run. fold a.
  unfold insert_agent. rewrite Hfits. simpl negb. cbv iota.
  change (Agent.agent_id a) with (fresh_uuid e). rewrite Hfresh.
  simpl is_some. rewrite orb_false_l.
  destruct (existsb _ (AGENT (tables d))) eqn:E.
  - exfalso. apply existsb_exists in E. destruct E as (b & Hin & Hb).
    apply Z.eqb_eq in Hb. apply Hfree. simpl in Hb. rewrite <- Hb.
    apply in_map. exact Hin.
  - pose proof (agent_by_pk_appended (tables d) a Hfresh) as Hfound.
    change (Agent.agent_id a) with (fresh_uuid e) in Hfound.
    rewrite Hfound. reflexivity.
Qed.

(** X28: the external ids in the tables stay below the next value of their
    sequence: every call that does not name [external_id] in an update payload
    keeps it so, it holds of the empty database and of the database the
    bootstrap migration leaves, hence of every database built from those by
    such calls. There the next id of each sequence is carried by no row, so
    [create_agent] cannot fail on the uniqueness of [external_id]: with a key
    that is not taken and values that fit the columns it stores the agent. *)
Theorem external_ids_stay_below_sequence :
  (forall e c d,
      names_external_id c = false ->
      external_ids_below (tables d) (seqs d) ->
      external_ids_below (tables (exec e c d)) (seqs (exec e c d)))
  /\ (forall tr d,
         Forall (fun x => names_external_id (snd x) = false) tr ->
         external_ids_below (tables d) (seqs d) ->
         external_ids_below (tables (run tr d)) (seqs (run tr d)))
  /\ external_ids_below (tables empty_database) (seqs empty_database)
  /\ (forall t agent_seq client_seq phone_seq,
         let d0 := upgrade t agent_seq client_seq phone_seq in
         external_ids_below (tables d0) (seqs d0))
  /\ (forall d,
         external_ids_below (tables d) (seqs d) ->
         ~ In (agent_external_id_seq (seqs d))
              (map Agent.external_id (AGENT (tables d)))
         /\ ~ In (client_external_id_seq (seqs d))
                 (map Client.external_id (CLIENT (tables d))))
  /\ (forall e d agent_in,
         external_ids_below (tables d) (seqs d) ->
         agent_by_pk (tables d) (fresh_uuid e) = None ->
         agent_fits (new_agent_row e agent_in
                       (agent_external_id_seq (seqs d))) = true ->
         exists d',
           run_request e (create_agent agent_in) d
           = (Ok (_agent_to_dict
                    (new_agent_row e agent_in
                       (agent_external_id_seq (seqs d)))), d')
           /\ external_ids_below (tables d') (seqs d')).
Proof.
  split; [exact exec_below|]. split; [exact run_below|].
  split; [split; constructor|]. split; [|split].
  - intros t agent_seq client_seq phone_seq d0.
    destruct (upgrade_bootstrap t agent_seq client_seq phone_seq)
      as (_ & _ & _ & Ha & Hc).
    split; assumption.
  - intros d [Ha Hc]. split; apply next_id_is_free; assumption.
  - intros e d agent_in Hd Hfresh Hfits.
    eexists. split.
    + apply create_agent_succeeds; [exact Hfits | exact Hfresh|].
      apply next_id_is_free. exact (proj1 Hd).
    + pose proof (exec_below e (Call_create_agent agent_in) d eq_refl Hd)
        as H.
      cbn [exec] in H.
      rewrite create_agent_succeeds in H;
        [exact H | exact Hfits | exact Hfresh|].
      apply next_id_is_free. exact (proj1 Hd).
Qed.

Lemma external_ids_stay_below_sequence_witness :
  external_ids_below (tables sample_db) (seqs sample_db)
  /\ ~ In 2 (map Agent.external_id (AGENT (tables sample_db)))
  /\ (exists d',
         run_request (mkEnv 300 9000) (create_agent smith) sample_db
         = (Ok (_agent_to_dict (new_agent_row (mkEnv 300 9000) smith 2)), d')).
Proof.
  destruct external_ids_stay_below_sequence
    as (_ & Hrun & Hempty & _ & Hfree & Hcreate).
  assert (external_ids_below (tables sample_db) (seqs sample_db)) as Hsample.
  { apply (Hrun sample_trace empty_database); [|exact Hempty].
    repeat (constructor; [reflexivity|]). constructor. }
  split; [exact Hsample|]. split.
  - apply (proj1 (Hfree sample_db Hsample)).
  - destruct (Hcreate (mkEnv 300 9000) sample_db smith Hsample eq_refl
                eq_refl) as (d' & Hok & _).
    exists d'. exact Hok.
Defined.

(** ** update_passport and update_snils *)

Lemma update_passport_run (e : Env) (d : Database) (passport_id : UUID)
  (payload : dict) :
  run_request e (update_passport passport_id payload) d =
  match passport_by_pk (tables d) passport_id with
  | None => (Ok None, d)
  | Some _ =>
      match patch_passport payload with
      | Err x => (Err x, d)
      | Ok chs =>
          match flush_update_passport (tables d) passport_id chs with
          | Err x => (Err x, d)
          | Ok t' =>
              (match passport_by_pk t'
                       (passport_identity_after passport_id chs) with
               | Some p => Ok (Some p)
               | None => Err InvalidRequestError
               end, mkDatabase t' (seqs d))
          end
      end
  end.
Proof.
  unfold run_request, update_passport, bind at 1, query. simpl.
  destruct (passport_by_pk (tables d) passport_id) as [p|]; simpl.
  2:{ destruct d; reflexivity. }
  unfold bind at 1, lift.
  destruct (patch_passport payload) as [chs|x]; simpl.
  2:{ destruct d; reflexivity. }
  unfold try_except, bind, db_commit_dirty, db_commit, bind, db_flush,
    db_refresh, bind, query, db_rollback. simpl.
  destruct (flush_update_passport (tables d) passport_id chs) as [t'|x];
    simpl.
  - destruct (passport_by_pk t' (passport_identity_after passport_id chs));
      reflexivity.
  - destruct d; reflexivity.
Qed.

Lemma set_passport_column_frame (c col : PassportColumn.column) (v : value)
  (r r' : Passport.t) :
  set_passport_column c v r = Ok r' ->
  col <> c ->
  PassportColumn.get col r' = PassportColumn.get col r.
Proof.
  intros H Hne.
  destruct c; destruct v; simpl in H; try discriminate;
    injection H as <-; destruct col; try reflexivity; congruence.
Qed.

Lemma apply_passport_changes_frame (chs : list passport_change) :
  forall (r r' : Passport.t) (col : PassportColumn.column),
    apply_passport_changes chs r = Ok r' ->
    (forall v, ~ In (SetColumn col v) chs) ->
    PassportColumn.get col r' = PassportColumn.get col r.
Proof.
  induction chs as [|ch chs IH]; intros r r' col H Hnot; simpl in H.
  - injection H as <-. reflexivity.
  - destruct ch as [c v|rel|rel]; [| |discriminate].
    + destruct (set_passport_column c v r) as [r1|x] eqn:Hs; [|discriminate].
      rewrite (IH r1 r' col H).
      * eapply set_passport_column_frame; [exact Hs|].
        intros ->. apply (Hnot v). left. reflexivity.
      * intros w Hin. apply (Hnot w). right. assumption.
    + apply (IH r r' col H). intros w Hin. apply (Hnot w). right. assumption.
Qed.

Lemma set_passport_column_id (c : PassportColumn.column) (v : value)
  (r r' : Passport.t) :
  set_passport_column c v r = Ok r' ->
  Passport.passport_id r'
  = match SetColumn (relationship := unit) c v with
    | SetColumn PassportColumn.c_passport_id (VUuid u) => u
    | _ => Passport.passport_id r
    end.
Proof.
  intros H.
  destruct c; destruct v; simpl in H; try discriminate;
    injection H as <-; reflexivity.
Qed.

Lemma apply_passport_changes_identity (chs : list passport_change) :
  forall (r r' : Passport.t),
    apply_passport_changes chs r = Ok r' ->
    passport_identity_after (Passport.passport_id r) chs
    = Passport.passport_id r'.
Proof.
  unfold passport_identity_after.
  induction chs as [|ch chs IH]; intros r r' H; simpl in H.
  - injection H as <-. reflexivity.
  - destruct ch as [c v|rel|rel]; simpl; [| |discriminate].
    + destruct (set_passport_column c v r) as [r1|x] eqn:Hs; [|discriminate].
      rewrite <- (IH r1 r' H). rewrite (set_passport_column_id _ _ _ _ Hs).
      reflexivity.
    + apply (IH r r' H).
Qed.

Lemma opt_eqb_Z_eq (x y : option Z) : opt_eqb Z.eqb x y = true -> x = y.
Proof.
  destruct x, y; simpl; try discriminate; try reflexivity.
  intros H. apply Z.eqb_eq in H. congruence.
Qed.

Lemma passport_eqb_eq (a b : Passport.t) : passport_eqb a b = true -> a = b.
Proof.
  unfold passport_eqb. destruct a, b. simpl. intros H.
  repeat (apply andb_true_iff in H; destruct H as [H ?]).
  repeat match goal with
         | H : (_ =? _) = true |- _ => apply Z.eqb_eq in H
         | H : String.eqb _ _ = true |- _ => apply String.eqb_eq in H
         | H : opt_eqb String.eqb _ _ = true |- _ =>
             apply opt_eqb_string_eq in H
         | H : opt_eqb Z.eqb _ _ = true |- _ => apply opt_eqb_Z_eq in H
         end.
  congruence.
Qed.

Lemma passport_by_pk_id (t : Tables) (id : UUID) (p : Passport.t) :
  passport_by_pk t id = Some p -> Passport.passport_id p = id.
Proof.
  unfold passport_by_pk. intros H. apply find_some in H.
  destruct H as [_ H]. apply Z.eqb_eq. exact H.
Qed.

Lemma passport_attribute_inl (k : string) (c : PassportColumn.column) :
  passport_attribute k = Some (inl c) -> k = PassportColumn.column_name c.
Proof.
  unfold passport_attribute.
  destruct (find _ PassportColumn.columns) as [c'|] eqn:Hf.
  - intros H. injection H as <-. apply find_some in Hf.
    destruct Hf as [_ Hf]. apply String.eqb_eq in Hf. congruence.
  - destruct (String.eqb _ _); discriminate.
Qed.

Lemma patch_passport_sets (payload : dict) :
  forall chs c v,
    patch_passport payload = Ok chs ->
    In (SetColumn c v) chs ->
    In (PassportColumn.column_name c) (keys payload).
Proof.
  induction payload as [|[k w] payload IH]; intros chs c v H Hin; simpl in H.
  - injection H as <-. contradiction.
  - destruct (passport_attribute k) as [a|] eqn:Ha.
    + destruct (setattr_document a w) as [ch|x] eqn:Hs; [|discriminate].
      destruct (patch_passport payload) as [chs'|x]; [|discriminate].
      injection H as <-. destruct Hin as [Hin|Hin].
      * subst ch. left. simpl.
        destruct a as [c'|r]; simpl in Hs.
        -- injection Hs as <- <-.
           apply passport_attribute_inl. assumption.
        -- destruct w; discriminate.
      * right. eapply IH; [reflexivity | exact Hin].
    + right. eapply IH; eassumption.
Qed.


Lemma update_passport_row_ok (t t' : Tables) (id : UUID) (new : Passport.t) :
  update_passport_row t id new = Ok t' ->
  t' = with_PASSPORT t
         (map (fun p => if Passport.passport_id p =? id then new else p)
              (PASSPORT t))
  /\ (Passport.passport_id new <> id ->
      passport_by_pk t (Passport.passport_id new) = None)
  /\ is_some (client_by_pk t (Passport.client_id new)) = true.
Proof.
  unfold update_passport_row. destruct (negb _); [discriminate|].
  destruct (Passport.passport_id new =? id) eqn:E; simpl.
  - destruct (is_some (client_by_pk t _)); [|discriminate]. simpl.
    intros H. injection H as <-. repeat split.
    apply Z.eqb_eq in E. congruence.
  - destruct (is_some (passport_by_pk t _)) eqn:Hpk; [discriminate|].
    destruct (is_some (client_by_pk t _)); [|discriminate]. simpl.
    intros H. injection H as <-. repeat split.
    intros _. apply is_some_false. exact Hpk.
Qed.

(** What [update_passport] returns and leaves behind for a passport
    that exists. *)
Lemma update_passport_result (e : Env) (d d' : Database) (passport_id : UUID)
  (payload : dict) (p : Passport.t) (r : result (option Passport.t)) :
  passport_by_pk (tables d) passport_id = Some p ->
  run_request e (update_passport passport_id payload) d = (r, d') ->
  (exists x, r = Err x /\ d' = d)
  \/ (exists chs new,
         patch_passport payload = Ok chs
         /\ apply_passport_changes chs p = Ok new
         /\ r = Ok (Some new)
         /\ passport_by_pk (tables d') (Passport.passport_id new) = Some new
         /\ seqs d' = seqs d
         /\ ((new = p /\ tables d' = tables d)
             \/ (tables d'
                 = with_PASSPORT (tables d)
                     (map (fun x => if Passport.passport_id x =? passport_id
                                    then new else x)
                          (PASSPORT (tables d)))
                 /\ is_some (client_by_pk (tables d) (Passport.client_id new))
                    = true))).
Proof.
  intros Hp. rewrite update_passport_run, Hp.
  destruct (patch_passport payload) as [chs|x] eqn:Hpatch.
  2:{ intros H. inversion H. left. eexists. split; reflexivity. }
  unfold flush_update_passport. rewrite Hp.
  destruct (apply_passport_changes chs p) as [new|x] eqn:Happ.
  2:{ intros H. inversion H. left. eexists. split; reflexivity. }
  pose proof (apply_passport_changes_identity _ _ _ Happ) as Hid.
  rewrite (passport_by_pk_id _ _ _ Hp) in Hid. rewrite Hid.
  destruct (passport_eqb p new) eqn:Heq.
  - apply passport_eqb_eq in Heq. subst new.
    rewrite (passport_by_pk_id _ _ _ Hp), Hp.
    intros H. inversion H. right. exists chs, p. simpl.
    split; [reflexivity|]. split; [exact Happ|]. split; [reflexivity|].
    split; [rewrite (passport_by_pk_id _ _ _ Hp); exact Hp|].
    split; [reflexivity|]. left. split; reflexivity.
  - destruct (update_passport_row (tables d) passport_id new) as [t'|x]
      eqn:Hup.
    2:{ intros H. inversion H. left. eexists. split; reflexivity. }
    apply update_passport_row_ok in Hup. destruct Hup as (-> & Hpk & Hfk).
    assert (passport_by_pk
              (with_PASSPORT (tables d)
                 (map (fun x => if Passport.passport_id x =? passport_id
                                then new else x) (PASSPORT (tables d))))
              (Passport.passport_id new) = Some new) as Hfound.
    { unfold passport_by_pk. simpl.
      apply (find_replaced_key Passport.passport_id _ passport_id p new).
      - exact Hp.
      - exact Hpk. }
    rewrite Hfound. intros H. inversion H. right. exists chs, new. simpl.
    split; [reflexivity|]. split; [exact Happ|]. split; [reflexivity|].
    split; [exact Hfound|]. split; [reflexivity|].
    right. split; [reflexivity | exact Hfk].
Qed.



Lemma update_snils_run (e : Env) (d : Database) (snils_id : UUID)
  (payload : dict) :
  run_request e (update_snils snils_id payload) d =
  match snils_by_pk (tables d) snils_id with
  | None => (Ok None, d)
  | Some _ =>
      match patch_snils payload with
      | Err x => (Err x, d)
      | Ok chs =>
          match flush_update_snils (tables d) snils_id chs with
          | Err x => (Err x, d)
          | Ok t' =>
              (match snils_by_pk t'
                       (snils_identity_after snils_id chs) with
               | Some p => Ok (Some p)
               | None => Err InvalidRequestError
               end, mkDatabase t' (seqs d))
          end
      end
  end.
Proof.
  unfold run_request, update_snils, bind at 1, query. simpl.
  destruct (snils_by_pk (tables d) snils_id) as [p|]; simpl.
  2:{ destruct d; reflexivity. }
  unfold bind at 1, lift.
  destruct (patch_snils payload) as [chs|x]; simpl.
  2:{ destruct d; reflexivity. }
  unfold try_except, bind, db_commit_dirty, db_commit, bind, db_flush,
    db_refresh, bind, query, db_rollback. simpl.
  destruct (flush_update_snils (tables d) snils_id chs) as [t'|x];
    simpl.
  - destruct (snils_by_pk t' (snils_identity_after snils_id chs));
      reflexivity.
  - destruct d; reflexivity.
Qed.

Lemma set_snils_column_frame (c col : SnilsColumn.column) (v : value)
  (r r' : Snils.t) :
  set_snils_column c v r = Ok r' ->
  col <> c ->
  SnilsColumn.get col r' = SnilsColumn.get col r.
Proof.
  intros H Hne.
  destruct c; destruct v; simpl in H; try discriminate;
    injection H as <-; destruct col; try reflexivity; congruence.
Qed.

Lemma apply_snils_changes_frame (chs : list snils_change) :
  forall (r r' : Snils.t) (col : SnilsColumn.column),
    apply_snils_changes chs r = Ok r' ->
    (forall v, ~ In (SetColumn col v) chs) ->
    SnilsColumn.get col r' = SnilsColumn.get col r.
Proof.
  induction chs as [|ch chs IH]; intros r r' col H Hnot; simpl in H.
  - injection H as <-. reflexivity.
  - destruct ch as [c v|rel|rel]; [| |discriminate].
    + destruct (set_snils_column c v r) as [r1|x] eqn:Hs; [|discriminate].
      rewrite (IH r1 r' col H).
      * eapply set_snils_column_frame; [exact Hs|].
        intros ->. apply (Hnot v). left. reflexivity.
      * intros w Hin. apply (Hnot w). right. assumption.
    + apply (IH r r' col H). intros w Hin. apply (Hnot w). right. assumption.
Qed.

Lemma set_snils_column_id (c : SnilsColumn.column) (v : value)
  (r r' : Snils.t) :
  set_snils_column c v r = Ok r' ->
  Snils.snils_id r'
  = match SetColumn (relationship := unit) c v with
    | SetColumn SnilsColumn.c_snils_id (VUuid u) => u
    | _ => Snils.snils_id r
    end.
Proof.
  intros H.
  destruct c; destruct v; simpl in H; try discriminate;
    injection H as <-; reflexivity.
Qed.

Lemma apply_snils_changes_identity (chs : list snils_change) :
  forall (r r' : Snils.t),
    apply_snils_changes chs r = Ok r' ->
    snils_identity_after (Snils.snils_id r) chs
    = Snils.snils_id r'.
Proof.
  unfold snils_identity_after.
  induction chs as [|ch chs IH]; intros r r' H; simpl in H.
  - injection H as <-. reflexivity.
  - destruct ch as [c v|rel|rel]; simpl; [| |discriminate].
    + destruct (set_snils_column c v r) as [r1|x] eqn:Hs; [|discriminate].
      rewrite <- (IH r1 r' H). rewrite (set_snils_column_id _ _ _ _ Hs).
      reflexivity.
    + apply (IH r r' H).
Qed.

Lemma snils_eqb_eq (a b : Snils.t) : snils_eqb a b = true -> a = b.
Proof.
  unfold snils_eqb. destruct a, b. simpl. intros H.
  repeat (apply andb_true_iff in H; destruct H as [H ?]).
  repeat match goal with
         | H : (_ =? _) = true |- _ => apply Z.eqb_eq in H
         | H : String.eqb _ _ = true |- _ => apply String.eqb_eq in H
         | H : opt_eqb String.eqb _ _ = true |- _ =>
             apply opt_eqb_string_eq in H
         | H : opt_eqb Z.eqb _ _ = true |- _ => apply opt_eqb_Z_eq in H
         end.
  congruence.
Qed.

Lemma snils_by_pk_id (t : Tables) (id : UUID) (p : Snils.t) :
  snils_by_pk t id = Some p -> Snils.snils_id p = id.
Proof.
  unfold snils_by_pk. intros H. apply find_some in H.
  destruct H as [_ H]. apply Z.eqb_eq. exact H.
Qed.

Lemma snils_attribute_inl (k : string) (c : SnilsColumn.column) :
  snils_attribute k = Some (inl c) -> k = SnilsColumn.column_name c.
Proof.
  unfold snils_attribute.
  destruct (find _ SnilsColumn.columns) as [c'|] eqn:Hf.
  - intros H. injection H as <-. apply find_some in Hf.
    destruct Hf as [_ Hf]. apply String.eqb_eq in Hf. congruence.
  - destruct (String.eqb _ _); discriminate.
Qed.

Lemma patch_snils_sets (payload : dict) :
  forall chs c v,
    patch_snils payload = Ok chs ->
    In (SetColumn c v) chs ->
    In (SnilsColumn.column_name c) (keys payload).
Proof.
  induction payload as [|[k w] payload IH]; intros chs c v H Hin; simpl in H.
  - injection H as <-. contradiction.
  - destruct (snils_attribute k) as [a|] eqn:Ha.
    + destruct (setattr_document a w) as [ch|x] eqn:Hs; [|discriminate].
      destruct (patch_snils payload) as [chs'|x]; [|discriminate].
      injection H as <-. destruct Hin as [Hin|Hin].
      * subst ch. left. simpl.
        destruct a as [c'|r]; simpl in Hs.
        -- injection Hs as <- <-.
           apply snils_attribute_inl. assumption.
        -- destruct w; discriminate.
      * right. eapply IH; [reflexivity | exact Hin].
    + right. eapply IH; eassumption.
Qed.

Lemma patch_snils_ignores (k : string) (v : value) (p1 p2 : dict) :
  snils_attribute k = None ->
  patch_snils (p1 ++ (k, v) :: p2) = patch_snils (p1 ++ p2).
Proof.
  intros H. induction p1 as [|[k1 v1] p1 IH]; simpl.
  - rewrite H. reflexivity.
  - rewrite IH. reflexivity.
Qed.

Lemma update_snils_row_ok (t t' : Tables) (id : UUID) (new : Snils.t) :
  update_snils_row t id new = Ok t' ->
  t' = with_SNILS t
         (map (fun p => if Snils.snils_id p =? id then new else p)
              (SNILS t))
  /\ (Snils.snils_id new <> id ->
      snils_by_pk t (Snils.snils_id new) = None)
  /\ is_some (client_by_pk t (Snils.client_id new)) = true.
Proof.
  unfold update_snils_row. destruct (negb _); [discriminate|].
  destruct (Snils.snils_id new =? id) eqn:E; simpl.
  - destruct (is_some (client_by_pk t _)); [|discriminate]. simpl.
    intros H. injection H as <-. repeat split.
    apply Z.eqb_eq in E. congruence.
  - destruct (is_some (snils_by_pk t _)) eqn:Hpk; [discriminate|].
    destruct (is_some (client_by_pk t _)); [|discriminate]. simpl.
    intros H. injection H as <-. repeat split.
    intros _. apply is_some_false. exact Hpk.
Qed.

(** What [update_snils] returns and leaves behind for a record that
    exists. *)
Lemma update_snils_result (e : Env) (d d' : Database) (snils_id : UUID)
  (payload : dict) (p : Snils.t) (r : result (option Snils.t)) :
  snils_by_pk (tables d) snils_id = Some p ->
  run_request e (update_snils snils_id payload) d = (r, d') ->
  (exists x, r = Err x /\ d' = d)
  \/ (exists chs new,
         patch_snils payload = Ok chs
         /\ apply_snils_changes chs p = Ok new
         /\ r = Ok (Some new)
         /\ snils_by_pk (tables d') (Snils.snils_id new) = Some new
         /\ seqs d' = seqs d
         /\ ((new = p /\ tables d' = tables d)
             \/ (tables d'
                 = with_SNILS (tables d)
                     (map (fun x => if Snils.snils_id x =? snils_id
                                    then new else x)
                          (SNILS (tables d)))
                 /\ is_some (client_by_pk (tables d) (Snils.client_id new))
                    = true))).
Proof.
  intros Hp. rewrite update_snils_run, Hp.
  destruct (patch_snils payload) as [chs|x] eqn:Hpatch.
  2:{ intros H. inversion H. left. eexists. split; reflexivity. }
  unfold flush_update_snils. rewrite Hp.
  destruct (apply_snils_changes chs p) as [new|x] eqn:Happ.
  2:{ intros H. inversion H. left. eexists. split; reflexivity. }
  pose proof (apply_snils_changes_identity _ _ _ Happ) as Hid.
  rewrite (snils_by_pk_id _ _ _ Hp) in Hid. rewrite Hid.
  destruct (snils_eqb p new) eqn:Heq.
  - apply snils_eqb_eq in Heq. subst new.
    rewrite (snils_by_pk_id _ _ _ Hp), Hp.
    intros H. inversion H. right. exists chs, p. simpl.
    split; [reflexivity|]. split; [exact Happ|]. split; [reflexivity|].
    split; [rewrite (snils_by_pk_id _ _ _ Hp); exact Hp|].
    split; [reflexivity|]. left. split; reflexivity.
  - destruct (update_snils_row (tables d) snils_id new) as [t'|x]
      eqn:Hup.
    2:{ intros H. inversion H. left. eexists. split; reflexivity. }
    apply update_snils_row_ok in Hup. destruct Hup as (-> & Hpk & Hfk).
    assert (snils_by_pk
              (with_SNILS (tables d)
                 (map (fun x => if Snils.snils_id x =? snils_id
                                then new else x) (SNILS (tables d))))
              (Snils.snils_id new) = Some new) as Hfound.
    { unfold snils_by_pk. simpl.
      apply (find_replaced_key Snils.snils_id _ snils_id p new).
      - exact Hp.
      - exact Hpk. }
    rewrite Hfound. intros H. inversion H. right. exists chs, new. simpl.
    split; [reflexivity|]. split; [exact Happ|]. split; [reflexivity|].
    split; [exact Hfound|]. split; [reflexivity|].
    right. split; [reflexivity | exact Hfk].
Qed.

(** [update_snils] is the same merge patch on SNILS: [None] and no
    change for a record that does not exist; for one that does, the
    record returned is the stored row, every column the payload does not
    name is as it was, [version] included, no other record and no other
    table changes; a failed call leaves the database alone; and a key
    that is no attribute of Snils can be dropped from the payload. *)
Theorem update_snils_merge_patch (e : Env) (d : Database)
  (snils_id : UUID) (payload : dict) :
  (snils_by_pk (tables d) snils_id = None ->
   run_request e (update_snils snils_id payload) d = (Ok None, d))
  /\ (forall p,
         snils_by_pk (tables d) snils_id = Some p ->
         (forall r d',
             run_request e (update_snils snils_id payload) d
             = (Ok r, d') ->
             exists p',
               r = Some p'
               /\ snils_by_pk (tables d') (Snils.snils_id p')
                  = Some p'
               /\ (forall col,
                      ~ In (SnilsColumn.column_name col) (keys payload) ->
                      SnilsColumn.get col p' = SnilsColumn.get col p)
               /\ (~ In "version" (keys payload) ->
                   Snils.version p' = Snils.version p)
               /\ (forall x, In x (SNILS (tables d')) ->
                             x = p' \/ In x (SNILS (tables d)))
               /\ CLIENT (tables d') = CLIENT (tables d)
               /\ PASSPORT (tables d') = PASSPORT (tables d)
               /\ PHONE (tables d') = PHONE (tables d)
               /\ seqs d' = seqs d)
         /\ (forall x d',
                run_request e (update_snils snils_id payload) d
                = (Err x, d') ->
                d' = d))
  /\ (forall k v p1 p2,
         payload = p1 ++ (k, v) :: p2 ->
         snils_attribute k = None ->
         run_request e (update_snils snils_id payload) d
         = run_request e (update_snils snils_id (p1 ++ p2)) d).
Proof.
  split; [|split].
  - intros H. rewrite update_snils_run, H. reflexivity.
  - intros p Hp. split.
    + intros r d' H.
      destruct (update_snils_result _ _ _ _ _ _ _ Hp H)
        as [(x & Hr & _) | (chs & new & Hpatch & Happ & Hr & Hfound & Hs
                            & Ht)];
        [discriminate|].
      injection Hr as ->. exists new.
      assert (forall col,
                 ~ In (SnilsColumn.column_name col) (keys payload) ->
                 SnilsColumn.get col new = SnilsColumn.get col p)
        as Hframe.
      { intros col Hcol.
        apply (apply_snils_changes_frame chs p new col Happ).
        intros v Hin. apply Hcol.
        apply (patch_snils_sets _ _ _ _ Hpatch Hin). }
      split; [reflexivity|]. split; [exact Hfound|].
      split; [exact Hframe|]. split.
      * intros Hv. specialize (Hframe SnilsColumn.c_version Hv).
        simpl in Hframe. injection Hframe as Hframe. exact Hframe.
      * destruct Ht as [[-> Ht] | [Ht _]]; rewrite Ht; simpl.
        -- split; [right; assumption | repeat split; exact Hs].
        -- split; [apply In_replaced | repeat split; exact Hs].
    + intros x d' H.
      destruct (update_snils_result _ _ _ _ _ _ _ Hp H)
        as [(y & _ & Hd) | (chs & new & _ & _ & Hr & _)];
        [exact Hd | discriminate].
  - intros k v p1 p2 -> Hk. rewrite !update_snils_run.
    rewrite (patch_snils_ignores k v p1 p2 Hk). reflexivity.
Qed.

Lemma update_snils_merge_patch_witness :
  run_request (mkEnv 500 9900)
    (update_snils 999 [("number", VStr "987-654-321 00")]) documents_db
  = (Ok None, documents_db)
  /\ (exists s' d',
         run_request (mkEnv 500 9900)
           (update_snils 401 [("number", VStr "987-654-321 00")])
           documents_db
         = (Ok (Some s'), d')
         /\ Snils.version s' = 1
         /\ PASSPORT (tables d') = PASSPORT (tables documents_db)).
Proof.
  destruct (update_snils_merge_patch (mkEnv 500 9900) documents_db 999
              [("number", VStr "987-654-321 00")]) as (Hmissing & _).
  destruct (update_snils_merge_patch (mkEnv 500 9900) documents_db 401
              [("number", VStr "987-654-321 00")]) as (_ & Hfound & _).
  split; [apply Hmissing; reflexivity|].
  assert (exists s' d',
             run_request (mkEnv 500 9900)
               (update_snils 401 [("number", VStr "987-654-321 00")])
               documents_db
             = (Ok (Some s'), d')) as (s' & d' & Hrun)
    by (eexists; eexists; vm_compute; reflexivity).
  destruct (Hfound sample_snils eq_refl) as (Hok & _).
  destruct (Hok (Some s') d' Hrun)
    as (q & Hq & _ & _ & Hversion & _ & _ & Hpassports & _).
  injection Hq as <-.
  exists s', d'. split; [exact Hrun|]. split; [|exact Hpassports].
  rewrite Hversion; [reflexivity|].
  simpl. intros [H|[]]. discriminate.
Defined.

Lemma keys_passport_dump (payload : PassportUpdate.t) (k : string) :
  In k (keys (PassportUpdate.model_dump payload)) ->
  In k ["full_name"; "birth_date"; "birth_place"; "series_number";
        "issued_by"; "issue_date"; "department_code"; "expiry_date";
        "registration_address"].
Proof.
  unfold PassportUpdate.model_dump. rewrite !keys_app, !in_app_iff.
  intros H.
  repeat (destruct H as [H|H];
          [apply keys_dump_field in H; subst k; simpl; tauto|]).
  apply keys_dump_field in H. subst k. simpl. tauto.
Qed.

Lemma keys_snils_dump (payload : SnilsUpdate.t) (k : string) :
  In k (keys (SnilsUpdate.model_dump payload)) ->
  In k ["number"; "issued_date"].
Proof.
  unfold SnilsUpdate.model_dump. rewrite !keys_app, !in_app_iff.
  intros [H|H]; apply keys_dump_field in H; subst k; simpl; tauto.
Qed.

(** X30: [PATCH /passports/{passport_id}] and [PATCH /snils/{snils_id}]
    answer 404 for a record that does not exist and change nothing. For one
    that exists, whatever body the schema accepted, a returned record is
    stored under the key addressed and still belongs to the same client,
    with the version and the creation time it had: the body cannot name
    those columns. *)
Theorem document_routes_keep_identity (e : Env) (d : Database) :
  (forall passport_id payload,
      (passport_by_pk (tables d) passport_id = None ->
       run_request e (api_passports.api_update_passport passport_id payload) d
       = (Ok (HTTPException 404), d))
      /\ (forall p p' d',
             passport_by_pk (tables d) passport_id = Some p ->
             run_request e
               (api_passports.api_update_passport passport_id payload) d
             = (Ok (Returns p'), d') ->
             passport_by_pk (tables d') passport_id = Some p'
             /\ Passport.client_id p' = Passport.client_id p
             /\ Passport.version p' = Passport.version p
             /\ Passport.created_at p' = Passport.created_at p))
  /\ (forall snils_id payload,
         (snils_by_pk (tables d) snils_id = None ->
          run_request e (api_snils.api_update_snils snils_id payload) d
          = (Ok (HTTPException 404), d))
         /\ (forall s s' d',
                snils_by_pk (tables d) snils_id = Some s ->
                run_request e (api_snils.api_update_snils snils_id payload) d
                = (Ok (Returns s'), d') ->
                snils_by_pk (tables d') snils_id = Some s'
                /\ Snils.client_id s' = Snils.client_id s
                /\ Snils.version s' = Snils.version s
                /\ Snils.created_at s' = Snils.created_at s)).
Proof.
  split.
  - intros passport_id payload.
    unfold api_passports.api_update_passport. cbv zeta.
    set (data := PassportUpdate.model_dump payload).
    assert (forall col,
               col = PassportColumn.c_passport_id
               \/ col = PassportColumn.c_client_id
               \/ col = PassportColumn.c_version
               \/ col = PassportColumn.c_created_at ->
               ~ In (PassportColumn.column_name col) (keys data)) as Hkeys.
    { intros col Hcol Hin. apply keys_passport_dump in Hin.
      destruct Hcol as [ -> | [ -> | [ -> | -> ] ] ]; simpl in Hin;
        repeat (destruct Hin as [Hin|Hin]; [discriminate|]); contradiction. }
    split.
    + intros Hnone. unfold run_request, bind.
      pose proof (update_passport_run e d passport_id data) as Hrun.
      unfold run_request in Hrun. rewrite Hnone in Hrun.
      destruct (update_passport passport_id data _) as [r s].
      injection Hrun as -> Hs. simpl. rewrite Hs. reflexivity.
    + intros p p' d' Hp H.
      destruct (run_request e (update_passport passport_id data) d)
        as [r d1] eqn:Hrun.
      assert (r = Ok (Some p') /\ d1 = d') as [-> ->].
      { unfold run_request, bind in H. unfold run_request in Hrun.
        destruct (update_passport passport_id data _) as [r0 s].
        injection Hrun as -> <-.
        destruct r as [[q|]|x]; simpl in H; inversion H; split; reflexivity. }
      destruct (update_passport_result _ _ _ _ _ _ _ Hp Hrun)
        as [(x & Hr & _) | (chs & new & Hpatch & Happ & Hr & Hfound & _)];
        [discriminate|].
      injection Hr as <-.
      assert (forall col,
                 col = PassportColumn.c_passport_id
                 \/ col = PassportColumn.c_client_id
                 \/ col = PassportColumn.c_version
                 \/ col = PassportColumn.c_created_at ->
                 PassportColumn.get col p' = PassportColumn.get col p)
        as Hframe.
      { intros col Hcol.
        apply (apply_passport_changes_frame chs p p' col Happ).
        intros v Hin. apply (Hkeys col Hcol).
        apply (patch_passport_sets _ _ _ _ Hpatch Hin). }
      pose proof (Hframe PassportColumn.c_passport_id (or_introl eq_refl))
        as H1.
      pose proof (Hframe PassportColumn.c_client_id
                    (or_intror (or_introl eq_refl))) as H2.
      pose proof (Hframe PassportColumn.c_version
                    (or_intror (or_intror (or_introl eq_refl)))) as H3.
      pose proof (Hframe PassportColumn.c_created_at
                    (or_intror (or_intror (or_intror eq_refl)))) as H4.
      simpl in H1, H2, H3, H4.
      injection H1 as H1. injection H2 as H2. injection H3 as H3.
      injection H4 as H4.
      rewrite H1, (passport_by_pk_id _ _ _ Hp) in Hfound.
      repeat split; assumption.
  - intros snils_id payload.
    unfold api_snils.api_update_snils. cbv zeta.
    set (data := SnilsUpdate.model_dump payload).
    assert (forall col,
               col = SnilsColumn.c_snils_id
               \/ col = SnilsColumn.c_client_id
               \/ col = SnilsColumn.c_version
               \/ col = SnilsColumn.c_created_at ->
               ~ In (SnilsColumn.column_name col) (keys data)) as Hkeys.
    { intros col Hcol Hin. apply keys_snils_dump in Hin.
      destruct Hcol as [ -> | [ -> | [ -> | -> ] ] ]; simpl in Hin;
        repeat (destruct Hin as [Hin|Hin]; [discriminate|]); contradiction. }
    split.
    + intros Hnone. unfold run_request, bind.
      pose proof (update_snils_run e d snils_id data) as Hrun.
      unfold run_request in Hrun. rewrite Hnone in Hrun.
      destruct (update_snils snils_id data _) as [r s].
      injection Hrun as -> Hs. simpl. rewrite Hs. reflexivity.
    + intros p p' d' Hp H.
      destruct (run_request e (update_snils snils_id data) d)
        as [r d1] eqn:Hrun.
      assert (r = Ok (Some p') /\ d1 = d') as [-> ->].
      { unfold run_request, bind in H. unfold run_request in Hrun.
        destruct (update_snils snils_id data _) as [r0 s].
        injection Hrun as -> <-.
        destruct r as [[q|]|x]; simpl in H; inversion H; split; reflexivity. }
      destruct (update_snils_result _ _ _ _ _ _ _ Hp Hrun)
        as [(x & Hr & _) | (chs & new & Hpatch & Happ & Hr & Hfound & _)];
        [discriminate|].
      injection Hr as <-.
      assert (forall col,
                 col = SnilsColumn.c_snils_id
                 \/ col = SnilsColumn.c_client_id
                 \/ col = SnilsColumn.c_version
                 \/ col = SnilsColumn.c_created_at ->
                 SnilsColumn.get col p' = SnilsColumn.get col p)
        as Hframe.
      { intros col Hcol.
        apply (apply_snils_changes_frame chs p p' col Happ).
        intros v Hin. apply (Hkeys col Hcol).
        apply (patch_snils_sets _ _ _ _ Hpatch Hin). }
      pose proof (Hframe SnilsColumn.c_snils_id (or_introl eq_refl)) as H1.
      pose proof (Hframe SnilsColumn.c_client_id
                    (or_intror (or_introl eq_refl))) as H2.
      pose proof (Hframe SnilsColumn.c_version
                    (or_intror (or_intror (or_introl eq_refl)))) as H3.
      pose proof (Hframe SnilsColumn.c_created_at
                    (or_intror (or_intror (or_intror eq_refl)))) as H4.
      simpl in H1, H2, H3, H4.
      injection H1 as H1. injection H2 as H2. injection H3 as H3.
      injection H4 as H4.
      rewrite H1, (snils_by_pk_id _ _ _ Hp) in Hfound.
      repeat split; assumption.
Qed.

Lemma document_routes_keep_identity_witness :
  run_request (mkEnv 500 9900)
    (api_passports.api_update_passport 999
       (PassportUpdate.mk (Given (Some "Petrov Petr")) Unset Unset Unset Unset
          Unset Unset Unset Unset)) documents_db
  = (Ok (HTTPException 404), documents_db)
  /\ (exists p' d',
         run_request (mkEnv 500 9900)
           (api_passports.api_update_passport 400
              (PassportUpdate.mk (Given (Some "Petrov Petr")) Unset Unset
                 Unset Unset Unset Unset Unset Unset)) documents_db
         = (Ok (Returns p'), d')
         /\ passport_by_pk (tables d') 400 = Some p'
         /\ Passport.client_id p' = 200)
  /\ (exists s' d',
         run_request (mkEnv 500 9900)
           (api_snils.api_update_snils 401
              (SnilsUpdate.mk (Given (Some "987-654-321 00")) Unset))
           documents_db
         = (Ok (Returns s'), d')
         /\ snils_by_pk (tables d') 401 = Some s'
         /\ Snils.created_at s' = 9501).
Proof.
  destruct (document_routes_keep_identity (mkEnv 500 9900) documents_db)
    as (Hpassport & Hsnils).
  split; [apply Hpassport; reflexivity|]. split.
  - assert (exists p' d',
               run_request (mkEnv 500 9900)
                 (api_passports.api_update_passport 400
                    (PassportUpdate.mk (Given (Some "Petrov Petr")) Unset
                       Unset Unset Unset Unset Unset Unset Unset))
                 documents_db
               = (Ok (Returns p'), d')) as (p' & d' & Hrun)
      by (eexists; eexists; vm_compute; reflexivity).
    destruct (Hpassport 400
                (PassportUpdate.mk (Given (Some "Petrov Petr")) Unset Unset
                   Unset Unset Unset Unset Unset Unset)) as (_ & Hfound).
    destruct (Hfound sample_passport p' d' eq_refl Hrun)
      as (Hstored & Hclient & _).
    exists p', d'. repeat split; assumption.
  - assert (exists s' d',
               run_request (mkEnv 500 9900)
                 (api_snils.api_update_snils 401
                    (SnilsUpdate.mk (Given (Some "987-654-321 00")) Unset))
                 documents_db
               = (Ok (Returns s'), d')) as (s' & d' & Hrun)
      by (eexists; eexists; vm_compute; reflexivity).
    destruct (Hsnils 401
                (SnilsUpdate.mk (Given (Some "987-654-321 00")) Unset))
      as (_ & Hfound).
    destruct (Hfound sample_snils s' d' eq_refl Hrun)
      as (Hstored & _ & _ & Hcreated).
    exists s', d'. repeat split; assumption.
Defined.
